(** * Processor topology enumeration: a shallow embedding of the CPUID sample

    The development follows the C sources
    ([cpuid_topology.h], [cpuid_topology_tools.c], [cpuid_topology_parsecpu.c],
    [cpuid_topology_parsecachetlb.c]).  An [unsigned int] is a [Z] in
    [0, 2^32) with the wrap-around written out; a C array is a list read and
    written by index; a store outside the array is undefined behaviour in C
    and is reported as [Undefined]. *)

From Stdlib Require Import ZArith Lia Bool List Ascii String HexString.
From stdpp Require Import base list.

Local Open Scope Z_scope.

(** ** Machine integers *)

Definition u32_modulus : Z := 2 ^ 32.

(** Reduction of an arithmetic result to [unsigned int]. *)
Definition u32 (x : Z) : Z := x mod u32_modulus.

(** [~x] on an [unsigned int]. *)
Definition not32 (x : Z) : Z := u32 (Z.lnot x).

(** [x << n] with the result kept in 32 bits, for a count below 32.  A
    count of 32 or more is undefined in C: where the count is a constant or
    a value the code keeps below 32 the model uses [shl32], where it is data
    the model tests it ([shl32_checked]). *)
Definition shl32 (x n : Z) : Z := u32 (Z.shiftl x n).

(** ** Constants of [cpuid_topology.h] *)

Definition MAX_PROCESSORS : Z := 1024.
Definition MAX_SIMULATED_LEAFS : Z := 0x20.
Definition MAX_SIMULATED_SUBLEAFS : Z := 10.
Definition MAX_CACHE_PER_LP : Z := 10.
Definition MAX_TLB_PER_LP : Z := 25.
Definition INVALID_CACHE_INDEX : Z := u32 (-1).
Definition INVALID_TLB_INDEX : Z := u32 (-1).
Definition MAXIMUM_DOMAINS : Z := 32.

(** [CPUID_REGISTERS]: the union of [Registers[4]] and the four named
    registers. *)
Record CPUID_REGISTERS : Type := mkRegs {
  Eax : Z;
  Ebx : Z;
  Ecx : Z;
  Edx : Z
}.

Definition zero_registers : CPUID_REGISTERS := mkRegs 0 0 0 0.

(** [memcmp(a, b, sizeof(CPUID_REGISTERS)) == 0]: the structure is four
    [unsigned int] without padding, so the bytes agree exactly when the four
    registers do. *)
Definition memcmp_registers_eq (a b : CPUID_REGISTERS) : bool :=
  (Eax a =? Eax b) && (Ebx a =? Ebx b) && (Ecx a =? Ecx b) && (Edx a =? Edx b).

(** [CPU_DOMAIN] *)
Definition InvalidDomain : Z := 0.
Definition LogicalProcessorDomain : Z := 1.
Definition CoreDomain : Z := 2.
Definition ModuleDomain : Z := 3.
Definition TileDomain : Z := 4.
Definition DieDomain : Z := 5.
Definition DieGrpDomain : Z := 6.

(** [CACHE_TYPE] and [TLB_TYPE] terminators *)
Definition CacheType_NoMoreCaches : Z := 0.
Definition TlbType_InvalidSubleaf : Z := 0.

(** ** Outcome of a run *)

Inductive result (A : Type) : Type :=
| Done (a : A)       (* the code ran to its end *)
| Undefined          (* a load or store outside an array *)
| OutOfFuel.         (* the loop bound given to the model was too small *)

Arguments Done {A} a.
Arguments Undefined {A}.
Arguments OutOfFuel {A}.

Definition bind {A B : Type} (r : result A) (k : A -> result B) : result B :=
  match r with
  | Done a => k a
  | Undefined => Undefined
  | OutOfFuel => OutOfFuel
  end.

Notation "'let*' p ':=' c1 'in' c2" := (bind c1 (fun p => c2))
  (at level 10, p pattern, c1 at level 100, c2 at level 200).

(** [a[i]] and [a[i] = v] on an array of [length a] elements. *)
Definition load {A : Type} (a : list A) (i : Z) : result A :=
  if (0 <=? i) && (i <? Z.of_nat (length a)) then
    match a !! Z.to_nat i with
    | Some v => Done v
    | None => Undefined
    end
  else Undefined.

Definition store {A : Type} (a : list A) (i : Z) (v : A) : result (list A) :=
  if (0 <=? i) && (i <? Z.of_nat (length a)) then Done (<[Z.to_nat i := v]> a)
  else Undefined.

(** ** [Tools_CreateTopologyShift] *)

(** The loop [for (Index = (1<<Shift); Index; Index >>= 1, Shift--)]: it
    leaves at the first set bit of [count], or when [Index] has become 0. *)
Fixpoint CreateTopologyShift_loop (fuel : nat) (count Index Shift : Z) : Z :=
  match fuel with
  | O => Shift
  | S fuel' =>
      if Index =? 0 then Shift
      else if negb (Z.land count Index =? 0) then Shift
      else CreateTopologyShift_loop fuel' count (Z.shiftr Index 1) (u32 (Shift - 1))
  end.

Definition Tools_CreateTopologyShift (count : Z) : Z :=
  let Shift := 31 in
  let count := u32 (count * 2 - 1) in
  CreateTopologyShift_loop 33 count (shl32 1 Shift) Shift.

(** The contract of the shift calculator in the words of the specification:
    [s] is the smallest shift with [(1 << s) >= count]. *)
Definition smallest_shift (count s : Z) : Prop :=
  0 <= s /\ count <= 2 ^ s /\ forall t, 0 <= t < s -> 2 ^ t < count.

(** ** Loops *)

(** [while (cond) body], run for at most [fuel] iterations. *)
Fixpoint while {S : Type} (fuel : nat) (cond : S -> bool)
    (body : S -> result S) (s : S) : result S :=
  match fuel with
  | O => if cond s then OutOfFuel else Done s
  | S fuel' =>
      if cond s then let* s' := body s in while fuel' cond body s'
      else Done s
  end.

(** ** Global data ([GLOBAL_DATA], [g_GlobalData]) and the platform *)

Record GLOBAL_DATA : Type := mkGlobalData {
  UseNativeCpuid : bool;
  (* [MAX_SIMULATED_LEAFS][MAX_SIMULATED_SUBLEAFS][4] *)
  SimulatedCpuid : list (list CPUID_REGISTERS);
  (* [MAX_PROCESSORS][MAX_SIMULATED_SUBLEAFS][4] *)
  SimulatedCpuidLeaf4 : list (list CPUID_REGISTERS);
  SimulatedCpuidLeaf18 : list (list CPUID_REGISTERS);
  (* [MAX_PROCESSORS] *)
  SimulatedApicIds : list Z;
  NumberOfSimulatedProcessors : Z;
  CurrentProcessorAffinity : Z
}.

(** What the operating system and the hardware answer in native mode: the
    [CPUID] instruction executed on a processor, [get_nprocs()], and the
    processor the thread runs on after [sched_setaffinity] was asked for
    one. *)
Record OS_PLATFORM : Type := mkOs {
  Os_Cpuid : Z -> Z -> Z -> CPUID_REGISTERS;
  Os_nprocs : Z;
  Os_sched_setaffinity : Z -> Z -> Z
}.

Record MACHINE : Type := mkMachine {
  g_GlobalData : GLOBAL_DATA;
  Os : OS_PLATFORM;
  Os_CurrentCpu : Z
}.

Definition Os_Platform_Read_Cpuid (m : MACHINE) (Leaf Subleaf : Z) : CPUID_REGISTERS :=
  Os_Cpuid (Os m) (Os_CurrentCpu m) Leaf Subleaf.

Definition Os_GetNumberOfProcessors (m : MACHINE) : Z := Os_nprocs (Os m).

Definition Os_SetAffinity (m : MACHINE) (ProcessorNumber : Z) : MACHINE :=
  mkMachine (g_GlobalData m) (Os m)
    (Os_sched_setaffinity (Os m) (Os_CurrentCpu m) ProcessorNumber).

(** Reads of the static tables.  The code reads them at [Leaf] and [Subleaf]
    below the simulated limits and at [CurrentProcessorAffinity], which
    [Tools_SetAffinity] and the file reader keep below [MAX_PROCESSORS]; an
    index outside the table reads zero here. *)
Definition read_table (t : list (list CPUID_REGISTERS)) (i j : Z) : CPUID_REGISTERS :=
  match t !! Z.to_nat i with
  | Some row =>
      match row !! Z.to_nat j with
      | Some r => r
      | None => zero_registers
      end
  | None => zero_registers
  end.

Definition read_array (a : list Z) (i : Z) : Z :=
  match a !! Z.to_nat i with
  | Some v => v
  | None => 0
  end.

Definition set_Eax (r : CPUID_REGISTERS) (v : Z) := mkRegs v (Ebx r) (Ecx r) (Edx r).
Definition set_Ecx (r : CPUID_REGISTERS) (v : Z) := mkRegs (Eax r) (Ebx r) v (Edx r).
Definition set_Edx (r : CPUID_REGISTERS) (v : Z) := mkRegs (Eax r) (Ebx r) (Ecx r) v.

(** ** [Tools_ReadCpuid] *)

Definition Tools_ReadCpuid (m : MACHINE) (Leaf Subleaf : Z) : CPUID_REGISTERS :=
  let g := g_GlobalData m in
  if UseNativeCpuid g then Os_Platform_Read_Cpuid m Leaf Subleaf
  else
    let regs := zero_registers in
    if Leaf <? MAX_SIMULATED_LEAFS then
      if Subleaf <? MAX_SIMULATED_SUBLEAFS then
        if Leaf =? 0x4 then
          read_table (SimulatedCpuidLeaf4 g) (CurrentProcessorAffinity g) Subleaf
        else if Leaf =? 0x18 then
          read_table (SimulatedCpuidLeaf18 g) (CurrentProcessorAffinity g) Subleaf
        else
          let regs := read_table (SimulatedCpuid g) Leaf Subleaf in
          let regs :=
            if ((Leaf =? 0xB) || (Leaf =? 0x1F)) && negb (Ebx regs =? 0) then
              set_Edx regs (read_array (SimulatedApicIds g) (CurrentProcessorAffinity g))
            else regs in
          if Leaf =? 0x1 then
            (* Registers[2] is rewritten *)
            let regs := set_Ecx regs (Z.land (Ecx regs) (not32 (shl32 0xFF 24))) in
            set_Ecx regs
              (Z.lor (Ecx regs)
                 (shl32 (read_array (SimulatedApicIds g) (CurrentProcessorAffinity g)) 24))
          else regs
      else regs
    else regs.

(** ** [Tools_SetAffinity], [Tools_GetNumberOfProcessors] *)

Definition Tools_SetAffinity (m : MACHINE) (ProcessorNumber : Z) : MACHINE :=
  let g := g_GlobalData m in
  if UseNativeCpuid g then Os_SetAffinity m ProcessorNumber
  else if ProcessorNumber <? NumberOfSimulatedProcessors g then
    mkMachine
      (mkGlobalData (UseNativeCpuid g) (SimulatedCpuid g) (SimulatedCpuidLeaf4 g)
         (SimulatedCpuidLeaf18 g) (SimulatedApicIds g)
         (NumberOfSimulatedProcessors g) ProcessorNumber)
      (Os m) (Os_CurrentCpu m)
  else m.

Definition Tools_GetNumberOfProcessors (m : MACHINE) : Z :=
  if UseNativeCpuid (g_GlobalData m) then Os_GetNumberOfProcessors m
  else NumberOfSimulatedProcessors (g_GlobalData m).

(** ** [Tools_IsDomainKnownEnumeration] *)

Definition Tools_IsDomainKnownEnumeration (Domain : Z) : bool :=
  (Domain =? InvalidDomain) || (Domain =? LogicalProcessorDomain)
  || (Domain =? CoreDomain) || (Domain =? ModuleDomain) || (Domain =? TileDomain)
  || (Domain =? DieDomain) || (Domain =? DieGrpDomain).

(** ** [Tools_GatherPlatformApicIds] *)

(** One iteration of the loop after [Tools_SetAffinity(Index)]: the
    [ApicId] stored into the array.  [CpuidRegisters] is leaf 0, read once
    before the loop. *)
Definition GatherPlatformApicIds_ApicId (CpuidRegisters : CPUID_REGISTERS)
    (m : MACHINE) : Z :=
  let ApicId := 0 in
  let bApicIdFound := false in
  let '(ApicId, bApicIdFound) :=
    if 0x1F <=? Eax CpuidRegisters then
      let CpuidRegistersApicid := Tools_ReadCpuid m 0x1F 0 in
      if negb (Ebx CpuidRegistersApicid =? 0) then (Edx CpuidRegistersApicid, true)
      else (ApicId, bApicIdFound)
    else (ApicId, bApicIdFound) in
  if negb bApicIdFound then
    let '(ApicId, bApicIdFound) :=
      if 0xB <=? Eax CpuidRegisters then
        let CpuidRegistersApicid := Tools_ReadCpuid m 0xB 0 in
        if negb (Ebx CpuidRegistersApicid =? 0) then (Edx CpuidRegistersApicid, true)
        else (ApicId, bApicIdFound)
      else (ApicId, bApicIdFound) in
    if negb bApicIdFound then
      let CpuidRegistersApicid := Tools_ReadCpuid m 1 0 in
      Z.shiftr (Ebx CpuidRegistersApicid) 24
    else ApicId
  else ApicId.

(** Loop state: the machine, the caller's array and [Index]. *)
Definition GatherPlatformApicIds_cond (NumberOfProcessors ArraySize : Z)
    (s : MACHINE * list Z * Z) : bool :=
  let '(_, _, Index) := s in
  (Index <? NumberOfProcessors) && (Index <? ArraySize).

Definition GatherPlatformApicIds_body (CpuidRegisters : CPUID_REGISTERS)
    (s : MACHINE * list Z * Z) : result (MACHINE * list Z * Z) :=
  let '(m, pApicIdArray, Index) := s in
  let m := Tools_SetAffinity m Index in
  let ApicId := GatherPlatformApicIds_ApicId CpuidRegisters m in
  let* pApicIdArray := store pApicIdArray Index ApicId in
  Done (m, pApicIdArray, u32 (Index + 1)).

(** Returns the machine, the filled array and the number of APIC IDs
    populated.  The loop runs at most [MAX_PROCESSORS] times. *)
Definition Tools_GatherPlatformApicIds (m : MACHINE) (pApicIdArray : list Z)
    (ArraySize : Z) : result (MACHINE * list Z * Z) :=
  let NumberOfProcessors := Tools_GetNumberOfProcessors m in
  let NumberOfProcessors :=
    if MAX_PROCESSORS <? NumberOfProcessors then MAX_PROCESSORS
    else NumberOfProcessors in
  let CpuidRegisters := Tools_ReadCpuid m 0 0 in
  while (Z.to_nat MAX_PROCESSORS)
    (GatherPlatformApicIds_cond NumberOfProcessors ArraySize)
    (GatherPlatformApicIds_body CpuidRegisters)
    (m, pApicIdArray, 0).

(** ** [APICID_BIT_LAYOUT_CTX] *)

Record APICID_BIT_LAYOUT_CTX : Type := mkCtx {
  NumberOfApicIdBits : Z;
  ShiftValues : list Z;                 (* [MAXIMUM_DOMAINS] *)
  ShiftValueDomain : list Z;            (* [MAXIMUM_DOMAINS] *)
  DomainRelativeMasks : list (list Z);  (* [MAXIMUM_DOMAINS][MAXIMUM_DOMAINS] *)
  PackageDomainIndex : Z;
  szDescription : string
}.

(** [memset(&ApicidBitLayoutCtx, 0, sizeof(APICID_BIT_LAYOUT_CTX))] *)
Definition zero_ctx : APICID_BIT_LAYOUT_CTX :=
  mkCtx 0
    (replicate (Z.to_nat MAXIMUM_DOMAINS) 0)
    (replicate (Z.to_nat MAXIMUM_DOMAINS) 0)
    (replicate (Z.to_nat MAXIMUM_DOMAINS) (replicate (Z.to_nat MAXIMUM_DOMAINS) 0))
    0 EmptyString.

Definition set_NumberOfApicIdBits (c : APICID_BIT_LAYOUT_CTX) (v : Z) :=
  mkCtx v (ShiftValues c) (ShiftValueDomain c) (DomainRelativeMasks c)
    (PackageDomainIndex c) (szDescription c).
Definition set_ShiftValues (c : APICID_BIT_LAYOUT_CTX) (v : list Z) :=
  mkCtx (NumberOfApicIdBits c) v (ShiftValueDomain c) (DomainRelativeMasks c)
    (PackageDomainIndex c) (szDescription c).
Definition set_ShiftValueDomain (c : APICID_BIT_LAYOUT_CTX) (v : list Z) :=
  mkCtx (NumberOfApicIdBits c) (ShiftValues c) v (DomainRelativeMasks c)
    (PackageDomainIndex c) (szDescription c).
Definition set_DomainRelativeMasks (c : APICID_BIT_LAYOUT_CTX) (v : list (list Z)) :=
  mkCtx (NumberOfApicIdBits c) (ShiftValues c) (ShiftValueDomain c) v
    (PackageDomainIndex c) (szDescription c).
Definition set_PackageDomainIndex (c : APICID_BIT_LAYOUT_CTX) (v : Z) :=
  mkCtx (NumberOfApicIdBits c) (ShiftValues c) (ShiftValueDomain c)
    (DomainRelativeMasks c) v (szDescription c).

(** [M[i][j]] and [M[i][j] = v] *)
Definition load2 (M : list (list Z)) (i j : Z) : result Z :=
  let* row := load M i in load row j.

Definition store2 (M : list (list Z)) (i j : Z) (v : Z) : result (list (list Z)) :=
  let* row := load M i in
  let* row := store row j v in
  store M i row.

(** ** [ParseCpu_CpuidThreeDomainExample] *)

(** Loop state: [Subleaf], [CpuidRegisters], [LogicalProcessorShift],
    [PackageShift]. *)
Definition ThreeDomain_cond (s : Z * CPUID_REGISTERS * Z * Z) : bool :=
  let '(_, CpuidRegisters, _, _) := s in negb (Ebx CpuidRegisters =? 0).

Definition ThreeDomain_body (m : MACHINE) (Leaf : Z)
    (s : Z * CPUID_REGISTERS * Z * Z) : result (Z * CPUID_REGISTERS * Z * Z) :=
  let '(Subleaf, CpuidRegisters, LogicalProcessorShift, PackageShift) := s in
  let DomainType := Z.land (Z.shiftr (Ecx CpuidRegisters) 8) 0xFF in
  let DomainShift := Z.land (Eax CpuidRegisters) 0x1F in
  let LogicalProcessorShift :=
    if DomainType =? InvalidDomain then LogicalProcessorShift
    else if DomainType =? LogicalProcessorDomain then DomainShift
    else LogicalProcessorShift in
  let PackageShift := DomainShift in
  let Subleaf := u32 (Subleaf + 1) in
  Done (Subleaf, Tools_ReadCpuid m Leaf Subleaf, LogicalProcessorShift, PackageShift).

(** The result is the pair [(PackageShift, LogicalProcessorShift)] handed to
    [Display_ThreeDomainDisplay]. *)
Definition ParseCpu_CpuidThreeDomainExample (fuel : nat) (m : MACHINE) (Leaf : Z)
    : result (Z * Z) :=
  let LogicalProcessorShift := 0 in
  let PackageShift := 0 in
  let Subleaf := 0 in
  let CpuidRegisters := Tools_ReadCpuid m Leaf Subleaf in
  let* (_, _, LogicalProcessorShift, PackageShift) :=
    while fuel ThreeDomain_cond (ThreeDomain_body m Leaf)
      (Subleaf, CpuidRegisters, LogicalProcessorShift, PackageShift) in
  Done (PackageShift, LogicalProcessorShift).

(** ** [ParseCpu_Internal_CreateDomainMaskMatrix] *)

(** [x << n] with a count read from the layout: a count of 32 or more is
    undefined. *)
Definition shl32_checked (x n : Z) : result Z :=
  if n <? 32 then Done (shl32 x n) else Undefined.

(** First loop; state: the context, [DomainIndex], [PreviousBit]. *)
Definition MaskMatrix_global_cond (s : APICID_BIT_LAYOUT_CTX * Z * Z) : bool :=
  let '(ctx, DomainIndex, _) := s in DomainIndex <=? PackageDomainIndex ctx.

Definition MaskMatrix_global_body (s : APICID_BIT_LAYOUT_CTX * Z * Z)
    : result (APICID_BIT_LAYOUT_CTX * Z * Z) :=
  let '(ctx, DomainIndex, PreviousBit) := s in
  let* bit := shl32_checked 1 PreviousBit in
  let* M := store2 (DomainRelativeMasks ctx) DomainIndex DomainIndex
              (not32 (u32 (bit - 1))) in
  let ctx := set_DomainRelativeMasks ctx M in
  let* PreviousBit := load (ShiftValues ctx) DomainIndex in
  Done (ctx, u32 (DomainIndex + 1), PreviousBit).

(** Inner loop of the second pass; state: the context, [NextDomainIndex]. *)
Definition MaskMatrix_relative_cond (s : APICID_BIT_LAYOUT_CTX * Z) : bool :=
  let '(ctx, NextDomainIndex) := s in NextDomainIndex <=? PackageDomainIndex ctx.

Definition MaskMatrix_relative_body (DomainIndex : Z) (s : APICID_BIT_LAYOUT_CTX * Z)
    : result (APICID_BIT_LAYOUT_CTX * Z) :=
  let '(ctx, NextDomainIndex) := s in
  let* next := load2 (DomainRelativeMasks ctx) NextDomainIndex NextDomainIndex in
  let* this := load2 (DomainRelativeMasks ctx) DomainIndex DomainIndex in
  let* M := store2 (DomainRelativeMasks ctx) DomainIndex NextDomainIndex
              (Z.land (not32 next) this) in
  Done (set_DomainRelativeMasks ctx M, u32 (NextDomainIndex + 1)).

(** Outer loop of the second pass; state: the context, [DomainIndex]. *)
Definition MaskMatrix_outer_cond (s : APICID_BIT_LAYOUT_CTX * Z) : bool :=
  let '(ctx, DomainIndex) := s in DomainIndex <? PackageDomainIndex ctx.

Definition MaskMatrix_outer_body (s : APICID_BIT_LAYOUT_CTX * Z)
    : result (APICID_BIT_LAYOUT_CTX * Z) :=
  let '(ctx, DomainIndex) := s in
  let* (ctx, _) :=
    while (Z.to_nat MAXIMUM_DOMAINS + 1) MaskMatrix_relative_cond
      (MaskMatrix_relative_body DomainIndex) (ctx, u32 (DomainIndex + 1)) in
  Done (ctx, u32 (DomainIndex + 1)).

(** Every loop touches the matrix at its index, so it ends or leaves the
    matrix within [MAXIMUM_DOMAINS + 1] iterations. *)
Definition ParseCpu_Internal_CreateDomainMaskMatrix
    (pApicidBitLayoutCtx : APICID_BIT_LAYOUT_CTX) : result APICID_BIT_LAYOUT_CTX :=
  let PreviousBit := 0 in
  let* (ctx, _, _) :=
    while (Z.to_nat MAXIMUM_DOMAINS + 1) MaskMatrix_global_cond
      MaskMatrix_global_body (pApicidBitLayoutCtx, 0, PreviousBit) in
  let* (ctx, _) :=
    while (Z.to_nat MAXIMUM_DOMAINS + 1) MaskMatrix_outer_cond
      MaskMatrix_outer_body (ctx, 0) in
  Done ctx.

(** ** [ParseCpu_CpuidManyDomainExample] *)

(** Loop state: [Subleaf], [CpuidRegisters], [ApicidBitLayoutCtx]. *)
Definition ManyDomain_cond (s : Z * CPUID_REGISTERS * APICID_BIT_LAYOUT_CTX) : bool :=
  let '(_, CpuidRegisters, _) := s in negb (Ebx CpuidRegisters =? 0).

(** The [switch] on [DomainType]. *)
Definition ManyDomain_switch (ctx : APICID_BIT_LAYOUT_CTX) (DomainType DomainShift : Z)
    : result APICID_BIT_LAYOUT_CTX :=
  if (DomainType =? InvalidDomain) || (DomainType =? LogicalProcessorDomain)
     || (DomainType =? CoreDomain) || (DomainType =? ModuleDomain)
     || (DomainType =? TileDomain) || (DomainType =? DieDomain)
     || (DomainType =? DieGrpDomain)
  then
    let* sv := store (ShiftValues ctx) (PackageDomainIndex ctx) DomainShift in
    let ctx := set_ShiftValues ctx sv in
    let* sd := store (ShiftValueDomain ctx) (PackageDomainIndex ctx) DomainType in
    let ctx := set_ShiftValueDomain ctx sd in
    Done (set_PackageDomainIndex ctx (u32 (PackageDomainIndex ctx + 1)))
  else
    let* sv := store (ShiftValues ctx) (u32 (PackageDomainIndex ctx - 1)) DomainShift in
    Done (set_ShiftValues ctx sv).

Definition ManyDomain_body (m : MACHINE) (Leaf : Z)
    (s : Z * CPUID_REGISTERS * APICID_BIT_LAYOUT_CTX)
    : result (Z * CPUID_REGISTERS * APICID_BIT_LAYOUT_CTX) :=
  let '(Subleaf, CpuidRegisters, ctx) := s in
  let DomainType := Z.land (Z.shiftr (Ecx CpuidRegisters) 8) 0xFF in
  let DomainShift := Z.land (Eax CpuidRegisters) 0x1F in
  let* ctx := ManyDomain_switch ctx DomainType DomainShift in
  let Subleaf := u32 (Subleaf + 1) in
  Done (Subleaf, Tools_ReadCpuid m Leaf Subleaf, ctx).

(** The levels collected by the enumeration loop, before the mask matrix is
    built. *)
Definition ManyDomain_levels (fuel : nat) (m : MACHINE) (Leaf : Z)
    : result APICID_BIT_LAYOUT_CTX :=
  let ApicidBitLayoutCtx := set_NumberOfApicIdBits zero_ctx 32 in
  let Subleaf := 0 in
  let CpuidRegisters := Tools_ReadCpuid m Leaf Subleaf in
  let* (_, _, ctx) :=
    while fuel ManyDomain_cond (ManyDomain_body m Leaf)
      (Subleaf, CpuidRegisters, ApicidBitLayoutCtx) in
  Done ctx.

(** The result is the context handed to [Display_ManyDomainExample]. *)
Definition ParseCpu_CpuidManyDomainExample (fuel : nat) (m : MACHINE) (Leaf : Z)
    : result APICID_BIT_LAYOUT_CTX :=
  let* ctx := ManyDomain_levels fuel m Leaf in
  ParseCpu_Internal_CreateDomainMaskMatrix ctx.

(** ** [CPUID_CACHE_INFO] and the cache pass *)

Record CPUID_CACHE_INFO : Type := mkCacheInfo {
  CacheType : Z;
  CacheLevel : Z;
  CacheId : Z;
  CacheMask : Z;
  CacheWays : Z;
  CachePartitions : Z;
  CacheLineSize : Z;
  CacheSets : Z;
  CacheSizeInBytes : Z;
  SelfInitializing : bool;
  CacheIsFullyAssociative : bool;
  WbinvdFlushsLowerLevelsSharing : bool;
  CacheIsInclusive : bool;
  CacheIsDirectMapped : bool;
  CacheIsComplex : bool;
  NumberOfLPsSharingThisCache : Z;
  ListOfApicIDsSharingThisCache : list Z;   (* [MAX_PROCESSORS] *)
  CachedCpuidRegisters : CPUID_REGISTERS
}.

(** One element of the [calloc]ed array. *)
Definition zero_cache_info : CPUID_CACHE_INFO :=
  mkCacheInfo 0 0 0 0 0 0 0 0 0 false false false false false false 0
    (replicate (Z.to_nat MAX_PROCESSORS) 0) zero_registers.

(** [ParseCache_Internal_FindMatchingCacheEntry]; loop state: [CacheIndex],
    [CacheFoundIndex]. *)
Definition FindMatchingCacheEntry_cond (NumberOfCaches : Z) (s : Z * Z) : bool :=
  let '(CacheIndex, CacheFoundIndex) := s in
  (CacheIndex <? NumberOfCaches) && (CacheFoundIndex =? INVALID_CACHE_INDEX).

Definition FindMatchingCacheEntry_body (pCacheInfo : list CPUID_CACHE_INFO)
    (CacheId' : Z) (pCpuidRegisters : CPUID_REGISTERS) (s : Z * Z) : result (Z * Z) :=
  let '(CacheIndex, CacheFoundIndex) := s in
  let* entry := load pCacheInfo CacheIndex in
  let CacheFoundIndex :=
    if CacheId entry =? CacheId' then
      if memcmp_registers_eq (CachedCpuidRegisters entry) pCpuidRegisters
      then CacheIndex else CacheFoundIndex
    else CacheFoundIndex in
  Done (u32 (CacheIndex + 1), CacheFoundIndex).

Definition ParseCache_Internal_FindMatchingCacheEntry
    (pCacheInfo : list CPUID_CACHE_INFO) (NumberOfCaches CacheId' : Z)
    (pCpuidRegisters : CPUID_REGISTERS) : result Z :=
  let CacheFoundIndex := INVALID_CACHE_INDEX in
  let* (_, CacheFoundIndex) :=
    while (Z.to_nat NumberOfCaches) (FindMatchingCacheEntry_cond NumberOfCaches)
      (FindMatchingCacheEntry_body pCacheInfo CacheId' pCpuidRegisters)
      (0, CacheFoundIndex) in
  Done CacheFoundIndex.

(** The entry written by [ParseCache_Internal_AddCacheEntry] over the
    previous content [old] of the slot (the member list is not touched). *)
Definition AddCacheEntry_populate (old : CPUID_CACHE_INFO) (CacheId' CacheMask' : Z)
    (pCpuidRegisters : CPUID_REGISTERS) : CPUID_CACHE_INFO :=
  let r := pCpuidRegisters in
  let Ways := u32 (Z.shiftr (Ebx r) 22 + 1) in
  let Partitions := u32 (Z.land (Z.shiftr (Ebx r) 12) 0x3FF + 1) in
  let LineSize := u32 (Z.land (Ebx r) 0xFFF + 1) in
  let Sets := u32 (Ecx r + 1) in
  let Complex := negb (Z.land (Edx r) 4 =? 0) in
  mkCacheInfo
    (Z.land (Eax r) 0x1F)
    (Z.land (Z.shiftr (Eax r) 5) 0x7)
    CacheId' CacheMask'
    Ways Partitions LineSize Sets
    (u32 (Ways * LineSize * Partitions * Sets))
    (negb (Z.land (Eax r) (shl32 1 8) =? 0))
    (negb (Z.land (Eax r) (shl32 1 9) =? 0))
    (if negb (Z.land (Edx r) 1 =? 0) then false else true)
    (negb (Z.land (Edx r) 2 =? 0))
    (if Complex then false else true)
    Complex
    0
    (ListOfApicIDsSharingThisCache old)
    r.

(** Returns the array, the new [*pNumberOfCaches] and the new index.  There
    is no test of the index against the size of the array. *)
Definition ParseCache_Internal_AddCacheEntry (pCacheInfo : list CPUID_CACHE_INFO)
    (NumberOfCaches CacheId' CacheMask' : Z) (pCpuidRegisters : CPUID_REGISTERS)
    : result (list CPUID_CACHE_INFO * Z * Z) :=
  let NewCacheIndex := NumberOfCaches in
  let NumberOfCaches := u32 (NumberOfCaches + 1) in
  let* old := load pCacheInfo NewCacheIndex in
  let* pCacheInfo :=
    store pCacheInfo NewCacheIndex
      (AddCacheEntry_populate old CacheId' CacheMask' pCpuidRegisters) in
  Done (pCacheInfo, NumberOfCaches, NewCacheIndex).

Definition add_cache_member (e : CPUID_CACHE_INFO) (l : list Z) : CPUID_CACHE_INFO :=
  mkCacheInfo (CacheType e) (CacheLevel e) (CacheId e) (CacheMask e) (CacheWays e)
    (CachePartitions e) (CacheLineSize e) (CacheSets e) (CacheSizeInBytes e)
    (SelfInitializing e) (CacheIsFullyAssociative e)
    (WbinvdFlushsLowerLevelsSharing e) (CacheIsInclusive e)
    (CacheIsDirectMapped e) (CacheIsComplex e)
    (u32 (NumberOfLPsSharingThisCache e + 1)) l (CachedCpuidRegisters e).

(** The mask and the identifier computed from a subleaf of leaf 4. *)
Definition CacheExample_mask (CpuidRegisters : CPUID_REGISTERS) : Z :=
  let MaxAddressibleIdSharingCache :=
    u32 (Z.land (Z.shiftr (Eax CpuidRegisters) 14) 0xFFF + 1) in
  let CacheShift := Tools_CreateTopologyShift MaxAddressibleIdSharingCache in
  not32 (u32 (shl32 1 CacheShift - 1)).

(** The body of the [while] loop of [ParseCache_CpuidCacheExample] for one
    subleaf, up to the recording of the member. *)
Definition CacheExample_subleaf (ApicId : Z) (CpuidRegisters : CPUID_REGISTERS)
    (s : list CPUID_CACHE_INFO * Z) : result (list CPUID_CACHE_INFO * Z) :=
  let '(pCacheInfo, NumberOfCaches) := s in
  let CacheMask' := CacheExample_mask CpuidRegisters in
  let CacheId' := Z.land ApicId CacheMask' in
  let* CacheIndex :=
    ParseCache_Internal_FindMatchingCacheEntry pCacheInfo NumberOfCaches CacheId'
      CpuidRegisters in
  let* (pCacheInfo, NumberOfCaches, CacheIndex) :=
    if CacheIndex =? INVALID_CACHE_INDEX then
      ParseCache_Internal_AddCacheEntry pCacheInfo NumberOfCaches CacheId' CacheMask'
        CpuidRegisters
    else Done (pCacheInfo, NumberOfCaches, CacheIndex) in
  if negb (CacheIndex =? INVALID_CACHE_INDEX) then
    let* entry := load pCacheInfo CacheIndex in
    let* members :=
      store (ListOfApicIDsSharingThisCache entry) (NumberOfLPsSharingThisCache entry)
        ApicId in
    let* pCacheInfo := store pCacheInfo CacheIndex (add_cache_member entry members) in
    Done (pCacheInfo, NumberOfCaches)
  else Done (pCacheInfo, NumberOfCaches).

(** Inner loop state: the groups, [NumberOfCaches], [SubleafIndex],
    [CpuidRegisters]. *)
Definition CacheExample_cond (s : list CPUID_CACHE_INFO * Z * Z * CPUID_REGISTERS) : bool :=
  let '(_, _, _, CpuidRegisters) := s in
  negb (Z.land (Eax CpuidRegisters) 0x1F =? CacheType_NoMoreCaches).

Definition CacheExample_body (m : MACHINE) (ApicIdList : list Z) (ProcessorIndex : Z)
    (s : list CPUID_CACHE_INFO * Z * Z * CPUID_REGISTERS)
    : result (list CPUID_CACHE_INFO * Z * Z * CPUID_REGISTERS) :=
  let '(pCacheInfo, NumberOfCaches, SubleafIndex, CpuidRegisters) := s in
  let* ApicId := load ApicIdList ProcessorIndex in
  let* (pCacheInfo, NumberOfCaches) :=
    CacheExample_subleaf ApicId CpuidRegisters (pCacheInfo, NumberOfCaches) in
  let SubleafIndex := u32 (SubleafIndex + 1) in
  Done (pCacheInfo, NumberOfCaches, SubleafIndex, Tools_ReadCpuid m 4 SubleafIndex).

(** Outer loop state: the machine, the groups, [NumberOfCaches],
    [ProcessorIndex]. *)
Definition CacheExample_processor_cond (NumberOfProcessors : Z)
    (s : MACHINE * list CPUID_CACHE_INFO * Z * Z) : bool :=
  let '(_, _, _, ProcessorIndex) := s in ProcessorIndex <? NumberOfProcessors.

Definition CacheExample_processor_body (fuel : nat) (ApicIdList : list Z)
    (s : MACHINE * list CPUID_CACHE_INFO * Z * Z)
    : result (MACHINE * list CPUID_CACHE_INFO * Z * Z) :=
  let '(m, pCacheInfo, NumberOfCaches, ProcessorIndex) := s in
  let m := Tools_SetAffinity m ProcessorIndex in
  let SubleafIndex := 0 in
  let CpuidRegisters := Tools_ReadCpuid m 4 SubleafIndex in
  let* (pCacheInfo, NumberOfCaches, _, _) :=
    while fuel CacheExample_cond (CacheExample_body m ApicIdList ProcessorIndex)
      (pCacheInfo, NumberOfCaches, SubleafIndex, CpuidRegisters) in
  Done (m, pCacheInfo, NumberOfCaches, u32 (ProcessorIndex + 1)).

(** The result is the pair handed to [Display_DisplayProcessorCaches], or
    [None] when leaf 4 is not supported.  [ApicIdList] is a local array of
    [MAX_PROCESSORS] elements; [calloc] is taken to succeed.  [fuel] bounds
    the subleaves enumerated for one processor. *)
Definition ParseCache_CpuidCacheExample (fuel : nat) (m : MACHINE)
    : result (option (list CPUID_CACHE_INFO * Z)) :=
  let CpuidRegisters := Tools_ReadCpuid m 0 0 in
  if 4 <=? Eax CpuidRegisters then
    let* (m, ApicIdList, NumberOfProcessors) :=
      Tools_GatherPlatformApicIds m (replicate (Z.to_nat MAX_PROCESSORS) 0)
        MAX_PROCESSORS in
    let NumberOfCaches := 0 in
    let pCacheInfo :=
      replicate (Z.to_nat (u32 (NumberOfProcessors * MAX_CACHE_PER_LP)))
        zero_cache_info in
    let* (_, pCacheInfo, NumberOfCaches, _) :=
      while (Z.to_nat MAX_PROCESSORS)
        (CacheExample_processor_cond NumberOfProcessors)
        (CacheExample_processor_body fuel ApicIdList)
        (m, pCacheInfo, NumberOfCaches, 0) in
    Done (Some (pCacheInfo, NumberOfCaches))
  else Done None.

(** ** [CPUID_TLB_INFO] and the translation-buffer pass *)

Record CPUID_TLB_INFO : Type := mkTlbInfo {
  TlbType : Z;
  TlbLevel : Z;
  TlbId : Z;
  TlbMask : Z;
  TlbWays : Z;
  TlbParitioning : Z;
  TlbSets : Z;
  _4K_PageSizeEntries : bool;
  _2MB_PageSizeEntries : bool;
  _4MB_PageSizeEntries : bool;
  _1GB_PageSizeEntries : bool;
  FullyAssociative : bool;
  NumberOfLPsSharingThisTlb : Z;
  ListOfApicIDsSharingThisTlb : list Z;   (* [MAX_PROCESSORS] *)
  TlbCachedCpuidRegisters : CPUID_REGISTERS   (* [CachedCpuidRegisters] *)
}.

Definition zero_tlb_info : CPUID_TLB_INFO :=
  mkTlbInfo 0 0 0 0 0 0 0 false false false false false 0
    (replicate (Z.to_nat MAX_PROCESSORS) 0) zero_registers.

(** [ParseTlb_Internal_FindMatchingTlbEntry]; loop state: [TlbIndex],
    [TlbFoundIndex]. *)
Definition FindMatchingTlbEntry_cond (NumberOfTlbs : Z) (s : Z * Z) : bool :=
  let '(TlbIndex, TlbFoundIndex) := s in
  (TlbIndex <? NumberOfTlbs) && (TlbFoundIndex =? INVALID_TLB_INDEX).

Definition FindMatchingTlbEntry_body (pTlbInfo : list CPUID_TLB_INFO)
    (TlbId' : Z) (pCpuidRegisters : CPUID_REGISTERS) (s : Z * Z) : result (Z * Z) :=
  let '(TlbIndex, TlbFoundIndex) := s in
  let* entry := load pTlbInfo TlbIndex in
  let TlbFoundIndex :=
    if TlbId entry =? TlbId' then
      if memcmp_registers_eq (TlbCachedCpuidRegisters entry) pCpuidRegisters
      then TlbIndex else TlbFoundIndex
    else TlbFoundIndex in
  Done (u32 (TlbIndex + 1), TlbFoundIndex).

Definition ParseTlb_Internal_FindMatchingTlbEntry
    (pTlbInfo : list CPUID_TLB_INFO) (NumberOfTlbs TlbId' : Z)
    (pCpuidRegisters : CPUID_REGISTERS) : result Z :=
  let TlbFoundIndex := INVALID_TLB_INDEX in
  let* (_, TlbFoundIndex) :=
    while (Z.to_nat NumberOfTlbs) (FindMatchingTlbEntry_cond NumberOfTlbs)
      (FindMatchingTlbEntry_body pTlbInfo TlbId' pCpuidRegisters)
      (0, TlbFoundIndex) in
  Done TlbFoundIndex.

Definition AddTlbEntry_populate (old : CPUID_TLB_INFO) (TlbId' TlbMask' : Z)
    (pCpuidRegisters : CPUID_REGISTERS) : CPUID_TLB_INFO :=
  let r := pCpuidRegisters in
  mkTlbInfo
    (Z.land (Edx r) 0x1F)
    (Z.land (Z.shiftr (Edx r) 5) 0x7)
    TlbId' TlbMask'
    (Z.land (Z.shiftr (Ebx r) 16) 0xFF)
    (Z.land (Z.shiftr (Ebx r) 8) 0x7)
    (Ecx r)
    (negb (Z.land (Ebx r) 1 =? 0))
    (negb (Z.land (Ebx r) 2 =? 0))
    (negb (Z.land (Ebx r) 4 =? 0))
    (negb (Z.land (Ebx r) 8 =? 0))
    (negb (Z.land (Edx r) (shl32 1 8) =? 0))
    0
    (ListOfApicIDsSharingThisTlb old)
    r.

Definition ParseTlb_Internal_AddTlbEntry (pTlbInfo : list CPUID_TLB_INFO)
    (NumberOfTlbs TlbId' TlbMask' : Z) (pCpuidRegisters : CPUID_REGISTERS)
    : result (list CPUID_TLB_INFO * Z * Z) :=
  let NewTlbIndex := NumberOfTlbs in
  let NumberOfTlbs := u32 (NumberOfTlbs + 1) in
  let* old := load pTlbInfo NewTlbIndex in
  let* pTlbInfo :=
    store pTlbInfo NewTlbIndex
      (AddTlbEntry_populate old TlbId' TlbMask' pCpuidRegisters) in
  Done (pTlbInfo, NumberOfTlbs, NewTlbIndex).

Definition add_tlb_member (e : CPUID_TLB_INFO) (l : list Z) : CPUID_TLB_INFO :=
  mkTlbInfo (TlbType e) (TlbLevel e) (TlbId e) (TlbMask e) (TlbWays e)
    (TlbParitioning e) (TlbSets e) (_4K_PageSizeEntries e) (_2MB_PageSizeEntries e)
    (_4MB_PageSizeEntries e) (_1GB_PageSizeEntries e) (FullyAssociative e)
    (u32 (NumberOfLPsSharingThisTlb e + 1)) l (TlbCachedCpuidRegisters e).

Definition TlbExample_mask (CpuidRegisters : CPUID_REGISTERS) : Z :=
  let MaxAddressibleIdSharingTlb :=
    u32 (Z.land (Z.shiftr (Edx CpuidRegisters) 14) 0xFFF + 1) in
  let TlbShift := Tools_CreateTopologyShift MaxAddressibleIdSharingTlb in
  not32 (u32 (shl32 1 TlbShift - 1)).

(** The part of the loop body of [ParseTlb_CpuidTlbExample] under
    [TlbType != TlbType_InvalidSubleaf]; [CpuidRegisters] has [Eax]
    cleared. *)
Definition TlbExample_subleaf (ApicId : Z) (CpuidRegisters : CPUID_REGISTERS)
    (s : list CPUID_TLB_INFO * Z) : result (list CPUID_TLB_INFO * Z) :=
  let '(pTlbInfo, NumberOfTlbs) := s in
  let TlbMask' := TlbExample_mask CpuidRegisters in
  let TlbId' := Z.land ApicId TlbMask' in
  let* TlbIndex :=
    ParseTlb_Internal_FindMatchingTlbEntry pTlbInfo NumberOfTlbs TlbId' CpuidRegisters in
  let* (pTlbInfo, NumberOfTlbs, TlbIndex) :=
    if TlbIndex =? INVALID_TLB_INDEX then
      ParseTlb_Internal_AddTlbEntry pTlbInfo NumberOfTlbs TlbId' TlbMask' CpuidRegisters
    else Done (pTlbInfo, NumberOfTlbs, TlbIndex) in
  if negb (TlbIndex =? INVALID_TLB_INDEX) then
    let* entry := load pTlbInfo TlbIndex in
    let* members :=
      store (ListOfApicIDsSharingThisTlb entry) (NumberOfLPsSharingThisTlb entry)
        ApicId in
    let* pTlbInfo := store pTlbInfo TlbIndex (add_tlb_member entry members) in
    Done (pTlbInfo, NumberOfTlbs)
  else Done (pTlbInfo, NumberOfTlbs).

(** Inner loop state: the groups, [NumberOfTlbs], [SubleafIndex],
    [MaxSubleaf]. *)
Definition TlbExample_cond (s : list CPUID_TLB_INFO * Z * Z * Z) : bool :=
  let '(_, _, SubleafIndex, MaxSubleaf) := s in SubleafIndex <=? MaxSubleaf.

Definition TlbExample_body (m : MACHINE) (ApicIdList : list Z) (ProcessorIndex : Z)
    (s : list CPUID_TLB_INFO * Z * Z * Z) : result (list CPUID_TLB_INFO * Z * Z * Z) :=
  let '(pTlbInfo, NumberOfTlbs, SubleafIndex, MaxSubleaf) := s in
  let CpuidRegisters := Tools_ReadCpuid m 0x18 SubleafIndex in
  let MaxSubleaf := if SubleafIndex =? 0 then Eax CpuidRegisters else MaxSubleaf in
  let CpuidRegisters := set_Eax CpuidRegisters 0 in
  let TlbType' := Z.land (Edx CpuidRegisters) 0x1F in
  let* (pTlbInfo, NumberOfTlbs) :=
    if negb (TlbType' =? TlbType_InvalidSubleaf) then
      let* ApicId := load ApicIdList ProcessorIndex in
      TlbExample_subleaf ApicId CpuidRegisters (pTlbInfo, NumberOfTlbs)
    else Done (pTlbInfo, NumberOfTlbs) in
  Done (pTlbInfo, NumberOfTlbs, u32 (SubleafIndex + 1), MaxSubleaf).

Definition TlbExample_processor_cond (NumberOfProcessors : Z)
    (s : MACHINE * list CPUID_TLB_INFO * Z * Z) : bool :=
  let '(_, _, _, ProcessorIndex) := s in ProcessorIndex <? NumberOfProcessors.

Definition TlbExample_processor_body (fuel : nat) (ApicIdList : list Z)
    (s : MACHINE * list CPUID_TLB_INFO * Z * Z)
    : result (MACHINE * list CPUID_TLB_INFO * Z * Z) :=
  let '(m, pTlbInfo, NumberOfTlbs, ProcessorIndex) := s in
  let m := Tools_SetAffinity m ProcessorIndex in
  let MaxSubleaf := 0 in
  let* (pTlbInfo, NumberOfTlbs, _, _) :=
    while fuel TlbExample_cond (TlbExample_body m ApicIdList ProcessorIndex)
      (pTlbInfo, NumberOfTlbs, 0, MaxSubleaf) in
  Done (m, pTlbInfo, NumberOfTlbs, u32 (ProcessorIndex + 1)).

(** The result is the pair handed to [Display_DisplayProcessorTlbs], or
    [None] when leaf 18H is not supported. *)
Definition ParseTlb_CpuidTlbExample (fuel : nat) (m : MACHINE)
    : result (option (list CPUID_TLB_INFO * Z)) :=
  let CpuidRegisters := Tools_ReadCpuid m 0 0 in
  if 0x18 <=? Eax CpuidRegisters then
    let* (m, ApicIdList, NumberOfProcessors) :=
      Tools_GatherPlatformApicIds m (replicate (Z.to_nat MAX_PROCESSORS) 0)
        MAX_PROCESSORS in
    let NumberOfTlbs := 0 in
    let pTlbInfo :=
      replicate (Z.to_nat (u32 (NumberOfProcessors * MAX_TLB_PER_LP))) zero_tlb_info in
    let* (_, pTlbInfo, NumberOfTlbs, _) :=
      while (Z.to_nat MAX_PROCESSORS)
        (TlbExample_processor_cond NumberOfProcessors)
        (TlbExample_processor_body fuel ApicIdList)
        (m, pTlbInfo, NumberOfTlbs, 0) in
    Done (Some (pTlbInfo, NumberOfTlbs))
  else Done None.

(** ** The enumeration of a topology leaf *)

(** [ECX[15:8]] and [EAX[4:0]] of a subleaf of leaf 0BH or 1FH. *)
Definition DomainType_of (r : CPUID_REGISTERS) : Z := Z.land (Z.shiftr (Ecx r) 8) 0xFF.
Definition DomainShift_of (r : CPUID_REGISTERS) : Z := Z.land (Eax r) 0x1F.

(** The subleaves 0 .. n-1 of a leaf as the machine answers them. *)
Definition enumerated (m : MACHINE) (Leaf : Z) (n : nat) : list CPUID_REGISTERS :=
  map (fun k => Tools_ReadCpuid m Leaf (Z.of_nat k)) (seq 0 n).

(** The enumeration ends at subleaf [n]: the subleaves before it have a
    non-zero [EBX], subleaf [n] has [EBX = 0]. *)
Definition terminated_at (m : MACHINE) (Leaf : Z) (n : nat) : bool :=
  forallb (fun r => negb (Ebx r =? 0)) (enumerated m Leaf n)
  && (Ebx (Tools_ReadCpuid m Leaf (Z.of_nat n)) =? 0).

Definition is_LogicalProcessor (r : CPUID_REGISTERS) : bool :=
  DomainType_of r =? LogicalProcessorDomain.

(** ** Many-domain collapse in the words of the specification *)

(** A domain level is a pair of a kind and a cumulative shift.  Overwriting
    the shift of the most recently appended level keeps its kind. *)
Definition overwrite_last_shift (levels : list (Z * Z)) (shift : Z) : list (Z * Z) :=
  match rev levels with
  | [] => []
  | (kind, _) :: before => rev ((kind, shift) :: before)
  end.

(** A known kind appends a level; an unknown kind overwrites the shift of
    the most recently appended level. *)
Definition collapse_step (levels : list (Z * Z)) (r : CPUID_REGISTERS) : list (Z * Z) :=
  if Tools_IsDomainKnownEnumeration (DomainType_of r)
  then levels ++ [(DomainType_of r, DomainShift_of r)]
  else overwrite_last_shift levels (DomainShift_of r).

Definition collapse_unknown (subleafs : list CPUID_REGISTERS) : list (Z * Z) :=
  fold_left collapse_step subleafs [].

(** The enumeration is empty or starts with a LogicalProcessor subleaf. *)
Definition starts_with_LogicalProcessor (subleafs : list CPUID_REGISTERS) : bool :=
  match subleafs with
  | [] => true
  | r :: _ => is_LogicalProcessor r
  end.

(** The levels held by a context: the first [PackageDomainIndex] entries of
    [ShiftValueDomain] and [ShiftValues]. *)
Definition ctx_levels (ctx : APICID_BIT_LAYOUT_CTX) : list (Z * Z) :=
  let n := Z.to_nat (PackageDomainIndex ctx) in
  zip (take n (ShiftValueDomain ctx)) (take n (ShiftValues ctx)).

(** ** Example machines *)

(** A static table filled from a function of its two indices. *)
Definition table_of (rows cols : nat) (f : Z -> Z -> CPUID_REGISTERS)
    : list (list CPUID_REGISTERS) :=
  map (fun i => map (fun j => f (Z.of_nat i) (Z.of_nat j)) (seq 0 cols)) (seq 0 rows).

Definition no_os : OS_PLATFORM :=
  mkOs (fun _ _ _ => zero_registers) 0 (fun cpu _ => cpu).

(** A recorded trace of two logical processors.  Leaf 1FH enumerates
    LogicalProcessor/shift 1, an unknown domain 99/shift 2, Core/shift 3 and
    ends at subleaf 3; leaf 4 describes two caches per processor, the first
    private to the processor, the second shared by both. *)
Definition trace_cpuid (Leaf Subleaf : Z) : CPUID_REGISTERS :=
  if Leaf =? 0 then
    if Subleaf =? 0 then mkRegs 0x1F 0x756e6547 0x6c65746e 0x49656e69 else zero_registers
  else if Leaf =? 1 then
    if Subleaf =? 0 then mkRegs 0x000806F8 0x00020800 0 0x10000000 else zero_registers
  else if Leaf =? 0x1F then
    if Subleaf =? 0 then mkRegs 1 2 0x100 0
    else if Subleaf =? 1 then mkRegs 2 4 0x6301 0
    else if Subleaf =? 2 then mkRegs 3 8 0x202 0
    else zero_registers
  else zero_registers.

Definition trace_leaf4 (Processor Subleaf : Z) : CPUID_REGISTERS :=
  if Processor <? 2 then
    if Subleaf =? 0 then mkRegs 0x00000121 0x01C0003F 0x3F 0
    else if Subleaf =? 1 then mkRegs 0x00004143 0x03C0003F 0x3FF 0
    else zero_registers
  else zero_registers.

Definition trace_machine : MACHINE :=
  mkMachine
    (mkGlobalData false
       (table_of (Z.to_nat MAX_SIMULATED_LEAFS) (Z.to_nat MAX_SIMULATED_SUBLEAFS) trace_cpuid)
       (table_of (Z.to_nat MAX_PROCESSORS) (Z.to_nat MAX_SIMULATED_SUBLEAFS) trace_leaf4)
       (table_of (Z.to_nat MAX_PROCESSORS) (Z.to_nat MAX_SIMULATED_SUBLEAFS)
          (fun _ _ => zero_registers))
       ([0; 1] ++ replicate (Z.to_nat MAX_PROCESSORS - 2) 0)
       2 0)
    no_os 0.

(** ** The domain mask matrix in the words of the specification *)

(** The cumulative shift of the level below level [i] (0 for level 0). *)
Definition previous_shift (ctx : APICID_BIT_LAYOUT_CTX) (i : Z) : Z :=
  if i =? 0 then 0 else read_array (ShiftValues ctx) (i - 1).

(** The global mask of level [i], for a previous shift below 32: the
    bitwise NOT of [(1 << previous shift) - 1]. *)
Definition global_mask (ctx : APICID_BIT_LAYOUT_CTX) (i : Z) : Z :=
  not32 (u32 (shl32 1 (previous_shift ctx i) - 1)).

(** A context whose arrays have their declared sizes. *)
Definition matrix_wf (M : list (list Z)) : Prop :=
  length M = Z.to_nat MAXIMUM_DOMAINS
  /\ forall i row, M !! i = Some row -> length row = Z.to_nat MAXIMUM_DOMAINS.

Definition ctx_wf (ctx : APICID_BIT_LAYOUT_CTX) : Prop :=
  length (ShiftValues ctx) = Z.to_nat MAXIMUM_DOMAINS
  /\ length (ShiftValueDomain ctx) = Z.to_nat MAXIMUM_DOMAINS
  /\ matrix_wf (DomainRelativeMasks ctx).

(** The element [M[i][j]] of a matrix (0 outside it). *)
Definition entry (M : list (list Z)) (i j : nat) : Z :=
  match M !! i with
  | Some row => match row !! j with Some v => v | None => 0 end
  | None => 0
  end.

(** The layout of the trace after the many-domain enumeration of leaf 1FH:
    two levels, LogicalProcessor with shift 2 and Core with shift 3. *)
Definition trace_layout : APICID_BIT_LAYOUT_CTX :=
  mkCtx 32
    ([2; 3] ++ replicate 30 0)
    ([LogicalProcessorDomain; CoreDomain] ++ replicate 30 0)
    (replicate 32 (replicate 32 0))
    2 EmptyString.

(** ** Resource groups in the words of the specification *)

(** A group is the group of a resource when the masked identifier equals
    the identifier of the group and the four-register snapshot is the one
    stored in the group. *)
Definition cache_group_matches (Id : Z) (r : CPUID_REGISTERS) (e : CPUID_CACHE_INFO)
    : Prop :=
  CacheId e = Id /\ CachedCpuidRegisters e = r.

Definition tlb_group_matches (Id : Z) (r : CPUID_REGISTERS) (e : CPUID_TLB_INFO)
    : Prop :=
  TlbId e = Id /\ TlbCachedCpuidRegisters e = r.

(** ** Example groups *)

(** What a pass hands to the display: the groups and their number. *)
Definition groups_of {A : Type} (r : result (option (list A * Z))) : list A * Z :=
  match r with
  | Done (Some s) => s
  | _ => ([], 0)
  end.

(** The groups of the trace: the first-level cache of processor 0, the
    second-level cache shared by both processors, the first-level cache of
    processor 1. *)
Definition trace_cache_groups : list CPUID_CACHE_INFO * Z :=
  groups_of (ParseCache_CpuidCacheExample 10 trace_machine).

(** A group in the terms of the specification: snapshot, identifier, mask
    and the members recorded so far. *)
Definition cache_group_summary (e : CPUID_CACHE_INFO)
    : CPUID_REGISTERS * Z * Z * list Z :=
  (CachedCpuidRegisters e, CacheId e, CacheMask e,
   take (Z.to_nat (NumberOfLPsSharingThisCache e)) (ListOfApicIDsSharingThisCache e)).

(** A processor in native mode whose leaf 4 enumerates eleven caches
    (subleaves 0 to 10, told apart by their number of sets), one more than
    [MAX_CACHE_PER_LP]. *)
Definition overfull_cpuid (cpu Leaf Subleaf : Z) : CPUID_REGISTERS :=
  if Leaf =? 0 then mkRegs 4 0x756e6547 0x6c65746e 0x49656e69
  else if Leaf =? 4 then
    if Subleaf <=? 10 then mkRegs 0x00000121 0x01C0003F Subleaf 0 else zero_registers
  else zero_registers.

Definition overfull_machine : MACHINE :=
  mkMachine (mkGlobalData true [] [] [] [] 0 0)
    (mkOs overfull_cpuid 1 (fun _ requested => requested)) 0.

(** The state of the cache pass on that processor after ten subleaves: the
    ten allocated groups are all in use. *)
Definition overfull_groups : result (list CPUID_CACHE_INFO * Z) :=
  fold_left
    (fun s Subleaf =>
       let* s := s in CacheExample_subleaf 0 (overfull_cpuid 0 4 Subleaf) s)
    [0; 1; 2; 3; 4; 5; 6; 7; 8; 9]
    (Done (replicate 10 zero_cache_info, 0)).

(** ** The identifier gatherer in the words of the specification *)

(** The machine after [Tools_SetAffinity] was called for the processors
    0 .. k-1 in turn. *)
Definition affinity_after (m : MACHINE) (k : nat) : MACHINE :=
  fold_left Tools_SetAffinity (map Z.of_nat (seq 0 k)) m.

(** The strategies in order, each leaf tried when leaf 0 reports it: leaf
    1FH, then leaf 0BH (the fourth register when the second is non-zero),
    then the top 8 bits of the second register of leaf 1. *)
Definition platform_id_by_strategy (MaxLeaf : Z) (m : MACHINE) : Z :=
  if (0x1F <=? MaxLeaf) && negb (Ebx (Tools_ReadCpuid m 0x1F 0) =? 0)
  then Edx (Tools_ReadCpuid m 0x1F 0)
  else if (0xB <=? MaxLeaf) && negb (Ebx (Tools_ReadCpuid m 0xB 0) =? 0)
  then Edx (Tools_ReadCpuid m 0xB 0)
  else Z.shiftr (Ebx (Tools_ReadCpuid m 1 0)) 24.

(** The strategies as the claim words them: leaf 1FH is tried whatever leaf
    0 reports, leaf 0BH when it is available. *)
Definition claimed_platform_id (MaxLeaf : Z) (m : MACHINE) : Z :=
  if negb (Ebx (Tools_ReadCpuid m 0x1F 0) =? 0)
  then Edx (Tools_ReadCpuid m 0x1F 0)
  else if (0xB <=? MaxLeaf) && negb (Ebx (Tools_ReadCpuid m 0xB 0) =? 0)
  then Edx (Tools_ReadCpuid m 0xB 0)
  else Z.shiftr (Ebx (Tools_ReadCpuid m 1 0)) 24.

(** The table a run of the gatherer leaves in the array, and its length. *)
Definition gathered (r : result (MACHINE * list Z * Z)) : list Z * Z :=
  match r with
  | Done (_, a, n) => (take (Z.to_nat n) a, n)
  | _ => ([], 0)
  end.

(** A native machine of 1025 logical processors; leaf 0BH reports the
    processor number as its x2APIC identifier. *)
Definition large_cpuid (cpu Leaf Subleaf : Z) : CPUID_REGISTERS :=
  if Leaf =? 0 then mkRegs 0xB 0x756e6547 0x6c65746e 0x49656e69
  else if Leaf =? 0xB then
    if Subleaf =? 0 then mkRegs 1 2 0x100 cpu else zero_registers
  else zero_registers.

Definition large_machine : MACHINE :=
  mkMachine (mkGlobalData true [] [] [] [] 0 0)
    (mkOs large_cpuid 1025 (fun _ requested => requested)) 0.

(** A recorded trace of two processors with APIC identifiers 0 and 1 whose
    leaf 0 reports 0BH as the highest leaf, with no data for leaf 0BH, with
    data recorded for leaf 1FH, and with 5 in the top byte of [EBX] of
    leaf 1. *)
Definition legacy_trace_cpuid (Leaf Subleaf : Z) : CPUID_REGISTERS :=
  if Subleaf =? 0 then
    if Leaf =? 0 then mkRegs 0xB 0x756e6547 0x6c65746e 0x49656e69
    else if Leaf =? 1 then mkRegs 0x000806F8 0x05020800 0 0x10000000
    else if Leaf =? 0x1F then mkRegs 1 2 0x100 0
    else zero_registers
  else zero_registers.

Definition legacy_trace : MACHINE :=
  mkMachine
    (mkGlobalData false
       (table_of (Z.to_nat MAX_SIMULATED_LEAFS) (Z.to_nat MAX_SIMULATED_SUBLEAFS)
          legacy_trace_cpuid)
       (table_of (Z.to_nat MAX_PROCESSORS) (Z.to_nat MAX_SIMULATED_SUBLEAFS)
          (fun _ _ => zero_registers))
       (table_of (Z.to_nat MAX_PROCESSORS) (Z.to_nat MAX_SIMULATED_SUBLEAFS)
          (fun _ _ => zero_registers))
       ([0; 1] ++ replicate (Z.to_nat MAX_PROCESSORS - 2) 0)
       2 0)
    no_os 0.

(** ** Loop invariants and measures *)

(** Three-domain decoder: after [k] iterations the loop holds subleaf [k]
    and the shifts of the subleaves seen so far. *)
Definition ThreeDomain_inv (m : MACHINE) (Leaf : Z) (n : nat)
    (s : Z * CPUID_REGISTERS * Z * Z) : Prop :=
  exists k : nat,
    (k <= n)%nat
    /\ s = (Z.of_nat k, Tools_ReadCpuid m Leaf (Z.of_nat k),
            List.last (map DomainShift_of
                         (List.filter is_LogicalProcessor (enumerated m Leaf k))) 0,
            List.last (map DomainShift_of (enumerated m Leaf k)) 0).

Definition ThreeDomain_measure (n : nat) (s : Z * CPUID_REGISTERS * Z * Z) : nat :=
  let '(Subleaf, _, _, _) := s in (n - Z.to_nat Subleaf)%nat.

(** Mask matrix, first loop: the diagonal is filled below [DomainIndex] and
    [PreviousBit] is the shift of the level below. *)
Definition MaskMatrix_global_inv (ctx0 : APICID_BIT_LAYOUT_CTX)
    (s : APICID_BIT_LAYOUT_CTX * Z * Z) : Prop :=
  exists (k : nat) (M : list (list Z)),
    (Z.of_nat k <= PackageDomainIndex ctx0 + 1)
    /\ matrix_wf M
    /\ s = (set_DomainRelativeMasks ctx0 M, Z.of_nat k, previous_shift ctx0 (Z.of_nat k))
    /\ forall i, (i < k)%nat -> entry M i i = global_mask ctx0 (Z.of_nat i).

Definition MaskMatrix_global_measure (ctx0 : APICID_BIT_LAYOUT_CTX)
    (s : APICID_BIT_LAYOUT_CTX * Z * Z) : nat :=
  let '(_, DomainIndex, _) := s in
  Z.to_nat (PackageDomainIndex ctx0 + 1 - DomainIndex).

(** The relative mask of level [i] towards level [j]. *)
Definition relative_mask (ctx0 : APICID_BIT_LAYOUT_CTX) (i j : nat) : Z :=
  Z.land (not32 (global_mask ctx0 (Z.of_nat j))) (global_mask ctx0 (Z.of_nat i)).

(** Second pass: the diagonal is complete, the rows below [k] are complete,
    and row [k] is complete below column [j0]. *)
Definition MaskMatrix_rows_done (ctx0 : APICID_BIT_LAYOUT_CTX) (M : list (list Z))
    (k j0 : nat) : Prop :=
  matrix_wf M
  /\ (forall i, Z.of_nat i <= PackageDomainIndex ctx0 ->
        entry M i i = global_mask ctx0 (Z.of_nat i))
  /\ (forall i j, (i < k)%nat -> (i < j)%nat -> Z.of_nat j <= PackageDomainIndex ctx0 ->
        entry M i j = relative_mask ctx0 i j)
  /\ (forall j, (k < j)%nat -> (j < j0)%nat ->
        entry M k j = relative_mask ctx0 k j).

Definition MaskMatrix_relative_inv (ctx0 : APICID_BIT_LAYOUT_CTX) (k : nat)
    (s : APICID_BIT_LAYOUT_CTX * Z) : Prop :=
  exists (j0 : nat) (M : list (list Z)),
    (k < j0)%nat /\ Z.of_nat j0 <= PackageDomainIndex ctx0 + 1
    /\ s = (set_DomainRelativeMasks ctx0 M, Z.of_nat j0)
    /\ MaskMatrix_rows_done ctx0 M k j0.

Definition MaskMatrix_relative_measure (ctx0 : APICID_BIT_LAYOUT_CTX)
    (s : APICID_BIT_LAYOUT_CTX * Z) : nat :=
  let '(_, NextDomainIndex) := s in
  Z.to_nat (PackageDomainIndex ctx0 + 1 - NextDomainIndex).

Definition MaskMatrix_outer_inv (ctx0 : APICID_BIT_LAYOUT_CTX)
    (s : APICID_BIT_LAYOUT_CTX * Z) : Prop :=
  exists (k : nat) (M : list (list Z)),
    Z.of_nat k <= PackageDomainIndex ctx0
    /\ s = (set_DomainRelativeMasks ctx0 M, Z.of_nat k)
    /\ MaskMatrix_rows_done ctx0 M k 0.

Definition MaskMatrix_outer_measure (ctx0 : APICID_BIT_LAYOUT_CTX)
    (s : APICID_BIT_LAYOUT_CTX * Z) : nat :=
  let '(_, DomainIndex) := s in Z.to_nat (PackageDomainIndex ctx0 - DomainIndex).

(** Many-domain decoder: the context holds the levels [L]. *)
Definition levels_rel (ctx : APICID_BIT_LAYOUT_CTX) (L : list (Z * Z)) : Prop :=
  ctx_wf ctx
  /\ PackageDomainIndex ctx = Z.of_nat (length L)
  /\ forall i kind shift, L !! i = Some (kind, shift) ->
       ShiftValueDomain ctx !! i = Some kind /\ ShiftValues ctx !! i = Some shift.

Definition ManyDomain_inv (m : MACHINE) (Leaf : Z) (n : nat)
    (s : Z * CPUID_REGISTERS * APICID_BIT_LAYOUT_CTX) : Prop :=
  exists (k : nat) (ctx : APICID_BIT_LAYOUT_CTX),
    (k <= n)%nat
    /\ s = (Z.of_nat k, Tools_ReadCpuid m Leaf (Z.of_nat k), ctx)
    /\ levels_rel ctx (collapse_unknown (enumerated m Leaf k)).

Definition ManyDomain_measure (n : nat)
    (s : Z * CPUID_REGISTERS * APICID_BIT_LAYOUT_CTX) : nat :=
  let '(Subleaf, _, _) := s in (n - Z.to_nat Subleaf)%nat.

(** ** The common shape of the cache pass and the translation-buffer pass

    The two passes are the same code over two structures.  The definitions
    below repeat that code over an arbitrary group structure, given by its
    projections and by the two ways an element is written; the functions of
    both passes are instances of them. *)
Section ResourceGroups.
Context {A : Type}.
Variable group_id : A -> Z.
Variable group_regs : A -> CPUID_REGISTERS.
Variable group_count : A -> Z.
Variable group_members : A -> list Z.
Variable populate : A -> Z -> Z -> CPUID_REGISTERS -> A.
Variable add_member : A -> list Z -> A.
Variable mask_of : CPUID_REGISTERS -> Z.

Definition FindMatchingEntry_cond (NumberOfGroups : Z) (s : Z * Z) : bool :=
  let '(Index, FoundIndex) := s in
  (Index <? NumberOfGroups) && (FoundIndex =? INVALID_CACHE_INDEX).

Definition FindMatchingEntry_body (pInfo : list A) (Id : Z)
    (pCpuidRegisters : CPUID_REGISTERS) (s : Z * Z) : result (Z * Z) :=
  let '(Index, FoundIndex) := s in
  let* entry := load pInfo Index in
  let FoundIndex :=
    if group_id entry =? Id then
      if memcmp_registers_eq (group_regs entry) pCpuidRegisters
      then Index else FoundIndex
    else FoundIndex in
  Done (u32 (Index + 1), FoundIndex).

Definition FindMatchingEntry (pInfo : list A) (NumberOfGroups Id : Z)
    (pCpuidRegisters : CPUID_REGISTERS) : result Z :=
  let FoundIndex := INVALID_CACHE_INDEX in
  let* (_, FoundIndex) :=
    while (Z.to_nat NumberOfGroups) (FindMatchingEntry_cond NumberOfGroups)
      (FindMatchingEntry_body pInfo Id pCpuidRegisters) (0, FoundIndex) in
  Done FoundIndex.

Definition AddEntry (pInfo : list A) (NumberOfGroups Id Mask : Z)
    (pCpuidRegisters : CPUID_REGISTERS) : result (list A * Z * Z) :=
  let NewIndex := NumberOfGroups in
  let NumberOfGroups := u32 (NumberOfGroups + 1) in
  let* old := load pInfo NewIndex in
  let* pInfo := store pInfo NewIndex (populate old Id Mask pCpuidRegisters) in
  Done (pInfo, NumberOfGroups, NewIndex).

Definition Example_subleaf (ApicId : Z) (CpuidRegisters : CPUID_REGISTERS)
    (s : list A * Z) : result (list A * Z) :=
  let '(pInfo, NumberOfGroups) := s in
  let Mask := mask_of CpuidRegisters in
  let Id := Z.land ApicId Mask in
  let* Index := FindMatchingEntry pInfo NumberOfGroups Id CpuidRegisters in
  let* (pInfo, NumberOfGroups, Index) :=
    if Index =? INVALID_CACHE_INDEX then
      AddEntry pInfo NumberOfGroups Id Mask CpuidRegisters
    else Done (pInfo, NumberOfGroups, Index) in
  if negb (Index =? INVALID_CACHE_INDEX) then
    let* entry := load pInfo Index in
    let* members := store (group_members entry) (group_count entry) ApicId in
    let* pInfo := store pInfo Index (add_member entry members) in
    Done (pInfo, NumberOfGroups)
  else Done (pInfo, NumberOfGroups).

(** A group matches a resource when its identifier and its snapshot do. *)
Definition group_matches (Id : Z) (r : CPUID_REGISTERS) (e : A) : bool :=
  (group_id e =? Id) && memcmp_registers_eq (group_regs e) r.

(** None of the first [N] groups matches. *)
Definition no_match (pInfo : list A) (N Id : Z) (r : CPUID_REGISTERS) : Prop :=
  forall i e, (Z.of_nat i < N) -> pInfo !! i = Some e -> group_matches Id r e = false.

(** Group [idx] is the first of the first [N] groups that matches. *)
Definition first_match (pInfo : list A) (N Id : Z) (r : CPUID_REGISTERS)
    (idx : nat) (e : A) : Prop :=
  Z.of_nat idx < N /\ pInfo !! idx = Some e /\ group_matches Id r e = true
  /\ no_match pInfo (Z.of_nat idx) Id r.

Definition FindMatchingEntry_inv (pInfo : list A) (N Id : Z) (r : CPUID_REGISTERS)
    (s : Z * Z) : Prop :=
  exists k : nat,
    Z.of_nat k <= N /\ fst s = Z.of_nat k
    /\ ((snd s = INVALID_CACHE_INDEX /\ no_match pInfo (Z.of_nat k) Id r)
        \/ exists idx e, (idx < k)%nat /\ snd s = Z.of_nat idx
                         /\ first_match pInfo N Id r idx e).

Definition FindMatchingEntry_measure (N : Z) (s : Z * Z) : nat :=
  Z.to_nat (N - fst s).
End ResourceGroups.

(** Identifier gatherer: the processor count after the cap, and the number
    of iterations of the loop. *)
Definition capped_processors (m0 : MACHINE) : Z :=
  if MAX_PROCESSORS <? Tools_GetNumberOfProcessors m0 then MAX_PROCESSORS
  else Tools_GetNumberOfProcessors m0.

Definition gathered_count (m0 : MACHINE) (ArraySize : Z) : Z :=
  Z.min (Z.min (Tools_GetNumberOfProcessors m0) MAX_PROCESSORS) ArraySize.

(** After [k] iterations the machine has been bound to
    the processors below [k], the entries below [k] hold their identifiers
    and the other entries are as in the caller's array. *)
Definition GatherPlatformApicIds_inv (m0 : MACHINE) (a0 : list Z) (count : Z)
    (s : MACHINE * list Z * Z) : Prop :=
  exists (k : nat) (a : list Z),
    Z.of_nat k <= count
    /\ s = (affinity_after m0 k, a, Z.of_nat k)
    /\ length a = length a0
    /\ (forall i, (i < k)%nat ->
          a !! i = Some (platform_id_by_strategy (Eax (Tools_ReadCpuid m0 0 0))
                           (affinity_after m0 (S i))))
    /\ (forall i, (k <= i)%nat -> a !! i = a0 !! i).

Definition GatherPlatformApicIds_measure (count : Z) (s : MACHINE * list Z * Z) : nat :=
  let '(_, _, Index) := s in Z.to_nat (count - Index).

(** Two machines that differ at most in the current affinity of the
    simulation. *)
Definition same_trace (m m' : MACHINE) : Prop :=
  UseNativeCpuid (g_GlobalData m') = UseNativeCpuid (g_GlobalData m)
  /\ SimulatedCpuid (g_GlobalData m') = SimulatedCpuid (g_GlobalData m)
  /\ SimulatedCpuidLeaf4 (g_GlobalData m') = SimulatedCpuidLeaf4 (g_GlobalData m)
  /\ SimulatedCpuidLeaf18 (g_GlobalData m') = SimulatedCpuidLeaf18 (g_GlobalData m)
  /\ SimulatedApicIds (g_GlobalData m') = SimulatedApicIds (g_GlobalData m)
  /\ NumberOfSimulatedProcessors (g_GlobalData m')
     = NumberOfSimulatedProcessors (g_GlobalData m)
  /\ Os m' = Os m
  /\ Os_CurrentCpu m' = Os_CurrentCpu m.

(** ** [ParseCpu_CpuidLegacyExample] *)

(** The result is the pair [(PackageShift, LogicalProcessorShift)] handed to
    [Display_ThreeDomainDisplay] with leaf 1.  [CPUID.4.0.EAX >> 26] is at
    most 63 on a 32-bit register, so the divisor is never 0. *)
Definition ParseCpu_CpuidLegacyExample (m : MACHINE) : Z * Z :=
  let MaximumAddressibleIdsPhysicalPackage := 1 in
  let CpuidRegisters := Tools_ReadCpuid m 1 0 in
  if negb (Z.land (Edx CpuidRegisters) (shl32 1 28) =? 0) then
    let MaximumAddressibleIdsPhysicalPackage :=
      Z.land (Z.shiftr (Ebx CpuidRegisters) 16) 0xFF in
    let CpuidRegisters := Tools_ReadCpuid m 0 0 in
    if 4 <=? Eax CpuidRegisters then
      let CpuidRegisters := Tools_ReadCpuid m 4 0 in
      let MaximumAddressibleIdsCores := u32 (Z.shiftr (Eax CpuidRegisters) 26 + 1) in
      let LogicalProcessorsPerCore :=
        MaximumAddressibleIdsPhysicalPackage / MaximumAddressibleIdsCores in
      let LogicalProcessorsPerPackage := MaximumAddressibleIdsPhysicalPackage in
      let LogicalProcessorShift := Tools_CreateTopologyShift LogicalProcessorsPerCore in
      let PackageShift := Tools_CreateTopologyShift LogicalProcessorsPerPackage in
      (PackageShift, LogicalProcessorShift)
    else
      let PackageShift := Tools_CreateTopologyShift MaximumAddressibleIdsPhysicalPackage in
      let LogicalProcessorShift := PackageShift in
      (PackageShift, LogicalProcessorShift)
  else
    let PackageShift := Tools_CreateTopologyShift MaximumAddressibleIdsPhysicalPackage in
    let LogicalProcessorShift := PackageShift in
    (PackageShift, LogicalProcessorShift).

(** ** [ParseCpu_Internal_LegacyTopologyBits] *)

Definition set_szDescription (c : APICID_BIT_LAYOUT_CTX) (v : string) :=
  mkCtx (NumberOfApicIdBits c) (ShiftValues c) (ShiftValueDomain c)
    (DomainRelativeMasks c) (PackageDomainIndex c) v.

(** The result is the context handed to [Display_ApicIdBitLayout].  The
    stores are at the constant indices 0 and 1 of arrays of
    [MAXIMUM_DOMAINS] elements; the three descriptions fit the 256 bytes of
    [szDescription]. *)
Definition ParseCpu_Internal_LegacyTopologyBits (m : MACHINE) : APICID_BIT_LAYOUT_CTX :=
  let ctx := zero_ctx in
  let ctx :=
    set_ShiftValueDomain ctx (<[0%nat := LogicalProcessorDomain]> (ShiftValueDomain ctx)) in
  let ctx := set_ShiftValueDomain ctx (<[1%nat := CoreDomain]> (ShiftValueDomain ctx)) in
  let ctx := set_PackageDomainIndex ctx 2 in
  let ctx := set_NumberOfApicIdBits ctx 8 in
  let MaximumAddressibleIdsPhysicalPackage := 1 in
  let CpuidRegisters := Tools_ReadCpuid m 1 0 in
  if negb (Z.land (Edx CpuidRegisters) (shl32 1 28) =? 0) then
    let MaximumAddressibleIdsPhysicalPackage :=
      Z.land (Z.shiftr (Ebx CpuidRegisters) 16) 0xFF in
    let CpuidRegisters := Tools_ReadCpuid m 0 0 in
    if 4 <=? Eax CpuidRegisters then
      let CpuidRegisters := Tools_ReadCpuid m 4 0 in
      let MaximumAddressibleIdsCores := u32 (Z.shiftr (Eax CpuidRegisters) 26 + 1) in
      let LogicalProcessorsPerCore :=
        MaximumAddressibleIdsPhysicalPackage / MaximumAddressibleIdsCores in
      let LogicalProcessorShift := Tools_CreateTopologyShift LogicalProcessorsPerCore in
      let PackageShift := Tools_CreateTopologyShift MaximumAddressibleIdsPhysicalPackage in
      let ctx := set_ShiftValues ctx (<[0%nat := LogicalProcessorShift]> (ShiftValues ctx)) in
      let ctx := set_ShiftValues ctx (<[1%nat := PackageShift]> (ShiftValues ctx)) in
      set_szDescription ctx
        "Legacy path using CPUID.1 and CPUID.4 (May not be correct if Leaf B or Leaf 1F exist.)"
    else
      let PackageShift := Tools_CreateTopologyShift MaximumAddressibleIdsPhysicalPackage in
      let ctx := set_ShiftValues ctx (<[0%nat := PackageShift]> (ShiftValues ctx)) in
      let ctx := set_PackageDomainIndex ctx 1 in
      set_szDescription ctx "Legacy path using CPUID.1 and CPUID.HTT = 1 but no CPUID.4"
  else
    let PackageShift := Tools_CreateTopologyShift MaximumAddressibleIdsPhysicalPackage in
    let ctx := set_ShiftValues ctx (<[0%nat := PackageShift]> (ShiftValues ctx)) in
    let ctx := set_PackageDomainIndex ctx 1 in
    set_szDescription ctx "Legacy path where CPUID.HTT = 0".

(** ** [ParseCpu_Internal_TopologyBitsFromLeaf] *)

Definition newline : string := String (Ascii.ascii_of_nat 10) EmptyString.

(** [sprintf(szDescription, "****  APIC ID Bit Layout CPUID.0x%0x ****\n\n", Leaf)] *)
Definition TopologyBits_description (Leaf : Z) : string :=
  String.append "****  APIC ID Bit Layout CPUID."
    (String.append (HexString.of_Z Leaf)
       (String.append " ****" (String.append newline newline))).

Definition TopologyBits_consolidated : string :=
  String.append newline
    (String.append "Found Unknown Domains, Consolidated APIC ID"
       (String.append newline newline)).

(** First loop; state: [Subleaf], [CpuidRegisters], the context,
    [bFoundUnknownDomain]. *)
Definition TopologyBits_cond (s : Z * CPUID_REGISTERS * APICID_BIT_LAYOUT_CTX * bool)
    : bool :=
  let '(_, CpuidRegisters, _, _) := s in negb (Ebx CpuidRegisters =? 0).

Definition TopologyBits_body (m : MACHINE) (Leaf : Z)
    (s : Z * CPUID_REGISTERS * APICID_BIT_LAYOUT_CTX * bool)
    : result (Z * CPUID_REGISTERS * APICID_BIT_LAYOUT_CTX * bool) :=
  let '(Subleaf, CpuidRegisters, ctx, bFoundUnknownDomain) := s in
  let DomainType := Z.land (Z.shiftr (Ecx CpuidRegisters) 8) 0xFF in
  let DomainShift := Z.land (Eax CpuidRegisters) 0x1F in
  let* sv := store (ShiftValues ctx) Subleaf DomainShift in
  let ctx := set_ShiftValues ctx sv in
  let* sd := store (ShiftValueDomain ctx) Subleaf DomainType in
  let ctx := set_ShiftValueDomain ctx sd in
  let ctx := set_PackageDomainIndex ctx (u32 (PackageDomainIndex ctx + 1)) in
  let bFoundUnknownDomain :=
    if (DomainType =? InvalidDomain) || (DomainType =? LogicalProcessorDomain)
       || (DomainType =? CoreDomain) || (DomainType =? ModuleDomain)
       || (DomainType =? TileDomain) || (DomainType =? DieDomain)
       || (DomainType =? DieGrpDomain)
    then bFoundUnknownDomain else true in
  let Subleaf := u32 (Subleaf + 1) in
  Done (Subleaf, Tools_ReadCpuid m Leaf Subleaf, ctx, bFoundUnknownDomain).

(** Second loop; state: [Subleaf], [CpuidRegisters], the context. *)
Definition TopologyBits_collapse_cond (s : Z * CPUID_REGISTERS * APICID_BIT_LAYOUT_CTX)
    : bool :=
  let '(_, CpuidRegisters, _) := s in negb (Ebx CpuidRegisters =? 0).

Definition TopologyBits_collapse_body (m : MACHINE) (Leaf : Z)
    (s : Z * CPUID_REGISTERS * APICID_BIT_LAYOUT_CTX)
    : result (Z * CPUID_REGISTERS * APICID_BIT_LAYOUT_CTX) :=
  let '(Subleaf, CpuidRegisters, ctx) := s in
  let DomainType := Z.land (Z.shiftr (Ecx CpuidRegisters) 8) 0xFF in
  let DomainShift := Z.land (Eax CpuidRegisters) 0x1F in
  let* ctx :=
    if (DomainType =? InvalidDomain) || (DomainType =? LogicalProcessorDomain)
       || (DomainType =? CoreDomain) || (DomainType =? ModuleDomain)
       || (DomainType =? TileDomain) || (DomainType =? DieDomain)
       || (DomainType =? DieGrpDomain)
    then
      let* sv := store (ShiftValues ctx) (PackageDomainIndex ctx) DomainShift in
      let ctx := set_ShiftValues ctx sv in
      let* sd := store (ShiftValueDomain ctx) (PackageDomainIndex ctx) DomainType in
      let ctx := set_ShiftValueDomain ctx sd in
      Done (set_PackageDomainIndex ctx (u32 (PackageDomainIndex ctx + 1)))
    else
      let* sv := store (ShiftValues ctx) (u32 (PackageDomainIndex ctx - 1)) DomainShift in
      Done (set_ShiftValues ctx sv) in
  let Subleaf := u32 (Subleaf + 1) in
  Done (Subleaf, Tools_ReadCpuid m Leaf Subleaf, ctx).

(** The result is the context handed to the first
    [Display_ApicIdBitLayout] and, when an unknown domain was found, the
    context handed to the second one.  The second pass starts from the
    context of the first with [PackageDomainIndex] reset; the arrays keep
    what the first pass wrote. *)
Definition ParseCpu_Internal_TopologyBitsFromLeaf (fuel : nat) (m : MACHINE) (Leaf : Z)
    : result (APICID_BIT_LAYOUT_CTX * option APICID_BIT_LAYOUT_CTX) :=
  let ApicidBitLayoutCtx := zero_ctx in
  let ApicidBitLayoutCtx :=
    set_szDescription ApicidBitLayoutCtx (TopologyBits_description Leaf) in
  let ApicidBitLayoutCtx := set_NumberOfApicIdBits ApicidBitLayoutCtx 32 in
  let Subleaf := 0 in
  let CpuidRegisters := Tools_ReadCpuid m Leaf Subleaf in
  let bFoundUnknownDomain := false in
  let* (_, _, ctx, bFoundUnknownDomain) :=
    while fuel TopologyBits_cond (TopologyBits_body m Leaf)
      (Subleaf, CpuidRegisters, ApicidBitLayoutCtx, bFoundUnknownDomain) in
  let first := ctx in
  if bFoundUnknownDomain then
    let ctx := set_szDescription ctx TopologyBits_consolidated in
    let ctx := set_PackageDomainIndex ctx 0 in
    let Subleaf := 0 in
    let CpuidRegisters := Tools_ReadCpuid m Leaf Subleaf in
    let* (_, _, ctx) :=
      while fuel TopologyBits_collapse_cond (TopologyBits_collapse_body m Leaf)
        (Subleaf, CpuidRegisters, ctx) in
    Done (first, Some ctx)
  else Done (first, None).

(** ** [ParseCpu_ApicIdTopologyLayout] *)

(** The layouts displayed, in the order of their display. *)
Definition ParseCpu_ApicIdTopologyLayout (fuel : nat) (m : MACHINE)
    : result (list APICID_BIT_LAYOUT_CTX) :=
  let layouts (r : APICID_BIT_LAYOUT_CTX * option APICID_BIT_LAYOUT_CTX) :=
    match r with
    | (first, Some second) => [first; second]
    | (first, None) => [first]
    end in
  let CpuidRegisters := Tools_ReadCpuid m 0 0 in
  let* shown1F :=
    if 0x1F <=? Eax CpuidRegisters then
      let* r := ParseCpu_Internal_TopologyBitsFromLeaf fuel m 0x1F in Done (layouts r)
    else Done [] in
  let* shownB :=
    if 0xB <=? Eax CpuidRegisters then
      let* r := ParseCpu_Internal_TopologyBitsFromLeaf fuel m 0xB in Done (layouts r)
    else Done [] in
  Done (shown1F ++ shownB ++ [ParseCpu_Internal_LegacyTopologyBits m]).

(** ** Further example machines *)

(** A native platform whose leaf 1 reports the package field [P] with HTT
    set, whose leaf 4 reports [C] in [EAX[31:26]], and whose highest leaf
    is 4. *)
Definition legacy_cpuid (P C : Z) (Leaf Subleaf : Z) : CPUID_REGISTERS :=
  if Leaf =? 0 then mkRegs 4 0 0 0
  else if Leaf =? 1 then mkRegs 0 (P * 65536) 0 (2 ^ 28)
  else if Leaf =? 4 then mkRegs (C * 2 ^ 26) 0 0 0
  else zero_registers.

Definition legacy_machine (P C : Z) : MACHINE :=
  mkMachine (mkGlobalData true [] [] [] [] 0 0)
    (mkOs (fun _ => legacy_cpuid P C) 1 (fun cpu _ => cpu)) 0.

(** ** [Display_ThreeDomainDisplay] *)

(** [PackageMask], [CorePackageMask], [LogicalProcessorPackageMask] and
    [LogicalProcessorMask].  The shifts handed to the function are below 32;
    [1 << 31] is taken as the bit pattern 80000000H. *)
Definition ThreeDomainDisplay_masks (PackageShift LogicalProcessorShift : Z)
    : Z * Z * Z * Z :=
  let LogicalProcessorPackageMask := u32 (shl32 1 LogicalProcessorShift - 1) in
  let CorePackageMask :=
    Z.lxor (u32 (shl32 1 PackageShift - 1)) (u32 (shl32 1 LogicalProcessorShift - 1)) in
  let PackageMask := not32 (u32 (shl32 1 PackageShift - 1)) in
  let LogicalProcessorMask := u32 (shl32 1 LogicalProcessorShift - 1) in
  (PackageMask, CorePackageMask, LogicalProcessorPackageMask, LogicalProcessorMask).

(** One printed line: the APIC ID, [PKG_ID], [CORE_ID] and [LP_ID]. *)
Definition ThreeDomainDisplay_row (PackageShift LogicalProcessorShift ApicId : Z)
    : Z * Z * Z * Z :=
  let '(PackageMask, CorePackageMask, _, LogicalProcessorMask) :=
    ThreeDomainDisplay_masks PackageShift LogicalProcessorShift in
  (ApicId,
   Z.shiftr (Z.land ApicId PackageMask) PackageShift,
   Z.shiftr (Z.land ApicId CorePackageMask) LogicalProcessorShift,
   Z.land ApicId LogicalProcessorMask).

(** Loop state: [ProcessorIndex] and the lines printed so far. *)
Definition ThreeDomainDisplay_cond (NumberOfLogicalProcessors : Z)
    (s : Z * list (Z * Z * Z * Z)) : bool :=
  let '(ProcessorIndex, _) := s in ProcessorIndex <? NumberOfLogicalProcessors.

Definition ThreeDomainDisplay_body (ApicIdArray : list Z)
    (PackageShift LogicalProcessorShift : Z) (s : Z * list (Z * Z * Z * Z))
    : result (Z * list (Z * Z * Z * Z)) :=
  let '(ProcessorIndex, rows) := s in
  let* ApicId := load ApicIdArray ProcessorIndex in
  Done (u32 (ProcessorIndex + 1),
        rows ++ [ThreeDomainDisplay_row PackageShift LogicalProcessorShift ApicId]).

(** Returns the machine (the gatherer moves the affinity), the masks and
    the lines printed.  [Leaf] only selects the heading.  [ApicIdArray] is a
    local array of [MAX_PROCESSORS] elements. *)
Definition Display_ThreeDomainDisplay (m : MACHINE)
    (Leaf PackageShift LogicalProcessorShift : Z)
    : result (MACHINE * (Z * Z * Z * Z) * list (Z * Z * Z * Z)) :=
  let masks := ThreeDomainDisplay_masks PackageShift LogicalProcessorShift in
  let* (m, ApicIdArray, NumberOfLogicalProcessors) :=
    Tools_GatherPlatformApicIds m (replicate (Z.to_nat MAX_PROCESSORS) 0)
      MAX_PROCESSORS in
  let* (_, rows) :=
    while (Z.to_nat MAX_PROCESSORS) (ThreeDomainDisplay_cond NumberOfLogicalProcessors)
      (ThreeDomainDisplay_body ApicIdArray PackageShift LogicalProcessorShift)
      (0, []) in
  Done (m, masks, rows).

(** ** [Display_ApicIdBitLayout] *)

Definition ApicIdBitLayout_names : list string :=
  ["Invalid"; "Logical Processor"; "Core"; "Module"; "Tile"; "Die"; "DieGrp";
   "Unknown"]%string.

Definition UnknownTextIndex : Z := 7.

(** Loop state: [DomainIndex], [LowBit] and the lines printed so far; a line
    is the name, [HighBit], [LowBit] and the domain type value. *)
Definition ApicIdBitLayout_cond (ctx : APICID_BIT_LAYOUT_CTX)
    (s : Z * Z * list (string * Z * Z * Z)) : bool :=
  let '(DomainIndex, _, _) := s in DomainIndex <? PackageDomainIndex ctx.

Definition ApicIdBitLayout_body (ctx : APICID_BIT_LAYOUT_CTX)
    (s : Z * Z * list (string * Z * Z * Z))
    : result (Z * Z * list (string * Z * Z * Z)) :=
  let '(DomainIndex, LowBit, rows) := s in
  let* Shift := load (ShiftValues ctx) DomainIndex in
  if negb (Shift =? 0) then
    let HighBit := u32 (Shift - 1) in
    let* Domain := load (ShiftValueDomain ctx) DomainIndex in
    let DomainTextIndex :=
      if Tools_IsDomainKnownEnumeration Domain then Domain else UnknownTextIndex in
    let* name := load ApicIdBitLayout_names DomainTextIndex in
    Done (u32 (DomainIndex + 1), Shift, rows ++ [(name, HighBit, LowBit, Domain)])
  else Done (u32 (DomainIndex + 1), LowBit, rows).

(** The description, the lines of the domains and the bounds
    [NumberOfApicIdBits - 1] and [LowBit] of the package line. *)
Definition Display_ApicIdBitLayout (ctx : APICID_BIT_LAYOUT_CTX)
    : result (string * list (string * Z * Z * Z) * (Z * Z)) :=
  let LowBit := 0 in
  let* (_, LowBit, rows) :=
    while (Z.to_nat MAXIMUM_DOMAINS + 1) (ApicIdBitLayout_cond ctx)
      (ApicIdBitLayout_body ctx) (0, LowBit, []) in
  Done (szDescription ctx, rows, (u32 (NumberOfApicIdBits ctx - 1), LowBit)).

(** A recorded trace of one logical processor whose leaf 1FH starts with a
    subleaf of the unknown domain type 99, followed by a Core subleaf. *)
Definition unknown_first_cpuid (Leaf Subleaf : Z) : CPUID_REGISTERS :=
  if Leaf =? 0 then
    if Subleaf =? 0 then mkRegs 0x1F 0 0 0 else zero_registers
  else if Leaf =? 0x1F then
    if Subleaf =? 0 then mkRegs 1 2 0x6300 0
    else if Subleaf =? 1 then mkRegs 3 8 0x201 0
    else zero_registers
  else zero_registers.

Definition unknown_first_machine : MACHINE :=
  mkMachine
    (mkGlobalData false
       (table_of (Z.to_nat MAX_SIMULATED_LEAFS) (Z.to_nat MAX_SIMULATED_SUBLEAFS)
          unknown_first_cpuid)
       (table_of (Z.to_nat MAX_PROCESSORS) (Z.to_nat MAX_SIMULATED_SUBLEAFS)
          (fun _ _ => zero_registers))
       (table_of (Z.to_nat MAX_PROCESSORS) (Z.to_nat MAX_SIMULATED_SUBLEAFS)
          (fun _ _ => zero_registers))
       (replicate (Z.to_nat MAX_PROCESSORS) 0)
       1 0)
    no_os 0.

(** The trace with leaf 18H data: on both processors subleaf 0 reports 1 as
    the highest subleaf and no translation buffer, subleaf 1 a first-level
    data buffer shared by two identifiers. *)
Definition trace_leaf18 (Processor Subleaf : Z) : CPUID_REGISTERS :=
  if Processor <? 2 then
    if Subleaf =? 0 then mkRegs 1 0 0 0
    else if Subleaf =? 1 then mkRegs 0 0x00040001 0x10 0x4021
    else zero_registers
  else zero_registers.

Definition tlb_trace_machine : MACHINE :=
  mkMachine
    (mkGlobalData false
       (table_of (Z.to_nat MAX_SIMULATED_LEAFS) (Z.to_nat MAX_SIMULATED_SUBLEAFS) trace_cpuid)
       (table_of (Z.to_nat MAX_PROCESSORS) (Z.to_nat MAX_SIMULATED_SUBLEAFS) trace_leaf4)
       (table_of (Z.to_nat MAX_PROCESSORS) (Z.to_nat MAX_SIMULATED_SUBLEAFS) trace_leaf18)
       ([0; 1] ++ replicate (Z.to_nat MAX_PROCESSORS - 2) 0)
       2 0)
    no_os 0.

Definition trace_tlb_groups : list CPUID_TLB_INFO * Z :=
  groups_of (ParseTlb_CpuidTlbExample 10 tlb_trace_machine).

(** ** Invariants of the display loops *)

(** After [k] iterations the lines of the first [k] identifiers have been
    printed. *)
Definition ThreeDomainDisplay_inv (ApicIdArray : list Z)
    (PackageShift LogicalProcessorShift NumberOfLogicalProcessors : Z)
    (s : Z * list (Z * Z * Z * Z)) : Prop :=
  exists k : nat,
    Z.of_nat k <= NumberOfLogicalProcessors
    /\ s = (Z.of_nat k,
            map (ThreeDomainDisplay_row PackageShift LogicalProcessorShift)
              (take k ApicIdArray)).

Definition ThreeDomainDisplay_measure (NumberOfLogicalProcessors : Z)
    (s : Z * list (Z * Z * Z * Z)) : nat :=
  let '(ProcessorIndex, _) := s in Z.to_nat (NumberOfLogicalProcessors - ProcessorIndex).

(** ** The layout pass of [ParseCpu_Internal_TopologyBitsFromLeaf] *)

(** The level a subleaf describes: its domain type and its shift. *)
Definition level_of (r : CPUID_REGISTERS) : Z * Z := (DomainType_of r, DomainShift_of r).

(** Some subleaf has a domain type outside the known enumeration. *)
Definition has_unknown_domain (subleafs : list CPUID_REGISTERS) : bool :=
  existsb (fun r => negb (Tools_IsDomainKnownEnumeration (DomainType_of r))) subleafs.

(** First loop: after [k] iterations the context holds one level per
    subleaf seen, in order, and the flag tells whether one of them was
    unknown. *)
Definition TopologyBits_inv (m : MACHINE) (Leaf : Z) (n : nat)
    (s : Z * CPUID_REGISTERS * APICID_BIT_LAYOUT_CTX * bool) : Prop :=
  exists (k : nat) (ctx : APICID_BIT_LAYOUT_CTX),
    (k <= n)%nat
    /\ s = (Z.of_nat k, Tools_ReadCpuid m Leaf (Z.of_nat k), ctx,
            has_unknown_domain (enumerated m Leaf k))
    /\ levels_rel ctx (map level_of (enumerated m Leaf k))
    /\ NumberOfApicIdBits ctx = 32
    /\ szDescription ctx = TopologyBits_description Leaf.

Definition TopologyBits_measure (n : nat)
    (s : Z * CPUID_REGISTERS * APICID_BIT_LAYOUT_CTX * bool) : nat :=
  let '(Subleaf, _, _, _) := s in (n - Z.to_nat Subleaf)%nat.

(** ** The lines of [Display_ApicIdBitLayout] *)

(** The name printed for a domain type. *)
Definition ApicIdBitLayout_name (Domain : Z) : string :=
  match ApicIdBitLayout_names
          !! Z.to_nat (if Tools_IsDomainKnownEnumeration Domain then Domain
                       else UnknownTextIndex) with
  | Some name => name
  | None => EmptyString
  end.

(** The lines of a list of levels, from bit [LowBit] on, and the low bit
    left for the package: a level of shift 0 has no line, a level of shift
    [s] has the bits [LowBit .. s-1]. *)
Fixpoint layout_rows (levels : list (Z * Z)) (LowBit : Z)
    : list (string * Z * Z * Z) * Z :=
  match levels with
  | [] => ([], LowBit)
  | (Domain, Shift) :: levels =>
      if Shift =? 0 then layout_rows levels LowBit
      else
        let '(rows, low) := layout_rows levels Shift in
        ((ApicIdBitLayout_name Domain, Shift - 1, LowBit, Domain) :: rows, low)
  end.

(** The lines cover the bits from [LowBit] up to, and not including, [low]
    without gap or overlap: every line holds at least one bit
    ([Low <= High]) and starts one bit above the end of the line before. *)
Fixpoint rows_tile (LowBit : Z) (rows : list (string * Z * Z * Z)) (low : Z) : Prop :=
  match rows with
  | [] => low = LowBit
  | (_, High, Low, _) :: rows =>
      Low = LowBit /\ Low <= High /\ rows_tile (High + 1) rows low
  end.

(** The non-zero shifts of a list of levels ascend in the order of the
    levels. *)
Definition shifts_ascend (levels : list (Z * Z)) : Prop :=
  forall (i j : nat) di si dj sj,
    (i < j)%nat -> levels !! i = Some (di, si) -> levels !! j = Some (dj, sj) ->
    si <> 0 -> sj <> 0 -> si < sj.

(** After [k] iterations the lines of the first [k] levels are printed. *)
Definition ApicIdBitLayout_inv (ctx : APICID_BIT_LAYOUT_CTX)
    (s : Z * Z * list (string * Z * Z * Z)) : Prop :=
  exists k : nat,
    Z.of_nat k <= PackageDomainIndex ctx
    /\ let '(DomainIndex, LowBit, rows) := s in
       DomainIndex = Z.of_nat k
       /\ (rows, LowBit) = layout_rows (take k (ctx_levels ctx)) 0.

Definition ApicIdBitLayout_measure (ctx : APICID_BIT_LAYOUT_CTX)
    (s : Z * Z * list (string * Z * Z * Z)) : nat :=
  let '(DomainIndex, _, _) := s in Z.to_nat (PackageDomainIndex ctx - DomainIndex).

(** ** The file reader ([cpuid_topology_file.c]) *)

(** [FILE_READ_CONTEXT] without the stream: the leaf the following subleaf
    lines belong to and the processor relation indices of leaf 4 and leaf
    18H. *)
Record FILE_READ_CONTEXT : Type := mkReadContext {
  CurrentLeaf : Z;
  Leaf4Index : Z;
  Leaf18Index : Z
}.

Definition set_SimulatedCpuid (g : GLOBAL_DATA) (t : list (list CPUID_REGISTERS)) :=
  mkGlobalData (UseNativeCpuid g) t (SimulatedCpuidLeaf4 g) (SimulatedCpuidLeaf18 g)
    (SimulatedApicIds g) (NumberOfSimulatedProcessors g) (CurrentProcessorAffinity g).
Definition set_SimulatedCpuidLeaf4 (g : GLOBAL_DATA) (t : list (list CPUID_REGISTERS)) :=
  mkGlobalData (UseNativeCpuid g) (SimulatedCpuid g) t (SimulatedCpuidLeaf18 g)
    (SimulatedApicIds g) (NumberOfSimulatedProcessors g) (CurrentProcessorAffinity g).
Definition set_SimulatedCpuidLeaf18 (g : GLOBAL_DATA) (t : list (list CPUID_REGISTERS)) :=
  mkGlobalData (UseNativeCpuid g) (SimulatedCpuid g) (SimulatedCpuidLeaf4 g) t
    (SimulatedApicIds g) (NumberOfSimulatedProcessors g) (CurrentProcessorAffinity g).
Definition set_SimulatedApicIds (g : GLOBAL_DATA) (a : list Z) :=
  mkGlobalData (UseNativeCpuid g) (SimulatedCpuid g) (SimulatedCpuidLeaf4 g)
    (SimulatedCpuidLeaf18 g) a (NumberOfSimulatedProcessors g)
    (CurrentProcessorAffinity g).
Definition set_NumberOfSimulatedProcessors (g : GLOBAL_DATA) (v : Z) :=
  mkGlobalData (UseNativeCpuid g) (SimulatedCpuid g) (SimulatedCpuidLeaf4 g)
    (SimulatedCpuidLeaf18 g) (SimulatedApicIds g) v (CurrentProcessorAffinity g).
Definition set_UseNativeCpuid (g : GLOBAL_DATA) (v : bool) :=
  mkGlobalData v (SimulatedCpuid g) (SimulatedCpuidLeaf4 g) (SimulatedCpuidLeaf18 g)
    (SimulatedApicIds g) (NumberOfSimulatedProcessors g) (CurrentProcessorAffinity g).

(** [t[i][j] = v] on a table of registers (the four stores of the code). *)
Definition store_table (t : list (list CPUID_REGISTERS)) (i j : Z) (v : CPUID_REGISTERS)
    : result (list (list CPUID_REGISTERS)) :=
  let* row := load t i in
  let* row := store row j v in
  store t i row.

(** [File_Internal_DispatchReadLeaf] *)
Definition File_Internal_DispatchReadLeaf (pFileContext : FILE_READ_CONTEXT)
    (LeafNumber : Z) : FILE_READ_CONTEXT * bool :=
  let ctx :=
    mkReadContext LeafNumber (Leaf4Index pFileContext) (Leaf18Index pFileContext) in
  let ctx :=
    if LeafNumber =? 4 then
      mkReadContext (CurrentLeaf ctx) (u32 (Leaf4Index ctx + 1)) (Leaf18Index ctx)
    else if LeafNumber =? 0x18 then
      mkReadContext (CurrentLeaf ctx) (Leaf4Index ctx) (u32 (Leaf18Index ctx + 1))
    else ctx in
  (ctx, true).

(** [File_Internal_DispatchReadSubleaf].  [scanned] is what the [fscanf] of
    the four registers delivered: [None] when it converted nothing. *)
Definition File_Internal_DispatchReadSubleaf (g : GLOBAL_DATA)
    (pFileContext : FILE_READ_CONTEXT) (SubleafNumber : Z)
    (scanned : option CPUID_REGISTERS) : result (GLOBAL_DATA * bool) :=
  let SubleafSuccess := false in
  match scanned with
  | Some registers =>
      let SubleafSuccess := true in
      if CurrentLeaf pFileContext =? 4 then
        let* t := store_table (SimulatedCpuidLeaf4 g)
                    (u32 (Leaf4Index pFileContext - 1)) SubleafNumber registers in
        Done (set_SimulatedCpuidLeaf4 g t, SubleafSuccess)
      else if CurrentLeaf pFileContext =? 0x18 then
        let* t := store_table (SimulatedCpuidLeaf18 g)
                    (u32 (Leaf18Index pFileContext - 1)) SubleafNumber registers in
        Done (set_SimulatedCpuidLeaf18 g t, SubleafSuccess)
      else if (CurrentLeaf pFileContext <? MAX_SIMULATED_LEAFS)
              && (SubleafNumber <? MAX_SIMULATED_SUBLEAFS) then
        let* t := store_table (SimulatedCpuid g) (CurrentLeaf pFileContext)
                    SubleafNumber registers in
        Done (set_SimulatedCpuid g t, SubleafSuccess)
      else Done (g, SubleafSuccess)
  | None => Done (g, SubleafSuccess)
  end.

(** [File_Internal_DispatchReadApicId] *)
Definition File_Internal_DispatchReadApicId (g : GLOBAL_DATA) (ApicIdNumber : Z)
    : result (GLOBAL_DATA * bool) :=
  if NumberOfSimulatedProcessors g <? MAX_PROCESSORS then
    let* a := store (SimulatedApicIds g) (NumberOfSimulatedProcessors g) ApicIdNumber in
    let g := set_SimulatedApicIds g a in
    Done (set_NumberOfSimulatedProcessors g (u32 (NumberOfSimulatedProcessors g + 1)),
          true)
  else Done (g, true).

(** One turn of the loop of [File_ReadCpuidFromFile]: the character and the
    number delivered by [fscanf("%c %i\n")] and, for a subleaf line, the
    registers delivered by the [fscanf] of the dispatch routine.  The same
    record stands for a line of a written file: its letter, its first
    number and, for an [S] line, its four registers. *)
Record FILE_LINE : Type := mkLine {
  Character : Ascii.ascii;
  FirstData : Z;
  Registers : option CPUID_REGISTERS
}.

(** Loop state: the global data, the context and [FileReadStatus]. *)
Definition ReadCpuidFromFile_line (s : GLOBAL_DATA * FILE_READ_CONTEXT * bool)
    (line : FILE_LINE) : result (GLOBAL_DATA * FILE_READ_CONTEXT * bool) :=
  let '(g, ctx, FileReadStatus) := s in
  if Ascii.eqb (Character line) "L"%char then
    let '(ctx, status) := File_Internal_DispatchReadLeaf ctx (FirstData line) in
    Done (g, ctx, status)
  else if Ascii.eqb (Character line) "S"%char then
    let* (g, status) :=
      File_Internal_DispatchReadSubleaf g ctx (FirstData line) (Registers line) in
    Done (g, ctx, status)
  else if Ascii.eqb (Character line) "A"%char then
    let* (g, status) := File_Internal_DispatchReadApicId g (FirstData line) in
    Done (g, ctx, status)
  else Done (g, ctx, false).

Fixpoint ReadCpuidFromFile_loop (lines : list FILE_LINE)
    (s : GLOBAL_DATA * FILE_READ_CONTEXT * bool)
    : result (GLOBAL_DATA * FILE_READ_CONTEXT * bool) :=
  match lines with
  | [] => Done s
  | line :: lines =>
      let* s := ReadCpuidFromFile_line s line in ReadCpuidFromFile_loop lines s
  end.

(** [File_ReadCpuidFromFile] on a file given by the turns of its loop, each
    with what the [fscanf] calls of the turn deliver; [None] when [fopen]
    fails.  Returns the global data and [FileReadStatus].  The turns of a
    file are not its lines ([text_turns] below gives the turns of a written
    file), and every file has a turn: on a file of no byte the one turn
    tests [Character] before anything was stored in it
    ([fscanf_turns]). *)
Definition File_ReadCpuidFromFile (g : GLOBAL_DATA) (file : option (list FILE_LINE))
    : result (GLOBAL_DATA * bool) :=
  let FileReadStatus := false in
  let FileContext := mkReadContext 0 0 0 in
  let g := set_UseNativeCpuid g false in
  match file with
  | Some lines =>
      let* (g, _, FileReadStatus) :=
        ReadCpuidFromFile_loop lines (g, FileContext, FileReadStatus) in
      Done (g, FileReadStatus)
  | None => Done (g, FileReadStatus)
  end.

(** ** From the text of a file to the turns of the reader *)

(** The turn after a subleaf line.  [fscanf("%u %u %u %u")] stops behind the
    last register and leaves the end of the line unread; on the next turn
    [%c] delivers the newline character and [%i], which meets a letter or
    the end of the file, delivers nothing: [fscanf] returns 1, [FirstData]
    keeps the subleaf number, and the [switch] takes its [default]. *)
Definition newline_turn (FirstData : Z) : FILE_LINE :=
  mkLine (Ascii.ascii_of_nat 10) FirstData None.

(** The turns of the loop on a file made of lines as [File_WriteCpuidToFile]
    writes them ([L %i], [S %u %u %u %u %u], [A %i], each ended by a
    newline).  The newline of an [L] or [A] line is consumed by the
    ["%c %i\n"] that reads the line, so the line is one turn; a subleaf line
    is the turn that scans its registers followed by [newline_turn]. *)
Fixpoint text_turns (text : list FILE_LINE) : list FILE_LINE :=
  match text with
  | [] => []
  | line :: text =>
      match Registers line with
      | Some _ => line :: newline_turn (FirstData line) :: text_turns text
      | None => line :: text_turns text
      end
  end.

(** A line in the format of the writer: an [S] line with its registers, an
    [L] or [A] line without.  The subleaf number of an [S] line is written
    with [%u] and read with [%i], which takes it as an [int]: it is below
    [2^31]. *)
Definition written_line (line : FILE_LINE) : bool :=
  match Registers line with
  | Some _ => Ascii.eqb (Character line) "S"%char && (FirstData line <? 2 ^ 31)
  | None => Ascii.eqb (Character line) "L"%char || Ascii.eqb (Character line) "A"%char
  end.

(** On a file of no byte [feof] is still false when the loop is entered,
    [fscanf] returns [EOF], which is not 0, and the [switch] reads
    [Character], which was never written. *)
Definition fscanf_turns (text : list FILE_LINE) : result (list FILE_LINE) :=
  match text with
  | [] => Undefined
  | _ :: _ => Done (text_turns text)
  end.

(** [File_ReadCpuidFromFile] on a file given by its lines. *)
Definition File_ReadCpuidFromFile_on_text (g : GLOBAL_DATA)
    (text : option (list FILE_LINE)) : result (GLOBAL_DATA * bool) :=
  match text with
  | Some text =>
      let* turns := fscanf_turns text in File_ReadCpuidFromFile g (Some turns)
  | None => File_ReadCpuidFromFile g None
  end.

(** The global data as the program starts: the static tables are zero. *)
Definition initial_GlobalData : GLOBAL_DATA :=
  mkGlobalData true
    (replicate (Z.to_nat MAX_SIMULATED_LEAFS)
       (replicate (Z.to_nat MAX_SIMULATED_SUBLEAFS) zero_registers))
    (replicate (Z.to_nat MAX_PROCESSORS)
       (replicate (Z.to_nat MAX_SIMULATED_SUBLEAFS) zero_registers))
    (replicate (Z.to_nat MAX_PROCESSORS)
       (replicate (Z.to_nat MAX_SIMULATED_SUBLEAFS) zero_registers))
    (replicate (Z.to_nat MAX_PROCESSORS) 0)
    0 0.

(** The static tables have their declared sizes. *)
Definition table_wf (rows cols : Z) (t : list (list CPUID_REGISTERS)) : Prop :=
  length t = Z.to_nat rows
  /\ forall i row, t !! i = Some row -> length row = Z.to_nat cols.

Definition GlobalData_wf (g : GLOBAL_DATA) : Prop :=
  table_wf MAX_SIMULATED_LEAFS MAX_SIMULATED_SUBLEAFS (SimulatedCpuid g)
  /\ table_wf MAX_PROCESSORS MAX_SIMULATED_SUBLEAFS (SimulatedCpuidLeaf4 g)
  /\ table_wf MAX_PROCESSORS MAX_SIMULATED_SUBLEAFS (SimulatedCpuidLeaf18 g)
  /\ length (SimulatedApicIds g) = Z.to_nat MAX_PROCESSORS
  /\ 0 <= NumberOfSimulatedProcessors g <= MAX_PROCESSORS.

(** The values of the lines that start with [A], in file order. *)
Definition ApicId_lines (lines : list FILE_LINE) : list Z :=
  map FirstData (List.filter (fun line => Ascii.eqb (Character line) "A"%char) lines).

(** A file fits the tables: its numbers are unsigned, and every subleaf line
    of leaf 4 or leaf 18H addresses an element of the per-processor table,
    that is, it follows at most [MAX_PROCESSORS] lines of its leaf and its
    subleaf number is below [MAX_SIMULATED_SUBLEAFS].  (The other leaves are
    tested by the reader itself.) *)
Fixpoint lines_fit_tables (lines : list FILE_LINE) (ctx : FILE_READ_CONTEXT) : bool :=
  match lines with
  | [] => true
  | line :: lines =>
      (0 <=? FirstData line)
      && (if Ascii.eqb (Character line) "L"%char then
            lines_fit_tables lines (fst (File_Internal_DispatchReadLeaf ctx (FirstData line)))
          else if Ascii.eqb (Character line) "S"%char then
            match Registers line with
            | Some _ =>
                if CurrentLeaf ctx =? 4 then
                  (1 <=? Leaf4Index ctx) && (Leaf4Index ctx <=? MAX_PROCESSORS)
                  && (FirstData line <? MAX_SIMULATED_SUBLEAFS)
                else if CurrentLeaf ctx =? 0x18 then
                  (1 <=? Leaf18Index ctx) && (Leaf18Index ctx <=? MAX_PROCESSORS)
                  && (FirstData line <? MAX_SIMULATED_SUBLEAFS)
                else true
            | None => true
            end && lines_fit_tables lines ctx
          else lines_fit_tables lines ctx)
  end.

(** The file of the format legend: [L 1], [S 0 1 2 3 4], [A 10]; and a file
    with a leaf 4 line for each of two processors. *)
Definition legend_file : list FILE_LINE :=
  [mkLine "L" 1 None; mkLine "S" 0 (Some (mkRegs 1 2 3 4)); mkLine "A" 10 None].

Definition two_processor_file : list FILE_LINE :=
  [mkLine "L" 0 None; mkLine "S" 0 (Some (mkRegs 0xB 0 0 0));
   mkLine "L" 4 None; mkLine "S" 0 (Some (mkRegs 0x121 0x01C0003F 0x3F 0));
   mkLine "S" 1 (Some zero_registers);
   mkLine "L" 4 None; mkLine "S" 0 (Some (mkRegs 0x122 0x01C0003F 0x3F 0));
   mkLine "S" 1 (Some zero_registers);
   mkLine "L" 0xB None; mkLine "S" 0 (Some (mkRegs 1 2 0x100 0));
   mkLine "S" 1 (Some (mkRegs 4 8 0x201 0)); mkLine "S" 2 (Some zero_registers);
   mkLine "A" 6 None; mkLine "A" 7 None].

(** ** The file writer *)

(** The [switch] that decides, after a subleaf was written, whether another
    one follows.  [CurrentSubleaf] is already incremented; [Original] is the
    subleaf 0 read first, [Read] the subleaf just written. *)
Definition WriteLeaf_NextSubleaf (LeafNumber CurrentSubleaf : Z)
    (Original Read : CPUID_REGISTERS) : bool :=
  if LeafNumber =? 4 then negb (Z.land (Eax Read) 0x1F =? 0)
  else if LeafNumber =? 0x18 then CurrentSubleaf <=? Eax Original
  else if (LeafNumber =? 0xB) || (LeafNumber =? 0x1F) then negb (Ebx Read =? 0)
  else false.

(** The [do ... while (NextSubleaf)] loop; state: [CurrentSubleaf],
    [OriginalCpuidRegisters], whether [pCpuidReadValues] still points to it,
    [NextSubleaf] and the lines written.  The loop is entered with
    [NextSubleaf] set, which runs the body once before the first test. *)
Definition WriteLeaf_cond (s : Z * CPUID_REGISTERS * bool * bool * list FILE_LINE) : bool :=
  let '(_, _, _, NextSubleaf, _) := s in NextSubleaf.

Definition WriteLeaf_body (m : MACHINE) (LeafNumber : Z)
    (s : Z * CPUID_REGISTERS * bool * bool * list FILE_LINE)
    : result (Z * CPUID_REGISTERS * bool * bool * list FILE_LINE) :=
  let '(CurrentSubleaf, OriginalCpuidRegisters, first, _, lines) := s in
  let Read := Tools_ReadCpuid m LeafNumber CurrentSubleaf in
  let OriginalCpuidRegisters := if first then Read else OriginalCpuidRegisters in
  let lines := lines ++ [mkLine "S" CurrentSubleaf (Some Read)] in
  let CurrentSubleaf := u32 (CurrentSubleaf + 1) in
  let NextSubleaf :=
    WriteLeaf_NextSubleaf LeafNumber CurrentSubleaf OriginalCpuidRegisters Read in
  Done (CurrentSubleaf, OriginalCpuidRegisters, false, NextSubleaf, lines).

(** [File_Internal_WriteLeafToFile]: the lines written for one leaf. *)
Definition File_Internal_WriteLeafToFile (fuel : nat) (m : MACHINE) (LeafNumber : Z)
    : result (list FILE_LINE) :=
  let lines := [mkLine "L" LeafNumber None] in
  let CurrentSubleaf := 0 in
  let* (_, _, _, _, lines) :=
    while fuel WriteLeaf_cond (WriteLeaf_body m LeafNumber)
      (CurrentSubleaf, zero_registers, true, true, lines) in
  Done lines.

(** The loops of [File_WriteCpuidToFile] over the processors; state: the
    machine, [Index] and the lines written. *)
Definition WriteCpuid_processor_cond (NumberOfProcessors : Z)
    (s : MACHINE * Z * list FILE_LINE) : bool :=
  let '(_, Index, _) := s in Index <? NumberOfProcessors.

Definition WriteCpuid_processor_body (fuel : nat) (LeafNumber : Z)
    (s : MACHINE * Z * list FILE_LINE) : result (MACHINE * Z * list FILE_LINE) :=
  let '(m, Index, lines) := s in
  let m := Tools_SetAffinity m Index in
  let* written := File_Internal_WriteLeafToFile fuel m LeafNumber in
  Done (m, u32 (Index + 1), lines ++ written).

(** The last loop; state: the machine, [CpuidRegisters], [Index] and the
    lines written.  [CpuidRegisters] is the variable leaf 0 was read into
    before the loop, and the one the loop reads into. *)
Definition WriteCpuid_ApicId_cond (NumberOfProcessors : Z)
    (s : MACHINE * CPUID_REGISTERS * Z * list FILE_LINE) : bool :=
  let '(_, _, Index, _) := s in Index <? NumberOfProcessors.

Definition WriteCpuid_ApicId_body (s : MACHINE * CPUID_REGISTERS * Z * list FILE_LINE)
    : result (MACHINE * CPUID_REGISTERS * Z * list FILE_LINE) :=
  let '(m, CpuidRegisters, Index, lines) := s in
  let m := Tools_SetAffinity m Index in
  let '(CpuidRegisters, ApicId) :=
    if 0xB <=? Eax CpuidRegisters then
      let CpuidRegisters := Tools_ReadCpuid m 0xB 0 in
      (CpuidRegisters, Edx CpuidRegisters)
    else
      let CpuidRegisters := Tools_ReadCpuid m 1 0 in
      (CpuidRegisters, Z.shiftr (Ebx CpuidRegisters) 24) in
  Done (m, CpuidRegisters, u32 (Index + 1), lines ++ [mkLine "A" ApicId None]).

(** [File_WriteCpuidToFile] with the file opened ([fopen] taken to
    succeed): the machine and the lines written.  [fuel] bounds the
    subleaves written for one leaf; a loop over the processors takes as many
    turns as there are processors. *)
Definition File_WriteCpuidToFile (fuel : nat) (m : MACHINE)
    : result (MACHINE * list FILE_LINE) :=
  let CpuidRegisters := Tools_ReadCpuid m 0 0 in
  let MaximumLeaf := Eax CpuidRegisters in
  let NumberOfProcessors := Tools_GetNumberOfProcessors m in
  let* lines := File_Internal_WriteLeafToFile fuel m 0 in
  let* lines :=
    if 1 <=? MaximumLeaf then
      let* written := File_Internal_WriteLeafToFile fuel m 1 in Done (lines ++ written)
    else Done lines in
  let* (m, lines) :=
    if 0x4 <=? MaximumLeaf then
      let* (m, _, lines) :=
        while (Z.to_nat NumberOfProcessors) (WriteCpuid_processor_cond NumberOfProcessors)
          (WriteCpuid_processor_body fuel 0x4) (m, 0, lines) in
      Done (m, lines)
    else Done (m, lines) in
  let* lines :=
    if 0xB <=? MaximumLeaf then
      let* written := File_Internal_WriteLeafToFile fuel m 0xB in Done (lines ++ written)
    else Done lines in
  let* (m, lines) :=
    if 0x18 <=? MaximumLeaf then
      let* (m, _, lines) :=
        while (Z.to_nat NumberOfProcessors) (WriteCpuid_processor_cond NumberOfProcessors)
          (WriteCpuid_processor_body fuel 0x18) (m, 0, lines) in
      Done (m, lines)
    else Done (m, lines) in
  let* lines :=
    if 0x1F <=? MaximumLeaf then
      let* written := File_Internal_WriteLeafToFile fuel m 0x1F in Done (lines ++ written)
    else Done lines in
  let* (m, _, _, lines) :=
    while (Z.to_nat NumberOfProcessors) (WriteCpuid_ApicId_cond NumberOfProcessors)
      WriteCpuid_ApicId_body (m, CpuidRegisters, 0, lines) in
  Done (m, lines).

(** The subleaf lines of a list of registers, numbered from [start]. *)
Fixpoint subleaf_lines (start : Z) (registers : list CPUID_REGISTERS) : list FILE_LINE :=
  match registers with
  | [] => []
  | r :: registers => mkLine "S" start (Some r) :: subleaf_lines (start + 1) registers
  end.

(** The identifier written in the [A] line of processor [Index]. *)
Definition x2apic_id (m : MACHINE) : Z := Edx (Tools_ReadCpuid m 0xB 0).
Definition legacy_id (m : MACHINE) : Z := Z.shiftr (Ebx (Tools_ReadCpuid m 1 0)) 24.

(** Subleaf [n] is the last one written for the leaf: the test after each
    earlier subleaf asks for another one, the test after subleaf [n] does
    not. *)
Definition last_written (m : MACHINE) (LeafNumber : Z) (n : nat) : Prop :=
  (forall k : nat, (k < n)%nat ->
     WriteLeaf_NextSubleaf LeafNumber (Z.of_nat k + 1) (Tools_ReadCpuid m LeafNumber 0)
       (Tools_ReadCpuid m LeafNumber (Z.of_nat k)) = true)
  /\ WriteLeaf_NextSubleaf LeafNumber (Z.of_nat n + 1) (Tools_ReadCpuid m LeafNumber 0)
       (Tools_ReadCpuid m LeafNumber (Z.of_nat n)) = false.

(** After [k] turns the subleaves below [k] are written. *)
Definition WriteLeaf_inv (m : MACHINE) (LeafNumber : Z) (n : nat)
    (s : Z * CPUID_REGISTERS * bool * bool * list FILE_LINE) : Prop :=
  exists k : nat,
    (k <= S n)%nat
    /\ s = (Z.of_nat k,
            match k with O => zero_registers | S _ => Tools_ReadCpuid m LeafNumber 0 end,
            match k with O => true | S _ => false end,
            match k with
            | O => true
            | S k' =>
                WriteLeaf_NextSubleaf LeafNumber (Z.of_nat k' + 1)
                  (Tools_ReadCpuid m LeafNumber 0)
                  (Tools_ReadCpuid m LeafNumber (Z.of_nat k'))
            end,
            mkLine "L" LeafNumber None :: subleaf_lines 0 (enumerated m LeafNumber k)).

Definition WriteLeaf_measure (n : nat)
    (s : Z * CPUID_REGISTERS * bool * bool * list FILE_LINE) : nat :=
  let '(CurrentSubleaf, _, _, _, _) := s in (S n - Z.to_nat CurrentSubleaf)%nat.

(** ** Replaying a saved leaf *)

(** Two platforms answer a topology leaf alike up to subleaf [n]: the same
    [EAX], [EBX] and [ECX] ([EDX], the identifier, is left out). *)
Definition same_topology_leaf (m m' : MACHINE) (Leaf : Z) (n : nat) : Prop :=
  forall k : nat, (k <= n)%nat ->
    let r := Tools_ReadCpuid m Leaf (Z.of_nat k) in
    let r' := Tools_ReadCpuid m' Leaf (Z.of_nat k) in
    Eax r' = Eax r /\ Ebx r' = Ebx r /\ Ecx r' = Ecx r.

(** Two runs end alike: both complete in related states, or both fail in
    the same way. *)
Definition result_rel {S T : Type} (R : S -> T -> Prop) (r : result S) (r' : result T)
    : Prop :=
  match r, r' with
  | Done s, Done t => R s t
  | Undefined, Undefined => True
  | OutOfFuel, OutOfFuel => True
  | _, _ => False
  end.

(** The states of the decoder loops on the two platforms after [k] turns:
    the same subleaf number and the same decoded values. *)
Definition ThreeDomain_replay_rel (m m' : MACHINE) (Leaf : Z) (n : nat)
    (s s' : Z * CPUID_REGISTERS * Z * Z) : Prop :=
  exists (k : nat) (LogicalProcessorShift PackageShift : Z),
    (k <= n)%nat
    /\ s = (Z.of_nat k, Tools_ReadCpuid m Leaf (Z.of_nat k),
            LogicalProcessorShift, PackageShift)
    /\ s' = (Z.of_nat k, Tools_ReadCpuid m' Leaf (Z.of_nat k),
             LogicalProcessorShift, PackageShift).

Definition ManyDomain_replay_rel (m m' : MACHINE) (Leaf : Z) (n : nat)
    (s s' : Z * CPUID_REGISTERS * APICID_BIT_LAYOUT_CTX) : Prop :=
  exists (k : nat) (ctx : APICID_BIT_LAYOUT_CTX),
    (k <= n)%nat
    /\ s = (Z.of_nat k, Tools_ReadCpuid m Leaf (Z.of_nat k), ctx)
    /\ s' = (Z.of_nat k, Tools_ReadCpuid m' Leaf (Z.of_nat k), ctx).

(** ** The identifiers the writer saves *)

(** Two states of one platform: they differ at most in the processor the
    thread is bound to. *)
Definition same_platform (m m' : MACHINE) : Prop :=
  UseNativeCpuid (g_GlobalData m') = UseNativeCpuid (g_GlobalData m)
  /\ SimulatedCpuid (g_GlobalData m') = SimulatedCpuid (g_GlobalData m)
  /\ SimulatedCpuidLeaf4 (g_GlobalData m') = SimulatedCpuidLeaf4 (g_GlobalData m)
  /\ SimulatedCpuidLeaf18 (g_GlobalData m') = SimulatedCpuidLeaf18 (g_GlobalData m)
  /\ SimulatedApicIds (g_GlobalData m') = SimulatedApicIds (g_GlobalData m)
  /\ NumberOfSimulatedProcessors (g_GlobalData m')
     = NumberOfSimulatedProcessors (g_GlobalData m)
  /\ Os m' = Os m.

(** The [A] line of turn [i] of the last loop, started on the state
    [m_end]: the identifier of leaf 0BH on the even turns, the 8-bit
    identifier of leaf 1 on the odd turns. *)
Definition alternating_id (m_end : MACHINE) (i : nat) : Z :=
  if Nat.even i then x2apic_id (affinity_after m_end (S i))
  else legacy_id (affinity_after m_end (S i)).

Definition WriteCpuid_ApicId_inv (m_end : MACHINE) (lines0 : list FILE_LINE) (N : Z)
    (s : MACHINE * CPUID_REGISTERS * Z * list FILE_LINE) : Prop :=
  exists k : nat,
    Z.of_nat k <= N
    /\ let '(m, CpuidRegisters, Index, lines) := s in
       m = affinity_after m_end k
       /\ Index = Z.of_nat k
       /\ (0xB <=? Eax CpuidRegisters) = Nat.even k
       /\ lines = lines0
                  ++ map (fun i => mkLine "A" (alternating_id m_end i) None) (seq 0 k).

Definition WriteCpuid_ApicId_measure (N : Z)
    (s : MACHINE * CPUID_REGISTERS * Z * list FILE_LINE) : nat :=
  let '(_, _, Index, _) := s in Z.to_nat (N - Index).

(** A native platform of two processors with the x2APIC identifiers 256 and
    257 in leaf 0BH and the 8-bit identifiers 0 and 1 in leaf 1. *)
Definition x2apic_pair_cpuid (cpu Leaf Subleaf : Z) : CPUID_REGISTERS :=
  if Leaf =? 0 then mkRegs 0xB 0x756e6547 0x6c65746e 0x49656e69
  else if Leaf =? 1 then mkRegs 0x000806F8 (cpu * 2 ^ 24) 0 0x10000000
  else if Leaf =? 0xB then
    if Subleaf =? 0 then mkRegs 1 2 0x100 (256 + cpu) else mkRegs 0 0 Subleaf (256 + cpu)
  else zero_registers.

Definition x2apic_pair_machine : MACHINE :=
  mkMachine (mkGlobalData true [] [] [] [] 0 0)
    (mkOs x2apic_pair_cpuid 2 (fun _ ProcessorNumber => ProcessorNumber)) 0.

(** ** What the resource passes keep true of their groups *)

Section ResourceGroupInvariant.
Context {A : Type}.
Variable group_id : A -> Z.
Variable group_mask : A -> Z.
Variable group_regs : A -> CPUID_REGISTERS.
Variable group_count : A -> Z.
Variable group_members : A -> list Z.
Variable mask_of : CPUID_REGISTERS -> Z.
Variable valid_regs : CPUID_REGISTERS -> Prop.

(** A recorded group: its mask is the mask of its snapshot, its snapshot
    is one the pass records, it has at least one member, and every member
    has the identifier of the group under the mask of the group. *)
Definition group_ok (e : A) : Prop :=
  group_mask e = mask_of (group_regs e)
  /\ valid_regs (group_regs e)
  /\ 1 <= group_count e <= MAX_PROCESSORS
  /\ forall (k : nat) (ApicId : Z),
       Z.of_nat k < group_count e -> group_members e !! k = Some ApicId ->
       Z.land ApicId (group_mask e) = group_id e.

(** The array of groups with its count: the count is inside the array,
    every element has its member array, the recorded groups are well formed
    and no two of them have both the same identifier and the same
    snapshot. *)
Definition groups_ok (s : list A * Z) : Prop :=
  let '(pInfo, N) := s in
  0 <= N <= Z.of_nat (length pInfo)
  /\ Z.of_nat (length pInfo) < 4294967295
  /\ (forall i e, pInfo !! i = Some e ->
        length (group_members e) = Z.to_nat MAX_PROCESSORS)
  /\ (forall i e, Z.of_nat i < N -> pInfo !! i = Some e -> group_ok e)
  /\ (forall i j e e', Z.of_nat i < N -> Z.of_nat j < N ->
        pInfo !! i = Some e -> pInfo !! j = Some e' ->
        group_id e = group_id e' -> group_regs e = group_regs e' -> i = j).
End ResourceGroupInvariant.

(** The snapshots the two passes record: a cache subleaf whose type is not
    [CacheType_NoMoreCaches]; a translation-buffer subleaf with [EAX]
    cleared whose type is not [TlbType_InvalidSubleaf]. *)
Definition cache_snapshot (r : CPUID_REGISTERS) : Prop :=
  Z.land (Eax r) 0x1F <> CacheType_NoMoreCaches.

Definition tlb_snapshot (r : CPUID_REGISTERS) : Prop :=
  Eax r = 0 /\ Z.land (Edx r) 0x1F <> TlbType_InvalidSubleaf.

Definition cache_groups_ok : list CPUID_CACHE_INFO * Z -> Prop :=
  groups_ok CacheId CacheMask CachedCpuidRegisters NumberOfLPsSharingThisCache
    ListOfApicIDsSharingThisCache CacheExample_mask cache_snapshot.

Definition tlb_groups_ok : list CPUID_TLB_INFO * Z -> Prop :=
  groups_ok TlbId TlbMask TlbCachedCpuidRegisters NumberOfLPsSharingThisTlb
    ListOfApicIDsSharingThisTlb TlbExample_mask tlb_snapshot.

(** ** [Display_ManyDomainExample] *)

Definition ManyDomainExample_names : list string :=
  ["Invalid"; "Logical Processor"; "Core"; "Module"; "Tile"; "Die"; "DieGrp"]%string.

(** [pszTopologyNames[pApicidBitLayoutCtx->ShiftValueDomain[DomainIndex]]] *)
Definition ManyDomainExample_name (ctx : APICID_BIT_LAYOUT_CTX) (DomainIndex : Z)
    : result string :=
  let* Domain := load (ShiftValueDomain ctx) DomainIndex in
  load ManyDomainExample_names Domain.

(** [v >> s] on [unsigned int]; a count of 32 or more is undefined. *)
Definition shr32 (v s : Z) : result Z :=
  if s <? 32 then Done (Z.shiftr v s) else Undefined.

(** First loop; state: [DomainIndex] and the mask lines printed so far. *)
Definition ManyDomainExample_mask_cond (ctx : APICID_BIT_LAYOUT_CTX)
    (s : Z * list (string * Z)) : bool :=
  let '(DomainIndex, _) := s in DomainIndex <? PackageDomainIndex ctx.

Definition ManyDomainExample_mask_body (ctx : APICID_BIT_LAYOUT_CTX)
    (s : Z * list (string * Z)) : result (Z * list (string * Z)) :=
  let '(DomainIndex, lines) := s in
  let* Shift := load (ShiftValues ctx) DomainIndex in
  if negb (Shift =? 0) then
    let* name := ManyDomainExample_name ctx DomainIndex in
    let* mask := load2 (DomainRelativeMasks ctx) DomainIndex DomainIndex in
    Done (u32 (DomainIndex + 1), lines ++ [(name, mask)])
  else Done (u32 (DomainIndex + 1), lines).

(** The two nests of loops over the pairs of levels have one shape.  The
    nest of the processor loop keeps [DomainShift] and prints
    [(mask & ApicId) >> DomainShift]; the nest before it prints the mask
    and has no [DomainShift].  [print] is the value printed for a mask and
    [DomainShift]. *)
Section ManyDomainExample_relative.
Variable ctx : APICID_BIT_LAYOUT_CTX.
Variable print : Z -> Z -> result Z.

(** Inner loop; state: [TopDomainIndex] and the lines printed so far. *)
Definition ManyDomainExample_top_cond (s : Z * list (string * string * Z)) : bool :=
  let '(TopDomainIndex, _) := s in TopDomainIndex <? PackageDomainIndex ctx.

Definition ManyDomainExample_top_body (DomainIndex DomainShift : Z)
    (s : Z * list (string * string * Z)) : result (Z * list (string * string * Z)) :=
  let '(TopDomainIndex, lines) := s in
  let* name := ManyDomainExample_name ctx DomainIndex in
  let* top := ManyDomainExample_name ctx TopDomainIndex in
  let* mask := load2 (DomainRelativeMasks ctx) DomainIndex TopDomainIndex in
  let* v := print mask DomainShift in
  Done (u32 (TopDomainIndex + 1), lines ++ [(name, top, v)]).

(** Outer loop; state: [DomainIndex], [DomainShift] and the lines printed
    so far. *)
Definition ManyDomainExample_relative_cond (s : Z * Z * list (string * string * Z))
    : bool :=
  let '(DomainIndex, _, _) := s in DomainIndex <? PackageDomainIndex ctx.

Definition ManyDomainExample_relative_body (s : Z * Z * list (string * string * Z))
    : result (Z * Z * list (string * string * Z)) :=
  let '(DomainIndex, DomainShift, lines) := s in
  let* Shift := load (ShiftValues ctx) DomainIndex in
  let* lines :=
    if negb (Shift =? 0) then
      let* (TopDomainIndex, lines) :=
        while (Z.to_nat MAXIMUM_DOMAINS + 1) ManyDomainExample_top_cond
          (ManyDomainExample_top_body DomainIndex DomainShift)
          (u32 (DomainIndex + 1), lines) in
      let* name := ManyDomainExample_name ctx DomainIndex in
      let* mask := load2 (DomainRelativeMasks ctx) DomainIndex TopDomainIndex in
      let* v := print mask DomainShift in
      Done (lines ++ [(name, "Package"%string, v)])
    else Done lines in
  Done (u32 (DomainIndex + 1), Shift, lines).

(** Every loop reads the arrays of the context at its index, so it ends or
    leaves them within [MAXIMUM_DOMAINS + 1] iterations. *)
Definition ManyDomainExample_relative : result (list (string * string * Z)) :=
  let* (_, _, lines) :=
    while (Z.to_nat MAXIMUM_DOMAINS + 1) ManyDomainExample_relative_cond
      ManyDomainExample_relative_body (0, 0, []) in
  Done lines.
End ManyDomainExample_relative.

(** Processor loop; state: [ProcessorIndex] and the blocks printed so far.
    A block is the processor number, its APIC ID, the package ID and the
    lines of the relative IDs. *)
Definition ManyDomainExample_processor_cond (NumberOfLogicalProcessors : Z)
    (s : Z * list (Z * Z * Z * list (string * string * Z))) : bool :=
  let '(ProcessorIndex, _) := s in ProcessorIndex <? NumberOfLogicalProcessors.

Definition ManyDomainExample_processor_body (ctx : APICID_BIT_LAYOUT_CTX)
    (ApicIdArray : list Z) (s : Z * list (Z * Z * Z * list (string * string * Z)))
    : result (Z * list (Z * Z * Z * list (string * string * Z))) :=
  let '(ProcessorIndex, blocks) := s in
  let* ApicId := load ApicIdArray ProcessorIndex in
  let* mask :=
    load2 (DomainRelativeMasks ctx) (PackageDomainIndex ctx) (PackageDomainIndex ctx) in
  let* Shift := load (ShiftValues ctx) (u32 (PackageDomainIndex ctx - 1)) in
  let* PackageId := shr32 (Z.land mask ApicId) Shift in
  let* ids :=
    ManyDomainExample_relative ctx
      (fun mask DomainShift => shr32 (Z.land mask ApicId) DomainShift) in
  Done (u32 (ProcessorIndex + 1), blocks ++ [(ProcessorIndex, ApicId, PackageId, ids)]).

Record MANY_DOMAIN_DISPLAY : Type := mkManyDomainDisplay {
  MaskLines : list (string * Z);
  PackageMaskLine : Z;
  RelativeMaskLines : list (string * string * Z);
  ProcessorBlocks : list (Z * Z * Z * list (string * string * Z))
}.

(** Returns the machine (the gatherer moves the affinity) and what is
    printed.  [Leaf] only selects the heading.  [ApicIdArray] is a local
    array of [MAX_PROCESSORS] elements. *)
Definition Display_ManyDomainExample (m : MACHINE) (Leaf : Z)
    (pApicidBitLayoutCtx : APICID_BIT_LAYOUT_CTX)
    : result (MACHINE * MANY_DOMAIN_DISPLAY) :=
  let ctx := pApicidBitLayoutCtx in
  let* (DomainIndex, masks) :=
    while (Z.to_nat MAXIMUM_DOMAINS + 1) (ManyDomainExample_mask_cond ctx)
      (ManyDomainExample_mask_body ctx) (0, []) in
  let* package := load2 (DomainRelativeMasks ctx) DomainIndex DomainIndex in
  let* relative := ManyDomainExample_relative ctx (fun mask _ => Done mask) in
  let* (m, ApicIdArray, NumberOfLogicalProcessors) :=
    Tools_GatherPlatformApicIds m (replicate (Z.to_nat MAX_PROCESSORS) 0)
      MAX_PROCESSORS in
  let* (_, blocks) :=
    while (Z.to_nat MAX_PROCESSORS)
      (ManyDomainExample_processor_cond NumberOfLogicalProcessors)
      (ManyDomainExample_processor_body ctx ApicIdArray) (0, []) in
  Done (m, mkManyDomainDisplay masks package relative blocks).

(** The name printed for level [i]. *)
Definition ManyDomainExample_level_name (ctx : APICID_BIT_LAYOUT_CTX) (i : nat) : string :=
  match ShiftValueDomain ctx !! i with
  | Some Domain =>
      match ManyDomainExample_names !! Z.to_nat Domain with
      | Some name => name
      | None => EmptyString
      end
  | None => EmptyString
  end.

(** The lines of a nest over the pairs of levels: every level [i] of
    non-zero shift has one line towards each level [j] above it, then one
    towards the package; [value i j] is the value of the line. *)
Definition relative_lines (ctx : APICID_BIT_LAYOUT_CTX) (value : nat -> nat -> Z)
    (k : nat) : list (string * string * Z) :=
  let p := Z.to_nat (PackageDomainIndex ctx) in
  flat_map
    (fun i =>
       if read_array (ShiftValues ctx) (Z.of_nat i) =? 0 then []
       else
         map (fun j => (ManyDomainExample_level_name ctx i,
                        ManyDomainExample_level_name ctx j, value i j))
           (seq (S i) (p - S i))
         ++ [(ManyDomainExample_level_name ctx i, "Package"%string, value i p)])
    (seq 0 k).

(** The bits [lo .. hi-1] of an identifier, as a number. *)
Definition apic_field (ApicId lo hi : Z) : Z := (ApicId mod 2 ^ hi) / 2 ^ lo.

(** The lines of the first loop for the levels below [k]; [value i] is
    the mask of the line of level [i]. *)
Definition mask_lines (ctx : APICID_BIT_LAYOUT_CTX) (value : nat -> Z) (k : nat)
    : list (string * Z) :=
  flat_map
    (fun i =>
       if read_array (ShiftValues ctx) (Z.of_nat i) =? 0 then []
       else [(ManyDomainExample_level_name ctx i, value i)])
    (seq 0 k).

(** The block of a processor: its number, its APIC ID, the bits of the
    APIC ID from the shift of the last level upward as the package ID, and
    for every line of the nest the bits of the APIC ID from the shift of
    the level below [i] up to, and not including, the shift of the level
    below [j]. *)
Definition ManyDomainExample_block (ctx : APICID_BIT_LAYOUT_CTX) (ProcessorIndex : nat)
    (ApicId : Z) : Z * Z * Z * list (string * string * Z) :=
  (Z.of_nat ProcessorIndex, ApicId,
   apic_field ApicId (previous_shift ctx (PackageDomainIndex ctx)) 32,
   relative_lines ctx
     (fun i j => apic_field ApicId (previous_shift ctx (Z.of_nat i))
                   (previous_shift ctx (Z.of_nat j)))
     (Z.to_nat (PackageDomainIndex ctx))).

(** The mask of the bits [lo .. hi-1]; 0 when there is no such bit. *)
Definition range_mask (lo hi : Z) : Z := if lo <? hi then 2 ^ hi - 2 ^ lo else 0.

(** ** [Display_Internal_DisplaySubLeafs] *)

(** The [do ... while (NextSubleaf)] loop; state: [CurrentSubleaf],
    [OriginalCpuidRegisters], whether [pCpuidReadValues] still points to it,
    [NextSubleaf] and the lines printed, a line being the leaf, the subleaf
    and the registers.  The [switch] is the one of the file writer.  The
    loop is entered with [NextSubleaf] set, which runs the body once before
    the first test. *)
Definition DisplaySubLeafs_cond
    (s : Z * CPUID_REGISTERS * bool * bool * list (Z * Z * CPUID_REGISTERS)) : bool :=
  let '(_, _, _, NextSubleaf, _) := s in NextSubleaf.

Definition DisplaySubLeafs_body (m : MACHINE) (Leaf : Z)
    (s : Z * CPUID_REGISTERS * bool * bool * list (Z * Z * CPUID_REGISTERS))
    : result (Z * CPUID_REGISTERS * bool * bool * list (Z * Z * CPUID_REGISTERS)) :=
  let '(CurrentSubleaf, OriginalCpuidRegisters, first, _, lines) := s in
  let Read := Tools_ReadCpuid m Leaf CurrentSubleaf in
  let OriginalCpuidRegisters := if first then Read else OriginalCpuidRegisters in
  let lines := lines ++ [(Leaf, CurrentSubleaf, Read)] in
  let CurrentSubleaf := u32 (CurrentSubleaf + 1) in
  let NextSubleaf :=
    WriteLeaf_NextSubleaf Leaf CurrentSubleaf OriginalCpuidRegisters Read in
  Done (CurrentSubleaf, OriginalCpuidRegisters, false, NextSubleaf, lines).

(** The lines printed for one leaf; none when leaf 0 reports a highest leaf
    below it.  [OriginalCpuidRegisters] holds leaf 0 until the first turn
    of the loop reads subleaf 0 of the leaf into it. *)
Definition Display_Internal_DisplaySubLeafs (fuel : nat) (m : MACHINE) (Leaf : Z)
    : result (list (Z * Z * CPUID_REGISTERS)) :=
  let CurrentSubleaf := 0 in
  let OriginalCpuidRegisters := Tools_ReadCpuid m 0 0 in
  if Leaf <=? Eax OriginalCpuidRegisters then
    let* (_, _, _, _, lines) :=
      while fuel DisplaySubLeafs_cond (DisplaySubLeafs_body m Leaf)
        (CurrentSubleaf, OriginalCpuidRegisters, true, true, []) in
    Done lines
  else Done [].

(** The lines of a file as the display prints them for leaf [Leaf]: one
    line for each line that carries registers. *)
Definition displayed_lines (Leaf : Z) (lines : list FILE_LINE)
    : list (Z * Z * CPUID_REGISTERS) :=
  flat_map
    (fun l => match Registers l with
              | Some r => [(Leaf, FirstData l, r)]
              | None => []
              end)
    lines.

Definition result_map {A B : Type} (f : A -> B) (r : result A) : result B :=
  let* a := r in Done (f a).

(** The states of the loop of the display and of the loop of the writer
    after the same number of turns. *)
Definition DisplaySubLeafs_rel (Leaf : Z)
    (s : Z * CPUID_REGISTERS * bool * bool * list (Z * Z * CPUID_REGISTERS))
    (t : Z * CPUID_REGISTERS * bool * bool * list FILE_LINE) : Prop :=
  let '(CurrentSubleaf, Original, first, NextSubleaf, shown) := s in
  let '(CurrentSubleaf', Original', first', NextSubleaf', written) := t in
  CurrentSubleaf = CurrentSubleaf' /\ first = first' /\ NextSubleaf = NextSubleaf'
  /\ (first = false -> Original = Original')
  /\ displayed_lines Leaf written = shown.

(** ** The status of the file reader *)

(** [FileReadStatus] after one turn: a leaf turn and an APIC ID turn set
    it, a subleaf turn sets it when its registers were scanned, any other
    turn clears it. *)
Definition line_status (line : FILE_LINE) : bool :=
  if Ascii.eqb (Character line) "L"%char then true
  else if Ascii.eqb (Character line) "S"%char then
    match Registers line with Some _ => true | None => false end
  else if Ascii.eqb (Character line) "A"%char then true
  else false.

(** The status of a file in the format of the writer: whether its last
    line is a leaf line or an APIC ID line. *)
Definition text_status (text : list FILE_LINE) : bool :=
  match last text with
  | Some line => match Registers line with Some _ => false | None => true end
  | None => false
  end.

(** The file of the format legend cut after its subleaf line. *)
Definition cut_legend_file : list FILE_LINE :=
  [mkLine "L" 1 None; mkLine "S" 0 (Some (mkRegs 1 2 3 4))].
(** * Theorems *)

(** ** Machine integers and the [result] monad *)

Lemma u32_small (x : Z) : 0 <= x < 4294967296 -> u32 x = x.
Proof. intros H. unfold u32, u32_modulus. apply Z.mod_small. exact H. Qed.

Lemma u32_range (x : Z) : 0 <= u32 x < 4294967296.
Proof. unfold u32, u32_modulus. apply Z.mod_pos_bound. reflexivity. Qed.

Lemma bind_Done {A B : Type} (r : result A) (k : A -> result B) (b : B) :
  bind r k = Done b -> exists a, r = Done a /\ k a = Done b.
Proof. destruct r as [a| |]; simpl; intros H; try discriminate. eauto. Qed.

Lemma load_Done {A : Type} (a : list A) (i : Z) (v : A) :
  load a i = Done v <-> 0 <= i /\ a !! Z.to_nat i = Some v.
Proof.
  unfold load. split.
  - destruct (Z.leb_spec 0 i); simpl; [|discriminate].
    destruct (Z.ltb_spec i (Z.of_nat (length a))); [|discriminate].
    destruct (a !! Z.to_nat i); [|discriminate].
    intros [= ->]. auto.
  - intros [Hi Hl].
    assert (Z.to_nat i < length a)%nat by (eapply lookup_lt_Some; eauto).
    destruct (Z.leb_spec 0 i); [|lia]. simpl.
    destruct (Z.ltb_spec i (Z.of_nat (length a))); [|lia].
    rewrite Hl. reflexivity.
Qed.

Lemma load_in_range {A : Type} (a : list A) (i : Z) :
  0 <= i < Z.of_nat (length a) -> exists v, load a i = Done v /\ a !! Z.to_nat i = Some v.
Proof.
  intros Hi.
  destruct (lookup_lt_is_Some_2 a (Z.to_nat i)) as [v Hv]; [lia|].
  exists v. split; [|exact Hv]. apply load_Done. split; [lia|exact Hv].
Qed.

Lemma load_out_of_range {A : Type} (a : list A) (i : Z) :
  Z.of_nat (length a) <= i -> load a i = Undefined.
Proof.
  intros Hi. unfold load.
  destruct (Z.ltb_spec i (Z.of_nat (length a))); [lia|].
  rewrite andb_false_r. reflexivity.
Qed.

Lemma store_in_range {A : Type} (a : list A) (i : Z) (v : A) :
  0 <= i < Z.of_nat (length a) -> store a i v = Done (<[Z.to_nat i := v]> a).
Proof.
  intros Hi. unfold store.
  destruct (Z.leb_spec 0 i); [|lia].
  destruct (Z.ltb_spec i (Z.of_nat (length a))); [|lia]. reflexivity.
Qed.

Lemma store_Done {A : Type} (a a' : list A) (i : Z) (v : A) :
  store a i v = Done a' ->
  0 <= i < Z.of_nat (length a) /\ a' = <[Z.to_nat i := v]> a.
Proof.
  unfold store.
  destruct (Z.leb_spec 0 i); simpl; [|discriminate].
  destruct (Z.ltb_spec i (Z.of_nat (length a))); [|discriminate].
  intros [= <-]. split; [lia|reflexivity].
Qed.

(** ** The loop rule *)

(** A loop whose body keeps an invariant and decreases a measure ends, within
    as many iterations as the measure allows, in a state that satisfies the
    invariant and falsifies the condition. *)
Lemma while_invariant {S : Type} (Inv : S -> Prop) (measure : S -> nat)
    (cond : S -> bool) (body : S -> result S) :
  (forall s, Inv s -> cond s = true ->
     exists s', body s = Done s' /\ Inv s' /\ (measure s' < measure s)%nat) ->
  forall (fuel : nat) (s : S),
    Inv s -> (measure s <= fuel)%nat ->
    exists s', while fuel cond body s = Done s' /\ Inv s' /\ cond s' = false.
Proof.
  intros Hstep fuel. induction fuel as [|fuel IH]; intros s Hinv Hm.
  - simpl. destruct (cond s) eqn:Hc.
    + destruct (Hstep s Hinv Hc) as (s' & _ & _ & Hlt). lia.
    + exists s. auto.
  - simpl. destruct (cond s) eqn:Hc.
    + destruct (Hstep s Hinv Hc) as (s' & Hb & Hinv' & Hlt).
      rewrite Hb. simpl. apply IH; [exact Hinv'|lia].
    + exists s. auto.
Qed.

(** ** [Tools_CreateTopologyShift] *)

Lemma land_pow2 (c k : Z) :
  0 <= k -> Z.land c (2 ^ k) = if Z.testbit c k then 2 ^ k else 0.
Proof.
  intros Hk. apply Z.bits_inj'. intros n Hn.
  rewrite Z.land_spec, Z.pow2_bits_eqb by lia.
  destruct (Z.eqb_spec k n) as [->|Hne].
  - destruct (Z.testbit c n) eqn:E; simpl.
    + rewrite Z.pow2_bits_true by lia. reflexivity.
    + rewrite Z.bits_0. reflexivity.
  - rewrite andb_false_r.
    destruct (Z.testbit c k).
    + rewrite Z.pow2_bits_false by lia. reflexivity.
    + rewrite Z.bits_0. reflexivity.
Qed.

Lemma testbit_top (c k : Z) :
  0 <= k -> 0 <= c < 2 ^ (k + 1) -> Z.testbit c k = (2 ^ k <=? c).
Proof.
  intros Hk Hc.
  rewrite Z.testbit_eqb by lia.
  rewrite Z.pow_add_r in Hc by lia. change (2 ^ 1) with 2 in Hc.
  assert (Hp : 0 < 2 ^ k) by (apply Z.pow_pos_nonneg; lia).
  destruct (Z.leb_spec (2 ^ k) c) as [Hle|Hlt].
  - assert (c / 2 ^ k = 1) as ->.
    { symmetry. apply (Z.div_unique c (2 ^ k) 1 (c - 2 ^ k)); lia. }
    reflexivity.
  - rewrite Z.div_small by lia. reflexivity.
Qed.

(** The loop started at bit [k] on a non-zero value below [2^(k+1)] stops at
    the position of its highest set bit. *)
Lemma CreateTopologyShift_loop_log2 (k : nat) :
  forall (fuel : nat) (c : Z),
    (k < fuel)%nat -> (k <= 31)%nat ->
    0 < c < 2 ^ (Z.of_nat k + 1) ->
    CreateTopologyShift_loop fuel c (2 ^ Z.of_nat k) (Z.of_nat k) = Z.log2 c.
Proof.
  induction k as [|k IH]; intros fuel c Hf Hk Hc.
  - destruct fuel as [|fuel]; [lia|]. simpl in Hc.
    assert (c = 1) as -> by lia. reflexivity.
  - destruct fuel as [|fuel]; [lia|].
    cbn [CreateTopologyShift_loop].
    assert (Hp : 0 < 2 ^ Z.of_nat (S k)) by (apply Z.pow_pos_nonneg; lia).
    destruct (Z.eqb_spec (2 ^ Z.of_nat (S k)) 0) as [E|_]; [lia|].
    rewrite land_pow2 by lia.
    rewrite testbit_top by lia.
    destruct (Z.leb_spec (2 ^ Z.of_nat (S k)) c) as [Hle|Hlt].
    + destruct (Z.eqb_spec (2 ^ Z.of_nat (S k)) 0) as [E|_]; [lia|].
      simpl negb. cbv iota.
      symmetry. apply Z.log2_unique; [lia|].
      replace (Z.succ (Z.of_nat (S k))) with (Z.of_nat (S k) + 1) by lia. lia.
    + rewrite Z.eqb_refl. simpl negb. cbv iota.
      rewrite Z.shiftr_div_pow2 by lia. change (2 ^ 1) with 2.
      replace (2 ^ Z.of_nat (S k) / 2) with (2 ^ Z.of_nat k).
      2:{ rewrite Nat2Z.inj_succ, Z.pow_succ_r by lia.
          rewrite Z.mul_comm, Z.div_mul by lia. reflexivity. }
      replace (u32 (Z.of_nat (S k) - 1)) with (Z.of_nat k).
      2:{ unfold u32, u32_modulus. rewrite Z.mod_small; [lia|].
          split; [lia|]. change (2 ^ 32) with 4294967296. lia. }
      apply IH; [lia|lia|].
      replace (Z.of_nat k + 1) with (Z.of_nat (S k)) by lia. lia.
Qed.

Lemma Tools_CreateTopologyShift_log2 (count : Z) :
  1 <= count <= 2 ^ 31 ->
  Tools_CreateTopologyShift count = Z.log2 (2 * count - 1).
Proof.
  intros Hc. unfold Tools_CreateTopologyShift.
  assert (E : u32 (count * 2 - 1) = 2 * count - 1).
  { unfold u32, u32_modulus. replace (count * 2 - 1) with (2 * count - 1) by lia.
    apply Z.mod_small.
    change (2 ^ 32) with 4294967296. change (2 ^ 31) with 2147483648 in Hc. lia. }
  rewrite E.
  change (shl32 1 31) with (2 ^ Z.of_nat 31).
  apply (CreateTopologyShift_loop_log2 31); [lia|lia|].
  change (2 ^ (Z.of_nat 31 + 1)) with 4294967296.
  change (2 ^ 31) with 2147483648 in Hc. lia.
Qed.

(** C1 (as amended): for every count from 1 to 2^31,
    [Tools_CreateTopologyShift] returns the smallest shift [s] with
    [(1 << s) >= count]; and the shifts of 1, 2, 3, 4, 5 are 0, 1, 2, 2, 3. *)
Theorem Tools_CreateTopologyShift_smallest (count : Z) :
  1 <= count <= 2 ^ 31 ->
  smallest_shift count (Tools_CreateTopologyShift count)
  /\ Tools_CreateTopologyShift 1 = 0
  /\ Tools_CreateTopologyShift 2 = 1
  /\ Tools_CreateTopologyShift 3 = 2
  /\ Tools_CreateTopologyShift 4 = 2
  /\ Tools_CreateTopologyShift 5 = 3.
Proof.
  intros Hc. split; [|repeat split; reflexivity].
  rewrite Tools_CreateTopologyShift_log2 by exact Hc.
  set (s := Z.log2 (2 * count - 1)).
  assert (Hs0 : 0 <= s) by apply Z.log2_nonneg.
  destruct (Z.log2_spec (2 * count - 1)) as [Hlo Hhi]; [lia|].
  fold s in Hlo, Hhi.
  rewrite Z.pow_succ_r in Hhi by exact Hs0.
  unfold smallest_shift. split; [exact Hs0|]. split; [lia|].
  intros t Ht.
  assert (Hmono : 2 ^ t <= 2 ^ (s - 1)) by (apply Z.pow_le_mono_r; lia).
  assert (Hsplit : 2 ^ s = 2 * 2 ^ (s - 1)).
  { rewrite <- Z.pow_succ_r by lia. f_equal. lia. }
  lia.
Qed.

Lemma Tools_CreateTopologyShift_smallest_witness :
  smallest_shift 3 (Tools_CreateTopologyShift 3)
  /\ Tools_CreateTopologyShift 1 = 0
  /\ Tools_CreateTopologyShift 2 = 1
  /\ Tools_CreateTopologyShift 3 = 2
  /\ Tools_CreateTopologyShift 4 = 2
  /\ Tools_CreateTopologyShift 5 = 3.
Proof. apply (Tools_CreateTopologyShift_smallest 3). simpl. lia. Defined.

(** C1 as stated fails above 2^31: the doubling wraps, and for the count
    2^31 + 1 the function returns 0 although [1 << 0] is below the count. *)
Lemma Tools_CreateTopologyShift_wraps :
  1 <= 2147483649 < 2 ^ 32
  /\ Tools_CreateTopologyShift 2147483649 = 0
  /\ ~ smallest_shift 2147483649 (Tools_CreateTopologyShift 2147483649).
Proof.
  split; [simpl; lia|]. split; [reflexivity|].
  change (Tools_CreateTopologyShift 2147483649) with 0.
  unfold smallest_shift. simpl. lia.
Qed.

(** ** [Tools_ReadCpuid] and [Tools_SetAffinity] on a recorded trace *)

Lemma Tools_ReadCpuid_beyond_limits (m : MACHINE) (Leaf Subleaf : Z) :
  UseNativeCpuid (g_GlobalData m) = false ->
  MAX_SIMULATED_LEAFS <= Leaf \/ MAX_SIMULATED_SUBLEAFS <= Subleaf ->
  Tools_ReadCpuid m Leaf Subleaf = zero_registers.
Proof.
  intros Hsim Hout. unfold Tools_ReadCpuid. rewrite Hsim.
  destruct (Z.ltb_spec Leaf MAX_SIMULATED_LEAFS) as [Hl|Hl]; [|reflexivity].
  destruct (Z.ltb_spec Subleaf MAX_SIMULATED_SUBLEAFS) as [Hs|Hs]; [|reflexivity].
  lia.
Qed.

(** C9: in simulated mode a query at a leaf from [MAX_SIMULATED_LEAFS] on, or
    at a subleaf from [MAX_SIMULATED_SUBLEAFS] on, answers four zero
    registers, whatever the current affinity. *)
Theorem Tools_ReadCpuid_simulated_out_of_range (m : MACHINE) (Leaf Subleaf : Z) :
  UseNativeCpuid (g_GlobalData m) = false ->
  MAX_SIMULATED_LEAFS <= Leaf \/ MAX_SIMULATED_SUBLEAFS <= Subleaf ->
  Tools_ReadCpuid m Leaf Subleaf = zero_registers.
Proof. exact (Tools_ReadCpuid_beyond_limits m Leaf Subleaf). Qed.

Lemma Tools_ReadCpuid_simulated_out_of_range_witness :
  Tools_ReadCpuid trace_machine 0x1F 10 = zero_registers.
Proof.
  apply (Tools_ReadCpuid_simulated_out_of_range trace_machine 0x1F 10).
  - reflexivity.
  - right. unfold MAX_SIMULATED_SUBLEAFS. lia.
Defined.

(** C10: in simulated mode [Tools_SetAffinity] with a processor number at or
    above the number of simulated processors changes nothing, and every
    later query answers as before. *)
Theorem Tools_SetAffinity_simulated_ignored (m : MACHINE) (ProcessorNumber : Z) :
  UseNativeCpuid (g_GlobalData m) = false ->
  NumberOfSimulatedProcessors (g_GlobalData m) <= ProcessorNumber ->
  Tools_SetAffinity m ProcessorNumber = m
  /\ forall Leaf Subleaf,
       Tools_ReadCpuid (Tools_SetAffinity m ProcessorNumber) Leaf Subleaf
       = Tools_ReadCpuid m Leaf Subleaf.
Proof.
  intros Hsim Hge.
  assert (E : Tools_SetAffinity m ProcessorNumber = m).
  { unfold Tools_SetAffinity. rewrite Hsim.
    destruct (Z.ltb_spec ProcessorNumber (NumberOfSimulatedProcessors (g_GlobalData m)));
      [lia|reflexivity]. }
  split; [exact E|]. intros Leaf Subleaf. rewrite E. reflexivity.
Qed.

Lemma Tools_SetAffinity_simulated_ignored_witness :
  Tools_SetAffinity trace_machine 2 = trace_machine
  /\ forall Leaf Subleaf,
       Tools_ReadCpuid (Tools_SetAffinity trace_machine 2) Leaf Subleaf
       = Tools_ReadCpuid trace_machine Leaf Subleaf.
Proof.
  apply (Tools_SetAffinity_simulated_ignored trace_machine 2).
  - reflexivity.
  - simpl. lia.
Defined.

(** ** Enumerations *)

Lemma enumerated_S (m : MACHINE) (Leaf : Z) (k : nat) :
  enumerated m Leaf (S k)
  = enumerated m Leaf k ++ [Tools_ReadCpuid m Leaf (Z.of_nat k)].
Proof. unfold enumerated. rewrite seq_S, map_app. reflexivity. Qed.

Lemma enumerated_length (m : MACHINE) (Leaf : Z) (n : nat) :
  length (enumerated m Leaf n) = n.
Proof. unfold enumerated. rewrite length_map, length_seq. reflexivity. Qed.

Lemma terminated_at_spec (m : MACHINE) (Leaf : Z) (n : nat) :
  terminated_at m Leaf n = true ->
  (forall k, (k < n)%nat -> Ebx (Tools_ReadCpuid m Leaf (Z.of_nat k)) <> 0)
  /\ Ebx (Tools_ReadCpuid m Leaf (Z.of_nat n)) = 0.
Proof.
  unfold terminated_at. intros H. apply andb_prop in H. destruct H as [Hall Hend].
  split; [|apply Z.eqb_eq; exact Hend].
  intros k Hk. rewrite forallb_forall in Hall.
  specialize (Hall (Tools_ReadCpuid m Leaf (Z.of_nat k))).
  assert (Hin : In (Tools_ReadCpuid m Leaf (Z.of_nat k)) (enumerated m Leaf n)).
  { unfold enumerated. apply in_map_iff. exists k. split; [reflexivity|].
    apply in_seq. lia. }
  apply Hall in Hin. apply negb_true_iff in Hin. apply Z.eqb_neq in Hin. exact Hin.
Qed.

Lemma forallb_false {B : Type} (f : B -> bool) (l : list B) :
  forallb f l = false -> exists x, In x l /\ f x = false.
Proof.
  induction l as [|x l IH]; simpl; [discriminate|].
  destruct (f x) eqn:E; simpl.
  - intros H. destruct (IH H) as (y & Hin & Hy). exists y. auto.
  - intros _. exists x. auto.
Qed.

(** An enumeration that meets a zero [EBX] at subleaf [N] ends at or before
    [N]. *)
Lemma enumeration_ends (m : MACHINE) (Leaf : Z) (N : nat) :
  Ebx (Tools_ReadCpuid m Leaf (Z.of_nat N)) = 0 ->
  exists n, (n <= N)%nat /\ terminated_at m Leaf n = true.
Proof.
  induction N as [N IH] using lt_wf_ind. intros Hzero.
  destruct (forallb (fun r => negb (Ebx r =? 0)) (enumerated m Leaf N)) eqn:Hall.
  - exists N. split; [lia|]. unfold terminated_at. rewrite Hall, Hzero. reflexivity.
  - apply forallb_false in Hall. destruct Hall as (x & Hin & Hx).
    unfold enumerated in Hin. apply in_map_iff in Hin.
    destruct Hin as (k & <- & Hk). apply in_seq in Hk.
    apply negb_false_iff, Z.eqb_eq in Hx.
    destruct (IH k ltac:(lia) Hx) as (n & Hn & Hterm).
    exists n. split; [lia|exact Hterm].
Qed.

(** A recorded trace ends every enumeration within
    [MAX_SIMULATED_SUBLEAFS] subleaves. *)
Lemma simulated_enumeration_ends (m : MACHINE) (Leaf : Z) :
  UseNativeCpuid (g_GlobalData m) = false ->
  exists n, (n <= 10)%nat /\ terminated_at m Leaf n = true.
Proof.
  intros Hsim. apply enumeration_ends.
  rewrite Tools_ReadCpuid_beyond_limits; [reflexivity|exact Hsim|].
  right. unfold MAX_SIMULATED_SUBLEAFS. lia.
Qed.

(** ** [ParseCpu_CpuidThreeDomainExample] *)

Section ThreeDomain.
Variables (m : MACHINE) (Leaf : Z) (n : nat).
Hypothesis Hn : Z.of_nat n < 2 ^ 32.
Hypothesis Hterm : terminated_at m Leaf n = true.

Lemma ThreeDomain_step (s : Z * CPUID_REGISTERS * Z * Z) :
  ThreeDomain_inv m Leaf n s -> ThreeDomain_cond s = true ->
  exists s', ThreeDomain_body m Leaf s = Done s' /\ ThreeDomain_inv m Leaf n s'
             /\ (ThreeDomain_measure n s' < ThreeDomain_measure n s)%nat.
Proof.
  intros (k & Hk & ->) Hcond.
  destruct (terminated_at_spec _ _ _ Hterm) as [_ Hend].
  assert (Hlt : (k < n)%nat).
  { destruct (Nat.eq_dec k n) as [->|]; [|lia].
    unfold ThreeDomain_cond in Hcond. rewrite Hend in Hcond. discriminate. }
  assert (Hnext : u32 (Z.of_nat k + 1) = Z.of_nat (S k)).
  { change (2 ^ 32) with 4294967296 in Hn. rewrite u32_small; lia. }
  eexists. split; [|split].
  - unfold ThreeDomain_body. rewrite Hnext. reflexivity.
  - exists (S k). split; [lia|].
    rewrite enumerated_S, List.filter_app, !map_app. simpl.
    rewrite !List.last_last.
    fold (DomainType_of (Tools_ReadCpuid m Leaf (Z.of_nat k))).
    fold (DomainShift_of (Tools_ReadCpuid m Leaf (Z.of_nat k))).
    unfold is_LogicalProcessor.
    set (ty := DomainType_of (Tools_ReadCpuid m Leaf (Z.of_nat k))).
    destruct (Z.eqb_spec ty InvalidDomain) as [E0|N0].
    + destruct (Z.eqb_spec ty LogicalProcessorDomain) as [E1|N1].
      * rewrite E0 in E1. discriminate.
      * simpl. rewrite app_nil_r. reflexivity.
    + destruct (Z.eqb_spec ty LogicalProcessorDomain) as [E1|N1].
      * simpl. rewrite List.last_last. reflexivity.
      * simpl. rewrite app_nil_r. reflexivity.
  - unfold ThreeDomain_measure. lia.
Qed.

Lemma ThreeDomain_loop (fuel : nat) :
  (n <= fuel)%nat ->
  while fuel ThreeDomain_cond (ThreeDomain_body m Leaf)
    (0, Tools_ReadCpuid m Leaf 0, 0, 0)
  = Done (Z.of_nat n, Tools_ReadCpuid m Leaf (Z.of_nat n),
          List.last (map DomainShift_of
                       (List.filter is_LogicalProcessor (enumerated m Leaf n))) 0,
          List.last (map DomainShift_of (enumerated m Leaf n)) 0).
Proof.
  intros Hfuel.
  destruct (while_invariant (ThreeDomain_inv m Leaf n) (ThreeDomain_measure n) ThreeDomain_cond
              (ThreeDomain_body m Leaf) ThreeDomain_step fuel
              (0, Tools_ReadCpuid m Leaf 0, 0, 0))
    as (s' & Hrun & (k & Hk & ->) & Hcond).
  - exists O. split; [lia|reflexivity].
  - simpl. lia.
  - rewrite Hrun.
    destruct (terminated_at_spec _ _ _ Hterm) as [Hbefore _].
    destruct (Nat.eq_dec k n) as [->|Hne]; [reflexivity|].
    exfalso. apply (Hbefore k); [lia|].
    unfold ThreeDomain_cond in Hcond. apply negb_false_iff in Hcond.
    apply Z.eqb_eq. exact Hcond.
Qed.
End ThreeDomain.

(** C6: when the enumeration ends at subleaf [n] (zero [EBX]), the package
    shift reported by the three-domain decoder is the shift of the last
    enumerated subleaf, whatever its domain type, and the logical-processor
    shift is the shift of the last subleaf of type LogicalProcessor (0 when
    there is none); every fuel from [n] on gives this result. *)
Theorem ParseCpu_CpuidThreeDomainExample_shifts (m : MACHINE) (Leaf : Z)
    (n fuel : nat) :
  Z.of_nat n < 2 ^ 32 ->
  terminated_at m Leaf n = true ->
  (n <= fuel)%nat ->
  ParseCpu_CpuidThreeDomainExample fuel m Leaf
  = Done (List.last (map DomainShift_of (enumerated m Leaf n)) 0,
          List.last (map DomainShift_of
                       (List.filter is_LogicalProcessor (enumerated m Leaf n))) 0).
Proof.
  intros Hn Hterm Hfuel. unfold ParseCpu_CpuidThreeDomainExample.
  rewrite (ThreeDomain_loop m Leaf n Hn Hterm fuel Hfuel). reflexivity.
Qed.

(** On a recorded trace the three-domain decoder always returns, within
    [MAX_SIMULATED_SUBLEAFS] iterations. *)
Lemma ParseCpu_CpuidThreeDomainExample_simulated (m : MACHINE) (Leaf : Z) :
  UseNativeCpuid (g_GlobalData m) = false ->
  exists PackageShift LogicalProcessorShift,
    ParseCpu_CpuidThreeDomainExample 10 m Leaf
    = Done (PackageShift, LogicalProcessorShift).
Proof.
  intros Hsim. destruct (simulated_enumeration_ends m Leaf Hsim) as (n & Hn & Hterm).
  unfold ParseCpu_CpuidThreeDomainExample.
  rewrite (ThreeDomain_loop m Leaf n ltac:(simpl; lia) Hterm 10 Hn).
  eexists. eexists. reflexivity.
Qed.

Lemma ParseCpu_CpuidThreeDomainExample_shifts_witness :
  ParseCpu_CpuidThreeDomainExample 3 trace_machine 0x1F = Done (3, 1).
Proof.
  apply (ParseCpu_CpuidThreeDomainExample_shifts trace_machine 0x1F 3 3).
  - reflexivity.
  - vm_compute. reflexivity.
  - lia.
Defined.

(** ** [ParseCpu_Internal_CreateDomainMaskMatrix] *)

Lemma matrix_row (M : list (list Z)) (i : nat) :
  matrix_wf M -> (i < 32)%nat ->
  exists row, M !! i = Some row /\ length row = 32%nat.
Proof.
  intros [HL Hrows] Hi. change (Z.to_nat MAXIMUM_DOMAINS) with 32%nat in *.
  destruct (lookup_lt_is_Some_2 M i) as [row Hrow]; [lia|].
  exists row. split; [exact Hrow|]. apply (Hrows i row Hrow).
Qed.

Lemma load2_spec (M : list (list Z)) (i j : nat) :
  matrix_wf M -> (i < 32)%nat -> (j < 32)%nat ->
  load2 M (Z.of_nat i) (Z.of_nat j) = Done (entry M i j).
Proof.
  intros Hwf Hi Hj. destruct (matrix_row M i Hwf Hi) as (row & Hrow & Hlen).
  destruct (lookup_lt_is_Some_2 row j) as [v Hv]; [lia|].
  unfold load2, entry. rewrite Hrow, Hv.
  assert (E1 : load M (Z.of_nat i) = Done row).
  { apply load_Done. rewrite Nat2Z.id. split; [lia|exact Hrow]. }
  assert (E2 : load row (Z.of_nat j) = Done v).
  { apply load_Done. rewrite Nat2Z.id. split; [lia|exact Hv]. }
  rewrite E1. simpl. exact E2.
Qed.

Lemma store2_spec (M : list (list Z)) (i j : nat) (v : Z) :
  matrix_wf M -> (i < 32)%nat -> (j < 32)%nat ->
  exists M',
    store2 M (Z.of_nat i) (Z.of_nat j) v = Done M'
    /\ matrix_wf M'
    /\ entry M' i j = v
    /\ forall i' j', i' <> i \/ j' <> j -> entry M' i' j' = entry M i' j'.
Proof.
  intros Hwf Hi Hj. destruct (matrix_row M i Hwf Hi) as (row & Hrow & Hlen).
  destruct Hwf as [HL Hrows]. change (Z.to_nat MAXIMUM_DOMAINS) with 32%nat in *.
  exists (<[i := <[j := v]> row]> M).
  assert (E1 : load M (Z.of_nat i) = Done row).
  { apply load_Done. rewrite Nat2Z.id. split; [lia|exact Hrow]. }
  split; [|split; [|split]].
  - unfold store2. rewrite E1. simpl.
    rewrite store_in_range by lia. simpl.
    rewrite store_in_range by lia. rewrite !Nat2Z.id. reflexivity.
  - split; [rewrite length_insert; exact HL|].
    intros i0 row0 H0. destruct (Nat.eq_dec i i0) as [<-|Hne].
    + rewrite list_lookup_insert_eq in H0 by lia. injection H0 as <-.
      rewrite length_insert. exact Hlen.
    + rewrite list_lookup_insert_ne in H0 by exact Hne. apply (Hrows i0 row0 H0).
  - unfold entry. rewrite list_lookup_insert_eq by lia.
    rewrite list_lookup_insert_eq by lia. reflexivity.
  - intros i' j' Hne. unfold entry.
    destruct (Nat.eq_dec i i') as [<-|Hi'].
    + rewrite list_lookup_insert_eq by lia. rewrite Hrow.
      rewrite list_lookup_insert_ne by (destruct Hne; congruence). reflexivity.
    + rewrite list_lookup_insert_ne by exact Hi'. reflexivity.
Qed.

Lemma previous_shift_S (ctx : APICID_BIT_LAYOUT_CTX) (k : nat) (v : Z) :
  ShiftValues ctx !! k = Some v -> previous_shift ctx (Z.of_nat (S k)) = v.
Proof.
  intros Hv. unfold previous_shift.
  destruct (Z.eqb_spec (Z.of_nat (S k)) 0) as [E|_]; [lia|].
  unfold read_array. replace (Z.to_nat (Z.of_nat (S k) - 1)) with k by lia.
  rewrite Hv. reflexivity.
Qed.

(** For a shift below 32 the global mask clears exactly the low bits below
    the shift. *)
Lemma global_mask_value (ctx : APICID_BIT_LAYOUT_CTX) (i : Z) :
  0 <= previous_shift ctx i < 32 ->
  global_mask ctx i = 2 ^ 32 - 2 ^ previous_shift ctx i.
Proof.
  intros Hp. unfold global_mask. set (p := previous_shift ctx i) in *.
  assert (Hpow : 0 < 2 ^ p <= 2 ^ 31).
  { split; [apply Z.pow_pos_nonneg; lia|apply Z.pow_le_mono_r; lia]. }
  change (2 ^ 31) with 2147483648 in Hpow. change (2 ^ 32) with 4294967296.
  unfold shl32. rewrite Z.shiftl_1_l. rewrite (u32_small (2 ^ p)) by lia.
  rewrite u32_small by lia.
  unfold not32, u32, u32_modulus, Z.lnot. change (2 ^ 32) with 4294967296.
  replace (Z.pred (- (2 ^ p - 1))) with (4294967296 - 2 ^ p + (-1) * 4294967296) by lia.
  rewrite Z.mod_add by lia. apply Z.mod_small. lia.
Qed.

Section MaskMatrix.
Variable ctx0 : APICID_BIT_LAYOUT_CTX.
Hypothesis Hwf : ctx_wf ctx0.
Hypothesis Hidx : 0 <= PackageDomainIndex ctx0 < MAXIMUM_DOMAINS.
Hypothesis Hshifts :
  forall i, 0 <= i <= PackageDomainIndex ctx0 -> 0 <= previous_shift ctx0 i < 32.

Lemma MaskMatrix_global_step (s : APICID_BIT_LAYOUT_CTX * Z * Z) :
  MaskMatrix_global_inv ctx0 s -> MaskMatrix_global_cond s = true ->
  exists s', MaskMatrix_global_body s = Done s' /\ MaskMatrix_global_inv ctx0 s'
             /\ (MaskMatrix_global_measure ctx0 s' < MaskMatrix_global_measure ctx0 s)%nat.
Proof.
  intros (k & M & Hk & HM & -> & Hdiag) Hcond.
  unfold MAXIMUM_DOMAINS in Hidx.
  unfold MaskMatrix_global_cond in Hcond. simpl in Hcond. apply Z.leb_le in Hcond.
  destruct Hwf as (Hsv & _ & _). change (Z.to_nat MAXIMUM_DOMAINS) with 32%nat in Hsv.
  destruct (store2_spec M k k (global_mask ctx0 (Z.of_nat k)) HM)
    as (M' & Hst & HM' & Hkk & Hother); [lia|lia|].
  destruct (lookup_lt_is_Some_2 (ShiftValues ctx0) k) as [v Hv]; [lia|].
  assert (Hld : load (ShiftValues ctx0) (Z.of_nat k) = Done v).
  { apply load_Done. rewrite Nat2Z.id. split; [lia|exact Hv]. }
  exists (set_DomainRelativeMasks ctx0 M', Z.of_nat (S k), v).
  split; [|split].
  - unfold MaskMatrix_global_body, shl32_checked.
    destruct (Z.ltb_spec (previous_shift ctx0 (Z.of_nat k)) 32) as [_|Hge].
    2:{ pose proof (Hshifts (Z.of_nat k) ltac:(lia)). lia. }
    simpl.
    unfold global_mask in Hst. rewrite Hst. simpl. rewrite Hld. simpl.
    rewrite u32_small by lia. do 3 f_equal. lia.
  - exists (S k), M'. split; [lia|]. split; [exact HM'|]. split.
    + rewrite (previous_shift_S ctx0 k v Hv). reflexivity.
    + intros i Hi. destruct (Nat.eq_dec i k) as [->|Hne]; [exact Hkk|].
      rewrite Hother by (left; exact Hne). apply Hdiag. lia.
  - simpl. lia.
Qed.

Lemma MaskMatrix_global_loop :
  exists M,
    while (Z.to_nat MAXIMUM_DOMAINS + 1) MaskMatrix_global_cond MaskMatrix_global_body
      (ctx0, 0, 0)
    = Done (set_DomainRelativeMasks ctx0 M,
            PackageDomainIndex ctx0 + 1,
            previous_shift ctx0 (PackageDomainIndex ctx0 + 1))
    /\ MaskMatrix_rows_done ctx0 M 0 0.
Proof.
  destruct (while_invariant (MaskMatrix_global_inv ctx0) (MaskMatrix_global_measure ctx0)
              MaskMatrix_global_cond MaskMatrix_global_body MaskMatrix_global_step
              (Z.to_nat MAXIMUM_DOMAINS + 1) (ctx0, 0, 0))
    as (s' & Hrun & (k & M & Hk & HM & -> & Hdiag) & Hcond).
  - exists O, (DomainRelativeMasks ctx0). split; [simpl; lia|].
    split; [apply Hwf|]. split; [destruct ctx0; reflexivity|]. intros i Hi. lia.
  - unfold MAXIMUM_DOMAINS in *. simpl. lia.
  - unfold MaskMatrix_global_cond in Hcond. simpl in Hcond. apply Z.leb_gt in Hcond.
    assert (Ek : Z.of_nat k = PackageDomainIndex ctx0 + 1) by lia.
    exists M. rewrite Hrun, Ek. split; [reflexivity|].
    split; [exact HM|]. split; [|split].
    + intros i Hi. apply Hdiag. lia.
    + intros i j Hi. lia.
    + intros j Hj Hj0. lia.
Qed.

Lemma MaskMatrix_relative_step (k : nat) (s : APICID_BIT_LAYOUT_CTX * Z) :
  Z.of_nat k < PackageDomainIndex ctx0 ->
  MaskMatrix_relative_inv ctx0 k s -> MaskMatrix_relative_cond s = true ->
  exists s', MaskMatrix_relative_body (Z.of_nat k) s = Done s'
             /\ MaskMatrix_relative_inv ctx0 k s'
             /\ (MaskMatrix_relative_measure ctx0 s'
                 < MaskMatrix_relative_measure ctx0 s)%nat.
Proof.
  intros Hk (j0 & M & Hkj & Hj0 & -> & HM & Hdiag & Hrows & Hrow) Hcond.
  unfold MAXIMUM_DOMAINS in Hidx.
  unfold MaskMatrix_relative_cond in Hcond. simpl in Hcond. apply Z.leb_le in Hcond.
  destruct (store2_spec M k j0 (relative_mask ctx0 k j0) HM)
    as (M' & Hst & HM' & Hkk & Hother); [lia|lia|].
  exists (set_DomainRelativeMasks ctx0 M', Z.of_nat (S j0)).
  split; [|split].
  - unfold MaskMatrix_relative_body. simpl.
    rewrite !load2_spec by (try exact HM; lia). simpl.
    rewrite (Hdiag j0) by lia. rewrite (Hdiag k) by lia.
    unfold relative_mask in Hst. rewrite Hst. simpl.
    rewrite u32_small by lia. do 2 f_equal. lia.
  - exists (S j0), M'. split; [lia|]. split; [lia|]. split; [reflexivity|].
    split; [exact HM'|]. split; [|split].
    + intros i Hi. rewrite Hother by lia. apply Hdiag. exact Hi.
    + intros i j Hi Hij Hj. rewrite Hother by (left; lia). apply Hrows; assumption.
    + intros j Hj Hjs. destruct (Nat.eq_dec j j0) as [->|Hne]; [exact Hkk|].
      rewrite Hother by (right; exact Hne). apply Hrow; lia.
  - simpl. lia.
Qed.

Lemma MaskMatrix_outer_step (s : APICID_BIT_LAYOUT_CTX * Z) :
  MaskMatrix_outer_inv ctx0 s -> MaskMatrix_outer_cond s = true ->
  exists s', MaskMatrix_outer_body s = Done s' /\ MaskMatrix_outer_inv ctx0 s'
             /\ (MaskMatrix_outer_measure ctx0 s' < MaskMatrix_outer_measure ctx0 s)%nat.
Proof.
  intros (k & M & Hk & -> & HM & Hdiag & Hrows & _) Hcond.
  unfold MaskMatrix_outer_cond in Hcond. simpl in Hcond. apply Z.ltb_lt in Hcond.
  assert (Hidx' := Hidx). unfold MAXIMUM_DOMAINS in Hidx'.
  destruct (while_invariant (MaskMatrix_relative_inv ctx0 k)
              (MaskMatrix_relative_measure ctx0)
              MaskMatrix_relative_cond (MaskMatrix_relative_body (Z.of_nat k))
              (fun s => MaskMatrix_relative_step k s Hcond)
              (Z.to_nat MAXIMUM_DOMAINS + 1)
              (set_DomainRelativeMasks ctx0 M, Z.of_nat (S k)))
    as (s' & Hrun & (j0 & M' & Hkj & Hj0 & -> & HM' & Hdiag' & Hrows' & Hrow') & Hc').
  - exists (S k), M. split; [lia|]. split; [lia|]. split; [reflexivity|].
    split; [exact HM|]. split; [exact Hdiag|]. split; [exact Hrows|].
    intros j Hj Hjs. lia.
  - unfold MAXIMUM_DOMAINS. simpl. lia.
  - unfold MaskMatrix_relative_cond in Hc'. simpl in Hc'. apply Z.leb_gt in Hc'.
    exists (set_DomainRelativeMasks ctx0 M', Z.of_nat (S k)).
    split; [|split].
    + unfold MaskMatrix_outer_body. simpl.
      rewrite u32_small by lia.
      replace (Z.of_nat k + 1) with (Z.of_nat (S k)) by lia.
      simpl in Hrun. rewrite Hrun. reflexivity.
    + exists (S k), M'. split; [lia|]. split; [reflexivity|].
      split; [exact HM'|]. split; [exact Hdiag'|]. split.
      * intros i j Hi Hij Hj. destruct (Nat.eq_dec i k) as [->|Hne].
        -- apply Hrow'; lia.
        -- apply Hrows'; [lia|exact Hij|exact Hj].
      * intros j Hj Hj0'. lia.
    + simpl. lia.
Qed.

Lemma CreateDomainMaskMatrix_run :
  exists M,
    ParseCpu_Internal_CreateDomainMaskMatrix ctx0
    = Done (set_DomainRelativeMasks ctx0 M)
    /\ MaskMatrix_rows_done ctx0 M (Z.to_nat (PackageDomainIndex ctx0)) 0.
Proof.
  destruct MaskMatrix_global_loop as (M1 & Hrun1 & Hdone1).
  assert (Hidx' := Hidx). unfold MAXIMUM_DOMAINS in Hidx'.
  destruct (while_invariant (MaskMatrix_outer_inv ctx0) (MaskMatrix_outer_measure ctx0)
              MaskMatrix_outer_cond MaskMatrix_outer_body MaskMatrix_outer_step
              (Z.to_nat MAXIMUM_DOMAINS + 1) (set_DomainRelativeMasks ctx0 M1, 0))
    as (s' & Hrun2 & (k & M2 & Hk & -> & Hdone2) & Hcond).
  - exists O, M1. split; [lia|]. split; [reflexivity|]. exact Hdone1.
  - unfold MAXIMUM_DOMAINS. simpl. lia.
  - unfold MaskMatrix_outer_cond in Hcond. simpl in Hcond. apply Z.ltb_ge in Hcond.
    assert (Ek : k = Z.to_nat (PackageDomainIndex ctx0)) by lia.
    exists M2. split.
    + unfold ParseCpu_Internal_CreateDomainMaskMatrix. rewrite Hrun1. simpl.
      simpl in Hrun2. rewrite Hrun2. reflexivity.
    + rewrite <- Ek. exact Hdone2.
Qed.
End MaskMatrix.

(** C2: on a layout that fits its arrays and whose shifts are below 32
    (where [1 << shift] is defined), the matrix builder completes and the
    layout it returns has in every diagonal entry [(i,i)],
    [i <= PackageDomainIndex], the bitwise NOT of
    [(1 << previous cumulative shift) - 1] (previous shift 0 for level 0),
    and in every entry [(i,j)] with [i < j] the value [(~M[j][j]) & M[i][i]];
    the levels themselves are left as they were.  The ascending order of
    the shifts is not needed. *)
Theorem ParseCpu_Internal_CreateDomainMaskMatrix_masks (ctx : APICID_BIT_LAYOUT_CTX) :
  ctx_wf ctx ->
  0 <= PackageDomainIndex ctx < MAXIMUM_DOMAINS ->
  (forall i, 0 <= i <= PackageDomainIndex ctx -> 0 <= previous_shift ctx i < 32) ->
  exists ctx',
    ParseCpu_Internal_CreateDomainMaskMatrix ctx = Done ctx'
    /\ NumberOfApicIdBits ctx' = NumberOfApicIdBits ctx
    /\ ShiftValues ctx' = ShiftValues ctx
    /\ ShiftValueDomain ctx' = ShiftValueDomain ctx
    /\ PackageDomainIndex ctx' = PackageDomainIndex ctx
    /\ szDescription ctx' = szDescription ctx
    /\ (forall i, 0 <= i <= PackageDomainIndex ctx ->
          load2 (DomainRelativeMasks ctx') i i
          = Done (not32 (u32 (shl32 1 (previous_shift ctx i) - 1))))
    /\ (forall i j, 0 <= i -> i < j -> j <= PackageDomainIndex ctx ->
          exists Mii Mjj,
            load2 (DomainRelativeMasks ctx') i i = Done Mii
            /\ load2 (DomainRelativeMasks ctx') j j = Done Mjj
            /\ load2 (DomainRelativeMasks ctx') i j = Done (Z.land (not32 Mjj) Mii)).
Proof.
  intros Hwf Hidx Hshifts.
  destruct (CreateDomainMaskMatrix_run ctx Hwf Hidx Hshifts)
    as (M & Hrun & HM & Hdiag & Hrows & _).
  unfold MAXIMUM_DOMAINS in Hidx.
  exists (set_DomainRelativeMasks ctx M). split; [exact Hrun|].
  do 5 (split; [reflexivity|]).
  cbn [DomainRelativeMasks set_DomainRelativeMasks]. split.
  - intros i Hi. destruct (Z_of_nat_complete i) as [ni ->]; [lia|].
    rewrite load2_spec by (try exact HM; lia). rewrite Hdiag by lia. reflexivity.
  - intros i j Hi Hij Hj.
    exists (global_mask ctx i), (global_mask ctx j).
    destruct (Z_of_nat_complete i) as [ni ->]; [lia|].
    destruct (Z_of_nat_complete j) as [nj ->]; [lia|].
    rewrite !load2_spec by (try exact HM; lia).
    rewrite !Hdiag by lia. rewrite Hrows by lia. auto.
Qed.

Lemma trace_layout_wf : ctx_wf trace_layout.
Proof.
  split; [reflexivity|]. split; [reflexivity|]. split; [reflexivity|].
  intros i row H. apply lookup_replicate in H. destruct H as [-> _]. reflexivity.
Qed.

Lemma trace_layout_shifts (i : Z) :
  0 <= i <= PackageDomainIndex trace_layout -> 0 <= previous_shift trace_layout i < 32.
Proof.
  intros Hi. change (PackageDomainIndex trace_layout) with 2 in Hi.
  assert (E : i = 0 \/ i = 1 \/ i = 2) by lia.
  destruct E as [->|[->| ->]]; vm_compute; split; (discriminate || reflexivity).
Qed.

Lemma ParseCpu_Internal_CreateDomainMaskMatrix_masks_witness :
  exists ctx',
    ParseCpu_Internal_CreateDomainMaskMatrix trace_layout = Done ctx'
    /\ NumberOfApicIdBits ctx' = NumberOfApicIdBits trace_layout
    /\ ShiftValues ctx' = ShiftValues trace_layout
    /\ ShiftValueDomain ctx' = ShiftValueDomain trace_layout
    /\ PackageDomainIndex ctx' = PackageDomainIndex trace_layout
    /\ szDescription ctx' = szDescription trace_layout
    /\ (forall i, 0 <= i <= PackageDomainIndex trace_layout ->
          load2 (DomainRelativeMasks ctx') i i
          = Done (not32 (u32 (shl32 1 (previous_shift trace_layout i) - 1))))
    /\ (forall i j, 0 <= i -> i < j -> j <= PackageDomainIndex trace_layout ->
          exists Mii Mjj,
            load2 (DomainRelativeMasks ctx') i i = Done Mii
            /\ load2 (DomainRelativeMasks ctx') j j = Done Mjj
            /\ load2 (DomainRelativeMasks ctx') i j = Done (Z.land (not32 Mjj) Mii)).
Proof.
  apply (ParseCpu_Internal_CreateDomainMaskMatrix_masks trace_layout).
  - exact trace_layout_wf.
  - unfold MAXIMUM_DOMAINS. simpl. lia.
  - exact trace_layout_shifts.
Defined.

(** The masks of the trace: global masks FFFFFFFF, FFFFFFFC, FFFFFFF8 and
    relative masks 3, 7 and 4. *)
Example trace_layout_masks :
  match ParseCpu_Internal_CreateDomainMaskMatrix trace_layout with
  | Done ctx =>
      let M := DomainRelativeMasks ctx in
      [entry M 0 0; entry M 1 1; entry M 2 2; entry M 0 1; entry M 0 2; entry M 1 2]
  | _ => []
  end = [0xFFFFFFFF; 0xFFFFFFFC; 0xFFFFFFF8; 3; 7; 4].
Proof. vm_compute. reflexivity. Qed.

(** ** [ParseCpu_CpuidManyDomainExample] *)

Lemma overwrite_last_shift_snoc (L0 : list (Z * Z)) (kind old shift : Z) :
  overwrite_last_shift (L0 ++ [(kind, old)]) shift = L0 ++ [(kind, shift)].
Proof.
  unfold overwrite_last_shift. rewrite rev_app_distr. simpl.
  rewrite rev_involutive. reflexivity.
Qed.

Lemma overwrite_last_shift_length (L : list (Z * Z)) (shift : Z) :
  length (overwrite_last_shift L shift) = length L.
Proof.
  destruct L as [|x L']; [reflexivity|].
  assert (Hne : x :: L' <> []) by discriminate.
  destruct (exists_last Hne) as (L0 & [kind old] & E). rewrite E.
  rewrite overwrite_last_shift_snoc. rewrite !length_app. reflexivity.
Qed.

Lemma collapse_step_length (L : list (Z * Z)) (r : CPUID_REGISTERS) :
  (length L <= length (collapse_step L r))%nat.
Proof.
  unfold collapse_step. destruct (Tools_IsDomainKnownEnumeration (DomainType_of r)).
  - rewrite length_app. simpl. lia.
  - rewrite overwrite_last_shift_length. lia.
Qed.

Lemma collapse_unknown_snoc (l : list CPUID_REGISTERS) (r : CPUID_REGISTERS) :
  collapse_unknown (l ++ [r]) = collapse_step (collapse_unknown l) r.
Proof. unfold collapse_unknown. rewrite fold_left_app. reflexivity. Qed.

Lemma collapse_length_mono (m : MACHINE) (Leaf : Z) (k n : nat) :
  (k <= n)%nat ->
  (length (collapse_unknown (enumerated m Leaf k))
   <= length (collapse_unknown (enumerated m Leaf n)))%nat.
Proof.
  induction 1 as [|n Hle IH]; [lia|].
  rewrite enumerated_S, collapse_unknown_snoc.
  pose proof (collapse_step_length (collapse_unknown (enumerated m Leaf n))
                (Tools_ReadCpuid m Leaf (Z.of_nat n))). lia.
Qed.

Lemma LogicalProcessor_known (r : CPUID_REGISTERS) :
  is_LogicalProcessor r = true -> Tools_IsDomainKnownEnumeration (DomainType_of r) = true.
Proof.
  unfold is_LogicalProcessor. intros H. apply Z.eqb_eq in H. rewrite H. reflexivity.
Qed.

Lemma collapse_nonempty (m : MACHINE) (Leaf : Z) (k n : nat) :
  starts_with_LogicalProcessor (enumerated m Leaf n) = true ->
  (1 <= k)%nat -> (k <= n)%nat ->
  (1 <= length (collapse_unknown (enumerated m Leaf k)))%nat.
Proof.
  intros Hfirst Hk Hkn.
  assert (H1 : length (collapse_unknown (enumerated m Leaf 1)) = 1%nat).
  { destruct n as [|n]; [lia|].
    unfold enumerated in Hfirst. simpl in Hfirst.
    unfold enumerated, collapse_unknown, collapse_step. simpl.
    rewrite (LogicalProcessor_known _ Hfirst). reflexivity. }
  pose proof (collapse_length_mono m Leaf 1 k Hk). lia.
Qed.

Lemma ManyDomain_switch_levels (ctx : APICID_BIT_LAYOUT_CTX) (L : list (Z * Z))
    (r : CPUID_REGISTERS) :
  levels_rel ctx L ->
  (Tools_IsDomainKnownEnumeration (DomainType_of r) = true -> (length L < 32)%nat) ->
  (Tools_IsDomainKnownEnumeration (DomainType_of r) = false -> (1 <= length L)%nat) ->
  exists ctx',
    ManyDomain_switch ctx (DomainType_of r) (DomainShift_of r) = Done ctx'
    /\ levels_rel ctx' (collapse_step L r).
Proof.
  intros ((Hsv & Hsd & HM) & Hpdi & Hrel) Hknown Hunknown.
  destruct ctx as [nb sv sd M pdi desc]. simpl in *.
  change (Z.to_nat MAXIMUM_DOMAINS) with 32%nat in *. subst pdi.
  unfold ManyDomain_switch, collapse_step.
  change ((DomainType_of r =? InvalidDomain) || (DomainType_of r =? LogicalProcessorDomain)
          || (DomainType_of r =? CoreDomain) || (DomainType_of r =? ModuleDomain)
          || (DomainType_of r =? TileDomain) || (DomainType_of r =? DieDomain)
          || (DomainType_of r =? DieGrpDomain))
    with (Tools_IsDomainKnownEnumeration (DomainType_of r)).
  destruct (Tools_IsDomainKnownEnumeration (DomainType_of r)) eqn:Ek.
  - specialize (Hknown eq_refl). simpl.
    rewrite store_in_range by lia. simpl.
    rewrite store_in_range by lia. simpl.
    eexists. split; [reflexivity|]. rewrite Nat2Z.id.
    unfold levels_rel, ctx_wf, set_PackageDomainIndex, set_ShiftValueDomain,
      set_ShiftValues. simpl.
    change (Z.to_nat MAXIMUM_DOMAINS) with 32%nat.
    split; [|split].
    + rewrite !length_insert. auto.
    + rewrite length_app. simpl. rewrite u32_small by lia. lia.
    + intros i kind shift Hi. apply lookup_app_Some in Hi.
      destruct Hi as [Hi|[Hge Hi]].
      * pose proof (lookup_lt_Some _ _ _ Hi) as Hlt.
        rewrite !list_lookup_insert_ne by lia. apply (Hrel i kind shift Hi).
      * destruct (i - length L)%nat as [|d] eqn:Ed; [|discriminate].
        simpl in Hi. injection Hi as <- <-.
        assert (i = length L) as -> by lia.
        rewrite !list_lookup_insert_eq by lia. auto.
  - specialize (Hunknown eq_refl). simpl.
    assert (Hne : L <> []) by (destruct L; [simpl in Hunknown; lia|discriminate]).
    destruct (exists_last Hne) as (L0 & [kind0 old] & ->).
    rewrite overwrite_last_shift_snoc.
    rewrite length_app in *. simpl in *.
    destruct (Hrel (length L0) kind0 old) as [Hk0 _].
    { apply lookup_app_Some. right. split; [lia|].
      rewrite Nat.sub_diag. reflexivity. }
    pose proof (lookup_lt_Some _ _ _ Hk0) as Hlt0.
    assert (Hidx : u32 (Z.of_nat (length L0 + 1) - 1) = Z.of_nat (length L0)).
    { rewrite u32_small by lia. lia. }
    rewrite Hidx. rewrite store_in_range by lia. simpl.
    eexists. split; [reflexivity|]. rewrite Nat2Z.id.
    unfold levels_rel, ctx_wf, set_ShiftValues. simpl.
    change (Z.to_nat MAXIMUM_DOMAINS) with 32%nat.
    split; [|split].
    + rewrite !length_insert. auto.
    + rewrite length_app. simpl. reflexivity.
    + intros i kind shift Hi. apply lookup_app_Some in Hi.
      destruct Hi as [Hi|[Hge Hi]].
      * pose proof (lookup_lt_Some _ _ _ Hi) as Hlt.
        rewrite list_lookup_insert_ne by lia.
        apply (Hrel i kind shift). apply lookup_app_Some. left. exact Hi.
      * destruct (i - length L0)%nat as [|d] eqn:Ed; [|discriminate].
        simpl in Hi. injection Hi as <- <-.
        assert (i = length L0) as -> by lia.
        rewrite list_lookup_insert_eq by lia. auto.
Qed.

Lemma levels_rel_ctx_levels (ctx : APICID_BIT_LAYOUT_CTX) (L : list (Z * Z)) :
  levels_rel ctx L -> ctx_levels ctx = L.
Proof.
  intros (_ & Hpdi & Hrel). unfold ctx_levels. rewrite Hpdi, Nat2Z.id.
  apply list_eq. intros i. rewrite lookup_zip_with.
  destruct (Nat.lt_ge_cases i (length L)) as [Hlt|Hge].
  - rewrite !lookup_take_lt by exact Hlt.
    destruct (lookup_lt_is_Some_2 L i Hlt) as [[kind shift] Hi].
    destruct (Hrel i kind shift Hi) as [Hk Hs]. rewrite Hk, Hs, Hi. reflexivity.
  - rewrite (lookup_ge_None_2 L i) by exact Hge.
    rewrite (lookup_ge_None_2 (take (length L) (ShiftValueDomain ctx)) i).
    + reflexivity.
    + rewrite length_take. lia.
Qed.

Section ManyDomain.
Variables (m : MACHINE) (Leaf : Z) (n : nat).
Hypothesis Hn : Z.of_nat n < 2 ^ 32.
Hypothesis Hterm : terminated_at m Leaf n = true.
Hypothesis Hfirst : starts_with_LogicalProcessor (enumerated m Leaf n) = true.
Hypothesis Hfit : (length (collapse_unknown (enumerated m Leaf n)) < 32)%nat.

Lemma ManyDomain_step (s : Z * CPUID_REGISTERS * APICID_BIT_LAYOUT_CTX) :
  ManyDomain_inv m Leaf n s -> ManyDomain_cond s = true ->
  exists s', ManyDomain_body m Leaf s = Done s' /\ ManyDomain_inv m Leaf n s'
             /\ (ManyDomain_measure n s' < ManyDomain_measure n s)%nat.
Proof.
  intros (k & ctx & Hk & -> & Hrel) Hcond.
  destruct (terminated_at_spec _ _ _ Hterm) as [_ Hend].
  assert (Hlt : (k < n)%nat).
  { destruct (Nat.eq_dec k n) as [->|]; [|lia].
    unfold ManyDomain_cond in Hcond. rewrite Hend in Hcond. discriminate. }
  set (r := Tools_ReadCpuid m Leaf (Z.of_nat k)).
  pose proof (collapse_length_mono m Leaf (S k) n Hlt) as Hmono.
  rewrite enumerated_S, collapse_unknown_snoc in Hmono. fold r in Hmono.
  destruct (ManyDomain_switch_levels ctx _ r Hrel) as (ctx' & Hsw & Hrel').
  - intros Hknown. unfold collapse_step in Hmono. rewrite Hknown in Hmono.
    rewrite length_app in Hmono. simpl in Hmono. lia.
  - intros Hunknown. destruct k as [|k].
    + destruct n as [|n']; [lia|].
      unfold enumerated in Hfirst. simpl in Hfirst.
      apply LogicalProcessor_known in Hfirst. unfold r in Hunknown. simpl in Hunknown.
      rewrite Hfirst in Hunknown. discriminate.
    + apply (collapse_nonempty m Leaf (S k) n Hfirst); lia.
  - assert (Hnext : u32 (Z.of_nat k + 1) = Z.of_nat (S k)).
    { change (2 ^ 32) with 4294967296 in Hn. rewrite u32_small; lia. }
    exists (Z.of_nat (S k), Tools_ReadCpuid m Leaf (Z.of_nat (S k)), ctx').
    split; [|split].
    + unfold ManyDomain_body. fold r. unfold DomainType_of, DomainShift_of in Hsw.
      rewrite Hsw. simpl. rewrite Hnext. reflexivity.
    + exists (S k), ctx'. split; [lia|]. split; [reflexivity|].
      rewrite enumerated_S, collapse_unknown_snoc. exact Hrel'.
    + unfold ManyDomain_measure. lia.
Qed.

Lemma zero_ctx_levels : levels_rel (set_NumberOfApicIdBits zero_ctx 32) [].
Proof.
  split; [|split].
  - split; [reflexivity|]. split; [reflexivity|]. split; [reflexivity|].
    intros i row H. apply lookup_replicate in H. destruct H as [-> _]. reflexivity.
  - reflexivity.
  - intros i kind shift H. destruct i; discriminate.
Qed.

Lemma ManyDomain_levels_run (fuel : nat) :
  (n <= fuel)%nat ->
  exists ctx,
    ManyDomain_levels fuel m Leaf = Done ctx
    /\ levels_rel ctx (collapse_unknown (enumerated m Leaf n)).
Proof.
  intros Hfuel.
  destruct (while_invariant (ManyDomain_inv m Leaf n) (ManyDomain_measure n)
              ManyDomain_cond (ManyDomain_body m Leaf) ManyDomain_step fuel
              (0, Tools_ReadCpuid m Leaf 0, set_NumberOfApicIdBits zero_ctx 32))
    as (s' & Hrun & (k & ctx & Hk & -> & Hrel) & Hcond).
  - exists O, (set_NumberOfApicIdBits zero_ctx 32). split; [lia|].
    split; [reflexivity|]. exact zero_ctx_levels.
  - simpl. lia.
  - exists ctx. unfold ManyDomain_levels. rewrite Hrun. simpl.
    split; [reflexivity|].
    destruct (terminated_at_spec _ _ _ Hterm) as [Hbefore _].
    destruct (Nat.eq_dec k n) as [->|Hne]; [exact Hrel|].
    exfalso. apply (Hbefore k); [lia|].
    unfold ManyDomain_cond in Hcond. apply negb_false_iff in Hcond.
    apply Z.eqb_eq. exact Hcond.
Qed.
End ManyDomain.

Lemma collapse_unknown_levels (l : list CPUID_REGISTERS) :
  Forall (fun level : Z * Z =>
            Tools_IsDomainKnownEnumeration (fst level) = true /\ 0 <= snd level < 32)
    (collapse_unknown l).
Proof.
  assert (Hshift : forall r, 0 <= DomainShift_of r < 32).
  { intros r. unfold DomainShift_of. change 0x1F with (Z.ones 5).
    rewrite Z.land_ones by lia. apply Z.mod_pos_bound. reflexivity. }
  induction l as [|r l IH] using rev_ind; [constructor|].
  rewrite collapse_unknown_snoc. unfold collapse_step.
  destruct (Tools_IsDomainKnownEnumeration (DomainType_of r)) eqn:Hknown.
  - apply Forall_app. split; [exact IH|].
    constructor; [|constructor]. split; [exact Hknown|apply Hshift].
  - destruct (collapse_unknown l) as [|x L'] eqn:EL; [constructor|].
    assert (Hne : x :: L' <> []) by discriminate.
    destruct (exists_last Hne) as (L0 & [kind old] & E). rewrite E in *.
    rewrite overwrite_last_shift_snoc.
    apply Forall_app in IH as [IH0 IH1].
    apply Forall_app. split; [exact IH0|].
    constructor; [|constructor]. split; [|apply Hshift].
    apply Forall_inv in IH1. apply IH1.
Qed.

Lemma levels_rel_previous_shift (ctx : APICID_BIT_LAYOUT_CTX)
    (l : list CPUID_REGISTERS) (i : Z) :
  levels_rel ctx (collapse_unknown l) ->
  0 <= i <= PackageDomainIndex ctx -> 0 <= previous_shift ctx i < 32.
Proof.
  intros (_ & Hpdi & Hlook) Hi. unfold previous_shift.
  destruct (Z.eqb_spec i 0) as [->|Hi0]; [lia|].
  destruct (lookup_lt_is_Some_2 (collapse_unknown l) (Z.to_nat (i - 1)))
    as [[kind shift] Hl]; [lia|].
  destruct (Hlook _ _ _ Hl) as [_ Hs].
  unfold read_array. rewrite Hs.
  apply (Forall_lookup_1 _ _ _ _ (collapse_unknown_levels l)) in Hl. apply Hl.
Qed.

(** C3: when the enumeration ends at subleaf [n], starts with a
    LogicalProcessor subleaf and its levels fit the layout, many-domain
    decoding returns the levels of [collapse_unknown]: a subleaf of one of
    the seven known kinds (Invalid included) appends a level with its kind
    and shift, any other subleaf overwrites the shift of the level appended
    last. *)
Theorem ParseCpu_CpuidManyDomainExample_levels (m : MACHINE) (Leaf : Z)
    (n fuel : nat) :
  Z.of_nat n < 2 ^ 32 ->
  terminated_at m Leaf n = true ->
  starts_with_LogicalProcessor (enumerated m Leaf n) = true ->
  Z.of_nat (length (collapse_unknown (enumerated m Leaf n))) < MAXIMUM_DOMAINS ->
  (n <= fuel)%nat ->
  exists ctx,
    ParseCpu_CpuidManyDomainExample fuel m Leaf = Done ctx
    /\ PackageDomainIndex ctx = Z.of_nat (length (collapse_unknown (enumerated m Leaf n)))
    /\ ctx_levels ctx = collapse_unknown (enumerated m Leaf n).
Proof.
  intros Hn Hterm Hfirst Hfit Hfuel. unfold MAXIMUM_DOMAINS in Hfit.
  destruct (ManyDomain_levels_run m Leaf n Hn Hterm Hfirst ltac:(lia) fuel Hfuel)
    as (ctx & Hrun & Hrel).
  pose proof (levels_rel_ctx_levels ctx _ Hrel) as Hlevels.
  pose proof (fun i => levels_rel_previous_shift ctx _ i Hrel) as Hshifts.
  destruct Hrel as (Hwf & Hpdi & _).
  destruct (CreateDomainMaskMatrix_run ctx Hwf) as (M & HM & _).
  { unfold MAXIMUM_DOMAINS. lia. }
  { exact Hshifts. }
  exists (set_DomainRelativeMasks ctx M).
  unfold ParseCpu_CpuidManyDomainExample. rewrite Hrun. simpl.
  split; [exact HM|]. split; [exact Hpdi|exact Hlevels].
Qed.

(** The example of the specification: LogicalProcessor/shift 1, unknown
    domain 99/shift 2, Core/shift 3, end: exactly two levels,
    LogicalProcessor with shift 2 and Core with shift 3. *)
Lemma ParseCpu_CpuidManyDomainExample_levels_witness :
  exists ctx,
    ParseCpu_CpuidManyDomainExample 3 trace_machine 0x1F = Done ctx
    /\ PackageDomainIndex ctx = 2
    /\ ctx_levels ctx = [(LogicalProcessorDomain, 2); (CoreDomain, 3)].
Proof.
  apply (ParseCpu_CpuidManyDomainExample_levels trace_machine 0x1F 3 3).
  - reflexivity.
  - vm_compute. reflexivity.
  - vm_compute. reflexivity.
  - vm_compute. reflexivity.
  - lia.
Defined.

(** ** Resource groups: the search, the addition and one subleaf *)

Lemma memcmp_registers_eq_iff (a b : CPUID_REGISTERS) :
  memcmp_registers_eq a b = true <-> a = b.
Proof.
  unfold memcmp_registers_eq. split.
  - intros H. repeat (apply andb_prop in H; destruct H as [H ?]).
    destruct a, b. simpl in *.
    repeat match goal with E : (_ =? _) = true |- _ => apply Z.eqb_eq in E end.
    congruence.
  - intros ->. rewrite !Z.eqb_refl. reflexivity.
Qed.

Section ResourceGroupFacts.
Context {A : Type}.
Variable group_id : A -> Z.
Variable group_regs : A -> CPUID_REGISTERS.
Variable group_count : A -> Z.
Variable group_members : A -> list Z.
Variable populate : A -> Z -> Z -> CPUID_REGISTERS -> A.
Variable add_member : A -> list Z -> A.
Variable mask_of : CPUID_REGISTERS -> Z.

Hypothesis populate_id : forall old i mk r, group_id (populate old i mk r) = i.
Hypothesis populate_regs : forall old i mk r, group_regs (populate old i mk r) = r.
Hypothesis populate_count : forall old i mk r, group_count (populate old i mk r) = 0.
Hypothesis populate_members :
  forall old i mk r, group_members (populate old i mk r) = group_members old.
Hypothesis add_member_id : forall e l, group_id (add_member e l) = group_id e.
Hypothesis add_member_regs : forall e l, group_regs (add_member e l) = group_regs e.
Hypothesis add_member_count :
  forall e l, group_count (add_member e l) = u32 (group_count e + 1).
Hypothesis add_member_members : forall e l, group_members (add_member e l) = l.

Lemma FindMatchingEntry_step (pInfo : list A) (N Id : Z) (r : CPUID_REGISTERS)
    (s : Z * Z) :
  0 <= N <= Z.of_nat (length pInfo) -> N < 4294967295 ->
  FindMatchingEntry_inv group_id group_regs pInfo N Id r s ->
  FindMatchingEntry_cond N s = true ->
  exists s',
    FindMatchingEntry_body group_id group_regs pInfo Id r s = Done s'
    /\ FindMatchingEntry_inv group_id group_regs pInfo N Id r s'
    /\ (FindMatchingEntry_measure N s' < FindMatchingEntry_measure N s)%nat.
Proof.
  intros HN Hmax (k & Hk & Hfst & Hcase) Hcond.
  destruct s as [Index Found]. simpl in Hfst, Hcase. subst Index.
  unfold FindMatchingEntry_cond in Hcond. apply andb_prop in Hcond.
  destruct Hcond as [Hlt Hfound]. apply Z.ltb_lt in Hlt. apply Z.eqb_eq in Hfound.
  destruct Hcase as [[_ Hno]|(idx & e & Hidx & Hsnd & _)].
  2:{ exfalso. rewrite Hsnd in Hfound.
      change INVALID_CACHE_INDEX with 4294967295 in Hfound. lia. }
  destruct (load_in_range pInfo (Z.of_nat k)) as (e & Hld & Hlk); [lia|].
  rewrite Nat2Z.id in Hlk.
  unfold FindMatchingEntry_body. rewrite Hld. simpl.
  eexists. split; [reflexivity|]. split.
  - exists (S k). split; [lia|]. split; [simpl; rewrite u32_small by lia; lia|].
    simpl.
    assert (Hext : group_matches group_id group_regs Id r e = false ->
                   no_match group_id group_regs pInfo (Z.of_nat (S k)) Id r).
    { intros Hm i e' Hi Hl. destruct (Nat.eq_dec i k) as [->|Hne].
      - rewrite Hlk in Hl. injection Hl as <-. exact Hm.
      - apply (Hno i e'); [lia|exact Hl]. }
    unfold group_matches in Hext.
    destruct (group_id e =? Id) eqn:E1;
      [destruct (memcmp_registers_eq (group_regs e) r) eqn:E2|].
    + right. exists k, e. split; [lia|]. split; [reflexivity|].
      split; [lia|]. split; [exact Hlk|]. split; [|exact Hno].
      unfold group_matches. rewrite E1, E2. reflexivity.
    + left. split; [exact Hfound|]. apply Hext. reflexivity.
    + left. split; [exact Hfound|]. apply Hext. reflexivity.
  - unfold FindMatchingEntry_measure. simpl. rewrite u32_small by lia. lia.
Qed.

(** The search returns [INVALID_CACHE_INDEX] when no group matches, and the
    index of the first matching group otherwise. *)
Lemma FindMatchingEntry_spec (pInfo : list A) (N Id : Z) (r : CPUID_REGISTERS) :
  0 <= N <= Z.of_nat (length pInfo) -> N < 4294967295 ->
  exists idx,
    FindMatchingEntry group_id group_regs pInfo N Id r = Done idx
    /\ ((idx = INVALID_CACHE_INDEX /\ no_match group_id group_regs pInfo N Id r)
        \/ exists i e, idx = Z.of_nat i
                       /\ first_match group_id group_regs pInfo N Id r i e).
Proof.
  intros HN Hmax.
  destruct (while_invariant (FindMatchingEntry_inv group_id group_regs pInfo N Id r)
              (FindMatchingEntry_measure N) (FindMatchingEntry_cond N)
              (FindMatchingEntry_body group_id group_regs pInfo Id r)
              (fun s => FindMatchingEntry_step pInfo N Id r s HN Hmax)
              (Z.to_nat N) (0, INVALID_CACHE_INDEX))
    as ([Index Found] & Hrun & (k & Hk & Hfst & Hcase) & Hcond).
  - exists O. split; [lia|]. split; [reflexivity|]. left. split; [reflexivity|].
    intros i e Hi. lia.
  - unfold FindMatchingEntry_measure. simpl. lia.
  - exists Found. unfold FindMatchingEntry. rewrite Hrun. simpl.
    split; [reflexivity|]. simpl in Hfst, Hcase. subst Index.
    destruct Hcase as [[Hinv Hno]|(idx & e & Hidx & Hsnd & Hfm)].
    + left. split; [exact Hinv|].
      unfold FindMatchingEntry_cond in Hcond. rewrite Hinv, Z.eqb_refl in Hcond.
      rewrite andb_true_r in Hcond. apply Z.ltb_ge in Hcond.
      assert (Z.of_nat k = N) as <- by lia. exact Hno.
    + right. exists idx, e. split; [exact Hsnd|exact Hfm].
Qed.

Lemma first_match_unique (pInfo : list A) (N Id : Z) (r : CPUID_REGISTERS)
    (i j : nat) (e e' : A) :
  first_match group_id group_regs pInfo N Id r i e ->
  first_match group_id group_regs pInfo N Id r j e' -> i = j.
Proof.
  intros (Hi & Hli & Hmi & Hni) (Hj & Hlj & Hmj & Hnj).
  destruct (Nat.lt_trichotomy i j) as [Hlt|[Heq|Hgt]]; [|exact Heq|].
  - rewrite (Hnj i e) in Hmi; [discriminate|lia|exact Hli].
  - rewrite (Hni j e') in Hmj; [discriminate|lia|exact Hlj].
Qed.

Lemma FindMatchingEntry_first (pInfo : list A) (N Id : Z) (r : CPUID_REGISTERS)
    (i : nat) (e : A) :
  0 <= N <= Z.of_nat (length pInfo) -> N < 4294967295 ->
  first_match group_id group_regs pInfo N Id r i e ->
  FindMatchingEntry group_id group_regs pInfo N Id r = Done (Z.of_nat i).
Proof.
  intros HN Hmax Hfm.
  destruct (FindMatchingEntry_spec pInfo N Id r HN Hmax)
    as (idx & Hrun & [[_ Hno]|(j & e' & -> & Hfm')]).
  - destruct Hfm as (Hi & Hli & Hmi & _).
    rewrite (Hno i e Hi Hli) in Hmi. discriminate.
  - rewrite Hrun. rewrite (first_match_unique _ _ _ _ _ _ _ _ Hfm Hfm'). reflexivity.
Qed.

Lemma FindMatchingEntry_none (pInfo : list A) (N Id : Z) (r : CPUID_REGISTERS) :
  0 <= N <= Z.of_nat (length pInfo) -> N < 4294967295 ->
  no_match group_id group_regs pInfo N Id r ->
  FindMatchingEntry group_id group_regs pInfo N Id r = Done INVALID_CACHE_INDEX.
Proof.
  intros HN Hmax Hno.
  destruct (FindMatchingEntry_spec pInfo N Id r HN Hmax)
    as (idx & Hrun & [[-> _]|(j & e' & -> & (Hj & Hlj & Hmj & _))]).
  - exact Hrun.
  - rewrite (Hno j e' Hj Hlj) in Hmj. discriminate.
Qed.

(** A subleaf whose group exists: the processor joins the first matching
    group and no group is created. *)
Lemma Example_subleaf_found (pInfo : list A) (N ApicId : Z) (r : CPUID_REGISTERS)
    (i : nat) (e : A) :
  0 <= N <= Z.of_nat (length pInfo) -> N < 4294967295 ->
  first_match group_id group_regs pInfo N (Z.land ApicId (mask_of r)) r i e ->
  0 <= group_count e < Z.of_nat (length (group_members e)) ->
  Example_subleaf group_id group_regs group_count group_members populate add_member
    mask_of ApicId r (pInfo, N)
  = Done (<[i := add_member e (<[Z.to_nat (group_count e) := ApicId]> (group_members e))]>
            pInfo, N).
Proof.
  intros HN Hmax Hfm Hroom. unfold Example_subleaf.
  rewrite (FindMatchingEntry_first pInfo N _ r i e HN Hmax Hfm). simpl.
  destruct Hfm as (Hi & Hli & _ & _).
  assert (Hvalid : (Z.of_nat i =? INVALID_CACHE_INDEX) = false).
  { apply Z.eqb_neq. change INVALID_CACHE_INDEX with 4294967295. lia. }
  rewrite Hvalid. simpl. rewrite Hvalid. simpl.
  assert (Hld : load pInfo (Z.of_nat i) = Done e).
  { apply load_Done. rewrite Nat2Z.id. split; [lia|exact Hli]. }
  rewrite Hld. simpl. rewrite store_in_range by lia. simpl.
  rewrite store_in_range by lia. rewrite Nat2Z.id. reflexivity.
Qed.

(** A subleaf that no group matches: a group is created in the next slot
    with the processor as its only member. *)
Lemma Example_subleaf_new (pInfo : list A) (N ApicId : Z) (r : CPUID_REGISTERS)
    (old : A) :
  0 <= N < Z.of_nat (length pInfo) -> N < 4294967294 ->
  no_match group_id group_regs pInfo N (Z.land ApicId (mask_of r)) r ->
  pInfo !! Z.to_nat N = Some old ->
  (0 < length (group_members old))%nat ->
  Example_subleaf group_id group_regs group_count group_members populate add_member
    mask_of ApicId r (pInfo, N)
  = Done (<[Z.to_nat N :=
              add_member (populate old (Z.land ApicId (mask_of r)) (mask_of r) r)
                (<[O := ApicId]> (group_members old))]> pInfo,
          N + 1).
Proof.
  intros HN Hmax Hno Hold Hroom. unfold Example_subleaf.
  rewrite (FindMatchingEntry_none pInfo N _ r) by (try exact Hno; lia).
  cbn [bind]. rewrite Z.eqb_refl. unfold AddEntry.
  assert (Hld : load pInfo N = Done old).
  { apply load_Done. split; [lia|exact Hold]. }
  rewrite Hld. simpl. rewrite store_in_range by lia. simpl.
  assert (Hvalid : (N =? INVALID_CACHE_INDEX) = false).
  { apply Z.eqb_neq. change INVALID_CACHE_INDEX with 4294967295. lia. }
  rewrite Hvalid. simpl.
  assert (Hld' : load (<[Z.to_nat N := populate old (Z.land ApicId (mask_of r))
                                         (mask_of r) r]> pInfo) N
                 = Done (populate old (Z.land ApicId (mask_of r)) (mask_of r) r)).
  { apply load_Done. split; [lia|]. apply list_lookup_insert_eq. lia. }
  rewrite Hld'. simpl. rewrite populate_count, populate_members.
  rewrite store_in_range by lia. simpl.
  rewrite store_in_range by (rewrite length_insert; lia).
  rewrite list_insert_insert_eq. rewrite u32_small by lia. reflexivity.
Qed.

(** Processing a subleaf leaves its group in place, and processing the same
    snapshot again, for any identifier with the same group identifier, joins
    that group without creating one. *)
Lemma Example_subleaf_twice (pInfo : list A) (N ApicId : Z) (r : CPUID_REGISTERS) :
  0 <= N < Z.of_nat (length pInfo) -> Z.of_nat (length pInfo) < 4294967295 ->
  (forall i e, pInfo !! i = Some e ->
     0 <= group_count e
     /\ group_count e + 2 <= Z.of_nat (length (group_members e)) < 4294967296) ->
  exists p1 N1 idx e1,
    Example_subleaf group_id group_regs group_count group_members populate add_member
      mask_of ApicId r (pInfo, N) = Done (p1, N1)
    /\ N <= N1 <= N + 1
    /\ first_match group_id group_regs p1 N1 (Z.land ApicId (mask_of r)) r idx e1
    /\ (1 <= group_count e1
        /\ group_count e1 + 1 <= Z.of_nat (length (group_members e1))
        /\ group_members e1 !! Z.to_nat (group_count e1 - 1) = Some ApicId)
    /\ forall ApicId',
         Z.land ApicId' (mask_of r) = Z.land ApicId (mask_of r) ->
         Example_subleaf group_id group_regs group_count group_members populate
           add_member mask_of ApicId' r (p1, N1)
         = Done (<[idx := add_member e1
                            (<[Z.to_nat (group_count e1) := ApicId']> (group_members e1))]>
                   p1, N1)
         /\ group_count
              (add_member e1 (<[Z.to_nat (group_count e1) := ApicId']> (group_members e1)))
            = group_count e1 + 1.
Proof.
  intros HN Hlen Hroom.
  set (Id := Z.land ApicId (mask_of r)).
  assert (Hagain : forall p1 N1 idx e1,
            0 <= N1 <= Z.of_nat (length p1) -> N1 < 4294967295 ->
            first_match group_id group_regs p1 N1 Id r idx e1 ->
            0 <= group_count e1 ->
            group_count e1 + 1 <= Z.of_nat (length (group_members e1)) ->
            Z.of_nat (length (group_members e1)) < 4294967296 ->
            forall ApicId',
              Z.land ApicId' (mask_of r) = Id ->
              Example_subleaf group_id group_regs group_count group_members populate
                add_member mask_of ApicId' r (p1, N1)
              = Done (<[idx := add_member e1
                                 (<[Z.to_nat (group_count e1) := ApicId']>
                                    (group_members e1))]> p1, N1)
              /\ group_count
                   (add_member e1
                      (<[Z.to_nat (group_count e1) := ApicId']> (group_members e1)))
                 = group_count e1 + 1).
  { intros p1 N1 idx e1 HN1 Hmax1 Hfm Hc0 Hc1 Hc2 ApicId' Hid. split.
    - apply Example_subleaf_found; try assumption; [|lia].
      rewrite Hid. exact Hfm.
    - rewrite add_member_count. apply u32_small. lia. }
  destruct (FindMatchingEntry_spec pInfo N Id r ltac:(lia) ltac:(lia))
    as (found & _ & [[_ Hno]|(i & e & _ & Hfm)]).
  - destruct (lookup_lt_is_Some_2 pInfo (Z.to_nat N)) as [old Hold]; [lia|].
    destruct (Hroom _ _ Hold) as (Hold0 & Hold2 & Hold3).
    set (e1 := add_member (populate old Id (mask_of r) r)
                 (<[O := ApicId]> (group_members old))).
    exists (<[Z.to_nat N := e1]> pInfo), (N + 1), (Z.to_nat N), e1.
    split; [apply Example_subleaf_new; try assumption; lia|].
    split; [lia|].
    assert (Hfm1 : first_match group_id group_regs (<[Z.to_nat N := e1]> pInfo)
                     (N + 1) Id r (Z.to_nat N) e1).
    { split; [lia|]. split; [apply list_lookup_insert_eq; lia|]. split.
      - unfold group_matches, e1.
        rewrite add_member_id, add_member_regs, populate_id, populate_regs.
        rewrite Z.eqb_refl. simpl. apply memcmp_registers_eq_iff. reflexivity.
      - intros j e' Hj Hl. rewrite list_lookup_insert_ne in Hl by lia.
        apply (Hno j e'); [lia|exact Hl]. }
    split; [exact Hfm1|].
    split.
    { unfold e1. rewrite add_member_count, add_member_members, populate_count.
      rewrite length_insert. rewrite u32_small by lia.
      split; [lia|]. split; [lia|].
      apply list_lookup_insert_eq. lia. }
    apply Hagain; try exact Hfm1.
    + rewrite length_insert. lia.
    + lia.
    + unfold e1. rewrite add_member_count, populate_count. unfold u32.
      apply Z.mod_pos_bound. reflexivity.
    + unfold e1. rewrite add_member_count, add_member_members, populate_count.
      rewrite length_insert. rewrite u32_small by lia. lia.
    + unfold e1. rewrite add_member_members, length_insert. lia.
  - destruct Hfm as (Hi & Hli & Hmi & Hni).
    destruct (Hroom _ _ Hli) as (He0 & He2 & He3).
    set (e1 := add_member e (<[Z.to_nat (group_count e) := ApicId]> (group_members e))).
    exists (<[i := e1]> pInfo), N, i, e1.
    split.
    { apply Example_subleaf_found; try lia.
      split; [exact Hi|]. split; [exact Hli|]. split; [exact Hmi|exact Hni]. }
    split; [lia|].
    assert (Hfm1 : first_match group_id group_regs (<[i := e1]> pInfo) N Id r i e1).
    { split; [exact Hi|]. split; [apply list_lookup_insert_eq; lia|]. split.
      - unfold group_matches, e1. rewrite add_member_id, add_member_regs. exact Hmi.
      - intros j e' Hj Hl. rewrite list_lookup_insert_ne in Hl by lia.
        apply (Hni j e'); [lia|exact Hl]. }
    split; [exact Hfm1|].
    split.
    { unfold e1. rewrite add_member_count, add_member_members.
      rewrite length_insert. rewrite u32_small by lia.
      split; [lia|]. split; [lia|].
      replace (Z.to_nat (group_count e + 1 - 1)) with (Z.to_nat (group_count e)) by lia.
      apply list_lookup_insert_eq. lia. }
    apply Hagain; try exact Hfm1.
    + rewrite length_insert. lia.
    + lia.
    + unfold e1. rewrite add_member_count. unfold u32.
      apply Z.mod_pos_bound. reflexivity.
    + unfold e1. rewrite add_member_count, add_member_members.
      rewrite length_insert. rewrite u32_small by lia. lia.
    + unfold e1. rewrite add_member_members, length_insert. lia.
Qed.

Lemma group_matches_iff (Id : Z) (r : CPUID_REGISTERS) (e : A) :
  group_matches group_id group_regs Id r e = true
  <-> group_id e = Id /\ group_regs e = r.
Proof.
  unfold group_matches. rewrite andb_true_iff, Z.eqb_eq, memcmp_registers_eq_iff.
  reflexivity.
Qed.

(** The search finds a group exactly when one of the first [N] groups has
    both the identifier and the snapshot, and the group found has both. *)
Lemma FindMatchingEntry_iff (pInfo : list A) (N Id : Z) (r : CPUID_REGISTERS) :
  0 <= N <= Z.of_nat (length pInfo) -> N < 4294967295 ->
  exists idx,
    FindMatchingEntry group_id group_regs pInfo N Id r = Done idx
    /\ (idx <> INVALID_CACHE_INDEX
        <-> exists i e, Z.of_nat i < N /\ pInfo !! i = Some e
                        /\ group_id e = Id /\ group_regs e = r)
    /\ (idx <> INVALID_CACHE_INDEX ->
        exists e, 0 <= idx < N /\ pInfo !! Z.to_nat idx = Some e
                  /\ group_id e = Id /\ group_regs e = r).
Proof.
  intros HN Hmax.
  destruct (FindMatchingEntry_spec pInfo N Id r HN Hmax)
    as (idx & Hrun & [[-> Hno]|(i & e & -> & (Hi & Hli & Hmi & _))]).
  - exists INVALID_CACHE_INDEX. split; [exact Hrun|]. split.
    + split; [intros H; contradiction|].
      intros (i & e & Hi & Hli & Hid & Hregs).
      assert (Hm : group_matches group_id group_regs Id r e = true)
        by (apply group_matches_iff; auto).
      rewrite (Hno i e Hi Hli) in Hm. discriminate.
    + intros H. contradiction.
  - apply group_matches_iff in Hmi. destruct Hmi as [Hid Hregs].
    exists (Z.of_nat i). split; [exact Hrun|]. split.
    + split.
      * intros _. exists i, e. auto.
      * intros _. change INVALID_CACHE_INDEX with 4294967295. lia.
    + intros _. exists e. rewrite Nat2Z.id. split; [lia|]. auto.
Qed.

(** When a group has the identifier and the snapshot of a resource, the
    processor joins the first such group and no group is created. *)
Lemma Example_subleaf_merge (pInfo : list A) (N ApicId : Z) (r : CPUID_REGISTERS)
    (i : nat) (e : A) :
  0 <= N <= Z.of_nat (length pInfo) -> N < 4294967295 ->
  Z.of_nat i < N -> pInfo !! i = Some e ->
  group_id e = Z.land ApicId (mask_of r) /\ group_regs e = r ->
  (forall j e', (j < i)%nat -> pInfo !! j = Some e' ->
     ~ (group_id e' = Z.land ApicId (mask_of r) /\ group_regs e' = r)) ->
  0 <= group_count e < Z.of_nat (length (group_members e)) ->
  Example_subleaf group_id group_regs group_count group_members populate add_member
    mask_of ApicId r (pInfo, N)
  = Done (<[i := add_member e (<[Z.to_nat (group_count e) := ApicId]> (group_members e))]>
            pInfo, N).
Proof.
  intros HN Hmax Hi Hli Hm Hfirst Hroom.
  apply Example_subleaf_found; try assumption.
  split; [exact Hi|]. split; [exact Hli|]. split.
  - apply group_matches_iff. exact Hm.
  - intros j e' Hj Hlj.
    destruct (group_matches group_id group_regs (Z.land ApicId (mask_of r)) r e') eqn:Hm';
      [|reflexivity].
    apply group_matches_iff in Hm'. exfalso. apply (Hfirst j e'); [lia|exact Hlj|exact Hm'].
Qed.

(** When every group that has the identifier of a resource differs from it
    in the snapshot, the resource gets a group of its own in the next slot
    and the existing groups stay as they are. *)
Lemma Example_subleaf_distinct (pInfo : list A) (N ApicId : Z) (r : CPUID_REGISTERS)
    (old : A) :
  0 <= N < Z.of_nat (length pInfo) -> N + 1 < 4294967295 ->
  (forall i e, Z.of_nat i < N -> pInfo !! i = Some e ->
     group_id e = Z.land ApicId (mask_of r) -> group_regs e <> r) ->
  pInfo !! Z.to_nat N = Some old ->
  (0 < length (group_members old))%nat ->
  exists e',
    Example_subleaf group_id group_regs group_count group_members populate add_member
      mask_of ApicId r (pInfo, N) = Done (<[Z.to_nat N := e']> pInfo, N + 1)
    /\ group_id e' = Z.land ApicId (mask_of r) /\ group_regs e' = r
    /\ group_count e' = 1 /\ group_members e' !! O = Some ApicId.
Proof.
  intros HN Hmax Hdiff Hold Hroom.
  eexists. split; [|split; [|split; [|split]]].
  - refine (Example_subleaf_new pInfo N ApicId r old HN _ _ Hold Hroom); [lia|].
    intros i e Hi Hli.
    destruct (group_matches group_id group_regs (Z.land ApicId (mask_of r)) r e) eqn:Hm;
      [|reflexivity].
    apply group_matches_iff in Hm. destruct Hm as [Hid Hregs].
    exfalso. apply (Hdiff i e Hi Hli Hid Hregs).
  - rewrite add_member_id, populate_id. reflexivity.
  - rewrite add_member_regs, populate_regs. reflexivity.
  - rewrite add_member_count, populate_count. reflexivity.
  - rewrite add_member_members. apply list_lookup_insert_eq. exact Hroom.
Qed.
End ResourceGroupFacts.

(** ** The cache pass and the translation-buffer pass as instances *)

Example trace_cache_groups_summary :
  snd trace_cache_groups = 3
  /\ map cache_group_summary (take 3 (fst trace_cache_groups))
     = [ (mkRegs 0x00000121 0x01C0003F 0x3F 0, 0, 0xFFFFFFFF, [0]);
         (mkRegs 0x00004143 0x03C0003F 0x3FF 0, 0, 0xFFFFFFFE, [0; 1]);
         (mkRegs 0x00000121 0x01C0003F 0x3F 0, 1, 0xFFFFFFFF, [1]) ].
Proof. vm_compute. split; reflexivity. Qed.

(** C4: a resource subleaf is merged into an existing group exactly when a
    group has both its masked identifier and its four-register snapshot, for
    caches and for translation buffers: the search answers a valid index if
    and only if such a group exists, and the group it answers is one; when
    one exists the processor joins the first and no group is created; when
    none exists (in particular when the groups with that identifier differ
    in the snapshot) the resource gets a group of its own in the next slot. *)
Theorem resource_merge_iff (pCacheInfo : list CPUID_CACHE_INFO)
    (pTlbInfo : list CPUID_TLB_INFO) (NumberOfCaches NumberOfTlbs Id : Z)
    (r : CPUID_REGISTERS) :
  0 <= NumberOfCaches <= Z.of_nat (length pCacheInfo) ->
  0 <= NumberOfTlbs <= Z.of_nat (length pTlbInfo) ->
  NumberOfCaches < 4294967295 -> NumberOfTlbs < 4294967295 ->
  (exists idx,
     ParseCache_Internal_FindMatchingCacheEntry pCacheInfo NumberOfCaches Id r = Done idx
     /\ (idx <> INVALID_CACHE_INDEX
         <-> exists i e, Z.of_nat i < NumberOfCaches /\ pCacheInfo !! i = Some e
                         /\ cache_group_matches Id r e)
     /\ (idx <> INVALID_CACHE_INDEX ->
         exists e, 0 <= idx < NumberOfCaches /\ pCacheInfo !! Z.to_nat idx = Some e
                   /\ cache_group_matches Id r e))
  /\ (exists idx,
        ParseTlb_Internal_FindMatchingTlbEntry pTlbInfo NumberOfTlbs Id r = Done idx
        /\ (idx <> INVALID_TLB_INDEX
            <-> exists i e, Z.of_nat i < NumberOfTlbs /\ pTlbInfo !! i = Some e
                            /\ tlb_group_matches Id r e)
        /\ (idx <> INVALID_TLB_INDEX ->
            exists e, 0 <= idx < NumberOfTlbs /\ pTlbInfo !! Z.to_nat idx = Some e
                      /\ tlb_group_matches Id r e))
  /\ (forall ApicId i e,
        Id = Z.land ApicId (CacheExample_mask r) ->
        Z.of_nat i < NumberOfCaches -> pCacheInfo !! i = Some e ->
        cache_group_matches Id r e ->
        (forall j e', (j < i)%nat -> pCacheInfo !! j = Some e' ->
           ~ cache_group_matches Id r e') ->
        0 <= NumberOfLPsSharingThisCache e
          < Z.of_nat (length (ListOfApicIDsSharingThisCache e)) ->
        CacheExample_subleaf ApicId r (pCacheInfo, NumberOfCaches)
        = Done (<[i := add_cache_member e
                         (<[Z.to_nat (NumberOfLPsSharingThisCache e) := ApicId]>
                            (ListOfApicIDsSharingThisCache e))]> pCacheInfo,
                NumberOfCaches))
  /\ (forall ApicId i e,
        Id = Z.land ApicId (TlbExample_mask r) ->
        Z.of_nat i < NumberOfTlbs -> pTlbInfo !! i = Some e ->
        tlb_group_matches Id r e ->
        (forall j e', (j < i)%nat -> pTlbInfo !! j = Some e' ->
           ~ tlb_group_matches Id r e') ->
        0 <= NumberOfLPsSharingThisTlb e
          < Z.of_nat (length (ListOfApicIDsSharingThisTlb e)) ->
        TlbExample_subleaf ApicId r (pTlbInfo, NumberOfTlbs)
        = Done (<[i := add_tlb_member e
                         (<[Z.to_nat (NumberOfLPsSharingThisTlb e) := ApicId]>
                            (ListOfApicIDsSharingThisTlb e))]> pTlbInfo,
                NumberOfTlbs))
  /\ (forall ApicId old,
        Id = Z.land ApicId (CacheExample_mask r) ->
        NumberOfCaches < Z.of_nat (length pCacheInfo) ->
        NumberOfCaches + 1 < 4294967295 ->
        (forall i e, Z.of_nat i < NumberOfCaches -> pCacheInfo !! i = Some e ->
           ~ cache_group_matches Id r e) ->
        pCacheInfo !! Z.to_nat NumberOfCaches = Some old ->
        (0 < length (ListOfApicIDsSharingThisCache old))%nat ->
        exists e',
          CacheExample_subleaf ApicId r (pCacheInfo, NumberOfCaches)
          = Done (<[Z.to_nat NumberOfCaches := e']> pCacheInfo, NumberOfCaches + 1)
          /\ cache_group_matches Id r e'
          /\ NumberOfLPsSharingThisCache e' = 1
          /\ ListOfApicIDsSharingThisCache e' !! O = Some ApicId)
  /\ (forall ApicId old,
        Id = Z.land ApicId (TlbExample_mask r) ->
        NumberOfTlbs < Z.of_nat (length pTlbInfo) ->
        NumberOfTlbs + 1 < 4294967295 ->
        (forall i e, Z.of_nat i < NumberOfTlbs -> pTlbInfo !! i = Some e ->
           ~ tlb_group_matches Id r e) ->
        pTlbInfo !! Z.to_nat NumberOfTlbs = Some old ->
        (0 < length (ListOfApicIDsSharingThisTlb old))%nat ->
        exists e',
          TlbExample_subleaf ApicId r (pTlbInfo, NumberOfTlbs)
          = Done (<[Z.to_nat NumberOfTlbs := e']> pTlbInfo, NumberOfTlbs + 1)
          /\ tlb_group_matches Id r e'
          /\ NumberOfLPsSharingThisTlb e' = 1
          /\ ListOfApicIDsSharingThisTlb e' !! O = Some ApicId).
Proof.
  intros HNC HNT HmaxC HmaxT. unfold cache_group_matches, tlb_group_matches.
  split; [|split; [|split; [|split; [|split]]]].
  - exact (FindMatchingEntry_iff CacheId CachedCpuidRegisters pCacheInfo
             NumberOfCaches Id r HNC HmaxC).
  - exact (FindMatchingEntry_iff TlbId TlbCachedCpuidRegisters pTlbInfo
             NumberOfTlbs Id r HNT HmaxT).
  - intros ApicId i e -> Hi Hli Hm Hfirst Hroom.
    apply (Example_subleaf_merge CacheId CachedCpuidRegisters
             NumberOfLPsSharingThisCache ListOfApicIDsSharingThisCache
             AddCacheEntry_populate add_cache_member CacheExample_mask);
      assumption.
  - intros ApicId i e -> Hi Hli Hm Hfirst Hroom.
    apply (Example_subleaf_merge TlbId TlbCachedCpuidRegisters
             NumberOfLPsSharingThisTlb ListOfApicIDsSharingThisTlb
             AddTlbEntry_populate add_tlb_member TlbExample_mask);
      assumption.
  - intros ApicId old -> Hlt Hmax Hdiff Hold Hroom.
    destruct (Example_subleaf_distinct CacheId CachedCpuidRegisters
                NumberOfLPsSharingThisCache ListOfApicIDsSharingThisCache
                AddCacheEntry_populate add_cache_member CacheExample_mask
                ltac:(intros; reflexivity) ltac:(intros; reflexivity)
                ltac:(intros; reflexivity) ltac:(intros; reflexivity)
                ltac:(intros; reflexivity) ltac:(intros; reflexivity)
                ltac:(intros; reflexivity) ltac:(intros; reflexivity)
                pCacheInfo NumberOfCaches ApicId r old)
      as (e' & Hrun & Hid & Hregs & Hcount & Hmember); try assumption; try lia.
    + intros i e Hi Hli Hid Hregs. apply (Hdiff i e Hi Hli). auto.
    + exists e'. auto.
  - intros ApicId old -> Hlt Hmax Hdiff Hold Hroom.
    destruct (Example_subleaf_distinct TlbId TlbCachedCpuidRegisters
                NumberOfLPsSharingThisTlb ListOfApicIDsSharingThisTlb
                AddTlbEntry_populate add_tlb_member TlbExample_mask
                ltac:(intros; reflexivity) ltac:(intros; reflexivity)
                ltac:(intros; reflexivity) ltac:(intros; reflexivity)
                ltac:(intros; reflexivity) ltac:(intros; reflexivity)
                ltac:(intros; reflexivity) ltac:(intros; reflexivity)
                pTlbInfo NumberOfTlbs ApicId r old)
      as (e' & Hrun & Hid & Hregs & Hcount & Hmember); try assumption; try lia.
    + intros i e Hi Hli Hid Hregs. apply (Hdiff i e Hi Hli). auto.
    + exists e'. auto.
Qed.

(** On the groups of the trace, the snapshot of the shared cache with
    identifier 0 is found in group 1; group 0 has the same identifier and
    another snapshot. *)
Lemma resource_merge_iff_witness :
  exists idx,
    ParseCache_Internal_FindMatchingCacheEntry (fst trace_cache_groups) 3 0
      (trace_leaf4 0 1) = Done idx
    /\ (idx <> INVALID_CACHE_INDEX
        <-> exists i e, Z.of_nat i < 3 /\ fst trace_cache_groups !! i = Some e
                        /\ cache_group_matches 0 (trace_leaf4 0 1) e)
    /\ (idx <> INVALID_CACHE_INDEX ->
        exists e, 0 <= idx < 3 /\ fst trace_cache_groups !! Z.to_nat idx = Some e
                  /\ cache_group_matches 0 (trace_leaf4 0 1) e).
Proof.
  apply (resource_merge_iff (fst trace_cache_groups) (replicate 25 zero_tlb_info)
           3 0 0 (trace_leaf4 0 1)).
  - vm_compute. split; discriminate.
  - vm_compute. split; discriminate.
  - reflexivity.
  - reflexivity.
Defined.

(** C7: processing a subleaf leaves a group with its identifier and its
    snapshot, and the processed identifier as the last member of that
    group; processing the same snapshot again, for an identifier with the
    same group identifier, creates no group and leaves every other group as
    it was: in the group found the count of members is one more and the
    members are the earlier ones followed by the identifier just
    processed. *)
Theorem CacheExample_subleaf_idempotent (pCacheInfo : list CPUID_CACHE_INFO)
    (NumberOfCaches ApicId : Z) (r : CPUID_REGISTERS) :
  0 <= NumberOfCaches < Z.of_nat (length pCacheInfo) ->
  Z.of_nat (length pCacheInfo) < 4294967295 ->
  (forall i e, pCacheInfo !! i = Some e ->
     0 <= NumberOfLPsSharingThisCache e
     /\ NumberOfLPsSharingThisCache e + 2
        <= Z.of_nat (length (ListOfApicIDsSharingThisCache e)) < 4294967296) ->
  exists p1 N1 idx e1,
    CacheExample_subleaf ApicId r (pCacheInfo, NumberOfCaches) = Done (p1, N1)
    /\ NumberOfCaches <= N1 <= NumberOfCaches + 1
    /\ Z.of_nat idx < N1 /\ p1 !! idx = Some e1
    /\ CacheId e1 = Z.land ApicId (CacheExample_mask r)
    /\ CachedCpuidRegisters e1 = r
    /\ 1 <= NumberOfLPsSharingThisCache e1
    /\ ListOfApicIDsSharingThisCache e1
         !! Z.to_nat (NumberOfLPsSharingThisCache e1 - 1) = Some ApicId
    /\ forall ApicId',
         Z.land ApicId' (CacheExample_mask r) = Z.land ApicId (CacheExample_mask r) ->
         exists p2 e2,
           CacheExample_subleaf ApicId' r (p1, N1) = Done (p2, N1)
           /\ p2 = <[idx := add_cache_member e1
                              (<[Z.to_nat (NumberOfLPsSharingThisCache e1) := ApicId']>
                                 (ListOfApicIDsSharingThisCache e1))]> p1
           /\ length p2 = length p1
           /\ (forall j, j <> idx -> p2 !! j = p1 !! j)
           /\ p2 !! idx = Some e2
           /\ CacheId e2 = CacheId e1
           /\ CachedCpuidRegisters e2 = CachedCpuidRegisters e1
           /\ NumberOfLPsSharingThisCache e2 = NumberOfLPsSharingThisCache e1 + 1
           /\ take (Z.to_nat (NumberOfLPsSharingThisCache e2))
                (ListOfApicIDsSharingThisCache e2)
              = take (Z.to_nat (NumberOfLPsSharingThisCache e1))
                  (ListOfApicIDsSharingThisCache e1) ++ [ApicId'].
Proof.
  intros HN Hlen Hroom.
  destruct (Example_subleaf_twice CacheId CachedCpuidRegisters
              NumberOfLPsSharingThisCache ListOfApicIDsSharingThisCache
              AddCacheEntry_populate add_cache_member CacheExample_mask
              ltac:(intros; reflexivity) ltac:(intros; reflexivity)
              ltac:(intros; reflexivity) ltac:(intros; reflexivity)
              ltac:(intros; reflexivity) ltac:(intros; reflexivity)
              ltac:(intros; reflexivity) ltac:(intros; reflexivity)
              pCacheInfo NumberOfCaches ApicId r HN Hlen Hroom)
    as (p1 & N1 & idx & e1 & Hrun & HN1 & (Hidx & Hl & Hm & _)
        & (Hc1 & Hroom1 & Hlast) & Hagain).
  apply (group_matches_iff CacheId CachedCpuidRegisters) in Hm.
  destruct Hm as [Hid Hregs].
  exists p1, N1, idx, e1. do 6 (split; [assumption|]).
  split; [exact Hc1|]. split; [exact Hlast|].
  intros ApicId' Hsame. destruct (Hagain ApicId' Hsame) as [Hrun2 Hcount].
  set (n := Z.to_nat (NumberOfLPsSharingThisCache e1)) in *.
  set (e2 := add_cache_member e1 (<[n := ApicId']> (ListOfApicIDsSharingThisCache e1)))
    in *.
  assert (Hi : (idx < length p1)%nat) by (apply lookup_lt_Some in Hl; exact Hl).
  exists (<[idx := e2]> p1), e2.
  split; [exact Hrun2|]. split; [reflexivity|].
  split; [apply length_insert|].
  split; [intros j Hj; apply list_lookup_insert_ne; congruence|].
  split; [apply list_lookup_insert_eq; exact Hi|].
  split; [reflexivity|]. split; [reflexivity|]. split; [exact Hcount|].
  rewrite Hcount.
  replace (Z.to_nat (NumberOfLPsSharingThisCache e1 + 1)) with (S n) by (unfold n; lia).
  change (ListOfApicIDsSharingThisCache e2)
    with (<[n := ApicId']> (ListOfApicIDsSharingThisCache e1)).
  rewrite (take_S_r _ n ApicId') by (apply list_lookup_insert_eq; unfold n; lia).
  rewrite take_insert_ge by lia. reflexivity.
Qed.

Lemma CacheExample_subleaf_idempotent_witness :
  exists p1 N1 idx e1,
    CacheExample_subleaf 0 (trace_leaf4 0 1) (replicate 20 zero_cache_info, 0) = Done (p1, N1)
    /\ 0 <= N1 <= 0 + 1
    /\ Z.of_nat idx < N1 /\ p1 !! idx = Some e1
    /\ CacheId e1 = Z.land 0 (CacheExample_mask (trace_leaf4 0 1))
    /\ CachedCpuidRegisters e1 = (trace_leaf4 0 1)
    /\ 1 <= NumberOfLPsSharingThisCache e1
    /\ ListOfApicIDsSharingThisCache e1
         !! Z.to_nat (NumberOfLPsSharingThisCache e1 - 1) = Some 0
    /\ forall ApicId',
         Z.land ApicId' (CacheExample_mask (trace_leaf4 0 1)) = Z.land 0 (CacheExample_mask (trace_leaf4 0 1)) ->
         exists p2 e2,
           CacheExample_subleaf ApicId' (trace_leaf4 0 1) (p1, N1) = Done (p2, N1)
           /\ p2 = <[idx := add_cache_member e1
                              (<[Z.to_nat (NumberOfLPsSharingThisCache e1) := ApicId']>
                                 (ListOfApicIDsSharingThisCache e1))]> p1
           /\ length p2 = length p1
           /\ (forall j, j <> idx -> p2 !! j = p1 !! j)
           /\ p2 !! idx = Some e2
           /\ CacheId e2 = CacheId e1
           /\ CachedCpuidRegisters e2 = CachedCpuidRegisters e1
           /\ NumberOfLPsSharingThisCache e2 = NumberOfLPsSharingThisCache e1 + 1
           /\ take (Z.to_nat (NumberOfLPsSharingThisCache e2))
                (ListOfApicIDsSharingThisCache e2)
              = take (Z.to_nat (NumberOfLPsSharingThisCache e1))
                  (ListOfApicIDsSharingThisCache e1) ++ [ApicId'].
Proof.
  apply (CacheExample_subleaf_idempotent (replicate 20 zero_cache_info) 0 0
           (trace_leaf4 0 1)).
  - simpl. lia.
  - simpl. lia.
  - intros i e H. apply lookup_replicate in H. destruct H as [-> _].
    vm_compute. repeat split; (discriminate || reflexivity).
Defined.

(** The first-level cache of the trace processed twice, for the
    identifiers 0 and 1 of a pair that shares it: one group, two members. *)
Example trace_subleaf_twice_members :
  match CacheExample_subleaf 0 (trace_leaf4 0 1) (replicate 20 zero_cache_info, 0) with
  | Done s =>
      match CacheExample_subleaf 1 (trace_leaf4 0 1) s with
      | Done (p2, N2) =>
          Some (N2,
                omap (fun e => Some (NumberOfLPsSharingThisCache e,
                                     take 2 (ListOfApicIDsSharingThisCache e)))
                  (take 1 p2))
      | _ => None
      end
  | _ => None
  end = Some (1, [(2, [0; 1])]).
Proof. vm_compute. reflexivity. Qed.

(** [ParseCache_Internal_AddCacheEntry] never reports a failure: when it
    returns, the index it returns is the previous number of groups. *)
Lemma ParseCache_Internal_AddCacheEntry_index (pCacheInfo p' : list CPUID_CACHE_INFO)
    (NumberOfCaches CacheId' CacheMask' N' idx : Z) (r : CPUID_REGISTERS) :
  ParseCache_Internal_AddCacheEntry pCacheInfo NumberOfCaches CacheId' CacheMask' r
  = Done (p', N', idx) ->
  idx = NumberOfCaches /\ N' = u32 (NumberOfCaches + 1).
Proof.
  unfold ParseCache_Internal_AddCacheEntry. intros H.
  apply bind_Done in H. destruct H as (old & _ & H).
  apply bind_Done in H. destruct H as (p1 & _ & H).
  injection H as _ <- <-. auto.
Qed.

(** With every allocated group in use, the addition stores outside the
    array. *)
Lemma ParseCache_Internal_AddCacheEntry_full (pCacheInfo : list CPUID_CACHE_INFO)
    (NumberOfCaches CacheId' CacheMask' : Z) (r : CPUID_REGISTERS) :
  Z.of_nat (length pCacheInfo) <= NumberOfCaches ->
  ParseCache_Internal_AddCacheEntry pCacheInfo NumberOfCaches CacheId' CacheMask' r
  = Undefined.
Proof.
  intros H. unfold ParseCache_Internal_AddCacheEntry.
  rewrite load_out_of_range by exact H. reflexivity.
Qed.

(** C5 fails on the code.  On a processor that enumerates eleven caches the
    ten allocated groups are in use after ten subleaves; the search for the
    eleventh finds nothing, the addition then writes group 10 outside the
    array instead of answering [INVALID_CACHE_INDEX], and the whole pass is
    undefined. *)
Theorem ParseCache_capacity_overrun :
  match overfull_groups with
  | Done (p, n) => (Z.of_nat (length p), n)
  | _ => (0, 0)
  end = (1 * MAX_CACHE_PER_LP, 1 * MAX_CACHE_PER_LP)
  /\ (let* s := overfull_groups in
      ParseCache_Internal_FindMatchingCacheEntry (fst s) (snd s)
        (Z.land 0 (CacheExample_mask (overfull_cpuid 0 4 10))) (overfull_cpuid 0 4 10))
     = Done INVALID_CACHE_INDEX
  /\ (let* s := overfull_groups in
      ParseCache_Internal_AddCacheEntry (fst s) (snd s)
        (Z.land 0 (CacheExample_mask (overfull_cpuid 0 4 10)))
        (CacheExample_mask (overfull_cpuid 0 4 10)) (overfull_cpuid 0 4 10))
     = Undefined
  /\ (let* s := overfull_groups in
      CacheExample_subleaf 0 (overfull_cpuid 0 4 10) s) = Undefined
  /\ ParseCache_CpuidCacheExample 11 overfull_machine = Undefined.
Proof. vm_compute. repeat split; reflexivity. Qed.

(** ** [Tools_GatherPlatformApicIds] *)

Lemma GatherPlatformApicIds_ApicId_strategy (CpuidRegisters : CPUID_REGISTERS)
    (m : MACHINE) :
  GatherPlatformApicIds_ApicId CpuidRegisters m
  = platform_id_by_strategy (Eax CpuidRegisters) m.
Proof.
  unfold GatherPlatformApicIds_ApicId, platform_id_by_strategy.
  destruct (0x1F <=? Eax CpuidRegisters);
    destruct (Ebx (Tools_ReadCpuid m 0x1F 0) =? 0);
    destruct (0xB <=? Eax CpuidRegisters);
    destruct (Ebx (Tools_ReadCpuid m 0xB 0) =? 0); reflexivity.
Qed.

Lemma affinity_after_S (m : MACHINE) (k : nat) :
  affinity_after m (S k) = Tools_SetAffinity (affinity_after m k) (Z.of_nat k).
Proof.
  unfold affinity_after. rewrite seq_S, map_app, fold_left_app. reflexivity.
Qed.

(** On a recorded trace the machine bound to the processors 0 .. i in turn
    is the machine bound to processor [i]. *)
Lemma Tools_SetAffinity_same_trace (m m' : MACHINE) (ProcessorNumber : Z) :
  UseNativeCpuid (g_GlobalData m) = false ->
  same_trace m m' -> same_trace m (Tools_SetAffinity m' ProcessorNumber).
Proof.
  intros Hsim Hsame. pose proof Hsame as (Hn & H1 & H2 & H3 & H4 & H5 & H6 & H7).
  unfold Tools_SetAffinity. rewrite Hn, Hsim.
  destruct (ProcessorNumber <? NumberOfSimulatedProcessors (g_GlobalData m'));
    [|exact Hsame].
  unfold same_trace. simpl. repeat split; (assumption || (symmetry; assumption)).
Qed.

Lemma affinity_after_same_trace (m : MACHINE) (k : nat) :
  UseNativeCpuid (g_GlobalData m) = false -> same_trace m (affinity_after m k).
Proof.
  intros Hsim. induction k as [|k IH].
  - unfold same_trace, affinity_after. simpl. repeat split; reflexivity.
  - rewrite affinity_after_S. apply Tools_SetAffinity_same_trace; assumption.
Qed.

Lemma affinity_after_simulated (m : MACHINE) (i : nat) :
  UseNativeCpuid (g_GlobalData m) = false ->
  Z.of_nat i < NumberOfSimulatedProcessors (g_GlobalData m) ->
  affinity_after m (S i) = Tools_SetAffinity m (Z.of_nat i).
Proof.
  intros Hsim Hi. rewrite affinity_after_S.
  destruct (affinity_after_same_trace m i Hsim)
    as (Hn & H1 & H2 & H3 & H4 & H5 & H6 & H7).
  set (m' := affinity_after m i) in *.
  unfold Tools_SetAffinity. rewrite Hn, Hsim, H5.
  destruct (Z.ltb_spec (Z.of_nat i) (NumberOfSimulatedProcessors (g_GlobalData m)));
    [|lia].
  rewrite H1, H2, H3, H4, H6, H7. reflexivity.
Qed.

Section Gather.
Variables (m0 : MACHINE) (a0 : list Z) (ArraySize : Z).
Hypothesis Hprocs : 0 <= Tools_GetNumberOfProcessors m0.
Hypothesis Hsize : 0 <= ArraySize <= Z.of_nat (length a0).

Lemma GatherPlatformApicIds_cond_count (m : MACHINE) (a : list Z) (Index : Z) :
  GatherPlatformApicIds_cond (capped_processors m0) ArraySize (m, a, Index)
  = (Index <? gathered_count m0 ArraySize).
Proof.
  unfold GatherPlatformApicIds_cond, capped_processors, gathered_count, MAX_PROCESSORS.
  destruct (Z.ltb_spec 1024 (Tools_GetNumberOfProcessors m0));
    destruct (Z.ltb_spec Index ArraySize);
    destruct (Z.ltb_spec Index (Z.min (Z.min (Tools_GetNumberOfProcessors m0) 1024)
                                  ArraySize));
    rewrite ?andb_true_r, ?andb_false_r; try reflexivity; try lia;
    apply Z.ltb_lt || apply Z.ltb_ge; lia.
Qed.

Lemma GatherPlatformApicIds_step (s : MACHINE * list Z * Z) :
  GatherPlatformApicIds_inv m0 a0 (gathered_count m0 ArraySize) s ->
  GatherPlatformApicIds_cond (capped_processors m0) ArraySize s = true ->
  exists s',
    GatherPlatformApicIds_body (Tools_ReadCpuid m0 0 0) s = Done s'
    /\ GatherPlatformApicIds_inv m0 a0 (gathered_count m0 ArraySize) s'
    /\ (GatherPlatformApicIds_measure (gathered_count m0 ArraySize) s'
        < GatherPlatformApicIds_measure (gathered_count m0 ArraySize) s)%nat.
Proof.
  intros (k & a & Hk & -> & Hlen & Hdone & Hrest) Hcond.
  rewrite GatherPlatformApicIds_cond_count in Hcond. apply Z.ltb_lt in Hcond.
  assert (Hbound : gathered_count m0 ArraySize <= 1024
                   /\ gathered_count m0 ArraySize <= ArraySize).
  { unfold gathered_count, MAX_PROCESSORS. lia. }
  eexists. split; [|split].
  - unfold GatherPlatformApicIds_body.
    rewrite <- affinity_after_S, GatherPlatformApicIds_ApicId_strategy.
    rewrite store_in_range by lia. simpl.
    rewrite u32_small by lia. rewrite Nat2Z.id. reflexivity.
  - exists (S k). eexists. split; [lia|]. split; [do 2 f_equal; lia|].
    split; [rewrite length_insert; exact Hlen|]. split.
    + intros i Hi. destruct (Nat.eq_dec i k) as [->|Hne].
      * apply list_lookup_insert_eq. lia.
      * rewrite list_lookup_insert_ne by lia. apply Hdone. lia.
    + intros i Hi. rewrite list_lookup_insert_ne by lia. apply Hrest. lia.
  - unfold GatherPlatformApicIds_measure. lia.
Qed.

Lemma GatherPlatformApicIds_run :
  exists a,
    Tools_GatherPlatformApicIds m0 a0 ArraySize
    = Done (affinity_after m0 (Z.to_nat (gathered_count m0 ArraySize)), a,
            gathered_count m0 ArraySize)
    /\ length a = length a0
    /\ (forall i : nat, Z.of_nat i < gathered_count m0 ArraySize ->
          a !! i = Some (platform_id_by_strategy (Eax (Tools_ReadCpuid m0 0 0))
                           (affinity_after m0 (S i))))
    /\ (forall i : nat, gathered_count m0 ArraySize <= Z.of_nat i -> a !! i = a0 !! i).
Proof.
  assert (Hcount : 0 <= gathered_count m0 ArraySize <= 1024)
    by (unfold gathered_count, MAX_PROCESSORS; lia).
  destruct (while_invariant (GatherPlatformApicIds_inv m0 a0 (gathered_count m0 ArraySize))
              (GatherPlatformApicIds_measure (gathered_count m0 ArraySize))
              (GatherPlatformApicIds_cond (capped_processors m0) ArraySize)
              (GatherPlatformApicIds_body (Tools_ReadCpuid m0 0 0))
              GatherPlatformApicIds_step (Z.to_nat MAX_PROCESSORS) (m0, a0, 0))
    as (s' & Hrun & (k & a & Hk & -> & Hlen & Hdone & Hrest) & Hcond).
  - exists O, a0. split; [lia|]. split; [reflexivity|]. split; [reflexivity|].
    split; [intros i Hi; lia|reflexivity].
  - unfold GatherPlatformApicIds_measure, MAX_PROCESSORS. lia.
  - rewrite GatherPlatformApicIds_cond_count in Hcond. apply Z.ltb_ge in Hcond.
    assert (Ek : Z.of_nat k = gathered_count m0 ArraySize) by lia.
    exists a. split; [|split; [exact Hlen|split]].
    + unfold Tools_GatherPlatformApicIds. fold (capped_processors m0).
      rewrite Hrun, <- Ek, Nat2Z.id. reflexivity.
    + intros i Hi. apply Hdone. lia.
    + intros i Hi. apply Hrest. lia.
Qed.
End Gather.

(** C8 (as amended): the gatherer fills a table of length
    min(processor count, MAX_PROCESSORS, capacity); for every index below
    that length, with the machine bound to that processor, the entry is the
    fourth register of leaf 1FH when leaf 0 reports that leaf and its second
    register is non-zero, else the same from leaf 0BH when leaf 0 reports
    it, else the top 8 bits of the second register of leaf 1; the rest of
    the array is left as it was. *)
Theorem Tools_GatherPlatformApicIds_table (m : MACHINE) (pApicIdArray : list Z)
    (ArraySize : Z) :
  0 <= Tools_GetNumberOfProcessors m ->
  0 <= ArraySize <= Z.of_nat (length pApicIdArray) ->
  exists a,
    Tools_GatherPlatformApicIds m pApicIdArray ArraySize
    = Done (affinity_after m
              (Z.to_nat (Z.min (Z.min (Tools_GetNumberOfProcessors m) MAX_PROCESSORS)
                           ArraySize)),
            a,
            Z.min (Z.min (Tools_GetNumberOfProcessors m) MAX_PROCESSORS) ArraySize)
    /\ length a = length pApicIdArray
    /\ (forall i : nat,
          Z.of_nat i < Z.min (Z.min (Tools_GetNumberOfProcessors m) MAX_PROCESSORS)
                         ArraySize ->
          a !! i = Some (platform_id_by_strategy (Eax (Tools_ReadCpuid m 0 0))
                           (affinity_after m (S i))))
    /\ (forall i : nat,
          Z.min (Z.min (Tools_GetNumberOfProcessors m) MAX_PROCESSORS) ArraySize
          <= Z.of_nat i ->
          a !! i = pApicIdArray !! i).
Proof.
  intros Hprocs Hsize.
  exact (GatherPlatformApicIds_run m pApicIdArray ArraySize Hprocs Hsize).
Qed.

Lemma Tools_GatherPlatformApicIds_table_witness :
  exists a,
    Tools_GatherPlatformApicIds trace_machine (replicate 1024 7) 1024
    = Done (affinity_after trace_machine 2, a, 2)
    /\ length a = 1024%nat
    /\ (forall i : nat,
          Z.of_nat i < 2 ->
          a !! i = Some (platform_id_by_strategy 0x1F (affinity_after trace_machine (S i))))
    /\ (forall i : nat, 2 <= Z.of_nat i -> a !! i = replicate 1024 7 !! i).
Proof.
  apply (Tools_GatherPlatformApicIds_table trace_machine (replicate 1024 7) 1024).
  - vm_compute. discriminate.
  - vm_compute. split; discriminate.
Defined.

(** The table of the trace: the APIC identifiers 0 and 1, taken from leaf
    1FH. *)
Example trace_machine_apic_ids :
  gathered (Tools_GatherPlatformApicIds trace_machine (replicate 1024 7) 1024)
  = ([0; 1], 2).
Proof. vm_compute. reflexivity. Qed.

(** C8 as stated fails in two places.  On a native machine of 1025
    processors and a capacity of 1025 the table has 1024 entries, not
    min(1025, 1025).  On a trace whose leaf 0 reports 0BH as highest leaf
    and which has data for leaf 1FH, leaf 1FH is not tried: both processors
    get the legacy identifier 5, where the strategies as worded give 0 and
    1. *)
Lemma Tools_GatherPlatformApicIds_not_as_claimed :
  (snd (gathered (Tools_GatherPlatformApicIds large_machine (replicate 1025 0) 1025))
   = 1024
   /\ Z.min (Tools_GetNumberOfProcessors large_machine) 1025 = 1025)
  /\ (fst (gathered (Tools_GatherPlatformApicIds legacy_trace (replicate 1024 0) 1024))
      = [5; 5]
      /\ map (fun i => claimed_platform_id (Eax (Tools_ReadCpuid legacy_trace 0 0))
                         (affinity_after legacy_trace (S i))) [O; 1%nat]
         = [0; 1]).
Proof. vm_compute. repeat split; reflexivity. Qed.

(** ** The shift calculator on every input *)

Lemma u32_double_odd (count : Z) : 0 < u32 (count * 2 - 1) < 2 ^ 32.
Proof.
  unfold u32, u32_modulus.
  pose proof (Z.mod_pos_bound (count * 2 - 1) (2 ^ 32) ltac:(lia)) as Hb.
  assert (Hodd : (count * 2 - 1) mod 2 ^ 32 <> 0).
  { intros E. apply Z.mod_divide in E; [|lia]. destruct E as [q Hq].
    change (2 ^ 32) with (2 * 2147483648) in Hq. lia. }
  lia.
Qed.

Lemma Tools_CreateTopologyShift_log2_u32 (count : Z) :
  Tools_CreateTopologyShift count = Z.log2 (u32 (count * 2 - 1)).
Proof.
  unfold Tools_CreateTopologyShift.
  change (shl32 1 31) with (2 ^ Z.of_nat 31).
  apply (CreateTopologyShift_loop_log2 31); [lia|lia|].
  change (2 ^ (Z.of_nat 31 + 1)) with (2 ^ 32). apply u32_double_odd.
Qed.

(** For every argument, wrapped doubling included, the shift calculator
    returns the position of the highest set bit of [2 * count - 1] reduced
    to 32 bits; the result is a shift count between 0 and 31, and a count of
    0 gives 31. *)
Theorem Tools_CreateTopologyShift_highest_bit (count : Z) :
  Tools_CreateTopologyShift count = Z.log2 ((2 * count - 1) mod 2 ^ 32)
  /\ 0 <= Tools_CreateTopologyShift count <= 31
  /\ Tools_CreateTopologyShift 0 = 31.
Proof.
  split; [|split; [|reflexivity]].
  - rewrite Tools_CreateTopologyShift_log2_u32. unfold u32, u32_modulus.
    replace (count * 2 - 1) with (2 * count - 1) by lia. reflexivity.
  - rewrite Tools_CreateTopologyShift_log2_u32.
    pose proof (u32_double_odd count) as Hc.
    split; [apply Z.log2_nonneg|].
    assert (Z.log2 (u32 (count * 2 - 1)) < 32); [|lia].
    apply Z.log2_lt_pow2; lia.
Qed.

Lemma Tools_CreateTopologyShift_mono (a b : Z) :
  1 <= a -> a <= b -> b <= 2 ^ 31 ->
  Tools_CreateTopologyShift a <= Tools_CreateTopologyShift b.
Proof.
  intros Ha Hab Hb.
  rewrite !Tools_CreateTopologyShift_log2 by lia.
  apply Z.log2_le_mono. lia.
Qed.

Lemma Tools_CreateTopologyShift_covers (count : Z) :
  1 <= count <= 2 ^ 31 -> count <= 2 ^ Tools_CreateTopologyShift count.
Proof.
  intros Hc. rewrite Tools_CreateTopologyShift_log2 by lia.
  destruct (Z.log2_spec (2 * count - 1)) as [_ Hhi]; [lia|].
  rewrite Z.pow_succ_r in Hhi by apply Z.log2_nonneg. lia.
Qed.

Lemma Tools_CreateTopologyShift_byte (count : Z) :
  1 <= count <= 255 -> Tools_CreateTopologyShift count <= 8.
Proof.
  intros Hc. rewrite Tools_CreateTopologyShift_log2 by (simpl; lia).
  assert (Z.log2 (2 * count - 1) < 9); [|lia].
  apply Z.log2_lt_pow2; simpl; lia.
Qed.

(** ** The legacy decoder *)

(** The three fields the legacy decoder reads. *)
Lemma legacy_package_field (r : CPUID_REGISTERS) :
  0 <= Z.land (Z.shiftr (Ebx r) 16) 0xFF <= 255.
Proof.
  replace (Z.land (Z.shiftr (Ebx r) 16) 0xFF) with (Z.shiftr (Ebx r) 16 mod 256).
  - pose proof (Z.mod_pos_bound (Z.shiftr (Ebx r) 16) 256 ltac:(lia)). lia.
  - change 0xFF with (Z.ones 8). rewrite Z.land_ones by lia. reflexivity.
Qed.

Lemma legacy_cores_field (r : CPUID_REGISTERS) :
  0 <= Eax r < 2 ^ 32 ->
  1 <= u32 (Z.shiftr (Eax r) 26 + 1) <= 64
  /\ u32 (Z.shiftr (Eax r) 26 + 1) = Eax r / 2 ^ 26 + 1.
Proof.
  intros He. rewrite Z.shiftr_div_pow2 by lia.
  assert (0 <= Eax r / 2 ^ 26 < 64).
  { change (2 ^ 32) with 4294967296 in He. change (2 ^ 26) with 67108864.
    split; [apply Z.div_pos; lia|]. apply Z.div_lt_upper_bound; lia. }
  rewrite u32_small by lia. lia.
Qed.

Lemma Tools_CreateTopologyShift_is_smallest (count : Z) :
  1 <= count <= 2 ^ 31 -> smallest_shift count (Tools_CreateTopologyShift count).
Proof.
  intros Hc. rewrite Tools_CreateTopologyShift_log2 by exact Hc.
  set (s := Z.log2 (2 * count - 1)).
  assert (Hs0 : 0 <= s) by apply Z.log2_nonneg.
  destruct (Z.log2_spec (2 * count - 1)) as [Hlo Hhi]; [lia|].
  fold s in Hlo, Hhi. rewrite Z.pow_succ_r in Hhi by exact Hs0.
  split; [exact Hs0|]. split; [lia|]. intros t Ht.
  assert (Hmono : 2 ^ t <= 2 ^ (s - 1)) by (apply Z.pow_le_mono_r; lia).
  assert (Hsplit : 2 ^ s = 2 * 2 ^ (s - 1)).
  { rewrite <- Z.pow_succ_r by lia. f_equal. lia. }
  lia.
Qed.

Lemma legacy_HTT_test (r : CPUID_REGISTERS) :
  negb (Z.land (Edx r) (shl32 1 28) =? 0) = Z.testbit (Edx r) 28.
Proof.
  change (shl32 1 28) with (2 ^ 28). rewrite land_pow2 by lia.
  destruct (Z.testbit (Edx r) 28); reflexivity.
Qed.

(** With HTT set and leaf 4 present, when the package field of leaf 1 is at
    least the number of cores of leaf 4, the legacy decoder returns the
    smallest shift covering the package field as the package shift and the
    smallest shift covering the per-core quotient as the logical-processor
    shift; the latter is not above the former, and neither exceeds 8. *)
Theorem ParseCpu_CpuidLegacyExample_ordered (m : MACHINE) :
  let P := Z.land (Z.shiftr (Ebx (Tools_ReadCpuid m 1 0)) 16) 0xFF in
  let C := Eax (Tools_ReadCpuid m 4 0) / 2 ^ 26 + 1 in
  Z.testbit (Edx (Tools_ReadCpuid m 1 0)) 28 = true ->
  4 <= Eax (Tools_ReadCpuid m 0 0) ->
  0 <= Eax (Tools_ReadCpuid m 4 0) < 2 ^ 32 ->
  C <= P ->
  exists PackageShift LogicalProcessorShift,
    ParseCpu_CpuidLegacyExample m = (PackageShift, LogicalProcessorShift)
    /\ smallest_shift P PackageShift
    /\ smallest_shift (P / C) LogicalProcessorShift
    /\ LogicalProcessorShift <= PackageShift <= 8.
Proof.
  intros P C Hhtt Hmax Heax HCP.
  pose proof (legacy_package_field (Tools_ReadCpuid m 1 0)) as HP. fold P in HP.
  destruct (legacy_cores_field (Tools_ReadCpuid m 4 0) Heax) as [HC EC]. fold C in EC.
  rewrite EC in HC.
  assert (Hq : 1 <= P / C <= P).
  { split.
    - apply Z.div_le_lower_bound; lia.
    - apply Z.div_le_upper_bound; nia. }
  unfold ParseCpu_CpuidLegacyExample. rewrite legacy_HTT_test, Hhtt.
  destruct (Z.leb_spec 4 (Eax (Tools_ReadCpuid m 0 0))) as [_|Hlt]; [|lia].
  rewrite EC. fold P.
  eexists. eexists. split; [reflexivity|].
  assert (Hb : 2 ^ 31 = 2147483648) by reflexivity.
  split; [apply Tools_CreateTopologyShift_is_smallest; lia|].
  split; [apply Tools_CreateTopologyShift_is_smallest; lia|].
  split; [apply Tools_CreateTopologyShift_mono; lia|].
  apply Tools_CreateTopologyShift_byte; lia.
Qed.

Lemma ParseCpu_CpuidLegacyExample_ordered_witness :
  exists PackageShift LogicalProcessorShift,
    ParseCpu_CpuidLegacyExample (legacy_machine 16 7)
    = (PackageShift, LogicalProcessorShift)
    /\ smallest_shift 16 PackageShift
    /\ smallest_shift (16 / 8) LogicalProcessorShift
    /\ LogicalProcessorShift <= PackageShift <= 8.
Proof.
  apply (ParseCpu_CpuidLegacyExample_ordered (legacy_machine 16 7));
    vm_compute; repeat split; (reflexivity || discriminate).
Defined.

(** With HTT set and leaf 4 present, a package field of leaf 1 below the
    number of cores of leaf 4 makes the per-core quotient 0: the
    logical-processor shift comes out as 31, above the package shift (at
    most 8 for a non-zero package field). *)
Theorem ParseCpu_CpuidLegacyExample_fewer_ids_than_cores (m : MACHINE) :
  let P := Z.land (Z.shiftr (Ebx (Tools_ReadCpuid m 1 0)) 16) 0xFF in
  let C := Eax (Tools_ReadCpuid m 4 0) / 2 ^ 26 + 1 in
  Z.testbit (Edx (Tools_ReadCpuid m 1 0)) 28 = true ->
  4 <= Eax (Tools_ReadCpuid m 0 0) ->
  0 <= Eax (Tools_ReadCpuid m 4 0) < 2 ^ 32 ->
  P < C ->
  ParseCpu_CpuidLegacyExample m = (Tools_CreateTopologyShift P, 31)
  /\ (1 <= P -> Tools_CreateTopologyShift P <= 8).
Proof.
  intros P C Hhtt Hmax Heax HPC.
  pose proof (legacy_package_field (Tools_ReadCpuid m 1 0)) as HP. fold P in HP.
  destruct (legacy_cores_field (Tools_ReadCpuid m 4 0) Heax) as [HC EC]. fold C in EC.
  split.
  - unfold ParseCpu_CpuidLegacyExample. rewrite legacy_HTT_test, Hhtt.
    destruct (Z.leb_spec 4 (Eax (Tools_ReadCpuid m 0 0))) as [_|Hlt]; [|lia].
    rewrite EC. fold P. rewrite (Z.div_small P C) by lia. reflexivity.
  - intros HP1. apply Tools_CreateTopologyShift_byte. lia.
Qed.

Lemma ParseCpu_CpuidLegacyExample_fewer_ids_than_cores_witness :
  ParseCpu_CpuidLegacyExample (legacy_machine 2 2)
  = (1, 31).
Proof.
  apply (ParseCpu_CpuidLegacyExample_fewer_ids_than_cores (legacy_machine 2 2));
    vm_compute; repeat split; (reflexivity || discriminate).
Defined.

(** ** The legacy layout *)

(** The layout built by [ParseCpu_Internal_LegacyTopologyBits] describes 8
    APIC ID bits and carries the shifts of [ParseCpu_CpuidLegacyExample] on
    the same platform: with HTT set and leaf 4 present, a logical-processor
    level and a core level ending at the package shift; otherwise the single
    logical-processor level ending at the package shift. *)
Theorem ParseCpu_Internal_LegacyTopologyBits_levels (m : MACHINE) :
  let '(PackageShift, LogicalProcessorShift) := ParseCpu_CpuidLegacyExample m in
  let ctx := ParseCpu_Internal_LegacyTopologyBits m in
  NumberOfApicIdBits ctx = 8
  /\ ctx_levels ctx
     = if Z.testbit (Edx (Tools_ReadCpuid m 1 0)) 28
          && (4 <=? Eax (Tools_ReadCpuid m 0 0))
       then [(LogicalProcessorDomain, LogicalProcessorShift); (CoreDomain, PackageShift)]
       else [(LogicalProcessorDomain, PackageShift)].
Proof.
  unfold ParseCpu_CpuidLegacyExample, ParseCpu_Internal_LegacyTopologyBits.
  rewrite legacy_HTT_test.
  destruct (Z.testbit (Edx (Tools_ReadCpuid m 1 0)) 28).
  - destruct (4 <=? Eax (Tools_ReadCpuid m 0 0)).
    + generalize (Tools_CreateTopologyShift
                    (Z.land (Z.shiftr (Ebx (Tools_ReadCpuid m 1 0)) 16) 0xFF
                     / u32 (Z.shiftr (Eax (Tools_ReadCpuid m 4 0)) 26 + 1))).
      generalize (Tools_CreateTopologyShift
                    (Z.land (Z.shiftr (Ebx (Tools_ReadCpuid m 1 0)) 16) 0xFF)).
      intros P L. split; reflexivity.
    + generalize (Tools_CreateTopologyShift
                    (Z.land (Z.shiftr (Ebx (Tools_ReadCpuid m 1 0)) 16) 0xFF)).
      intros P. split; reflexivity.
  - split; reflexivity.
Qed.

(** ** Masks as bit ranges *)

Lemma low_mask_value (s : Z) : 0 <= s < 32 -> u32 (shl32 1 s - 1) = 2 ^ s - 1.
Proof.
  intros Hs.
  assert (Hpow : 0 < 2 ^ s <= 2 ^ 31).
  { split; [apply Z.pow_pos_nonneg; lia|apply Z.pow_le_mono_r; lia]. }
  change (2 ^ 31) with 2147483648 in Hpow.
  unfold shl32. rewrite Z.shiftl_1_l. rewrite (u32_small (2 ^ s)) by lia.
  apply u32_small. lia.
Qed.

Lemma high_mask_value (s : Z) :
  0 <= s < 32 -> not32 (u32 (shl32 1 s - 1)) = 2 ^ 32 - 2 ^ s.
Proof.
  intros Hs. rewrite low_mask_value by exact Hs.
  assert (Hpow : 0 < 2 ^ s <= 2 ^ 31).
  { split; [apply Z.pow_pos_nonneg; lia|apply Z.pow_le_mono_r; lia]. }
  change (2 ^ 31) with 2147483648 in Hpow. change (2 ^ 32) with 4294967296.
  unfold not32, u32, u32_modulus, Z.lnot. change (2 ^ 32) with 4294967296.
  replace (Z.pred (- (2 ^ s - 1))) with (4294967296 - 2 ^ s + (-1) * 4294967296) by lia.
  rewrite Z.mod_add by lia. apply Z.mod_small. lia.
Qed.

(** [2^q - 2^p] has exactly the bits [p .. q-1]. *)
Lemma range_mask_bits (p q n : Z) :
  0 <= p <= q -> 0 <= n ->
  Z.testbit (2 ^ q - 2 ^ p) n = (p <=? n) && (n <? q).
Proof.
  intros Hpq Hn.
  replace (2 ^ q - 2 ^ p) with (Z.shiftl (Z.ones (q - p)) p).
  2:{ rewrite Z.shiftl_mul_pow2, Z.ones_equiv by lia.
      replace q with ((q - p) + p) at 2 by lia. rewrite Z.pow_add_r by lia. lia. }
  rewrite Z.shiftl_spec by lia.
  destruct (Z.leb_spec p n) as [Hle|Hlt].
  - rewrite Z.testbit_ones_nonneg by lia. simpl.
    destruct (Z.ltb_spec (n - p) (q - p)), (Z.ltb_spec n q); (reflexivity || lia).
  - apply Z.testbit_neg_r. lia.
Qed.

(** The field of [A] selected by the mask of the bits [p .. q-1], moved
    down to bit 0. *)
Lemma land_range_mask_shiftr (A p q : Z) :
  0 <= p <= q -> Z.shiftr (Z.land A (2 ^ q - 2 ^ p)) p = (A mod 2 ^ q) / 2 ^ p.
Proof.
  intros Hpq. rewrite <- Z.land_ones, <- Z.shiftr_div_pow2 by lia.
  apply Z.bits_inj'. intros n Hn.
  rewrite !Z.shiftr_spec, !Z.land_spec by lia.
  rewrite range_mask_bits by lia. rewrite Z.testbit_ones_nonneg by lia.
  destruct (Z.leb_spec p (n + p)); [|lia]. reflexivity.
Qed.

Lemma land_low_mask (A s : Z) : 0 <= s -> Z.land A (2 ^ s - 1) = A mod 2 ^ s.
Proof.
  intros Hs. rewrite <- Z.land_ones by lia. rewrite Z.ones_equiv. reflexivity.
Qed.

Lemma lxor_low_masks (p q : Z) :
  0 <= p <= q -> Z.lxor (2 ^ q - 1) (2 ^ p - 1) = 2 ^ q - 2 ^ p.
Proof.
  intros Hpq. apply Z.bits_inj'. intros n Hn.
  rewrite Z.lxor_spec, range_mask_bits by lia.
  replace (2 ^ q - 1) with (Z.ones q) by (rewrite Z.ones_equiv; lia).
  replace (2 ^ p - 1) with (Z.ones p) by (rewrite Z.ones_equiv; lia).
  rewrite !Z.testbit_ones_nonneg by lia.
  destruct (Z.ltb_spec n q), (Z.ltb_spec n p), (Z.leb_spec p n);
    (reflexivity || lia).
Qed.

(** ** [Display_ThreeDomainDisplay]: the identifiers of a line *)

Lemma ThreeDomainDisplay_row_fields (PackageShift LogicalProcessorShift ApicId : Z) :
  0 <= LogicalProcessorShift <= PackageShift -> PackageShift < 32 ->
  0 <= ApicId < 2 ^ 32 ->
  ThreeDomainDisplay_row PackageShift LogicalProcessorShift ApicId
  = (ApicId,
     ApicId / 2 ^ PackageShift,
     (ApicId mod 2 ^ PackageShift) / 2 ^ LogicalProcessorShift,
     ApicId mod 2 ^ LogicalProcessorShift).
Proof.
  intros HLP HP HA. unfold ThreeDomainDisplay_row, ThreeDomainDisplay_masks.
  rewrite high_mask_value by lia. rewrite !low_mask_value by lia.
  rewrite lxor_low_masks by lia.
  rewrite !land_range_mask_shiftr by lia. rewrite land_low_mask by lia.
  rewrite (Z.mod_small ApicId (2 ^ 32)) by lia. reflexivity.
Qed.

Lemma three_fields_rebuild (A P L : Z) :
  0 <= L <= P -> 0 <= A ->
  A = A / 2 ^ P * 2 ^ P + (A mod 2 ^ P) / 2 ^ L * 2 ^ L + A mod 2 ^ L
  /\ 0 <= (A mod 2 ^ P) / 2 ^ L < 2 ^ (P - L)
  /\ 0 <= A mod 2 ^ L < 2 ^ L.
Proof.
  intros HLP HA.
  assert (HpL : 0 < 2 ^ L) by (apply Z.pow_pos_nonneg; lia).
  assert (HpP : 0 < 2 ^ P) by (apply Z.pow_pos_nonneg; lia).
  assert (HpD : 0 < 2 ^ (P - L)) by (apply Z.pow_pos_nonneg; lia).
  assert (EP : 2 ^ P = 2 ^ L * 2 ^ (P - L)).
  { rewrite <- Z.pow_add_r by lia. f_equal. lia. }
  assert (Emod : (A mod 2 ^ P) mod 2 ^ L = A mod 2 ^ L).
  { rewrite EP. rewrite Z.rem_mul_r by lia.
    rewrite Z.mul_comm, Z.mod_add by lia. apply Z.mod_mod. lia. }
  pose proof (Z.div_mod A (2 ^ P) ltac:(lia)) as E1.
  pose proof (Z.div_mod (A mod 2 ^ P) (2 ^ L) ltac:(lia)) as E2.
  rewrite Emod in E2.
  pose proof (Z.mod_pos_bound A (2 ^ P) HpP) as B1.
  pose proof (Z.mod_pos_bound A (2 ^ L) HpL) as B2.
  split; [lia|]. split; [|lia].
  split; [apply Z.div_pos; lia|].
  apply Z.div_lt_upper_bound; [lia|]. rewrite <- EP. lia.
Qed.

Lemma ThreeDomainDisplay_loop (ApicIdArray : list Z) (P L N : Z) :
  0 <= N <= Z.of_nat (length ApicIdArray) -> N <= MAX_PROCESSORS ->
  while (Z.to_nat MAX_PROCESSORS) (ThreeDomainDisplay_cond N)
    (ThreeDomainDisplay_body ApicIdArray P L) (0, [])
  = Done (N, map (ThreeDomainDisplay_row P L) (take (Z.to_nat N) ApicIdArray)).
Proof.
  intros HN Hmax. unfold MAX_PROCESSORS in Hmax.
  destruct (while_invariant (ThreeDomainDisplay_inv ApicIdArray P L N)
              (ThreeDomainDisplay_measure N) (ThreeDomainDisplay_cond N)
              (ThreeDomainDisplay_body ApicIdArray P L))
    with (fuel := Z.to_nat MAX_PROCESSORS) (s := (0, @nil (Z * Z * Z * Z)))
    as (s' & Hrun & (k & Hk & ->) & Hcond).
  - intros s (k & Hk & ->) Hcond. simpl in Hcond. apply Z.ltb_lt in Hcond.
    destruct (lookup_lt_is_Some_2 ApicIdArray k) as [A HA]; [lia|].
    exists (Z.of_nat (S k),
            map (ThreeDomainDisplay_row P L) (take (S k) ApicIdArray)).
    split; [|split].
    + unfold ThreeDomainDisplay_body.
      rewrite (proj2 (load_Done ApicIdArray (Z.of_nat k) A))
        by (rewrite Nat2Z.id; split; [lia|exact HA]).
      cbn [bind]. rewrite u32_small by lia.
      rewrite (take_S_r _ _ _ HA), map_app. simpl.
      replace (Z.of_nat k + 1) with (Z.of_nat (S k)) by lia. reflexivity.
    + exists (S k). split; [lia|reflexivity].
    + unfold ThreeDomainDisplay_measure. lia.
  - exists O. split; [lia|]. reflexivity.
  - unfold ThreeDomainDisplay_measure, MAX_PROCESSORS. lia.
  - simpl in Hcond. apply Z.ltb_ge in Hcond.
    assert (Ek : Z.of_nat k = N) by lia.
    rewrite Hrun. rewrite <- Ek, Nat2Z.id. reflexivity.
Qed.

(** On a platform of [N] processors the three-domain display prints
    min([N], [MAX_PROCESSORS]) lines; line [i] carries the identifier
    gathered for processor [i], and for shifts
    [LogicalProcessorShift <= PackageShift < 32] its three fields rebuild a
    32-bit identifier: [ApicId = PKG * 2^PackageShift
    + CORE * 2^LogicalProcessorShift + LP], with [LP] below
    [2^LogicalProcessorShift] and [CORE] below
    [2^(PackageShift - LogicalProcessorShift)]. *)
Theorem Display_ThreeDomainDisplay_identifiers (m : MACHINE)
    (Leaf PackageShift LogicalProcessorShift : Z) :
  0 <= Tools_GetNumberOfProcessors m ->
  0 <= LogicalProcessorShift <= PackageShift -> PackageShift < 32 ->
  exists m' rows,
    Display_ThreeDomainDisplay m Leaf PackageShift LogicalProcessorShift
    = Done (m', ThreeDomainDisplay_masks PackageShift LogicalProcessorShift, rows)
    /\ Z.of_nat (length rows) = Z.min (Tools_GetNumberOfProcessors m) MAX_PROCESSORS
    /\ forall (i : nat) ApicId PKG CORE LP,
         rows !! i = Some (ApicId, PKG, CORE, LP) ->
         ApicId = platform_id_by_strategy (Eax (Tools_ReadCpuid m 0 0))
                    (affinity_after m (S i))
         /\ (0 <= ApicId < 2 ^ 32 ->
             ApicId = PKG * 2 ^ PackageShift + CORE * 2 ^ LogicalProcessorShift + LP
             /\ 0 <= CORE < 2 ^ (PackageShift - LogicalProcessorShift)
             /\ 0 <= LP < 2 ^ LogicalProcessorShift).
Proof.
  intros Hprocs HLP HP.
  destruct (GatherPlatformApicIds_run m (replicate (Z.to_nat MAX_PROCESSORS) 0)
              MAX_PROCESSORS Hprocs)
    as (a & Hrun & Hlen & Hids & _).
  { rewrite length_replicate. unfold MAX_PROCESSORS. lia. }
  rewrite length_replicate in Hlen.
  assert (EN : gathered_count m MAX_PROCESSORS
               = Z.min (Tools_GetNumberOfProcessors m) MAX_PROCESSORS)
    by (unfold gathered_count; lia).
  rewrite EN in *.
  set (N := Z.min (Tools_GetNumberOfProcessors m) MAX_PROCESSORS) in *.
  assert (HN : 0 <= N <= 1024) by (unfold N, MAX_PROCESSORS; lia).
  exists (affinity_after m (Z.to_nat N)),
         (map (ThreeDomainDisplay_row PackageShift LogicalProcessorShift)
            (take (Z.to_nat N) a)).
  split; [|split].
  - unfold Display_ThreeDomainDisplay. rewrite Hrun. cbn [bind].
    rewrite ThreeDomainDisplay_loop; [reflexivity| |unfold MAX_PROCESSORS; lia].
    rewrite Hlen. unfold MAX_PROCESSORS. lia.
  - rewrite length_map, length_take, Hlen. unfold MAX_PROCESSORS. lia.
  - intros i ApicId PKG CORE LP Hrow.
    change (map ?f ?l) with (f <$> l) in Hrow.
    apply list_lookup_fmap_Some in Hrow as (A & Hrow & HA). symmetry in Hrow.
    assert (Hi : (i < Z.to_nat N)%nat).
    { apply lookup_lt_Some in HA. rewrite length_take in HA. lia. }
    rewrite lookup_take_lt in HA by exact Hi.
    rewrite Hids in HA by lia. injection HA as <-.
    set (A := platform_id_by_strategy (Eax (Tools_ReadCpuid m 0 0))
                (affinity_after m (S i))) in *.
    assert (EA : ApicId = A).
    { unfold ThreeDomainDisplay_row, ThreeDomainDisplay_masks in Hrow.
      injection Hrow as -> _ _ _. reflexivity. }
    split; [exact EA|]. intros HA32. subst ApicId.
    rewrite ThreeDomainDisplay_row_fields in Hrow by lia.
    injection Hrow as <- <- <-.
    apply three_fields_rebuild; lia.
Qed.

Lemma Display_ThreeDomainDisplay_identifiers_witness :
  exists m' rows,
    Display_ThreeDomainDisplay trace_machine 0x1F 3 1
    = Done (m', ThreeDomainDisplay_masks 3 1, rows)
    /\ Z.of_nat (length rows) = Z.min (Tools_GetNumberOfProcessors trace_machine) MAX_PROCESSORS
    /\ forall (i : nat) ApicId PKG CORE LP,
         rows !! i = Some (ApicId, PKG, CORE, LP) ->
         ApicId = platform_id_by_strategy (Eax (Tools_ReadCpuid trace_machine 0 0))
                    (affinity_after trace_machine (S i))
         /\ (0 <= ApicId < 2 ^ 32 ->
             ApicId = PKG * 2 ^ 3 + CORE * 2 ^ 1 + LP
             /\ 0 <= CORE < 2 ^ (3 - 1)
             /\ 0 <= LP < 2 ^ 1).
Proof.
  apply (Display_ThreeDomainDisplay_identifiers trace_machine 0x1F 3 1).
  - vm_compute. discriminate.
  - lia.
  - lia.
Defined.

(** ** The mask matrix as bit ranges *)

Lemma not32_high_mask (p : Z) : 0 <= p < 32 -> not32 (2 ^ 32 - 2 ^ p) = 2 ^ p - 1.
Proof.
  intros Hp.
  assert (Hpow : 0 < 2 ^ p <= 2 ^ 31).
  { split; [apply Z.pow_pos_nonneg; lia|apply Z.pow_le_mono_r; lia]. }
  change (2 ^ 31) with 2147483648 in Hpow. change (2 ^ 32) with 4294967296.
  unfold not32, u32, u32_modulus, Z.lnot. change (2 ^ 32) with 4294967296.
  replace (Z.pred (- (4294967296 - 2 ^ p))) with (2 ^ p - 1 + (-1) * 4294967296) by lia.
  rewrite Z.mod_add by lia. apply Z.mod_small. lia.
Qed.

Lemma relative_mask_bits (ctx : APICID_BIT_LAYOUT_CTX) (i j : nat) (n : Z) :
  0 <= previous_shift ctx (Z.of_nat i) < 32 ->
  0 <= previous_shift ctx (Z.of_nat j) < 32 ->
  0 <= n ->
  Z.testbit (relative_mask ctx i j) n
  = (previous_shift ctx (Z.of_nat i) <=? n) && (n <? previous_shift ctx (Z.of_nat j)).
Proof.
  intros Hi Hj Hn. unfold relative_mask.
  rewrite !global_mask_value by assumption.
  rewrite not32_high_mask by assumption.
  rewrite Z.land_spec, range_mask_bits by lia.
  replace (2 ^ previous_shift ctx (Z.of_nat j) - 1)
    with (Z.ones (previous_shift ctx (Z.of_nat j))) by (rewrite Z.ones_equiv; lia).
  rewrite Z.testbit_ones_nonneg by lia.
  destruct (Z.ltb_spec n (previous_shift ctx (Z.of_nat j))),
           (Z.leb_spec (previous_shift ctx (Z.of_nat i)) n), (Z.ltb_spec n 32);
    (reflexivity || lia).
Qed.

(** On a layout that fits its arrays and whose shifts are below 32, the
    matrix builder completes, leaves the levels as they were, and the
    layout it returns has in entry [(i,i)] exactly the bits from the shift
    of the level below [i] up to bit 31, and in entry [(i,j)], [i < j],
    exactly the bits from the shift of the level below [i] up to, and not
    including, the shift of the level below [j]; the entry is 0 when the
    shifts do not ascend. *)
Theorem ParseCpu_Internal_CreateDomainMaskMatrix_bit_ranges
    (ctx : APICID_BIT_LAYOUT_CTX) :
  ctx_wf ctx ->
  0 <= PackageDomainIndex ctx < MAXIMUM_DOMAINS ->
  (forall i, 0 <= i <= PackageDomainIndex ctx -> 0 <= previous_shift ctx i < 32) ->
  exists M,
    ParseCpu_Internal_CreateDomainMaskMatrix ctx = Done (set_DomainRelativeMasks ctx M)
    /\ DomainRelativeMasks (set_DomainRelativeMasks ctx M) = M
    /\ ShiftValues (set_DomainRelativeMasks ctx M) = ShiftValues ctx
    /\ PackageDomainIndex (set_DomainRelativeMasks ctx M) = PackageDomainIndex ctx
    /\ (forall i, 0 <= i <= PackageDomainIndex ctx ->
          exists v, load2 M i i = Done v
            /\ forall n, 0 <= n ->
                 Z.testbit v n = (previous_shift ctx i <=? n) && (n <? 32))
    /\ (forall i j, 0 <= i -> i < j -> j <= PackageDomainIndex ctx ->
          exists v, load2 M i j = Done v
            /\ (forall n, 0 <= n ->
                  Z.testbit v n
                  = (previous_shift ctx i <=? n) && (n <? previous_shift ctx j))
            /\ (previous_shift ctx j <= previous_shift ctx i -> v = 0)).
Proof.
  intros Hwf Hidx Hshifts.
  destruct (CreateDomainMaskMatrix_run ctx Hwf Hidx Hshifts)
    as (M & Hrun & HM & Hdiag & Hrows & _).
  unfold MAXIMUM_DOMAINS in Hidx.
  exists M. split; [exact Hrun|]. do 3 (split; [reflexivity|]). split.
  - intros i Hi. destruct (Z_of_nat_complete i) as [ni ->]; [lia|].
    exists (global_mask ctx (Z.of_nat ni)). split.
    + rewrite load2_spec by (try exact HM; lia). rewrite Hdiag by lia. reflexivity.
    + intros n Hn. rewrite global_mask_value by (apply Hshifts; lia).
      apply range_mask_bits; [|exact Hn].
      pose proof (Hshifts (Z.of_nat ni) Hi). lia.
  - intros i j Hi Hij Hj.
    destruct (Z_of_nat_complete i) as [ni ->]; [lia|].
    destruct (Z_of_nat_complete j) as [nj ->]; [lia|].
    exists (relative_mask ctx ni nj).
    assert (Hbits : forall n, 0 <= n ->
              Z.testbit (relative_mask ctx ni nj) n
              = (previous_shift ctx (Z.of_nat ni) <=? n)
                && (n <? previous_shift ctx (Z.of_nat nj))).
    { intros n Hn. apply relative_mask_bits; [apply Hshifts; lia|apply Hshifts; lia|exact Hn]. }
    split; [|split].
    + rewrite load2_spec by (try exact HM; lia). rewrite Hrows by lia. reflexivity.
    + exact Hbits.
    + intros Hdesc. apply Z.bits_inj'. intros n Hn.
      rewrite Hbits by exact Hn. rewrite Z.bits_0.
      destruct (Z.leb_spec (previous_shift ctx (Z.of_nat ni)) n),
               (Z.ltb_spec n (previous_shift ctx (Z.of_nat nj))); (reflexivity || lia).
Qed.

Lemma ParseCpu_Internal_CreateDomainMaskMatrix_bit_ranges_witness :
  exists M,
    ParseCpu_Internal_CreateDomainMaskMatrix trace_layout
    = Done (set_DomainRelativeMasks trace_layout M)
    /\ DomainRelativeMasks (set_DomainRelativeMasks trace_layout M) = M
    /\ ShiftValues (set_DomainRelativeMasks trace_layout M) = ShiftValues trace_layout
    /\ PackageDomainIndex (set_DomainRelativeMasks trace_layout M)
       = PackageDomainIndex trace_layout
    /\ (forall i, 0 <= i <= PackageDomainIndex trace_layout ->
          exists v, load2 M i i = Done v
            /\ forall n, 0 <= n ->
                 Z.testbit v n = (previous_shift trace_layout i <=? n) && (n <? 32))
    /\ (forall i j, 0 <= i -> i < j -> j <= PackageDomainIndex trace_layout ->
          exists v, load2 M i j = Done v
            /\ (forall n, 0 <= n ->
                  Z.testbit v n
                  = (previous_shift trace_layout i <=? n)
                    && (n <? previous_shift trace_layout j))
            /\ (previous_shift trace_layout j <= previous_shift trace_layout i -> v = 0)).
Proof.
  apply (ParseCpu_Internal_CreateDomainMaskMatrix_bit_ranges trace_layout).
  - exact trace_layout_wf.
  - unfold MAXIMUM_DOMAINS. simpl. lia.
  - exact trace_layout_shifts.
Defined.

(** ** [ParseCpu_Internal_TopologyBitsFromLeaf] *)

Lemma has_unknown_domain_snoc (l : list CPUID_REGISTERS) (r : CPUID_REGISTERS) :
  has_unknown_domain (l ++ [r])
  = has_unknown_domain l || negb (Tools_IsDomainKnownEnumeration (DomainType_of r)).
Proof.
  unfold has_unknown_domain. rewrite existsb_app. simpl.
  rewrite orb_false_r. reflexivity.
Qed.

Lemma collapse_unknown_length (l : list CPUID_REGISTERS) :
  (length (collapse_unknown l) <= length l)%nat
  /\ (has_unknown_domain l = true -> (length (collapse_unknown l) < length l)%nat).
Proof.
  induction l as [|r l [IH1 IH2]] using rev_ind.
  - split; [reflexivity|]. discriminate.
  - rewrite collapse_unknown_snoc, has_unknown_domain_snoc, length_app. simpl.
    unfold collapse_step.
    destruct (Tools_IsDomainKnownEnumeration (DomainType_of r)); simpl.
    + rewrite length_app. simpl. rewrite orb_false_r.
      split; [lia|]. intros H. specialize (IH2 H). lia.
    + rewrite overwrite_last_shift_length. split; lia.
Qed.

Lemma TopologyBits_known_test (DomainType : Z) :
  (DomainType =? InvalidDomain) || (DomainType =? LogicalProcessorDomain)
  || (DomainType =? CoreDomain) || (DomainType =? ModuleDomain)
  || (DomainType =? TileDomain) || (DomainType =? DieDomain)
  || (DomainType =? DieGrpDomain)
  = Tools_IsDomainKnownEnumeration DomainType.
Proof. reflexivity. Qed.

Lemma TopologyBits_collapse_body_ManyDomain (m : MACHINE) (Leaf : Z)
    (s : Z * CPUID_REGISTERS * APICID_BIT_LAYOUT_CTX) :
  TopologyBits_collapse_body m Leaf s = ManyDomain_body m Leaf s.
Proof. destruct s as [[Subleaf r] ctx]. reflexivity. Qed.

Lemma while_ext {S : Type} (cond cond' : S -> bool) (body body' : S -> result S) :
  (forall s, cond s = cond' s) -> (forall s, body s = body' s) ->
  forall fuel s, while fuel cond body s = while fuel cond' body' s.
Proof.
  intros Hc Hb. induction fuel as [|fuel IH]; intros s; simpl.
  - rewrite Hc. reflexivity.
  - rewrite Hc, Hb. destruct (cond' s); [|reflexivity].
    destruct (body' s); simpl; auto.
Qed.

Section TopologyBits.
Variables (m : MACHINE) (Leaf : Z) (n : nat).
Hypothesis Hn : (n <= 32)%nat.
Hypothesis Hterm : terminated_at m Leaf n = true.

Lemma TopologyBits_step (s : Z * CPUID_REGISTERS * APICID_BIT_LAYOUT_CTX * bool) :
  TopologyBits_inv m Leaf n s -> TopologyBits_cond s = true ->
  exists s', TopologyBits_body m Leaf s = Done s' /\ TopologyBits_inv m Leaf n s'
             /\ (TopologyBits_measure n s' < TopologyBits_measure n s)%nat.
Proof.
  intros (k & ctx & Hk & -> & Hrel & Hbits & Hdesc) Hcond.
  destruct (terminated_at_spec _ _ _ Hterm) as [_ Hend].
  assert (Hlt : (k < n)%nat).
  { destruct (Nat.eq_dec k n) as [->|]; [|lia].
    unfold TopologyBits_cond in Hcond. rewrite Hend in Hcond. discriminate. }
  set (r := Tools_ReadCpuid m Leaf (Z.of_nat k)).
  destruct Hrel as ((Hsv & Hsd & HM) & Hpdi & Hlev).
  rewrite length_map, enumerated_length in Hpdi.
  assert (Hnext : u32 (Z.of_nat k + 1) = Z.of_nat (S k)) by (rewrite u32_small; lia).
  set (ctx' := set_PackageDomainIndex
                 (set_ShiftValueDomain
                    (set_ShiftValues ctx (<[k := DomainShift_of r]> (ShiftValues ctx)))
                    (<[k := DomainType_of r]> (ShiftValueDomain ctx)))
                 (Z.of_nat (S k))).
  exists (Z.of_nat (S k), Tools_ReadCpuid m Leaf (Z.of_nat (S k)), ctx',
          has_unknown_domain (enumerated m Leaf (S k))).
  split; [|split].
  - unfold TopologyBits_body. fold r.
    rewrite store_in_range by (rewrite Hsv; unfold MAXIMUM_DOMAINS; lia).
    cbn [bind]. unfold set_ShiftValues at 1. cbn [ShiftValueDomain].
    rewrite store_in_range by (rewrite Hsd; unfold MAXIMUM_DOMAINS; lia).
    cbn [bind]. rewrite Nat2Z.id, Hnext.
    rewrite TopologyBits_known_test.
    rewrite enumerated_S, has_unknown_domain_snoc. fold r.
    unfold ctx', set_PackageDomainIndex, set_ShiftValueDomain, set_ShiftValues.
    cbn [PackageDomainIndex NumberOfApicIdBits ShiftValues ShiftValueDomain
         DomainRelativeMasks szDescription].
    rewrite Hpdi, Hnext.
    destruct (Tools_IsDomainKnownEnumeration (DomainType_of r)) eqn:Hknown;
      unfold DomainType_of in Hknown; rewrite Hknown; simpl.
    + rewrite orb_false_r. reflexivity.
    + rewrite orb_true_r. reflexivity.
  - exists (S k), ctx'. split; [lia|]. split; [reflexivity|].
    split; [|split; [exact Hbits|exact Hdesc]].
    split; [|split].
    + unfold ctx_wf, ctx', set_PackageDomainIndex, set_ShiftValueDomain, set_ShiftValues.
      simpl. rewrite !length_insert. auto.
    + unfold ctx', set_PackageDomainIndex. cbn [PackageDomainIndex].
      rewrite length_map, enumerated_length. reflexivity.
    + intros i kind shift Hi. rewrite enumerated_S, map_app in Hi. simpl in Hi.
      unfold ctx', set_PackageDomainIndex, set_ShiftValueDomain, set_ShiftValues. simpl.
      apply lookup_app_Some in Hi as [Hi|[Hge Hi]].
      * assert (Hik : (i < k)%nat).
        { apply lookup_lt_Some in Hi. rewrite length_map, enumerated_length in Hi. lia. }
        rewrite !list_lookup_insert_ne by lia. apply Hlev. exact Hi.
      * rewrite length_map, enumerated_length in Hge, Hi.
        assert (i = k) as -> by (apply lookup_lt_Some in Hi; simpl in Hi; lia).
        replace (k - k)%nat with O in Hi by lia. simpl in Hi. fold r in Hi.
        unfold level_of in Hi. injection Hi as <- <-.
        rewrite !list_lookup_insert_eq
          by (rewrite ?Hsv, ?Hsd; unfold MAXIMUM_DOMAINS; lia).
        auto.
  - unfold TopologyBits_measure. lia.
Qed.

Lemma TopologyBits_first_pass (fuel : nat) :
  (n <= fuel)%nat ->
  exists ctx,
    while fuel TopologyBits_cond (TopologyBits_body m Leaf)
      (0, Tools_ReadCpuid m Leaf 0,
       set_NumberOfApicIdBits (set_szDescription zero_ctx (TopologyBits_description Leaf)) 32,
       false)
    = Done (Z.of_nat n, Tools_ReadCpuid m Leaf (Z.of_nat n), ctx,
            has_unknown_domain (enumerated m Leaf n))
    /\ levels_rel ctx (map level_of (enumerated m Leaf n))
    /\ NumberOfApicIdBits ctx = 32
    /\ szDescription ctx = TopologyBits_description Leaf.
Proof.
  intros Hfuel.
  destruct (while_invariant (TopologyBits_inv m Leaf n) (TopologyBits_measure n)
              TopologyBits_cond (TopologyBits_body m Leaf) TopologyBits_step fuel
              (0, Tools_ReadCpuid m Leaf 0,
               set_NumberOfApicIdBits
                 (set_szDescription zero_ctx (TopologyBits_description Leaf)) 32,
               false))
    as (s' & Hrun & (k & ctx & Hk & -> & Hrel & Hbits & Hdesc) & Hcond).
  - exists O, (set_NumberOfApicIdBits
                 (set_szDescription zero_ctx (TopologyBits_description Leaf)) 32).
    split; [lia|]. split; [reflexivity|]. split; [|split; reflexivity].
    destruct zero_ctx_levels as (Hwf & Hp & Hl). split; [exact Hwf|]. split; [exact Hp|].
    intros i kind shift H. destruct i; discriminate.
  - simpl. lia.
  - assert (k = n) as ->.
    { destruct (terminated_at_spec _ _ _ Hterm) as [Hbefore _].
      destruct (Nat.eq_dec k n) as [->|Hne]; [reflexivity|].
      exfalso. apply (Hbefore k); [lia|].
      unfold TopologyBits_cond in Hcond. apply negb_false_iff in Hcond.
      apply Z.eqb_eq. exact Hcond. }
    exists ctx. split; [exact Hrun|]. auto.
Qed.
End TopologyBits.

(** The collapsing loop started on any context whose arrays have their
    sizes and whose level count is 0. *)
Lemma ManyDomain_loop_from (m : MACHINE) (Leaf : Z) (n fuel : nat)
    (ctx0 : APICID_BIT_LAYOUT_CTX) :
  Z.of_nat n < 2 ^ 32 ->
  terminated_at m Leaf n = true ->
  starts_with_LogicalProcessor (enumerated m Leaf n) = true ->
  (length (collapse_unknown (enumerated m Leaf n)) < 32)%nat ->
  levels_rel ctx0 [] ->
  (n <= fuel)%nat ->
  exists ctx,
    while fuel ManyDomain_cond (ManyDomain_body m Leaf) (0, Tools_ReadCpuid m Leaf 0, ctx0)
    = Done (Z.of_nat n, Tools_ReadCpuid m Leaf (Z.of_nat n), ctx)
    /\ levels_rel ctx (collapse_unknown (enumerated m Leaf n)).
Proof.
  intros Hn Hterm Hfirst Hfit Hrel0 Hfuel.
  destruct (while_invariant (ManyDomain_inv m Leaf n) (ManyDomain_measure n)
              ManyDomain_cond (ManyDomain_body m Leaf)
              (ManyDomain_step m Leaf n Hn Hterm Hfirst Hfit) fuel
              (0, Tools_ReadCpuid m Leaf 0, ctx0))
    as (s' & Hrun & (k & ctx & Hk & -> & Hrel) & Hcond).
  - exists O, ctx0. split; [lia|]. split; [reflexivity|]. exact Hrel0.
  - simpl. lia.
  - assert (k = n) as ->.
    { destruct (terminated_at_spec _ _ _ Hterm) as [Hbefore _].
      destruct (Nat.eq_dec k n) as [->|Hne]; [reflexivity|].
      exfalso. apply (Hbefore k); [lia|].
      unfold ManyDomain_cond in Hcond. apply negb_false_iff in Hcond.
      apply Z.eqb_eq. exact Hcond. }
    exists ctx. split; [exact Hrun|exact Hrel].
Qed.

(** When the enumeration of the leaf ends at subleaf [n <= 32], the layout
    displayed first lists every enumerated subleaf as a level of its own, in
    order, unknown domain types included.  A second layout is displayed
    exactly when some subleaf has an unknown domain type; when the
    enumeration starts with a LogicalProcessor subleaf, its levels are the
    collapsed levels of [collapse_unknown]. *)
Theorem ParseCpu_Internal_TopologyBitsFromLeaf_layouts (m : MACHINE) (Leaf : Z)
    (n fuel : nat) :
  (n <= 32)%nat ->
  terminated_at m Leaf n = true ->
  (has_unknown_domain (enumerated m Leaf n) = true ->
   starts_with_LogicalProcessor (enumerated m Leaf n) = true) ->
  (n <= fuel)%nat ->
  exists first second,
    ParseCpu_Internal_TopologyBitsFromLeaf fuel m Leaf = Done (first, second)
    /\ NumberOfApicIdBits first = 32
    /\ PackageDomainIndex first = Z.of_nat n
    /\ ctx_levels first = map level_of (enumerated m Leaf n)
    /\ match second with
       | None => has_unknown_domain (enumerated m Leaf n) = false
       | Some ctx =>
           has_unknown_domain (enumerated m Leaf n) = true
           /\ ctx_levels ctx = collapse_unknown (enumerated m Leaf n)
       end.
Proof.
  intros Hn Hterm Hfirst Hfuel.
  destruct (TopologyBits_first_pass m Leaf n Hn Hterm fuel Hfuel)
    as (ctx1 & Hrun1 & Hrel1 & Hbits1 & Hdesc1).
  unfold ParseCpu_Internal_TopologyBitsFromLeaf. rewrite Hrun1. cbn [bind].
  pose proof (levels_rel_ctx_levels _ _ Hrel1) as Hlev1.
  assert (Hpdi1 : PackageDomainIndex ctx1 = Z.of_nat n).
  { destruct Hrel1 as (_ & Hp & _). rewrite Hp, length_map, enumerated_length.
    reflexivity. }
  destruct (has_unknown_domain (enumerated m Leaf n)) eqn:Hunk.
  - specialize (Hfirst eq_refl).
    destruct (collapse_unknown_length (enumerated m Leaf n)) as [_ Hshort].
    specialize (Hshort Hunk). rewrite enumerated_length in Hshort.
    set (ctx0 := set_PackageDomainIndex (set_szDescription ctx1 TopologyBits_consolidated) 0).
    assert (Hrel0 : levels_rel ctx0 []).
    { destruct Hrel1 as (Hwf & _ & _). split; [exact Hwf|]. split; [reflexivity|].
      intros i kind shift H. destruct i; discriminate. }
    destruct (ManyDomain_loop_from m Leaf n fuel ctx0) as (ctx2 & Hrun2 & Hrel2);
      try assumption; try lia.
    rewrite (while_ext TopologyBits_collapse_cond ManyDomain_cond
               (TopologyBits_collapse_body m Leaf) (ManyDomain_body m Leaf))
      by (reflexivity || apply TopologyBits_collapse_body_ManyDomain).
    fold ctx0. rewrite Hrun2. cbn [bind].
    exists ctx1, (Some ctx2). split; [reflexivity|].
    split; [exact Hbits1|]. split; [exact Hpdi1|]. split; [exact Hlev1|].
    split; [reflexivity|]. apply levels_rel_ctx_levels. exact Hrel2.
  - exists ctx1, None. split; [reflexivity|].
    split; [exact Hbits1|]. split; [exact Hpdi1|]. split; [exact Hlev1|]. reflexivity.
Qed.

Lemma ParseCpu_Internal_TopologyBitsFromLeaf_layouts_witness :
  exists first second,
    ParseCpu_Internal_TopologyBitsFromLeaf 3 trace_machine 0x1F = Done (first, second)
    /\ NumberOfApicIdBits first = 32
    /\ PackageDomainIndex first = 3
    /\ ctx_levels first = [(LogicalProcessorDomain, 1); (99, 2); (CoreDomain, 3)]
    /\ match second with
       | None => has_unknown_domain (enumerated trace_machine 0x1F 3) = false
       | Some ctx =>
           has_unknown_domain (enumerated trace_machine 0x1F 3) = true
           /\ ctx_levels ctx = [(LogicalProcessorDomain, 2); (CoreDomain, 3)]
       end.
Proof.
  apply (ParseCpu_Internal_TopologyBitsFromLeaf_layouts trace_machine 0x1F 3 3).
  - lia.
  - vm_compute. reflexivity.
  - intros _. vm_compute. reflexivity.
  - lia.
Defined.

(** ** An enumeration that starts with an unknown domain type *)

Lemma ManyDomain_switch_unknown_first (ctx : APICID_BIT_LAYOUT_CTX)
    (DomainType DomainShift : Z) :
  Tools_IsDomainKnownEnumeration DomainType = false ->
  PackageDomainIndex ctx = 0 ->
  length (ShiftValues ctx) = Z.to_nat MAXIMUM_DOMAINS ->
  ManyDomain_switch ctx DomainType DomainShift = Undefined.
Proof.
  intros Hunk Hpdi Hlen. unfold ManyDomain_switch.
  rewrite TopologyBits_known_test, Hunk, Hpdi.
  unfold store. rewrite Hlen. reflexivity.
Qed.

Lemma ManyDomain_loop_unknown_first (m : MACHINE) (Leaf : Z) (fuel : nat)
    (ctx : APICID_BIT_LAYOUT_CTX) :
  Ebx (Tools_ReadCpuid m Leaf 0) <> 0 ->
  Tools_IsDomainKnownEnumeration (DomainType_of (Tools_ReadCpuid m Leaf 0)) = false ->
  PackageDomainIndex ctx = 0 ->
  length (ShiftValues ctx) = Z.to_nat MAXIMUM_DOMAINS ->
  (1 <= fuel)%nat ->
  while fuel ManyDomain_cond (ManyDomain_body m Leaf) (0, Tools_ReadCpuid m Leaf 0, ctx)
  = Undefined.
Proof.
  intros Hebx Hunk Hpdi Hlen Hfuel. destruct fuel as [|fuel]; [lia|].
  cbn [while]. unfold ManyDomain_cond at 1.
  destruct (Z.eqb_spec (Ebx (Tools_ReadCpuid m Leaf 0)) 0) as [E|_]; [contradiction|].
  cbn [negb]. unfold ManyDomain_body at 1.
  unfold DomainType_of in Hunk.
  rewrite (ManyDomain_switch_unknown_first ctx _ _ Hunk Hpdi Hlen). reflexivity.
Qed.

(** When the first subleaf of the enumeration has a domain type outside the
    known enumeration, the collapsing loop stores the shift at index
    [PackageDomainIndex - 1] with [PackageDomainIndex = 0], that is, outside
    [ShiftValues]: the many-domain decoder and the second pass of the
    layout routine have undefined behaviour. *)
Theorem unknown_first_domain_out_of_bounds (m : MACHINE) (Leaf : Z) (n fuel : nat) :
  (1 <= n <= 32)%nat ->
  terminated_at m Leaf n = true ->
  Tools_IsDomainKnownEnumeration (DomainType_of (Tools_ReadCpuid m Leaf 0)) = false ->
  (n <= fuel)%nat ->
  ParseCpu_CpuidManyDomainExample fuel m Leaf = Undefined
  /\ ParseCpu_Internal_TopologyBitsFromLeaf fuel m Leaf = Undefined.
Proof.
  intros Hn Hterm Hunk Hfuel.
  assert (Hebx : Ebx (Tools_ReadCpuid m Leaf 0) <> 0).
  { destruct (terminated_at_spec _ _ _ Hterm) as [Hbefore _].
    apply (Hbefore O). lia. }
  split.
  - unfold ParseCpu_CpuidManyDomainExample, ManyDomain_levels.
    rewrite ManyDomain_loop_unknown_first; try assumption; try reflexivity. lia.
  - destruct (TopologyBits_first_pass m Leaf n ltac:(lia) Hterm fuel Hfuel)
      as (ctx1 & Hrun1 & Hrel1 & _).
    unfold ParseCpu_Internal_TopologyBitsFromLeaf. rewrite Hrun1. cbn [bind].
    assert (Hfound : has_unknown_domain (enumerated m Leaf n) = true).
    { destruct n as [|n']; [lia|].
      unfold enumerated, has_unknown_domain. cbn [seq map existsb].
      change (Z.of_nat 0) with 0. rewrite Hunk. reflexivity. }
    rewrite Hfound.
    rewrite (while_ext TopologyBits_collapse_cond ManyDomain_cond
               (TopologyBits_collapse_body m Leaf) (ManyDomain_body m Leaf))
      by (reflexivity || apply TopologyBits_collapse_body_ManyDomain).
    rewrite ManyDomain_loop_unknown_first; try assumption; try reflexivity; [|lia].
    destruct Hrel1 as ((Hsv & _) & _). exact Hsv.
Qed.

Lemma unknown_first_domain_out_of_bounds_witness :
  ParseCpu_CpuidManyDomainExample 2 unknown_first_machine 0x1F = Undefined
  /\ ParseCpu_Internal_TopologyBitsFromLeaf 2 unknown_first_machine 0x1F = Undefined.
Proof.
  apply (unknown_first_domain_out_of_bounds unknown_first_machine 0x1F 2 2).
  - lia.
  - vm_compute. reflexivity.
  - vm_compute. reflexivity.
  - lia.
Defined.

(** ** The two decoders on the same leaf *)

Lemma collapse_fold_length (l : list CPUID_REGISTERS) (L : list (Z * Z)) :
  (length L <= length (fold_left collapse_step l L))%nat.
Proof.
  revert L. induction l as [|r l IH]; intros L; simpl; [lia|].
  pose proof (collapse_step_length L r). pose proof (IH (collapse_step L r)). lia.
Qed.

Lemma collapse_unknown_nonempty (l : list CPUID_REGISTERS) :
  l <> [] -> starts_with_LogicalProcessor l = true -> collapse_unknown l <> [].
Proof.
  destruct l as [|r l]; [contradiction|]. intros _ Hfirst. simpl in Hfirst.
  assert (E1 : collapse_step [] r = [(DomainType_of r, DomainShift_of r)]).
  { unfold collapse_step. rewrite (LogicalProcessor_known _ Hfirst). reflexivity. }
  pose proof (collapse_fold_length l (collapse_step [] r)) as Hlen.
  rewrite E1 in Hlen at 1. simpl in Hlen.
  unfold collapse_unknown. simpl.
  intros E. rewrite E in Hlen. simpl in Hlen. lia.
Qed.

Lemma starts_with_LogicalProcessor_snoc (l : list CPUID_REGISTERS) (r : CPUID_REGISTERS) :
  l <> [] ->
  starts_with_LogicalProcessor (l ++ [r]) = starts_with_LogicalProcessor l.
Proof. destruct l; [contradiction|reflexivity]. Qed.

(** The last collapsed level ends at the shift of the last subleaf. *)
Lemma collapse_unknown_last_shift (l : list CPUID_REGISTERS) :
  starts_with_LogicalProcessor l = true ->
  List.last (map snd (collapse_unknown l)) 0 = List.last (map DomainShift_of l) 0.
Proof.
  induction l as [|r l IH] using rev_ind; intros Hfirst; [reflexivity|].
  rewrite collapse_unknown_snoc, map_app. simpl. rewrite last_last.
  unfold collapse_step.
  destruct (Tools_IsDomainKnownEnumeration (DomainType_of r)) eqn:Hknown.
  - rewrite map_app. simpl. apply last_last.
  - destruct l as [|r0 l'].
    + simpl in Hfirst. rewrite (LogicalProcessor_known _ Hfirst) in Hknown. discriminate.
    + assert (Hne : r0 :: l' <> []) by discriminate.
      rewrite starts_with_LogicalProcessor_snoc in Hfirst by exact Hne.
      pose proof (collapse_unknown_nonempty _ Hne Hfirst) as HL.
      destruct (exists_last HL) as (L0 & [kind old] & E). rewrite E.
      rewrite overwrite_last_shift_snoc, map_app. simpl. apply last_last.
Qed.

Lemma last_map_default {A B : Type} (f : A -> B) (L : list A) (d : A) :
  List.last (map f L) (f d) = f (List.last L d).
Proof.
  induction L as [|a L IH]; [reflexivity|].
  destruct L as [|b L]; [reflexivity|]. exact IH.
Qed.

Lemma last_lookup_default {A : Type} (L : list A) (d : A) :
  L <> [] -> L !! (length L - 1)%nat = Some (List.last L d).
Proof.
  intros HL. destruct (exists_last HL) as (L0 & x & ->).
  rewrite last_last, length_app. simpl.
  replace (length L0 + 1 - 1)%nat with (length L0) by lia.
  apply list_lookup_middle. reflexivity.
Qed.

(** On the same platform state and leaf, with an enumeration that starts
    with a LogicalProcessor subleaf, the two decoders agree on where the
    package begins: the shift stored at [ShiftValues[PackageDomainIndex - 1]]
    by the many-domain decoder is the package shift of the three-domain
    decoder, whatever unknown domains were collapsed in between. *)
Theorem ThreeDomain_ManyDomain_same_package_shift (m : MACHINE) (Leaf : Z)
    (n fuel : nat) :
  (1 <= n)%nat -> Z.of_nat n < 2 ^ 32 ->
  terminated_at m Leaf n = true ->
  starts_with_LogicalProcessor (enumerated m Leaf n) = true ->
  Z.of_nat (length (collapse_unknown (enumerated m Leaf n))) < MAXIMUM_DOMAINS ->
  (n <= fuel)%nat ->
  exists PackageShift LogicalProcessorShift ctx,
    ParseCpu_CpuidThreeDomainExample fuel m Leaf
    = Done (PackageShift, LogicalProcessorShift)
    /\ ParseCpu_CpuidManyDomainExample fuel m Leaf = Done ctx
    /\ 1 <= PackageDomainIndex ctx
    /\ load (ShiftValues ctx) (PackageDomainIndex ctx - 1) = Done PackageShift.
Proof.
  intros Hn1 Hn Hterm Hfirst Hfit Hfuel. unfold MAXIMUM_DOMAINS in Hfit.
  destruct (ManyDomain_levels_run m Leaf n Hn Hterm Hfirst ltac:(lia) fuel Hfuel)
    as (ctx & Hrun & Hrel).
  pose proof Hrel as (Hwf & Hpdi & Hlev).
  destruct (CreateDomainMaskMatrix_run ctx Hwf) as (M & HM & _).
  { unfold MAXIMUM_DOMAINS. lia. }
  { intros i. apply (levels_rel_previous_shift ctx _ i Hrel). }
  set (L := collapse_unknown (enumerated m Leaf n)) in *.
  assert (HL : L <> []).
  { apply collapse_unknown_nonempty; [|exact Hfirst].
    intros E. apply (f_equal (@length _)) in E. rewrite enumerated_length in E.
    simpl in E. lia. }
  assert (HlenL : (1 <= length L)%nat).
  { destruct L; [contradiction|simpl; lia]. }
  exists (List.last (map DomainShift_of (enumerated m Leaf n)) 0),
         (List.last (map DomainShift_of
                       (List.filter is_LogicalProcessor (enumerated m Leaf n))) 0),
         (set_DomainRelativeMasks ctx M).
  split; [|split; [|split]].
  - unfold ParseCpu_CpuidThreeDomainExample.
    rewrite (ThreeDomain_loop m Leaf n Hn Hterm fuel Hfuel). reflexivity.
  - unfold ParseCpu_CpuidManyDomainExample. rewrite Hrun. exact HM.
  - simpl. lia.
  - simpl. apply load_Done. split; [lia|].
    rewrite Hpdi. replace (Z.to_nat (Z.of_nat (length L) - 1)) with (length L - 1)%nat by lia.
    pose proof (last_lookup_default L (0, 0) HL) as Hlast.
    destruct (List.last L (0, 0)) as [kind shift] eqn:E.
    destruct (Hlev _ _ _ Hlast) as [_ Hs]. rewrite Hs. f_equal.
    rewrite <- (collapse_unknown_last_shift _ Hfirst). fold L.
    change (List.last (map snd L) 0) with (List.last (map snd L) (snd (0, 0))).
    rewrite last_map_default, E. reflexivity.
Qed.

Lemma ThreeDomain_ManyDomain_same_package_shift_witness :
  exists PackageShift LogicalProcessorShift ctx,
    ParseCpu_CpuidThreeDomainExample 3 trace_machine 0x1F
    = Done (PackageShift, LogicalProcessorShift)
    /\ ParseCpu_CpuidManyDomainExample 3 trace_machine 0x1F = Done ctx
    /\ 1 <= PackageDomainIndex ctx
    /\ load (ShiftValues ctx) (PackageDomainIndex ctx - 1) = Done PackageShift.
Proof.
  apply (ThreeDomain_ManyDomain_same_package_shift trace_machine 0x1F 3 3).
  - lia.
  - reflexivity.
  - vm_compute. reflexivity.
  - vm_compute. reflexivity.
  - vm_compute. reflexivity.
  - lia.
Defined.

(** ** The gatherer on a recorded trace *)

Lemma Tools_SetAffinity_simulated (m : MACHINE) (i : Z) :
  UseNativeCpuid (g_GlobalData m) = false ->
  i < NumberOfSimulatedProcessors (g_GlobalData m) ->
  Tools_SetAffinity m i
  = mkMachine
      (mkGlobalData false (SimulatedCpuid (g_GlobalData m))
         (SimulatedCpuidLeaf4 (g_GlobalData m)) (SimulatedCpuidLeaf18 (g_GlobalData m))
         (SimulatedApicIds (g_GlobalData m))
         (NumberOfSimulatedProcessors (g_GlobalData m)) i)
      (Os m) (Os_CurrentCpu m).
Proof.
  intros Hsim Hi. unfold Tools_SetAffinity. rewrite Hsim.
  destruct (Z.ltb_spec i (NumberOfSimulatedProcessors (g_GlobalData m))); [|lia].
  reflexivity.
Qed.

(** The identifier the strategies find on a recorded trace bound to
    processor [i]. *)
Lemma platform_id_simulated (m : MACHINE) (i : Z) :
  UseNativeCpuid (g_GlobalData m) = false ->
  i < NumberOfSimulatedProcessors (g_GlobalData m) ->
  let g := g_GlobalData m in
  platform_id_by_strategy (Eax (Tools_ReadCpuid m 0 0)) (Tools_SetAffinity m i)
  = if ((0x1F <=? Eax (read_table (SimulatedCpuid g) 0 0))
        && negb (Ebx (read_table (SimulatedCpuid g) 0x1F 0) =? 0))
       || ((0xB <=? Eax (read_table (SimulatedCpuid g) 0 0))
           && negb (Ebx (read_table (SimulatedCpuid g) 0xB 0) =? 0))
    then read_array (SimulatedApicIds g) i
    else Z.shiftr (Ebx (read_table (SimulatedCpuid g) 1 0)) 24.
Proof.
  intros Hsim Hi g. rewrite Tools_SetAffinity_simulated by assumption.
  subst g. set (g := g_GlobalData m) in *.
  unfold platform_id_by_strategy, Tools_ReadCpuid. cbn [g_GlobalData UseNativeCpuid
    SimulatedCpuid SimulatedApicIds CurrentProcessorAffinity]. fold g. rewrite Hsim.
  change (0 <? MAX_SIMULATED_LEAFS) with true.
  change (0 <? MAX_SIMULATED_SUBLEAFS) with true.
  change (0x1F <? MAX_SIMULATED_LEAFS) with true.
  change (0xB <? MAX_SIMULATED_LEAFS) with true.
  change (1 <? MAX_SIMULATED_LEAFS) with true.
  cbv iota. simpl Z.eqb. cbv iota. simpl orb. simpl andb. cbv iota.
  destruct (0x1F <=? Eax (read_table (SimulatedCpuid g) 0 0));
    destruct (Ebx (read_table (SimulatedCpuid g) 0x1F 0) =? 0) eqn:E1F;
    destruct (0xB <=? Eax (read_table (SimulatedCpuid g) 0 0));
    destruct (Ebx (read_table (SimulatedCpuid g) 0xB 0) =? 0) eqn:EB;
    simpl; rewrite ?E1F, ?EB; simpl; reflexivity.
Qed.

(** On a recorded trace of [N <= MAX_PROCESSORS] processors the gatherer
    returns min([N], capacity) identifiers.  When leaf 1FH or leaf 0BH is
    reported by leaf 0 and has a non-zero [EBX] in subleaf 0, entry [i] is
    the recorded identifier [SimulatedApicIds[i]]; otherwise every entry is
    the same value, bits 31:24 of the recorded [EBX] of leaf 1, whatever
    identifiers were recorded. *)
Theorem Tools_GatherPlatformApicIds_simulated (m : MACHINE) (pApicIdArray : list Z)
    (ArraySize : Z) :
  let g := g_GlobalData m in
  UseNativeCpuid g = false ->
  0 <= NumberOfSimulatedProcessors g <= MAX_PROCESSORS ->
  0 <= ArraySize <= Z.of_nat (length pApicIdArray) ->
  exists m' a,
    Tools_GatherPlatformApicIds m pApicIdArray ArraySize
    = Done (m', a, Z.min (NumberOfSimulatedProcessors g) ArraySize)
    /\ forall i : nat,
         Z.of_nat i < Z.min (NumberOfSimulatedProcessors g) ArraySize ->
         a !! i
         = Some (if ((0x1F <=? Eax (read_table (SimulatedCpuid g) 0 0))
                     && negb (Ebx (read_table (SimulatedCpuid g) 0x1F 0) =? 0))
                    || ((0xB <=? Eax (read_table (SimulatedCpuid g) 0 0))
                        && negb (Ebx (read_table (SimulatedCpuid g) 0xB 0) =? 0))
                 then read_array (SimulatedApicIds g) (Z.of_nat i)
                 else Z.shiftr (Ebx (read_table (SimulatedCpuid g) 1 0)) 24).
Proof.
  intros g Hsim HN Hsize. subst g.
  assert (Hprocs : Tools_GetNumberOfProcessors m
                   = NumberOfSimulatedProcessors (g_GlobalData m)).
  { unfold Tools_GetNumberOfProcessors. rewrite Hsim. reflexivity. }
  destruct (GatherPlatformApicIds_run m pApicIdArray ArraySize) as (a & Hrun & _ & Hids & _).
  { rewrite Hprocs. lia. }
  { exact Hsize. }
  assert (EN : gathered_count m ArraySize
               = Z.min (NumberOfSimulatedProcessors (g_GlobalData m)) ArraySize).
  { unfold gathered_count. rewrite Hprocs. lia. }
  rewrite EN in *.
  eexists. exists a. split; [exact Hrun|].
  intros i Hi. rewrite Hids by exact Hi.
  rewrite affinity_after_simulated by (assumption || lia).
  rewrite platform_id_simulated by (assumption || lia). reflexivity.
Qed.

Lemma Tools_GatherPlatformApicIds_simulated_witness :
  exists m' a,
    Tools_GatherPlatformApicIds trace_machine (replicate 1024 7) 1024
    = Done (m', a, Z.min (NumberOfSimulatedProcessors (g_GlobalData trace_machine)) 1024)
    /\ forall i : nat,
         Z.of_nat i < Z.min (NumberOfSimulatedProcessors (g_GlobalData trace_machine)) 1024 ->
         a !! i
         = Some (if ((0x1F <=? Eax (read_table (SimulatedCpuid (g_GlobalData trace_machine)) 0 0))
                     && negb (Ebx (read_table (SimulatedCpuid (g_GlobalData trace_machine)) 0x1F 0) =? 0))
                    || ((0xB <=? Eax (read_table (SimulatedCpuid (g_GlobalData trace_machine)) 0 0))
                        && negb (Ebx (read_table (SimulatedCpuid (g_GlobalData trace_machine)) 0xB 0) =? 0))
                 then read_array (SimulatedApicIds (g_GlobalData trace_machine)) (Z.of_nat i)
                 else Z.shiftr (Ebx (read_table (SimulatedCpuid (g_GlobalData trace_machine)) 1 0)) 24).
Proof.
  apply (Tools_GatherPlatformApicIds_simulated trace_machine (replicate 1024 7) 1024).
  - reflexivity.
  - vm_compute. split; discriminate.
  - vm_compute. split; discriminate.
Defined.

(** ** The file reader *)

Lemma File_Internal_DispatchReadSubleaf_keeps (g g' : GLOBAL_DATA)
    (ctx : FILE_READ_CONTEXT) (SubleafNumber : Z) (scanned : option CPUID_REGISTERS)
    (status : bool) :
  File_Internal_DispatchReadSubleaf g ctx SubleafNumber scanned = Done (g', status) ->
  SimulatedApicIds g' = SimulatedApicIds g
  /\ NumberOfSimulatedProcessors g' = NumberOfSimulatedProcessors g
  /\ UseNativeCpuid g' = UseNativeCpuid g.
Proof.
  unfold File_Internal_DispatchReadSubleaf. destruct scanned as [registers|].
  - destruct (CurrentLeaf ctx =? 4).
    { destruct (store_table _ _ _ _); simpl; intros [= <- _] || discriminate. auto. }
    destruct (CurrentLeaf ctx =? 0x18).
    { destruct (store_table _ _ _ _); simpl; intros [= <- _] || discriminate. auto. }
    destruct ((CurrentLeaf ctx <? MAX_SIMULATED_LEAFS)
              && (SubleafNumber <? MAX_SIMULATED_SUBLEAFS)).
    { destruct (store_table _ _ _ _); simpl; intros [= <- _] || discriminate. auto. }
    intros [= <- _]. auto.
  - intros [= <- _]. auto.
Qed.

Lemma take_insert_snoc {A : Type} (l : list A) (n : nat) (v : A) :
  (n < length l)%nat -> take (S n) (<[n := v]> l) = take n l ++ [v].
Proof.
  intros Hn. erewrite take_S_r.
  - rewrite take_insert_ge by lia. reflexivity.
  - apply list_lookup_insert_eq. exact Hn.
Qed.

Lemma ReadCpuidFromFile_loop_apic_ids (lines : list FILE_LINE) :
  forall (g g' : GLOBAL_DATA) (ctx ctx' : FILE_READ_CONTEXT) (st st' : bool),
    length (SimulatedApicIds g) = Z.to_nat MAX_PROCESSORS ->
    0 <= NumberOfSimulatedProcessors g <= MAX_PROCESSORS ->
    ReadCpuidFromFile_loop lines (g, ctx, st) = Done (g', ctx', st') ->
    NumberOfSimulatedProcessors g'
    = Z.min (NumberOfSimulatedProcessors g + Z.of_nat (length (ApicId_lines lines)))
        MAX_PROCESSORS
    /\ length (SimulatedApicIds g') = Z.to_nat MAX_PROCESSORS
    /\ take (Z.to_nat (NumberOfSimulatedProcessors g')) (SimulatedApicIds g')
       = take (Z.to_nat (NumberOfSimulatedProcessors g'))
           (take (Z.to_nat (NumberOfSimulatedProcessors g)) (SimulatedApicIds g)
            ++ ApicId_lines lines)
    /\ UseNativeCpuid g' = UseNativeCpuid g.
Proof.
  unfold MAX_PROCESSORS.
  induction lines as [|line lines IH]; intros g g' ctx ctx' st st' Hlen HN Hrun.
  - simpl in Hrun. injection Hrun as <- <- <-. unfold ApicId_lines. simpl.
    rewrite app_nil_r, take_take. split; [lia|]. split; [exact Hlen|].
    split; [f_equal; lia|reflexivity].
  - cbn [ReadCpuidFromFile_loop] in Hrun.
    apply bind_Done in Hrun as ([[g1 ctx1] st1] & Hline & Hrest).
    unfold ReadCpuidFromFile_line in Hline. unfold ApicId_lines. cbn [List.filter].
    fold (ApicId_lines lines).
    destruct (Ascii.eqb_spec (Character line) "L"%char) as [EL|NL].
    { rewrite EL. cbn [Ascii.eqb Bool.eqb andb]. simpl in Hline. 
      injection Hline as <- _ _. exact (IH _ _ _ _ _ _ Hlen HN Hrest). }
    destruct (Ascii.eqb_spec (Character line) "S"%char) as [ES|NS].
    { rewrite ES. cbn [Ascii.eqb Bool.eqb andb].
      apply bind_Done in Hline as ([g2 st2] & Hsub & Hline).
      injection Hline as <- _ _.
      destruct (File_Internal_DispatchReadSubleaf_keeps _ _ _ _ _ _ Hsub)
        as (Eids & EN & Enat).
      destruct (IH g2 g' _ _ _ _ ltac:(rewrite Eids; exact Hlen)
                  ltac:(rewrite EN; exact HN) Hrest) as (H1 & H2 & H3 & H4).
      rewrite Eids, EN in *. rewrite Enat in H4. auto. }
    destruct (Ascii.eqb_spec (Character line) "A"%char) as [EA|NA].
    2:{ injection Hline as <- _ _. exact (IH _ _ _ _ _ _ Hlen HN Hrest). }
    cbn [map length]. fold (ApicId_lines lines).
    apply bind_Done in Hline as ([g2 st2] & Hid & Hline).
    injection Hline as <- _ _.
    unfold File_Internal_DispatchReadApicId, MAX_PROCESSORS in Hid.
    destruct (Z.ltb_spec (NumberOfSimulatedProcessors g) 1024) as [Hroom|Hfull].
    + apply bind_Done in Hid as (a & Hstore & Hid).
      apply store_Done in Hstore as [_ ->].
      injection Hid as <- _.
      set (N := NumberOfSimulatedProcessors g) in *.
      match type of Hrest with
      | ReadCpuidFromFile_loop _ (?g2, _, _) = _ =>
          assert (Eids : SimulatedApicIds g2
                         = <[Z.to_nat N := FirstData line]> (SimulatedApicIds g))
            by reflexivity;
          assert (EN : NumberOfSimulatedProcessors g2 = N + 1)
            by (change (NumberOfSimulatedProcessors g2) with (u32 (N + 1));
                apply u32_small; lia);
          assert (Enat : UseNativeCpuid g2 = UseNativeCpuid g) by reflexivity;
          destruct (IH g2 g' _ _ _ _
                      ltac:(rewrite Eids, length_insert; exact Hlen)
                      ltac:(rewrite EN; lia) Hrest)
            as (H1 & H2 & H3 & H4)
      end.
      rewrite Eids, EN in *. rewrite Enat in H4.
      split; [lia|]. split; [exact H2|]. split; [|exact H4].
      rewrite H3. f_equal.
      replace (Z.to_nat (N + 1)) with (S (Z.to_nat N)) by lia.
      rewrite take_insert_snoc by lia. rewrite <- app_assoc. reflexivity.
    + injection Hid as <- _.
      destruct (IH _ g' _ _ _ _ Hlen HN Hrest) as (H1 & H2 & H3 & H4).
      assert (EN : NumberOfSimulatedProcessors g = 1024) by lia.
      rewrite EN in *.
      assert (EN' : NumberOfSimulatedProcessors g' = 1024) by lia.
      rewrite EN' in *.
      split; [lia|]. split; [exact H2|]. split; [|exact H4].
      rewrite H3.
      rewrite !take_app_le by (rewrite length_take; lia). reflexivity.
Qed.

Lemma read_table_lookup (t : list (list CPUID_REGISTERS)) (i j : nat)
    (row : list CPUID_REGISTERS) (v : CPUID_REGISTERS) :
  t !! i = Some row -> row !! j = Some v ->
  read_table t (Z.of_nat i) (Z.of_nat j) = v.
Proof. intros Hi Hj. unfold read_table. rewrite !Nat2Z.id, Hi, Hj. reflexivity. Qed.

(** A store into a table of the declared size, inside it: the table keeps
    its size, the element is read back and no other element changes. *)
Lemma store_table_spec (rows cols : Z) (t : list (list CPUID_REGISTERS)) (i j : Z)
    (v : CPUID_REGISTERS) :
  table_wf rows cols t -> 0 <= i < rows -> 0 <= j < cols ->
  exists t',
    store_table t i j v = Done t'
    /\ table_wf rows cols t'
    /\ read_table t' i j = v
    /\ forall i' j', 0 <= i' -> 0 <= j' -> i' <> i \/ j' <> j ->
         read_table t' i' j' = read_table t i' j'.
Proof.
  intros [Hlen Hrows] Hi Hj.
  destruct (lookup_lt_is_Some_2 t (Z.to_nat i)) as [row Hrow]; [lia|].
  pose proof (Hrows _ _ Hrow) as Hrowlen.
  exists (<[Z.to_nat i := <[Z.to_nat j := v]> row]> t).
  split; [|split; [|split]].
  - unfold store_table.
    rewrite (proj2 (load_Done t i row)) by (split; [lia|exact Hrow]). cbn [bind].
    rewrite store_in_range by lia. cbn [bind].
    apply store_in_range. lia.
  - split; [rewrite length_insert; exact Hlen|].
    intros i' row' H'. destruct (Nat.eq_dec i' (Z.to_nat i)) as [->|Hne].
    + rewrite list_lookup_insert_eq in H' by lia. injection H' as <-.
      rewrite length_insert. exact Hrowlen.
    + rewrite list_lookup_insert_ne in H' by lia. eapply Hrows; eauto.
  - unfold read_table.
    rewrite list_lookup_insert_eq by lia. rewrite list_lookup_insert_eq by lia.
    reflexivity.
  - intros i' j' Hi' Hj' Hne. unfold read_table.
    destruct (Z.eq_dec i' i) as [->|Hi'ne].
    + rewrite list_lookup_insert_eq by lia. rewrite Hrow.
      rewrite list_lookup_insert_ne by lia. reflexivity.
    + rewrite list_lookup_insert_ne by lia. reflexivity.
Qed.

Lemma File_Internal_DispatchReadSubleaf_wf (g : GLOBAL_DATA) (ctx : FILE_READ_CONTEXT)
    (SubleafNumber : Z) (scanned : option CPUID_REGISTERS) :
  GlobalData_wf g -> 0 <= CurrentLeaf ctx -> 0 <= SubleafNumber ->
  match scanned with
  | Some _ =>
      if CurrentLeaf ctx =? 4 then
        (1 <=? Leaf4Index ctx) && (Leaf4Index ctx <=? MAX_PROCESSORS)
        && (SubleafNumber <? MAX_SIMULATED_SUBLEAFS)
      else if CurrentLeaf ctx =? 0x18 then
        (1 <=? Leaf18Index ctx) && (Leaf18Index ctx <=? MAX_PROCESSORS)
        && (SubleafNumber <? MAX_SIMULATED_SUBLEAFS)
      else true
  | None => true
  end = true ->
  exists g' status,
    File_Internal_DispatchReadSubleaf g ctx SubleafNumber scanned = Done (g', status)
    /\ GlobalData_wf g'.
Proof.
  intros (Hc & H4 & H18 & Hids & HN) HL HS Hfit.
  unfold File_Internal_DispatchReadSubleaf.
  destruct scanned as [registers|].
  2:{ eexists. eexists. split; [reflexivity|]. exact (conj Hc (conj H4 (conj H18 (conj Hids HN)))). }
  destruct (CurrentLeaf ctx =? 4).
  { apply andb_prop in Hfit as [Hfit Hs]. apply andb_prop in Hfit as [Hlo Hhi].
    apply Z.leb_le in Hlo, Hhi. apply Z.ltb_lt in Hs. unfold MAX_PROCESSORS in Hhi.
    destruct (store_table_spec MAX_PROCESSORS MAX_SIMULATED_SUBLEAFS _
                (u32 (Leaf4Index ctx - 1)) SubleafNumber registers H4)
      as (t' & Hst & Hwf' & _).
    { rewrite u32_small by lia. unfold MAX_PROCESSORS. lia. }
    { lia. }
    rewrite Hst. eexists. eexists. split; [reflexivity|].
    exact (conj Hc (conj Hwf' (conj H18 (conj Hids HN)))). }
  destruct (CurrentLeaf ctx =? 0x18).
  { apply andb_prop in Hfit as [Hfit Hs]. apply andb_prop in Hfit as [Hlo Hhi].
    apply Z.leb_le in Hlo, Hhi. apply Z.ltb_lt in Hs. unfold MAX_PROCESSORS in Hhi.
    destruct (store_table_spec MAX_PROCESSORS MAX_SIMULATED_SUBLEAFS _
                (u32 (Leaf18Index ctx - 1)) SubleafNumber registers H18)
      as (t' & Hst & Hwf' & _).
    { rewrite u32_small by lia. unfold MAX_PROCESSORS. lia. }
    { lia. }
    rewrite Hst. eexists. eexists. split; [reflexivity|].
    exact (conj Hc (conj H4 (conj Hwf' (conj Hids HN)))). }
  destruct (Z.ltb_spec (CurrentLeaf ctx) MAX_SIMULATED_LEAFS) as [Hl|Hl];
    destruct (Z.ltb_spec SubleafNumber MAX_SIMULATED_SUBLEAFS) as [Hs|Hs]; cbn [andb];
    try (eexists; eexists; split; [reflexivity|];
         exact (conj Hc (conj H4 (conj H18 (conj Hids HN))))).
  destruct (store_table_spec MAX_SIMULATED_LEAFS MAX_SIMULATED_SUBLEAFS _
              (CurrentLeaf ctx) SubleafNumber registers Hc)
    as (t' & Hst & Hwf' & _); [lia|lia|].
  rewrite Hst. eexists. eexists. split; [reflexivity|].
  exact (conj Hwf' (conj H4 (conj H18 (conj Hids HN)))).
Qed.

Lemma File_Internal_DispatchReadApicId_wf (g : GLOBAL_DATA) (ApicIdNumber : Z) :
  GlobalData_wf g ->
  exists g',
    File_Internal_DispatchReadApicId g ApicIdNumber = Done (g', true)
    /\ GlobalData_wf g'.
Proof.
  intros (Hc & H4 & H18 & Hids & HN). unfold File_Internal_DispatchReadApicId.
  destruct (Z.ltb_spec (NumberOfSimulatedProcessors g) MAX_PROCESSORS) as [Hroom|Hfull].
  - rewrite store_in_range by (rewrite Hids; lia). cbn [bind].
    eexists. split; [reflexivity|].
    refine (conj Hc (conj H4 (conj H18 (conj _ _)))).
    + cbn. rewrite length_insert. exact Hids.
    + cbn. unfold MAX_PROCESSORS in *. rewrite u32_small; lia.
  - eexists. split; [reflexivity|]. exact (conj Hc (conj H4 (conj H18 (conj Hids HN)))).
Qed.

Lemma ReadCpuidFromFile_loop_total (lines : list FILE_LINE) :
  forall (g : GLOBAL_DATA) (ctx : FILE_READ_CONTEXT) (st : bool),
    GlobalData_wf g -> 0 <= CurrentLeaf ctx ->
    lines_fit_tables lines ctx = true ->
    exists g' ctx' st',
      ReadCpuidFromFile_loop lines (g, ctx, st) = Done (g', ctx', st')
      /\ GlobalData_wf g'.
Proof.
  induction lines as [|line lines IH]; intros g ctx st Hwf HL Hfit.
  - exists g, ctx, st. split; [reflexivity|exact Hwf].
  - cbn [lines_fit_tables] in Hfit. apply andb_prop in Hfit as [Hdata Hfit].
    apply Z.leb_le in Hdata.
    cbn [ReadCpuidFromFile_loop]. unfold ReadCpuidFromFile_line.
    destruct (Ascii.eqb (Character line) "L").
    { destruct (File_Internal_DispatchReadLeaf ctx (FirstData line)) as [ctx1 st1] eqn:E.
      cbn [bind]. cbn [fst] in Hfit. apply IH; [exact Hwf| |exact Hfit].
      unfold File_Internal_DispatchReadLeaf in E. injection E as <- _.
      destruct (FirstData line =? 4); [exact Hdata|].
      destruct (FirstData line =? 0x18); exact Hdata. }
    destruct (Ascii.eqb (Character line) "S").
    { apply andb_prop in Hfit as [Hsub Hfit].
      destruct (File_Internal_DispatchReadSubleaf_wf g ctx (FirstData line)
                  (Registers line) Hwf HL Hdata Hsub) as (g1 & st1 & Hrun & Hwf1).
      rewrite Hrun. cbn [bind]. apply IH; assumption. }
    destruct (Ascii.eqb (Character line) "A").
    { destruct (File_Internal_DispatchReadApicId_wf g (FirstData line) Hwf)
        as (g1 & Hrun & Hwf1).
      rewrite Hrun. cbn [bind]. apply IH; assumption. }
    cbn [bind]. apply IH; assumption.
Qed.

(** Reading a file that fits the tables into well-sized global data
    completes and leaves well-sized global data in simulation mode.  The
    processor count grows by the number of [A] lines but stops at
    [MAX_PROCESSORS], and the recorded identifiers are the earlier ones
    followed by the values of the [A] lines in file order; [A] lines beyond
    the limit are dropped. *)
Theorem File_ReadCpuidFromFile_apic_ids (g : GLOBAL_DATA) (lines : list FILE_LINE) :
  GlobalData_wf g ->
  lines_fit_tables lines (mkReadContext 0 0 0) = true ->
  exists g' status,
    File_ReadCpuidFromFile g (Some lines) = Done (g', status)
    /\ GlobalData_wf g'
    /\ UseNativeCpuid g' = false
    /\ NumberOfSimulatedProcessors g'
       = Z.min (NumberOfSimulatedProcessors g + Z.of_nat (length (ApicId_lines lines)))
           MAX_PROCESSORS
    /\ take (Z.to_nat (NumberOfSimulatedProcessors g')) (SimulatedApicIds g')
       = take (Z.to_nat (NumberOfSimulatedProcessors g'))
           (take (Z.to_nat (NumberOfSimulatedProcessors g)) (SimulatedApicIds g)
            ++ ApicId_lines lines).
Proof.
  intros Hwf Hfit.
  assert (Hwf0 : GlobalData_wf (set_UseNativeCpuid g false)) by exact Hwf.
  destruct (ReadCpuidFromFile_loop_total lines (set_UseNativeCpuid g false)
              (mkReadContext 0 0 0) false Hwf0 ltac:(simpl; lia) Hfit)
    as (g' & ctx' & st' & Hrun & Hwf').
  destruct Hwf as (_ & _ & _ & Hids & HN).
  destruct (ReadCpuidFromFile_loop_apic_ids lines (set_UseNativeCpuid g false)
              _ _ _ _ _ Hids HN Hrun)
    as (H1 & _ & H3 & H4).
  exists g', st'. unfold File_ReadCpuidFromFile. rewrite Hrun. cbn [bind].
  split; [reflexivity|]. split; [exact Hwf'|]. split; [exact H4|].
  split; [exact H1|exact H3].
Qed.

Lemma initial_GlobalData_wf : GlobalData_wf initial_GlobalData.
Proof.
  unfold GlobalData_wf, table_wf, initial_GlobalData. cbn.
  repeat split; try reflexivity; try discriminate;
    intros i row H; apply lookup_replicate in H; destruct H as [-> _]; reflexivity.
Qed.

Lemma File_ReadCpuidFromFile_apic_ids_witness :
  exists g' status,
    File_ReadCpuidFromFile initial_GlobalData (Some two_processor_file)
    = Done (g', status)
    /\ GlobalData_wf g'
    /\ UseNativeCpuid g' = false
    /\ NumberOfSimulatedProcessors g' = 2
    /\ take (Z.to_nat (NumberOfSimulatedProcessors g')) (SimulatedApicIds g')
       = take (Z.to_nat (NumberOfSimulatedProcessors g')) [6; 7].
Proof.
  apply (File_ReadCpuidFromFile_apic_ids initial_GlobalData two_processor_file).
  - exact initial_GlobalData_wf.
  - vm_compute. reflexivity.
Defined.

(** A subleaf line under a leaf line of a leaf other than 4 and 18H, inside
    the simulated limits, is read back by [Tools_ReadCpuid] at that leaf and
    subleaf: [EAX] and [EBX] as recorded, [ECX] as recorded except for leaf
    1, [EDX] as recorded except for the leaves 0BH and 1FH (where the
    simulation substitutes identifiers); every other leaf and subleaf reads
    as before. *)
Theorem File_Internal_DispatchReadSubleaf_read_back (g : GLOBAL_DATA)
    (ctx0 : FILE_READ_CONTEXT) (Leaf Subleaf : Z) (registers : CPUID_REGISTERS) :
  GlobalData_wf g -> UseNativeCpuid g = false ->
  0 <= Leaf < MAX_SIMULATED_LEAFS -> 0 <= Subleaf < MAX_SIMULATED_SUBLEAFS ->
  Leaf <> 4 -> Leaf <> 0x18 ->
  exists g',
    File_Internal_DispatchReadSubleaf g (fst (File_Internal_DispatchReadLeaf ctx0 Leaf))
      Subleaf (Some registers)
    = Done (g', true)
    /\ (forall os cpu,
          let r := Tools_ReadCpuid (mkMachine g' os cpu) Leaf Subleaf in
          Eax r = Eax registers /\ Ebx r = Ebx registers
          /\ (Leaf <> 1 -> Ecx r = Ecx registers)
          /\ (Leaf <> 0xB -> Leaf <> 0x1F -> Edx r = Edx registers))
    /\ (forall os cpu Leaf' Subleaf',
          0 <= Leaf' -> 0 <= Subleaf' -> Leaf' <> Leaf \/ Subleaf' <> Subleaf ->
          Tools_ReadCpuid (mkMachine g' os cpu) Leaf' Subleaf'
          = Tools_ReadCpuid (mkMachine g os cpu) Leaf' Subleaf').
Proof.
  intros (Hc & H4 & H18 & Hids & HN) Hsim HL HS Hn4 Hn18.
  destruct (store_table_spec MAX_SIMULATED_LEAFS MAX_SIMULATED_SUBLEAFS _ Leaf Subleaf
              registers Hc HL HS) as (t' & Hst & Hwf' & Hback & Hframe).
  exists (set_SimulatedCpuid g t').
  assert (Hctx : CurrentLeaf (fst (File_Internal_DispatchReadLeaf ctx0 Leaf)) = Leaf).
  { unfold File_Internal_DispatchReadLeaf.
    destruct (Leaf =? 4); [reflexivity|]. destruct (Leaf =? 0x18); reflexivity. }
  assert (E4 : (Leaf =? 4) = false) by (apply Z.eqb_neq; exact Hn4).
  assert (E18 : (Leaf =? 0x18) = false) by (apply Z.eqb_neq; exact Hn18).
  split; [|split].
  - unfold File_Internal_DispatchReadSubleaf. rewrite Hctx, E4, E18.
    destruct (Z.ltb_spec Leaf MAX_SIMULATED_LEAFS); [|lia].
    destruct (Z.ltb_spec Subleaf MAX_SIMULATED_SUBLEAFS); [|lia].
    cbn [andb]. rewrite Hst. reflexivity.
  - intros os cpu. unfold Tools_ReadCpuid.
    cbn [g_GlobalData set_SimulatedCpuid UseNativeCpuid SimulatedCpuid SimulatedApicIds
         CurrentProcessorAffinity SimulatedCpuidLeaf4 SimulatedCpuidLeaf18].
    rewrite Hsim, E4, E18, Hback.
    destruct (Z.ltb_spec Leaf MAX_SIMULATED_LEAFS); [|lia].
    destruct (Z.ltb_spec Subleaf MAX_SIMULATED_SUBLEAFS); [|lia].
    destruct (Z.eqb_spec Leaf 0xB) as [EB|NB]; destruct (Z.eqb_spec Leaf 0x1F) as [EF|NF];
      destruct (Z.eqb_spec Leaf 1) as [E1|N1]; try lia;
      destruct (Ebx registers =? 0); cbn; repeat split; intros; (reflexivity || lia).
  - intros os cpu Leaf' Subleaf' HL' HS' Hne. unfold Tools_ReadCpuid.
    cbn [g_GlobalData set_SimulatedCpuid UseNativeCpuid SimulatedCpuid SimulatedApicIds
         CurrentProcessorAffinity SimulatedCpuidLeaf4 SimulatedCpuidLeaf18].
    rewrite (Hframe Leaf' Subleaf' HL' HS' Hne). reflexivity.
Qed.

Lemma File_Internal_DispatchReadSubleaf_read_back_witness :
  exists g',
    File_Internal_DispatchReadSubleaf (set_UseNativeCpuid initial_GlobalData false)
      (fst (File_Internal_DispatchReadLeaf (mkReadContext 0 0 0) 0x1F))
      2 (Some (mkRegs 3 8 0x202 0))
    = Done (g', true)
    /\ (forall os cpu,
          let r := Tools_ReadCpuid (mkMachine g' os cpu) 0x1F 2 in
          Eax r = 3 /\ Ebx r = 8
          /\ (0x1F <> 1 -> Ecx r = 0x202)
          /\ (0x1F <> 0xB -> 0x1F <> 0x1F -> Edx r = 0))
    /\ (forall os cpu Leaf' Subleaf',
          0 <= Leaf' -> 0 <= Subleaf' -> Leaf' <> 0x1F \/ Subleaf' <> 2 ->
          Tools_ReadCpuid (mkMachine g' os cpu) Leaf' Subleaf'
          = Tools_ReadCpuid
              (mkMachine (set_UseNativeCpuid initial_GlobalData false) os cpu)
              Leaf' Subleaf').
Proof.
  apply (File_Internal_DispatchReadSubleaf_read_back
           (set_UseNativeCpuid initial_GlobalData false) (mkReadContext 0 0 0)
           0x1F 2 (mkRegs 3 8 0x202 0)).
  - exact initial_GlobalData_wf.
  - reflexivity.
  - vm_compute. split; (discriminate || reflexivity).
  - vm_compute. split; (discriminate || reflexivity).
  - discriminate.
  - discriminate.
Defined.

(** A subleaf line under the [k]-th leaf 4 line (or leaf 18H line) is
    recorded for processor [k - 1]: [Tools_ReadCpuid] returns its registers
    unchanged when the simulation is bound to that processor, and the
    entries of the other processors and subleaves are not touched. *)
Theorem File_Internal_DispatchReadSubleaf_per_processor (g : GLOBAL_DATA)
    (ctx0 : FILE_READ_CONTEXT) (Leaf Subleaf : Z) (registers : CPUID_REGISTERS) :
  let Index := if Leaf =? 4 then Leaf4Index ctx0 else Leaf18Index ctx0 in
  let table g := if Leaf =? 4 then SimulatedCpuidLeaf4 g else SimulatedCpuidLeaf18 g in
  GlobalData_wf g ->
  Leaf = 4 \/ Leaf = 0x18 ->
  0 <= Index < MAX_PROCESSORS -> 0 <= Subleaf < MAX_SIMULATED_SUBLEAFS ->
  exists g',
    File_Internal_DispatchReadSubleaf g (fst (File_Internal_DispatchReadLeaf ctx0 Leaf))
      Subleaf (Some registers)
    = Done (g', true)
    /\ (forall m,
          UseNativeCpuid (g_GlobalData m) = false ->
          table (g_GlobalData m) = table g' ->
          CurrentProcessorAffinity (g_GlobalData m) = Index ->
          Tools_ReadCpuid m Leaf Subleaf = registers)
    /\ (forall p s, 0 <= p -> 0 <= s -> p <> Index \/ s <> Subleaf ->
          read_table (table g') p s = read_table (table g) p s).
Proof.
  intros Index table (Hc & H4 & H18 & Hids & HN) HLeaf HI HS.
  assert (Hmax : MAX_PROCESSORS = 1024) by reflexivity.
  assert (Hsub : MAX_SIMULATED_SUBLEAFS = 10) by reflexivity.
  destruct HLeaf as [-> | ->]; subst Index table; cbn [Z.eqb Pos.eqb] in *.
  - destruct (store_table_spec MAX_PROCESSORS MAX_SIMULATED_SUBLEAFS _
                (Leaf4Index ctx0) Subleaf registers H4 HI HS)
      as (t' & Hst & Hwf' & Hback & Hframe).
    exists (set_SimulatedCpuidLeaf4 g t'). split; [|split].
    + unfold File_Internal_DispatchReadSubleaf, File_Internal_DispatchReadLeaf.
      cbn [fst Z.eqb Pos.eqb CurrentLeaf Leaf4Index].
      rewrite (u32_small (Leaf4Index ctx0 + 1)) by lia.
      replace (Leaf4Index ctx0 + 1 - 1) with (Leaf4Index ctx0) by lia.
      rewrite u32_small by lia. rewrite Hst. reflexivity.
    + intros m Hsim Htab Haff. unfold Tools_ReadCpuid. rewrite Hsim, Htab, Haff.
      change (4 <? MAX_SIMULATED_LEAFS) with true. cbv iota.
      destruct (Z.ltb_spec Subleaf MAX_SIMULATED_SUBLEAFS); [|lia].
      cbn [Z.eqb Pos.eqb]. exact Hback.
    + exact Hframe.
  - destruct (store_table_spec MAX_PROCESSORS MAX_SIMULATED_SUBLEAFS _
                (Leaf18Index ctx0) Subleaf registers H18 HI HS)
      as (t' & Hst & Hwf' & Hback & Hframe).
    exists (set_SimulatedCpuidLeaf18 g t'). split; [|split].
    + unfold File_Internal_DispatchReadSubleaf, File_Internal_DispatchReadLeaf.
      cbn [fst Z.eqb Pos.eqb CurrentLeaf Leaf18Index].
      rewrite (u32_small (Leaf18Index ctx0 + 1)) by lia.
      replace (Leaf18Index ctx0 + 1 - 1) with (Leaf18Index ctx0) by lia.
      rewrite u32_small by lia. rewrite Hst. reflexivity.
    + intros m Hsim Htab Haff. unfold Tools_ReadCpuid. rewrite Hsim, Htab, Haff.
      change (0x18 <? MAX_SIMULATED_LEAFS) with true. cbv iota.
      destruct (Z.ltb_spec Subleaf MAX_SIMULATED_SUBLEAFS); [|lia].
      cbn [Z.eqb Pos.eqb]. exact Hback.
    + exact Hframe.
Qed.

Lemma File_Internal_DispatchReadSubleaf_per_processor_witness :
  exists g',
    File_Internal_DispatchReadSubleaf initial_GlobalData
      (fst (File_Internal_DispatchReadLeaf (mkReadContext 0xB 1 0) 4))
      0 (Some (mkRegs 0x122 0x01C0003F 0x3F 0))
    = Done (g', true)
    /\ (forall m,
          UseNativeCpuid (g_GlobalData m) = false ->
          SimulatedCpuidLeaf4 (g_GlobalData m) = SimulatedCpuidLeaf4 g' ->
          CurrentProcessorAffinity (g_GlobalData m) = 1 ->
          Tools_ReadCpuid m 4 0 = mkRegs 0x122 0x01C0003F 0x3F 0)
    /\ (forall p s, 0 <= p -> 0 <= s -> p <> 1 \/ s <> 0 ->
          read_table (SimulatedCpuidLeaf4 g') p s
          = read_table (SimulatedCpuidLeaf4 initial_GlobalData) p s).
Proof.
  apply (File_Internal_DispatchReadSubleaf_per_processor initial_GlobalData
           (mkReadContext 0xB 1 0) 4 0 (mkRegs 0x122 0x01C0003F 0x3F 0)).
  - exact initial_GlobalData_wf.
  - left. reflexivity.
  - vm_compute. split; (discriminate || reflexivity).
  - vm_compute. split; (discriminate || reflexivity).
Defined.

(** A subleaf number at or beyond [MAX_SIMULATED_SUBLEAFS] is skipped for
    the ordinary leaves, with the global data unchanged; for leaf 4 and leaf
    18H there is no such test, and the registers are stored outside the row
    of the processor. *)
Theorem File_Internal_DispatchReadSubleaf_beyond_subleafs (g : GLOBAL_DATA)
    (ctx : FILE_READ_CONTEXT) (SubleafNumber : Z) (registers : CPUID_REGISTERS) :
  GlobalData_wf g ->
  MAX_SIMULATED_SUBLEAFS <= SubleafNumber ->
  File_Internal_DispatchReadSubleaf g ctx SubleafNumber (Some registers)
  = if (CurrentLeaf ctx =? 4) || (CurrentLeaf ctx =? 0x18) then Undefined
    else Done (g, true).
Proof.
  intros (Hc & H4 & H18 & Hids & HN) HS.
  assert (Hrow : forall (t : list (list CPUID_REGISTERS)) i,
            table_wf MAX_PROCESSORS MAX_SIMULATED_SUBLEAFS t ->
            store_table t i SubleafNumber registers = Undefined).
  { intros t i [_ Hrows]. unfold store_table, load.
    destruct ((0 <=? i) && (i <? Z.of_nat (length t))); [|reflexivity].
    destruct (t !! Z.to_nat i) as [row|] eqn:E; [|reflexivity].
    cbn [bind]. unfold store. rewrite (Hrows _ _ E).
    unfold MAX_SIMULATED_SUBLEAFS in *.
    destruct (Z.ltb_spec SubleafNumber (Z.of_nat (Z.to_nat 10))); [lia|].
    rewrite andb_false_r. reflexivity. }
  unfold File_Internal_DispatchReadSubleaf.
  destruct (CurrentLeaf ctx =? 4); [rewrite Hrow by exact H4; reflexivity|].
  destruct (CurrentLeaf ctx =? 0x18); [rewrite Hrow by exact H18; reflexivity|].
  destruct (Z.ltb_spec SubleafNumber MAX_SIMULATED_SUBLEAFS); [lia|].
  rewrite andb_false_r. reflexivity.
Qed.

Lemma File_Internal_DispatchReadSubleaf_beyond_subleafs_witness :
  File_Internal_DispatchReadSubleaf initial_GlobalData (mkReadContext 4 1 0) 10
    (Some (mkRegs 0x121 0 0 0))
  = Undefined.
Proof.
  apply (File_Internal_DispatchReadSubleaf_beyond_subleafs initial_GlobalData
           (mkReadContext 4 1 0) 10 (mkRegs 0x121 0 0 0)).
  - exact initial_GlobalData_wf.
  - vm_compute. discriminate.
Defined.

(** ** What a completed loop keeps *)

(** When every completed iteration keeps an invariant, a completed loop
    ends in a state that satisfies the invariant and falsifies the
    condition. *)
Lemma while_Done_invariant {S : Type} (Inv : S -> Prop) (cond : S -> bool)
    (body : S -> result S) :
  (forall s s', Inv s -> cond s = true -> body s = Done s' -> Inv s') ->
  forall fuel s s', Inv s -> while fuel cond body s = Done s' ->
    Inv s' /\ cond s' = false.
Proof.
  intros Hstep. induction fuel as [|fuel IH]; intros s s' Hinv Hrun; simpl in Hrun.
  - destruct (cond s) eqn:Hc; [discriminate|]. injection Hrun as <-. auto.
  - destruct (cond s) eqn:Hc.
    + apply bind_Done in Hrun as (s1 & Hbody & Hrest).
      apply (IH s1 s'); [|exact Hrest]. eapply Hstep; eauto.
    + injection Hrun as <-. auto.
Qed.

(** ** The groups of the resource passes *)

Section ResourceGroupInvariantFacts.
Context {A : Type}.
Variable group_id : A -> Z.
Variable group_mask : A -> Z.
Variable group_regs : A -> CPUID_REGISTERS.
Variable group_count : A -> Z.
Variable group_members : A -> list Z.
Variable populate : A -> Z -> Z -> CPUID_REGISTERS -> A.
Variable add_member : A -> list Z -> A.
Variable mask_of : CPUID_REGISTERS -> Z.
Variable valid_regs : CPUID_REGISTERS -> Prop.

Hypothesis populate_id : forall old i mk r, group_id (populate old i mk r) = i.
Hypothesis populate_mask : forall old i mk r, group_mask (populate old i mk r) = mk.
Hypothesis populate_regs : forall old i mk r, group_regs (populate old i mk r) = r.
Hypothesis populate_count : forall old i mk r, group_count (populate old i mk r) = 0.
Hypothesis populate_members :
  forall old i mk r, group_members (populate old i mk r) = group_members old.
Hypothesis add_member_id : forall e l, group_id (add_member e l) = group_id e.
Hypothesis add_member_mask : forall e l, group_mask (add_member e l) = group_mask e.
Hypothesis add_member_regs : forall e l, group_regs (add_member e l) = group_regs e.
Hypothesis add_member_count :
  forall e l, group_count (add_member e l) = u32 (group_count e + 1).
Hypothesis add_member_members : forall e l, group_members (add_member e l) = l.

Lemma Example_subleaf_groups_ok (pInfo p' : list A) (N N' ApicId : Z)
    (r : CPUID_REGISTERS) :
  groups_ok group_id group_mask group_regs group_count group_members mask_of valid_regs
    (pInfo, N) ->
  valid_regs r ->
  Example_subleaf group_id group_regs group_count group_members populate add_member
    mask_of ApicId r (pInfo, N) = Done (p', N') ->
  groups_ok group_id group_mask group_regs group_count group_members mask_of valid_regs
    (p', N')
  /\ N <= N' <= N + 1.
Proof.
  intros (HN & Hlen & Hmem & Hok & Huniq) Hvalid Hrun.
  assert (Hmax : MAX_PROCESSORS = 1024) by reflexivity.
  unfold Example_subleaf in Hrun.
  destruct (FindMatchingEntry_spec group_id group_regs pInfo N
              (Z.land ApicId (mask_of r)) r HN ltac:(lia))
    as (idx & Hfind & [[-> Hno]|(i & e & -> & (Hi & Hli & Hm & _))]).
  - (* a new group *)
    rewrite Hfind in Hrun. cbn [bind] in Hrun. rewrite Z.eqb_refl in Hrun.
    unfold AddEntry in Hrun.
    apply bind_Done in Hrun as ([[p1 N1] idx1] & Hadd & Hrun).
    apply bind_Done in Hadd as (old & Hold & Hadd).
    apply bind_Done in Hadd as (p1' & Hst & Hadd).
    injection Hadd as <- <- <-.
    apply load_Done in Hold as [_ Hold].
    apply store_Done in Hst as [HNlt ->].
    assert (Hvalid' : (N =? INVALID_CACHE_INDEX) = false).
    { apply Z.eqb_neq. change INVALID_CACHE_INDEX with 4294967295. lia. }
    rewrite Hvalid' in Hrun. cbn [negb] in Hrun.
    apply bind_Done in Hrun as (entry & Hentry & Hrun).
    apply load_Done in Hentry as [_ Hentry].
    rewrite list_lookup_insert_eq in Hentry by lia. injection Hentry as <-.
    apply bind_Done in Hrun as (members & Hmembers & Hrun).
    apply store_Done in Hmembers as [Hroom ->].
    apply bind_Done in Hrun as (p2 & Hst2 & Hrun).
    apply store_Done in Hst2 as [_ ->]. injection Hrun as <- <-.
    rewrite list_insert_insert_eq.
    rewrite populate_count, populate_members in *.
    rewrite (u32_small (N + 1)) by lia.
    set (e' := add_member (populate old (Z.land ApicId (mask_of r)) (mask_of r) r)
                 (<[Z.to_nat 0 := ApicId]> (group_members old))).
    assert (He'ok : group_ok group_id group_mask group_regs group_count group_members
                      mask_of valid_regs e').
    { unfold group_ok, e'.
      rewrite add_member_mask, add_member_regs, add_member_count, add_member_id,
        add_member_members, populate_mask, populate_regs, populate_count, populate_id.
      rewrite u32_small by lia.
      split; [reflexivity|]. split; [exact Hvalid|]. split; [lia|].
      intros k a Hk Hka. assert (k = O) as -> by lia.
      rewrite list_lookup_insert_eq in Hka by lia. injection Hka as <-. reflexivity. }
    split; [|lia]. split; [rewrite length_insert; lia|].
    split; [rewrite length_insert; exact Hlen|].
    split; [|split].
    + intros j e Hj. destruct (Nat.eq_dec j (Z.to_nat N)) as [->|Hne].
      * rewrite list_lookup_insert_eq in Hj by lia. injection Hj as <-.
        unfold e'. rewrite add_member_members, length_insert. eapply Hmem; eauto.
      * rewrite list_lookup_insert_ne in Hj by lia. eapply Hmem; eauto.
    + intros j e Hj Hlj. destruct (Nat.eq_dec j (Z.to_nat N)) as [->|Hne].
      * rewrite list_lookup_insert_eq in Hlj by lia. injection Hlj as <-. exact He'ok.
      * rewrite list_lookup_insert_ne in Hlj by lia. apply (Hok j); [lia|exact Hlj].
    + assert (Hnew : forall j e, Z.of_nat j < N -> pInfo !! j = Some e ->
                 group_id e = group_id e' -> group_regs e = group_regs e' -> False).
      { intros j e Hj Hlj Hid Hregs. unfold e' in Hid, Hregs.
        rewrite add_member_id, populate_id in Hid.
        rewrite add_member_regs, populate_regs in Hregs.
        assert (Hmatch : group_matches group_id group_regs (Z.land ApicId (mask_of r)) r e
                         = true) by (apply group_matches_iff; auto).
        rewrite (Hno j e Hj Hlj) in Hmatch. discriminate. }
      intros j1 j2 e1 e2 Hj1 Hj2 Hl1 Hl2 Hid Hregs.
      destruct (Nat.eq_dec j1 (Z.to_nat N)) as [->|Hne1];
        destruct (Nat.eq_dec j2 (Z.to_nat N)) as [->|Hne2]; [reflexivity| | |].
      * rewrite list_lookup_insert_eq in Hl1 by lia. injection Hl1 as <-.
        rewrite list_lookup_insert_ne in Hl2 by lia.
        exfalso. apply (Hnew j2 e2); [lia|exact Hl2|congruence|congruence].
      * rewrite list_lookup_insert_eq in Hl2 by lia. injection Hl2 as <-.
        rewrite list_lookup_insert_ne in Hl1 by lia.
        exfalso. apply (Hnew j1 e1); [lia|exact Hl1|congruence|congruence].
      * rewrite list_lookup_insert_ne in Hl1, Hl2 by lia.
        apply (Huniq j1 j2 e1 e2); (assumption || lia).
  - (* an existing group *)
    rewrite Hfind in Hrun. cbn [bind] in Hrun.
    assert (Hvalid' : (Z.of_nat i =? INVALID_CACHE_INDEX) = false).
    { apply Z.eqb_neq. change INVALID_CACHE_INDEX with 4294967295. lia. }
    rewrite Hvalid' in Hrun. cbn [bind negb] in Hrun. rewrite Hvalid' in Hrun.
    cbn [negb] in Hrun.
    apply bind_Done in Hrun as (entry & Hentry & Hrun).
    apply load_Done in Hentry as [_ Hentry]. rewrite Nat2Z.id, Hli in Hentry.
    injection Hentry as <-.
    apply bind_Done in Hrun as (members & Hmembers & Hrun).
    apply store_Done in Hmembers as [Hroom ->].
    apply bind_Done in Hrun as (p2 & Hst2 & Hrun).
    apply store_Done in Hst2 as [_ ->]. injection Hrun as <- <-.
    rewrite Nat2Z.id.
    apply group_matches_iff in Hm. destruct Hm as [Hid Hregs].
    destruct (Hok i e Hi Hli) as (Hmask & Hv & Hcount & Hall).
    pose proof (Hmem i e Hli) as Hmlen. rewrite Hmlen in Hroom.
    set (e' := add_member e (<[Z.to_nat (group_count e) := ApicId]> (group_members e))).
    assert (He'ok : group_ok group_id group_mask group_regs group_count group_members
                      mask_of valid_regs e').
    { unfold group_ok, e'.
      rewrite add_member_mask, add_member_regs, add_member_count, add_member_id,
        add_member_members.
      rewrite u32_small by lia.
      split; [exact Hmask|]. split; [exact Hv|]. split; [lia|].
      intros k a Hk Hka.
      destruct (Nat.eq_dec k (Z.to_nat (group_count e))) as [->|Hne].
      - rewrite list_lookup_insert_eq in Hka by lia. injection Hka as <-.
        rewrite Hmask, Hregs. symmetry. exact Hid.
      - rewrite list_lookup_insert_ne in Hka by lia. apply (Hall k); [lia|exact Hka]. }
    split; [|lia]. split; [rewrite length_insert; lia|].
    split; [rewrite length_insert; exact Hlen|].
    split; [|split].
    + intros j e0 Hj. destruct (Nat.eq_dec j i) as [->|Hne].
      * rewrite list_lookup_insert_eq in Hj by (apply lookup_lt_Some in Hli; lia).
        injection Hj as <-. unfold e'. rewrite add_member_members, length_insert.
        exact Hmlen.
      * rewrite list_lookup_insert_ne in Hj by lia. eapply Hmem; eauto.
    + intros j e0 Hj Hlj. destruct (Nat.eq_dec j i) as [->|Hne].
      * rewrite list_lookup_insert_eq in Hlj by (apply lookup_lt_Some in Hli; lia).
        injection Hlj as <-. exact He'ok.
      * rewrite list_lookup_insert_ne in Hlj by lia. apply (Hok j); [lia|exact Hlj].
    + assert (Hsame : forall j e0, (<[i := e']> pInfo) !! j = Some e0 ->
                 exists e1, pInfo !! j = Some e1 /\ group_id e0 = group_id e1
                            /\ group_regs e0 = group_regs e1).
      { intros j e0 Hlj. destruct (Nat.eq_dec j i) as [->|Hne].
        - rewrite list_lookup_insert_eq in Hlj by (apply lookup_lt_Some in Hli; lia).
          injection Hlj as <-. exists e. unfold e'.
          rewrite add_member_id, add_member_regs. auto.
        - rewrite list_lookup_insert_ne in Hlj by lia. exists e0. auto. }
      intros j1 j2 e1 e2 Hj1 Hj2 Hl1 Hl2 Hid' Hregs'.
      destruct (Hsame _ _ Hl1) as (e1' & Hl1' & Hi1 & Hr1).
      destruct (Hsame _ _ Hl2) as (e2' & Hl2' & Hi2 & Hr2).
      apply (Huniq j1 j2 e1' e2'); (assumption || congruence).
Qed.
End ResourceGroupInvariantFacts.

Lemma CacheExample_subleaf_groups_ok (pCacheInfo p' : list CPUID_CACHE_INFO)
    (N N' ApicId : Z) (r : CPUID_REGISTERS) :
  cache_groups_ok (pCacheInfo, N) -> cache_snapshot r ->
  CacheExample_subleaf ApicId r (pCacheInfo, N) = Done (p', N') ->
  cache_groups_ok (p', N').
Proof.
  intros Hok Hr Hrun.
  apply (Example_subleaf_groups_ok CacheId CacheMask CachedCpuidRegisters
           NumberOfLPsSharingThisCache ListOfApicIDsSharingThisCache
           AddCacheEntry_populate add_cache_member CacheExample_mask cache_snapshot
           ltac:(intros; reflexivity) ltac:(intros; reflexivity)
           ltac:(intros; reflexivity) ltac:(intros; reflexivity)
           ltac:(intros; reflexivity) ltac:(intros; reflexivity)
           ltac:(intros; reflexivity) ltac:(intros; reflexivity)
           ltac:(intros; reflexivity) ltac:(intros; reflexivity)
           pCacheInfo p' N N' ApicId r Hok Hr Hrun).
Qed.

Lemma TlbExample_subleaf_groups_ok (pTlbInfo p' : list CPUID_TLB_INFO)
    (N N' ApicId : Z) (r : CPUID_REGISTERS) :
  tlb_groups_ok (pTlbInfo, N) -> tlb_snapshot r ->
  TlbExample_subleaf ApicId r (pTlbInfo, N) = Done (p', N') ->
  tlb_groups_ok (p', N').
Proof.
  intros Hok Hr Hrun.
  apply (Example_subleaf_groups_ok TlbId TlbMask TlbCachedCpuidRegisters
           NumberOfLPsSharingThisTlb ListOfApicIDsSharingThisTlb
           AddTlbEntry_populate add_tlb_member TlbExample_mask tlb_snapshot
           ltac:(intros; reflexivity) ltac:(intros; reflexivity)
           ltac:(intros; reflexivity) ltac:(intros; reflexivity)
           ltac:(intros; reflexivity) ltac:(intros; reflexivity)
           ltac:(intros; reflexivity) ltac:(intros; reflexivity)
           ltac:(intros; reflexivity) ltac:(intros; reflexivity)
           pTlbInfo p' N N' ApicId r Hok Hr Hrun).
Qed.

(** The freshly allocated array of a pass. *)
Lemma fresh_groups_ok {A : Type} (group_id group_mask : A -> Z)
    (group_regs : A -> CPUID_REGISTERS) (group_count : A -> Z)
    (group_members : A -> list Z) (mask_of : CPUID_REGISTERS -> Z)
    (valid_regs : CPUID_REGISTERS -> Prop) (zero : A) (size : Z) :
  length (group_members zero) = Z.to_nat MAX_PROCESSORS ->
  0 <= size < 4294967295 ->
  groups_ok group_id group_mask group_regs group_count group_members mask_of valid_regs
    (replicate (Z.to_nat size) zero, 0).
Proof.
  intros Hzero Hsize. unfold groups_ok. rewrite length_replicate.
  split; [lia|]. split; [lia|]. split; [|split].
  - intros i e H. apply lookup_replicate in H as [-> _]. exact Hzero.
  - intros i e Hi. lia.
  - intros i j e e' Hi. lia.
Qed.

Lemma gathered_processors (m : MACHINE) (m' : MACHINE) (a : list Z) (n : Z) :
  0 <= Tools_GetNumberOfProcessors m ->
  Tools_GatherPlatformApicIds m (replicate (Z.to_nat MAX_PROCESSORS) 0) MAX_PROCESSORS
  = Done (m', a, n) ->
  0 <= n <= MAX_PROCESSORS.
Proof.
  intros Hprocs Hrun.
  destruct (GatherPlatformApicIds_run m (replicate (Z.to_nat MAX_PROCESSORS) 0)
              MAX_PROCESSORS Hprocs) as (a' & Hrun' & _).
  { rewrite length_replicate. unfold MAX_PROCESSORS. lia. }
  rewrite Hrun' in Hrun. injection Hrun as _ _ <-.
  unfold gathered_count, MAX_PROCESSORS. lia.
Qed.

(** Whenever the cache pass completes on a platform, the groups it hands to
    the display are well formed: the count is inside the array; each group
    has the mask computed from its own snapshot, a snapshot whose type is
    not "no more caches", at least one member, and only members whose
    identifier under the mask of the group is the identifier of the group;
    and no two groups have both the same identifier and the same
    snapshot. *)
Theorem ParseCache_CpuidCacheExample_groups (fuel : nat) (m : MACHINE)
    (pCacheInfo : list CPUID_CACHE_INFO) (NumberOfCaches : Z) :
  0 <= Tools_GetNumberOfProcessors m ->
  ParseCache_CpuidCacheExample fuel m = Done (Some (pCacheInfo, NumberOfCaches)) ->
  0 <= NumberOfCaches <= Z.of_nat (length pCacheInfo)
  /\ (forall i e, Z.of_nat i < NumberOfCaches -> pCacheInfo !! i = Some e ->
        CacheMask e = CacheExample_mask (CachedCpuidRegisters e)
        /\ Z.land (Eax (CachedCpuidRegisters e)) 0x1F <> CacheType_NoMoreCaches
        /\ 1 <= NumberOfLPsSharingThisCache e <= MAX_PROCESSORS
        /\ forall (k : nat) (ApicId : Z),
             Z.of_nat k < NumberOfLPsSharingThisCache e ->
             ListOfApicIDsSharingThisCache e !! k = Some ApicId ->
             Z.land ApicId (CacheMask e) = CacheId e)
  /\ (forall i j e e', Z.of_nat i < NumberOfCaches -> Z.of_nat j < NumberOfCaches ->
        pCacheInfo !! i = Some e -> pCacheInfo !! j = Some e' ->
        CacheId e = CacheId e' -> CachedCpuidRegisters e = CachedCpuidRegisters e' ->
        i = j).
Proof.
  intros Hprocs Hrun. unfold ParseCache_CpuidCacheExample in Hrun.
  destruct (4 <=? Eax (Tools_ReadCpuid m 0 0)); [|discriminate].
  apply bind_Done in Hrun as ([[m1 ApicIdList] NumberOfProcessors] & Hgather & Hrun).
  pose proof (gathered_processors _ _ _ _ Hprocs Hgather) as HNP.
  unfold MAX_PROCESSORS in HNP.
  apply bind_Done in Hrun as ([[[m2 p2] N2] idx2] & Hloop & Hrun).
  injection Hrun as -> ->.
  assert (Hfinal : cache_groups_ok (pCacheInfo, NumberOfCaches)).
  { refine (proj1 (while_Done_invariant
                     (fun s : MACHINE * list CPUID_CACHE_INFO * Z * Z =>
                        let '(_, p, N, _) := s in cache_groups_ok (p, N))
                     _ _ _ _ _ _ _ Hloop)).
    - intros [[[ma pa] Na] ia] [[[mb pb] Nb] ib] Hinv _ Hbody.
      unfold CacheExample_processor_body in Hbody.
      apply bind_Done in Hbody as ([[[pc Nc] sc] rc] & Hinner & Hbody).
      injection Hbody as _ <- <- _.
      refine (proj1 (while_Done_invariant
                       (fun s : list CPUID_CACHE_INFO * Z * Z * CPUID_REGISTERS =>
                          let '(p, N, _, _) := s in cache_groups_ok (p, N))
                       _ _ _ _ _ _ _ Hinner)); [|exact Hinv].
      intros [[[pd Nd] sd] rd] [[[pe Ne] se] re] Hinv' Hcond Hstep.
      unfold CacheExample_body in Hstep.
      apply bind_Done in Hstep as (ApicId & _ & Hstep).
      apply bind_Done in Hstep as ([pf Nf] & Hsub & Hstep).
      injection Hstep as <- <- _ _.
      apply (CacheExample_subleaf_groups_ok pd pf Nd Nf ApicId rd Hinv'); [|exact Hsub].
      unfold CacheExample_cond in Hcond. apply negb_true_iff, Z.eqb_neq in Hcond.
      exact Hcond.
    - apply fresh_groups_ok; [reflexivity|].
      unfold MAX_CACHE_PER_LP. rewrite u32_small by lia. lia. }
  destruct Hfinal as (HN & _ & _ & Hok & Huniq).
  split; [exact HN|]. split; [exact Hok|exact Huniq].
Qed.

Lemma ParseCache_CpuidCacheExample_groups_witness :
  0 <= snd trace_cache_groups <= Z.of_nat (length (fst trace_cache_groups))
  /\ (forall i e, Z.of_nat i < snd trace_cache_groups ->
        fst trace_cache_groups !! i = Some e ->
        CacheMask e = CacheExample_mask (CachedCpuidRegisters e)
        /\ Z.land (Eax (CachedCpuidRegisters e)) 0x1F <> CacheType_NoMoreCaches
        /\ 1 <= NumberOfLPsSharingThisCache e <= MAX_PROCESSORS
        /\ forall (k : nat) (ApicId : Z),
             Z.of_nat k < NumberOfLPsSharingThisCache e ->
             ListOfApicIDsSharingThisCache e !! k = Some ApicId ->
             Z.land ApicId (CacheMask e) = CacheId e)
  /\ (forall i j e e', Z.of_nat i < snd trace_cache_groups ->
        Z.of_nat j < snd trace_cache_groups ->
        fst trace_cache_groups !! i = Some e -> fst trace_cache_groups !! j = Some e' ->
        CacheId e = CacheId e' -> CachedCpuidRegisters e = CachedCpuidRegisters e' ->
        i = j).
Proof.
  apply (ParseCache_CpuidCacheExample_groups 10 trace_machine
           (fst trace_cache_groups) (snd trace_cache_groups)).
  - vm_compute. discriminate.
  - vm_compute. reflexivity.
Defined.

(** Whenever the translation-buffer pass completes on a platform, its
    groups are well formed in the same way: count inside the array; mask
    computed from the snapshot; a snapshot with [EAX] cleared and a valid
    type; at least one member; members that have the identifier of the
    group under its mask; no two groups with the same identifier and
    snapshot. *)
Theorem ParseTlb_CpuidTlbExample_groups (fuel : nat) (m : MACHINE)
    (pTlbInfo : list CPUID_TLB_INFO) (NumberOfTlbs : Z) :
  0 <= Tools_GetNumberOfProcessors m ->
  ParseTlb_CpuidTlbExample fuel m = Done (Some (pTlbInfo, NumberOfTlbs)) ->
  0 <= NumberOfTlbs <= Z.of_nat (length pTlbInfo)
  /\ (forall i e, Z.of_nat i < NumberOfTlbs -> pTlbInfo !! i = Some e ->
        TlbMask e = TlbExample_mask (TlbCachedCpuidRegisters e)
        /\ Eax (TlbCachedCpuidRegisters e) = 0
        /\ Z.land (Edx (TlbCachedCpuidRegisters e)) 0x1F <> TlbType_InvalidSubleaf
        /\ 1 <= NumberOfLPsSharingThisTlb e <= MAX_PROCESSORS
        /\ forall (k : nat) (ApicId : Z),
             Z.of_nat k < NumberOfLPsSharingThisTlb e ->
             ListOfApicIDsSharingThisTlb e !! k = Some ApicId ->
             Z.land ApicId (TlbMask e) = TlbId e)
  /\ (forall i j e e', Z.of_nat i < NumberOfTlbs -> Z.of_nat j < NumberOfTlbs ->
        pTlbInfo !! i = Some e -> pTlbInfo !! j = Some e' ->
        TlbId e = TlbId e' -> TlbCachedCpuidRegisters e = TlbCachedCpuidRegisters e' ->
        i = j).
Proof.
  intros Hprocs Hrun. unfold ParseTlb_CpuidTlbExample in Hrun.
  destruct (0x18 <=? Eax (Tools_ReadCpuid m 0 0)); [|discriminate].
  apply bind_Done in Hrun as ([[m1 ApicIdList] NumberOfProcessors] & Hgather & Hrun).
  pose proof (gathered_processors _ _ _ _ Hprocs Hgather) as HNP.
  unfold MAX_PROCESSORS in HNP.
  apply bind_Done in Hrun as ([[[m2 p2] N2] idx2] & Hloop & Hrun).
  injection Hrun as -> ->.
  assert (Hfinal : tlb_groups_ok (pTlbInfo, NumberOfTlbs)).
  { refine (proj1 (while_Done_invariant
                     (fun s : MACHINE * list CPUID_TLB_INFO * Z * Z =>
                        let '(_, p, N, _) := s in tlb_groups_ok (p, N))
                     _ _ _ _ _ _ _ Hloop)).
    - intros [[[ma pa] Na] ia] [[[mb pb] Nb] ib] Hinv _ Hbody.
      unfold TlbExample_processor_body in Hbody.
      apply bind_Done in Hbody as ([[[pc Nc] sc] rc] & Hinner & Hbody).
      injection Hbody as _ <- <- _.
      refine (proj1 (while_Done_invariant
                       (fun s : list CPUID_TLB_INFO * Z * Z * Z =>
                          let '(p, N, _, _) := s in tlb_groups_ok (p, N))
                       _ _ _ _ _ _ _ Hinner)); [|exact Hinv].
      intros [[[pd Nd] sd] rd] [[[pe Ne] se] re] Hinv' _ Hstep.
      unfold TlbExample_body in Hstep.
      apply bind_Done in Hstep as ([pf Nf] & Hsub & Hstep).
      injection Hstep as <- <- _ _.
      match type of Hsub with
      | (if negb (?t =? _) then _ else _) = _ =>
          destruct (t =? TlbType_InvalidSubleaf) eqn:Htype; cbn [negb] in Hsub
      end.
      + injection Hsub as <- <-. exact Hinv'.
      + apply bind_Done in Hsub as (ApicId & _ & Hsub).
        refine (TlbExample_subleaf_groups_ok pd pf Nd Nf ApicId _ Hinv' _ Hsub).
        split; [reflexivity|]. apply Z.eqb_neq. exact Htype.
    - apply fresh_groups_ok; [reflexivity|].
      unfold MAX_TLB_PER_LP. rewrite u32_small by lia. lia. }
  destruct Hfinal as (HN & _ & _ & Hok & Huniq).
  split; [exact HN|]. split; [|exact Huniq].
  intros i e Hi Hli. destruct (Hok i e Hi Hli) as (H1 & [H2 H3] & H4 & H5). auto.
Qed.

Lemma ParseTlb_CpuidTlbExample_groups_witness :
  0 <= snd trace_tlb_groups <= Z.of_nat (length (fst trace_tlb_groups))
  /\ (forall i e, Z.of_nat i < snd trace_tlb_groups ->
        fst trace_tlb_groups !! i = Some e ->
        TlbMask e = TlbExample_mask (TlbCachedCpuidRegisters e)
        /\ Eax (TlbCachedCpuidRegisters e) = 0
        /\ Z.land (Edx (TlbCachedCpuidRegisters e)) 0x1F <> TlbType_InvalidSubleaf
        /\ 1 <= NumberOfLPsSharingThisTlb e <= MAX_PROCESSORS
        /\ forall (k : nat) (ApicId : Z),
             Z.of_nat k < NumberOfLPsSharingThisTlb e ->
             ListOfApicIDsSharingThisTlb e !! k = Some ApicId ->
             Z.land ApicId (TlbMask e) = TlbId e)
  /\ (forall i j e e', Z.of_nat i < snd trace_tlb_groups ->
        Z.of_nat j < snd trace_tlb_groups ->
        fst trace_tlb_groups !! i = Some e -> fst trace_tlb_groups !! j = Some e' ->
        TlbId e = TlbId e' -> TlbCachedCpuidRegisters e = TlbCachedCpuidRegisters e' ->
        i = j).
Proof.
  apply (ParseTlb_CpuidTlbExample_groups 10 tlb_trace_machine
           (fst trace_tlb_groups) (snd trace_tlb_groups)).
  - vm_compute. discriminate.
  - vm_compute. reflexivity.
Defined.

(** The groups of the two traces: three caches, and one translation buffer
    shared by both processors. *)
Example trace_groups_counts :
  snd trace_cache_groups = 3
  /\ snd trace_tlb_groups = 1
  /\ map (fun e => (TlbId e, TlbMask e,
                    take (Z.to_nat (NumberOfLPsSharingThisTlb e))
                      (ListOfApicIDsSharingThisTlb e)))
       (take 1 (fst trace_tlb_groups))
     = [(0, 0xFFFFFFFE, [0; 1])].
Proof. vm_compute. repeat split; reflexivity. Qed.

(** ** [Display_ApicIdBitLayout] *)

Lemma Tools_IsDomainKnownEnumeration_range (Domain : Z) :
  Tools_IsDomainKnownEnumeration Domain = true <-> 0 <= Domain <= 6.
Proof.
  unfold Tools_IsDomainKnownEnumeration, InvalidDomain, LogicalProcessorDomain,
    CoreDomain, ModuleDomain, TileDomain, DieDomain, DieGrpDomain.
  rewrite !orb_true_iff, !Z.eqb_eq. lia.
Qed.

Lemma ApicIdBitLayout_name_load (Domain : Z) :
  load ApicIdBitLayout_names
    (if Tools_IsDomainKnownEnumeration Domain then Domain else UnknownTextIndex)
  = Done (ApicIdBitLayout_name Domain).
Proof.
  unfold ApicIdBitLayout_name.
  destruct (Tools_IsDomainKnownEnumeration Domain) eqn:Hknown; [|reflexivity].
  apply Tools_IsDomainKnownEnumeration_range in Hknown.
  assert (E : Domain = 0 \/ Domain = 1 \/ Domain = 2 \/ Domain = 3 \/ Domain = 4
              \/ Domain = 5 \/ Domain = 6) by lia.
  destruct E as [->|[->|[->|[->|[->|[->| ->]]]]]]; reflexivity.
Qed.

Lemma layout_rows_snoc (levels : list (Z * Z)) (Domain Shift : Z) :
  forall LowBit,
    layout_rows (levels ++ [(Domain, Shift)]) LowBit
    = let '(rows, low) := layout_rows levels LowBit in
      if Shift =? 0 then (rows, low)
      else (rows ++ [(ApicIdBitLayout_name Domain, Shift - 1, low, Domain)], Shift).
Proof.
  induction levels as [|[d s] levels IH]; intros LowBit; simpl.
  - destruct (Shift =? 0); reflexivity.
  - destruct (s =? 0).
    + apply IH.
    + rewrite IH. destruct (layout_rows levels s) as [rows low].
      destruct (Shift =? 0); reflexivity.
Qed.

Lemma layout_rows_tile (levels : list (Z * Z)) :
  forall LowBit,
    shifts_ascend levels ->
    (forall d s, In (d, s) levels -> s <> 0 -> LowBit < s) ->
    let '(rows, low) := layout_rows levels LowBit in
    rows_tile LowBit rows low
    /\ (low = LowBit \/ exists d, In (d, low) levels).
Proof.
  induction levels as [|[d s] levels IH]; intros LowBit Hasc Hlow; simpl.
  - split; [reflexivity|left; reflexivity].
  - assert (Hasc' : shifts_ascend levels).
    { intros i j di si dj sj Hij Hi Hj.
      apply (Hasc (S i) (S j) di si dj sj); [lia|exact Hi|exact Hj]. }
    destruct (Z.eqb_spec s 0) as [E0|N0].
    + specialize (IH LowBit Hasc' ltac:(intros d' s' Hin; apply (Hlow d' s'); right; exact Hin)).
      destruct (layout_rows levels LowBit) as [rows low].
      destruct IH as [Htile Hwhere]. split; [exact Htile|].
      destruct Hwhere as [->|(d' & Hin)]; [left; reflexivity|].
      right. exists d'. right. exact Hin.
    + assert (Hs : LowBit < s) by (apply (Hlow d s); [left; reflexivity|exact N0]).
      assert (Hlow' : forall d' s', In (d', s') levels -> s' <> 0 -> s < s').
      { intros d' s' Hin Hs'.
        apply list_elem_of_In, list_elem_of_lookup in Hin as [k Hk].
        apply (Hasc O (S k) d s d' s'); [lia|reflexivity|exact Hk|exact N0|exact Hs']. }
      specialize (IH s Hasc' Hlow').
      destruct (layout_rows levels s) as [rows low].
      destruct IH as [Htile Hwhere]. simpl. split.
      * split; [reflexivity|]. split; [lia|].
        replace (s - 1 + 1) with s by lia. exact Htile.
      * right. destruct Hwhere as [->|(d' & Hin)].
        -- exists d. left. reflexivity.
        -- exists d'. right. exact Hin.
Qed.

Lemma ctx_levels_lookup (ctx : APICID_BIT_LAYOUT_CTX) (k : nat) :
  ctx_wf ctx -> Z.of_nat k < PackageDomainIndex ctx <= MAXIMUM_DOMAINS ->
  exists Domain Shift,
    ShiftValueDomain ctx !! k = Some Domain /\ ShiftValues ctx !! k = Some Shift
    /\ ctx_levels ctx !! k = Some (Domain, Shift).
Proof.
  intros (Hsv & Hsd & _) Hk. unfold MAXIMUM_DOMAINS in *.
  destruct (lookup_lt_is_Some_2 (ShiftValueDomain ctx) k) as [d Hd]; [lia|].
  destruct (lookup_lt_is_Some_2 (ShiftValues ctx) k) as [s Hs]; [lia|].
  exists d, s. split; [exact Hd|]. split; [exact Hs|].
  unfold ctx_levels. rewrite lookup_zip_with.
  rewrite !lookup_take_lt by lia. rewrite Hd, Hs. reflexivity.
Qed.

Section ApicIdBitLayout.
Variable ctx : APICID_BIT_LAYOUT_CTX.
Hypothesis Hwf : ctx_wf ctx.
Hypothesis Hidx : 0 <= PackageDomainIndex ctx <= MAXIMUM_DOMAINS.
Hypothesis Hshifts :
  forall k Shift, ShiftValues ctx !! k = Some Shift -> 0 <= Shift < 2 ^ 32.

Lemma ApicIdBitLayout_step (s : Z * Z * list (string * Z * Z * Z)) :
  ApicIdBitLayout_inv ctx s -> ApicIdBitLayout_cond ctx s = true ->
  exists s', ApicIdBitLayout_body ctx s = Done s' /\ ApicIdBitLayout_inv ctx s'
             /\ (ApicIdBitLayout_measure ctx s' < ApicIdBitLayout_measure ctx s)%nat.
Proof.
  destruct s as [[DomainIndex LowBit] rows].
  intros (k & Hk & -> & Hrows) Hcond. simpl in Hcond. apply Z.ltb_lt in Hcond.
  assert (Hmax : MAXIMUM_DOMAINS = 32) by reflexivity.
  destruct (ctx_levels_lookup ctx k Hwf ltac:(lia)) as (d & sh & Hd & Hs & Hlev).
  pose proof (Hshifts _ _ Hs) as Hsh. change (2 ^ 32) with 4294967296 in Hsh.
  assert (Hnext : u32 (Z.of_nat k + 1) = Z.of_nat (S k)) by (rewrite u32_small; lia).
  assert (Htake : layout_rows (take (S k) (ctx_levels ctx)) 0
                  = if sh =? 0 then (rows, LowBit)
                    else (rows ++ [(ApicIdBitLayout_name d, sh - 1, LowBit, d)], sh)).
  { rewrite (take_S_r _ _ _ Hlev), layout_rows_snoc, <- Hrows. reflexivity. }
  unfold ApicIdBitLayout_body.
  rewrite (proj2 (load_Done (ShiftValues ctx) (Z.of_nat k) sh))
    by (rewrite Nat2Z.id; split; [lia|exact Hs]).
  cbn [bind]. destruct (Z.eqb_spec sh 0) as [E0|N0]; cbn [negb].
  - eexists. split; [reflexivity|]. split.
    + exists (S k). split; [lia|]. split; [exact Hnext|]. rewrite Htake. reflexivity.
    + unfold ApicIdBitLayout_measure. rewrite Hnext. lia.
  - rewrite (proj2 (load_Done (ShiftValueDomain ctx) (Z.of_nat k) d))
      by (rewrite Nat2Z.id; split; [lia|exact Hd]).
    cbn [bind]. rewrite ApicIdBitLayout_name_load. cbn [bind].
    eexists. split; [reflexivity|]. split.
    + exists (S k). split; [lia|]. split; [exact Hnext|]. rewrite Htake.
      rewrite u32_small by lia. reflexivity.
    + unfold ApicIdBitLayout_measure. rewrite Hnext. lia.
Qed.

Lemma ApicIdBitLayout_run :
  Display_ApicIdBitLayout ctx
  = Done (szDescription ctx, fst (layout_rows (ctx_levels ctx) 0),
          (u32 (NumberOfApicIdBits ctx - 1), snd (layout_rows (ctx_levels ctx) 0))).
Proof.
  assert (Hmax : MAXIMUM_DOMAINS = 32) by reflexivity.
  destruct (while_invariant (ApicIdBitLayout_inv ctx) (ApicIdBitLayout_measure ctx)
              (ApicIdBitLayout_cond ctx) (ApicIdBitLayout_body ctx) ApicIdBitLayout_step
              (Z.to_nat MAXIMUM_DOMAINS + 1) (0, 0, []))
    as ([[DomainIndex LowBit] rows] & Hrun & (k & Hk & -> & Hrows) & Hcond).
  - exists O. split; [lia|]. split; reflexivity.
  - unfold ApicIdBitLayout_measure. lia.
  - simpl in Hcond. apply Z.ltb_ge in Hcond.
    assert (Ek : k = Z.to_nat (PackageDomainIndex ctx)) by lia.
    assert (Hall : take k (ctx_levels ctx) = ctx_levels ctx).
    { apply take_ge. unfold ctx_levels. rewrite length_zip_with, !length_take. lia. }
    rewrite Hall in Hrows.
    unfold Display_ApicIdBitLayout. rewrite Hrun. cbn [bind].
    rewrite <- Hrows. reflexivity.
Qed.
End ApicIdBitLayout.

(** For every layout that fits its arrays, whatever domain types and
    shifts it holds, the layout display completes: each level of non-zero
    shift [s] gets one line, named after its domain type or "Unknown" when
    the type is outside the known enumeration, with the bounds [s - 1] and
    the non-zero shift before it (0 for the first line); a level of shift 0
    gets none.  When the non-zero shifts ascend and stay below
    [NumberOfApicIdBits], every line holds at least one bit, each line
    starts one bit above the end of the line before, and the package line
    takes the bits left up to [NumberOfApicIdBits - 1]: the lines cover the
    identifier without gap or overlap. *)
Theorem Display_ApicIdBitLayout_tiles (ctx : APICID_BIT_LAYOUT_CTX) :
  ctx_wf ctx ->
  0 <= PackageDomainIndex ctx <= MAXIMUM_DOMAINS ->
  (forall k Shift, ShiftValues ctx !! k = Some Shift -> 0 <= Shift < 2 ^ 32) ->
  exists rows low,
    Display_ApicIdBitLayout ctx
    = Done (szDescription ctx, rows, (u32 (NumberOfApicIdBits ctx - 1), low))
    /\ (rows, low) = layout_rows (ctx_levels ctx) 0
    /\ (shifts_ascend (ctx_levels ctx) ->
        (forall i d s, ctx_levels ctx !! i = Some (d, s) -> s < NumberOfApicIdBits ctx) ->
        0 < NumberOfApicIdBits ctx <= 2 ^ 32 ->
        rows_tile 0 rows low
        /\ 0 <= low <= u32 (NumberOfApicIdBits ctx - 1)).
Proof.
  intros Hwf Hidx Hshifts.
  exists (fst (layout_rows (ctx_levels ctx) 0)), (snd (layout_rows (ctx_levels ctx) 0)).
  split; [apply ApicIdBitLayout_run; assumption|].
  split; [destruct (layout_rows (ctx_levels ctx) 0); reflexivity|].
  intros Hasc Htop Hbits.
  assert (Hrange : forall d s, In (d, s) (ctx_levels ctx) -> 0 <= s).
  { intros d s Hin. apply list_elem_of_In, list_elem_of_lookup in Hin as [k Hk].
    unfold ctx_levels in Hk. apply lookup_zip_with_Some in Hk as (x & y & E & _ & Hy).
    injection E as -> ->. apply lookup_take_Some in Hy as [Hy _].
    apply (Hshifts _ _ Hy). }
  pose proof (layout_rows_tile (ctx_levels ctx) 0 Hasc) as Htile.
  destruct (layout_rows (ctx_levels ctx) 0) as [rows low]. cbn [fst snd].
  destruct Htile as [Htile Hwhere].
  { intros d s Hin Hs. pose proof (Hrange d s Hin). lia. }
  split; [exact Htile|].
  change (2 ^ 32) with 4294967296 in Hbits. rewrite u32_small by lia.
  destruct Hwhere as [->|(d & Hin)]; [lia|].
  pose proof (Hrange d low Hin).
  apply list_elem_of_In, list_elem_of_lookup in Hin as [k Hk].
  pose proof (Htop k d low Hk). lia.
Qed.

Lemma trace_layout_shift_range (k : nat) (Shift : Z) :
  ShiftValues trace_layout !! k = Some Shift -> 0 <= Shift < 2 ^ 32.
Proof.
  intros H.
  assert (HF : Forall (fun s => 0 <= s < 2 ^ 32) (ShiftValues trace_layout)).
  { cbn. repeat (constructor; [lia|]). constructor. }
  exact (Forall_lookup_1 _ _ _ _ HF H).
Qed.

Lemma trace_layout_levels :
  ctx_levels trace_layout = [(LogicalProcessorDomain, 2); (CoreDomain, 3)].
Proof. reflexivity. Qed.

Lemma trace_layout_ascends : shifts_ascend (ctx_levels trace_layout).
Proof.
  rewrite trace_layout_levels. intros i j di si dj sj Hij Hi Hj _ _.
  destruct i as [|[|i]]; try discriminate; destruct j as [|[|j]]; try discriminate;
    try lia; injection Hi as _ <-; injection Hj as _ <-; lia.
Qed.

Lemma Display_ApicIdBitLayout_tiles_witness :
  exists rows low,
    Display_ApicIdBitLayout trace_layout
    = Done (szDescription trace_layout, rows,
            (u32 (NumberOfApicIdBits trace_layout - 1), low))
    /\ (rows, low)
       = ([("Logical Processor"%string, 1, 0, LogicalProcessorDomain);
           ("Core"%string, 2, 2, CoreDomain)], 3)
    /\ rows_tile 0 rows low
    /\ 0 <= low <= u32 (NumberOfApicIdBits trace_layout - 1).
Proof.
  destruct (Display_ApicIdBitLayout_tiles trace_layout trace_layout_wf)
    as (rows & low & Hrun & Hrows & Htile).
  - vm_compute. split; discriminate.
  - exact trace_layout_shift_range.
  - exists rows, low. split; [exact Hrun|]. split; [exact Hrows|].
    apply Htile.
    + exact trace_layout_ascends.
    + rewrite trace_layout_levels. intros i d s Hi.
      destruct i as [|[|i]]; try discriminate; injection Hi as _ <-; reflexivity.
    + vm_compute. split; [reflexivity|discriminate].
Defined.

(** Where the shifts do not ascend the lines overlap: on the layout the
    legacy path builds for a platform whose leaf 1 reports 2 identifiers
    for the package and whose leaf 4 reports 3 for the cores, the logical
    processor line is [30:0], the core line [0:31] and the package line
    [7:1]. *)
Example legacy_layout_lines_overlap :
  match Display_ApicIdBitLayout (ParseCpu_Internal_LegacyTopologyBits (legacy_machine 2 2)) with
  | Done (_, rows, package) => Some (rows, package)
  | _ => None
  end
  = Some ([("Logical Processor"%string, 30, 0, LogicalProcessorDomain);
           ("Core"%string, 0, 31, CoreDomain)], (7, 1)).
Proof. vm_compute. reflexivity. Qed.

(** ** The masks of the resource passes *)

Lemma sharing_field_range (x : Z) :
  u32 (Z.land (Z.shiftr x 14) 0xFFF + 1) = Z.land (Z.shiftr x 14) 0xFFF + 1
  /\ 1 <= Z.land (Z.shiftr x 14) 0xFFF + 1 <= 4096.
Proof.
  assert (H : 0 <= Z.land (Z.shiftr x 14) 0xFFF < 4096).
  { change 0xFFF with (Z.ones 12). rewrite Z.land_ones by lia.
    apply Z.mod_pos_bound. reflexivity. }
  rewrite u32_small by lia. lia.
Qed.

Lemma sharing_mask_value (count ApicId : Z) :
  1 <= count <= 4096 ->
  let s := Tools_CreateTopologyShift count in
  0 <= s <= 12
  /\ smallest_shift count s
  /\ not32 (u32 (shl32 1 s - 1)) = 2 ^ 32 - 2 ^ s
  /\ (0 <= ApicId < 2 ^ 32 ->
      Z.land ApicId (not32 (u32 (shl32 1 s - 1))) = ApicId - ApicId mod 2 ^ s).
Proof.
  intros Hc s.
  assert (Hsm : smallest_shift count s)
    by (apply Tools_CreateTopologyShift_is_smallest; simpl; lia).
  assert (Hs : 0 <= s <= 12).
  { split; [apply Hsm|]. unfold s. rewrite Tools_CreateTopologyShift_log2 by (simpl; lia).
    assert (Z.log2 (2 * count - 1) < 13); [|lia]. apply Z.log2_lt_pow2; simpl; lia. }
  split; [exact Hs|]. split; [exact Hsm|].
  rewrite high_mask_value by lia. split; [reflexivity|].
  intros HA.
  assert (Hp : 0 < 2 ^ s) by (apply Z.pow_pos_nonneg; lia).
  pose proof (land_range_mask_shiftr ApicId s 32 ltac:(lia)) as Hfield.
  rewrite (Z.mod_small ApicId (2 ^ 32)) in Hfield by lia.
  assert (Hlow : Z.land (Z.land ApicId (2 ^ 32 - 2 ^ s)) (Z.ones s) = 0).
  { apply Z.bits_inj'. intros n Hn.
    rewrite !Z.land_spec, range_mask_bits, Z.testbit_ones_nonneg, Z.bits_0 by lia.
    destruct (Z.leb_spec s n), (Z.ltb_spec n s); try lia;
      rewrite ?andb_false_r, ?andb_false_l; reflexivity. }
  rewrite Z.land_ones in Hlow by lia.
  rewrite Z.shiftr_div_pow2 in Hfield by lia.
  pose proof (Z.div_mod (Z.land ApicId (2 ^ 32 - 2 ^ s)) (2 ^ s) ltac:(lia)) as E1.
  pose proof (Z.div_mod ApicId (2 ^ s) ltac:(lia)) as E2.
  rewrite Hlow, Hfield in E1. lia.
Qed.

(** The mask of a cache subleaf clears the low [s] bits of an identifier,
    where [s <= 12] is the smallest shift covering the sharing field
    [EAX[25:14] + 1]: the cache identifier of a processor is its APIC ID
    rounded down to a multiple of [2^s].  The same holds for a
    translation-buffer subleaf with the field [EDX[25:14] + 1]. *)
Theorem resource_mask_rounds_down (r : CPUID_REGISTERS) (ApicId : Z) :
  0 <= ApicId < 2 ^ 32 ->
  (exists s,
     0 <= s <= 12
     /\ smallest_shift (Z.land (Z.shiftr (Eax r) 14) 0xFFF + 1) s
     /\ CacheExample_mask r = 2 ^ 32 - 2 ^ s
     /\ Z.land ApicId (CacheExample_mask r) = ApicId - ApicId mod 2 ^ s)
  /\ (exists s,
        0 <= s <= 12
        /\ smallest_shift (Z.land (Z.shiftr (Edx r) 14) 0xFFF + 1) s
        /\ TlbExample_mask r = 2 ^ 32 - 2 ^ s
        /\ Z.land ApicId (TlbExample_mask r) = ApicId - ApicId mod 2 ^ s).
Proof.
  intros HA. split.
  - destruct (sharing_field_range (Eax r)) as (Hu & Hc).
    destruct (sharing_mask_value _ ApicId Hc) as (H1 & H2 & H3 & H4).
    unfold CacheExample_mask. rewrite Hu.
    eexists. split; [exact H1|]. split; [exact H2|].
    split; [exact H3|]. apply H4. exact HA.
  - destruct (sharing_field_range (Edx r)) as (Hu & Hc).
    destruct (sharing_mask_value _ ApicId Hc) as (H1 & H2 & H3 & H4).
    unfold TlbExample_mask. rewrite Hu.
    eexists. split; [exact H1|]. split; [exact H2|].
    split; [exact H3|]. apply H4. exact HA.
Qed.

Lemma resource_mask_rounds_down_witness :
  (exists s,
     0 <= s <= 12
     /\ smallest_shift (Z.land (Z.shiftr (Eax (mkRegs 0x00004143 0 0 0x4021)) 14) 0xFFF + 1) s
     /\ CacheExample_mask (mkRegs 0x00004143 0 0 0x4021) = 2 ^ 32 - 2 ^ s
     /\ Z.land 5 (CacheExample_mask (mkRegs 0x00004143 0 0 0x4021)) = 5 - 5 mod 2 ^ s)
  /\ (exists s,
        0 <= s <= 12
        /\ smallest_shift (Z.land (Z.shiftr (Edx (mkRegs 0x00004143 0 0 0x4021)) 14) 0xFFF + 1) s
        /\ TlbExample_mask (mkRegs 0x00004143 0 0 0x4021) = 2 ^ 32 - 2 ^ s
        /\ Z.land 5 (TlbExample_mask (mkRegs 0x00004143 0 0 0x4021)) = 5 - 5 mod 2 ^ s).
Proof.
  apply (resource_mask_rounds_down (mkRegs 0x00004143 0 0 0x4021) 5).
  vm_compute. split; (discriminate || reflexivity).
Defined.

(** ** The file writer *)

Lemma subleaf_lines_snoc (registers : list CPUID_REGISTERS) (r : CPUID_REGISTERS) :
  forall start,
    subleaf_lines start (registers ++ [r])
    = subleaf_lines start registers
      ++ [mkLine "S" (start + Z.of_nat (length registers)) (Some r)].
Proof.
  induction registers as [|r0 registers IH]; intros start.
  - simpl. rewrite Z.add_0_r. reflexivity.
  - cbn [subleaf_lines app length]. rewrite IH, Nat2Z.inj_succ.
    replace (start + 1 + Z.of_nat (length registers))
      with (start + Z.succ (Z.of_nat (length registers))) by lia.
    reflexivity.
Qed.

Section WriteLeaf.
Variables (m : MACHINE) (LeafNumber : Z) (n : nat).
Hypothesis Hn : Z.of_nat n + 1 < 2 ^ 32.
Hypothesis Hlast : last_written m LeafNumber n.

Lemma WriteLeaf_step (s : Z * CPUID_REGISTERS * bool * bool * list FILE_LINE) :
  WriteLeaf_inv m LeafNumber n s -> WriteLeaf_cond s = true ->
  exists s', WriteLeaf_body m LeafNumber s = Done s' /\ WriteLeaf_inv m LeafNumber n s'
             /\ (WriteLeaf_measure n s' < WriteLeaf_measure n s)%nat.
Proof.
  intros (k & Hk & ->) Hcond. destruct Hlast as [Hbefore Hend].
  change (2 ^ 32) with 4294967296 in Hn.
  assert (Hlt : (k <= n)%nat).
  { destruct k as [|k']; [lia|]. simpl in Hcond.
    destruct (Nat.eq_dec k' n) as [->|]; [|lia].
    rewrite Hend in Hcond. discriminate. }
  assert (Hnext : u32 (Z.of_nat k + 1) = Z.of_nat (S k)) by (rewrite u32_small; lia).
  eexists. split; [reflexivity|]. split.
  - exists (S k). split; [lia|]. rewrite Hnext.
    rewrite enumerated_S, subleaf_lines_snoc, enumerated_length, Z.add_0_l.
    replace (Z.of_nat (S k)) with (Z.of_nat k + 1) at 2 by lia.
    destruct k as [|k']; reflexivity.
  - unfold WriteLeaf_measure. rewrite Hnext. lia.
Qed.

Lemma WriteLeaf_run (fuel : nat) :
  (n < fuel)%nat ->
  File_Internal_WriteLeafToFile fuel m LeafNumber
  = Done (mkLine "L" LeafNumber None :: subleaf_lines 0 (enumerated m LeafNumber (S n))).
Proof.
  intros Hfuel. destruct Hlast as [Hbefore Hend].
  destruct (while_invariant (WriteLeaf_inv m LeafNumber n) (WriteLeaf_measure n)
              WriteLeaf_cond (WriteLeaf_body m LeafNumber) WriteLeaf_step fuel
              (0, zero_registers, true, true, [mkLine "L" LeafNumber None]))
    as (s' & Hrun & (k & Hk & ->) & Hcond).
  - exists O. split; [lia|]. reflexivity.
  - simpl. lia.
  - unfold File_Internal_WriteLeafToFile. rewrite Hrun. cbn [bind].
    destruct k as [|k']; [discriminate|]. simpl in Hcond.
    destruct (Nat.eq_dec k' n) as [->|Hne]; [reflexivity|].
    rewrite Hbefore in Hcond by lia. discriminate.
Qed.
End WriteLeaf.

(** ** Two loops run side by side *)

Lemma while_related {S T : Type} (R : S -> T -> Prop) (cond : S -> bool)
    (cond' : T -> bool) (body : S -> result S) (body' : T -> result T) :
  (forall s t, R s t -> cond s = cond' t) ->
  (forall s t, R s t -> cond s = true -> result_rel R (body s) (body' t)) ->
  forall fuel s t, R s t ->
    result_rel R (while fuel cond body s) (while fuel cond' body' t).
Proof.
  intros Hcond Hbody. induction fuel as [|fuel IH]; intros s t HR; simpl.
  - rewrite <- (Hcond s t HR). destruct (cond s); simpl; [exact I|exact HR].
  - rewrite <- (Hcond s t HR). destruct (cond s) eqn:Hc; [|exact HR].
    pose proof (Hbody s t HR Hc) as Hb. unfold result_rel in Hb.
    destruct (body s) as [s1| |], (body' t) as [t1| |]; try contradiction; simpl; auto.
Qed.

(** ** Reading back the lines of a leaf *)

Lemma ReadCpuidFromFile_subleaf_lines (Leaf : Z) (registers : list CPUID_REGISTERS) :
  forall (start : Z) (g : GLOBAL_DATA) (ctx : FILE_READ_CONTEXT) (st : bool),
    GlobalData_wf g -> CurrentLeaf ctx = Leaf ->
    0 <= Leaf < MAX_SIMULATED_LEAFS -> Leaf <> 4 -> Leaf <> 0x18 ->
    0 <= start -> start + Z.of_nat (length registers) <= MAX_SIMULATED_SUBLEAFS ->
    exists g',
      ReadCpuidFromFile_loop (text_turns (subleaf_lines start registers)) (g, ctx, st)
      = Done (g', ctx, match registers with [] => st | _ :: _ => false end)
      /\ GlobalData_wf g'
      /\ UseNativeCpuid g' = UseNativeCpuid g
      /\ (forall (k : nat) r, registers !! k = Some r ->
            read_table (SimulatedCpuid g') Leaf (start + Z.of_nat k) = r)
      /\ (forall Subleaf, 0 <= Subleaf < start ->
            read_table (SimulatedCpuid g') Leaf Subleaf
            = read_table (SimulatedCpuid g) Leaf Subleaf).
Proof.
  induction registers as [|r registers IH];
    intros start g ctx st Hwf Hctx HL Hn4 Hn18 Hstart Hfit.
  - exists g. split; [reflexivity|]. split; [exact Hwf|]. split; [reflexivity|].
    split; [intros k r H; destruct k; discriminate|reflexivity].
  - cbn [length] in Hfit. rewrite Nat2Z.inj_succ in Hfit.
    cbn [subleaf_lines text_turns Registers FirstData ReadCpuidFromFile_loop].
    unfold ReadCpuidFromFile_line at 1.
    cbn [Character FirstData Registers Ascii.eqb Bool.eqb andb].
    unfold File_Internal_DispatchReadSubleaf. rewrite Hctx.
    destruct (Z.eqb_spec Leaf 4) as [|_]; [contradiction|].
    destruct (Z.eqb_spec Leaf 0x18) as [|_]; [contradiction|].
    destruct (Z.ltb_spec Leaf MAX_SIMULATED_LEAFS); [|lia].
    destruct (Z.ltb_spec start MAX_SIMULATED_SUBLEAFS); [|lia]. cbn [andb].
    destruct Hwf as (Hc & H4 & H18 & Hids & HN).
    destruct (store_table_spec MAX_SIMULATED_LEAFS MAX_SIMULATED_SUBLEAFS _ Leaf start r
                Hc HL ltac:(lia)) as (t' & Hst & Hwf' & Hback & Hframe).
    rewrite Hst. cbn [bind].
    change (ReadCpuidFromFile_line (set_SimulatedCpuid g t', ctx, true)
              (newline_turn start))
      with (Done (set_SimulatedCpuid g t', ctx, false)).
    cbn [bind].
    destruct (IH (start + 1) (set_SimulatedCpuid g t') ctx false
                (conj Hwf' (conj H4 (conj H18 (conj Hids HN)))) Hctx HL Hn4 Hn18
                ltac:(lia) ltac:(lia))
      as (g' & Hrun & Hwfg' & Hnat & Hrows & Hkeep).
    exists g'. split.
    { rewrite Hrun. destruct registers; reflexivity. }
    split; [exact Hwfg'|]. split; [exact Hnat|].
    split.
    + intros k r0 Hk. destruct k as [|k].
      * injection Hk as <-. rewrite Z.add_0_r. rewrite Hkeep by lia. exact Hback.
      * rewrite <- (Hrows k r0 Hk). f_equal. lia.
    + intros Subleaf HS. rewrite Hkeep by lia. apply Hframe; lia.
Qed.

Lemma topology_last_written (m : MACHINE) (Leaf : Z) (n : nat) :
  Leaf = 0xB \/ Leaf = 0x1F -> terminated_at m Leaf n = true ->
  last_written m Leaf n.
Proof.
  intros HLeaf Hterm. destruct (terminated_at_spec _ _ _ Hterm) as [Hbefore Hend].
  assert (E : forall c o r, WriteLeaf_NextSubleaf Leaf c o r = negb (Ebx r =? 0)).
  { intros c o r. destruct HLeaf as [-> | ->]; reflexivity. }
  split.
  - intros k Hk. rewrite E. apply negb_true_iff, Z.eqb_neq. apply Hbefore. exact Hk.
  - rewrite E, Hend. reflexivity.
Qed.

(** A recorded topology leaf answers with the recorded [EAX], [EBX] and
    [ECX]. *)
Lemma Tools_ReadCpuid_simulated_topology (g : GLOBAL_DATA) (os : OS_PLATFORM)
    (cpu Leaf Subleaf : Z) :
  UseNativeCpuid g = false -> Leaf = 0xB \/ Leaf = 0x1F ->
  0 <= Subleaf < MAX_SIMULATED_SUBLEAFS ->
  let r := Tools_ReadCpuid (mkMachine g os cpu) Leaf Subleaf in
  Eax r = Eax (read_table (SimulatedCpuid g) Leaf Subleaf)
  /\ Ebx r = Ebx (read_table (SimulatedCpuid g) Leaf Subleaf)
  /\ Ecx r = Ecx (read_table (SimulatedCpuid g) Leaf Subleaf).
Proof.
  intros Hsim HLeaf HS. unfold Tools_ReadCpuid. cbn [g_GlobalData]. rewrite Hsim.
  destruct (Z.ltb_spec Subleaf MAX_SIMULATED_SUBLEAFS); [|lia].
  destruct HLeaf as [-> | ->]; cbn;
    destruct (Ebx (read_table (SimulatedCpuid g) _ Subleaf) =? 0); cbn; auto.
Qed.

Section Replay.
Variables (m m' : MACHINE) (Leaf : Z) (n : nat).
Hypothesis Hn : Z.of_nat n < 2 ^ 32.
Hypothesis Hterm : terminated_at m Leaf n = true.
Hypothesis Hsame : same_topology_leaf m m' Leaf n.

(** A subleaf with a non-zero [EBX] is before the last one. *)
Lemma replay_before_end (k : nat) :
  (k <= n)%nat -> negb (Ebx (Tools_ReadCpuid m Leaf (Z.of_nat k)) =? 0) = true ->
  (k < n)%nat /\ u32 (Z.of_nat k + 1) = Z.of_nat (S k).
Proof.
  intros Hk Hcond. destruct (terminated_at_spec _ _ _ Hterm) as [_ Hend].
  assert (Hlt : (k < n)%nat).
  { destruct (Nat.eq_dec k n) as [->|]; [|lia]. rewrite Hend in Hcond. discriminate. }
  split; [exact Hlt|]. change (2 ^ 32) with 4294967296 in Hn. rewrite u32_small; lia.
Qed.

Lemma ThreeDomain_replay (fuel : nat) :
  ParseCpu_CpuidThreeDomainExample fuel m' Leaf
  = ParseCpu_CpuidThreeDomainExample fuel m Leaf.
Proof.
  unfold ParseCpu_CpuidThreeDomainExample.
  assert (Hrel : result_rel (ThreeDomain_replay_rel m m' Leaf n)
            (while fuel ThreeDomain_cond (ThreeDomain_body m Leaf)
               (0, Tools_ReadCpuid m Leaf 0, 0, 0))
            (while fuel ThreeDomain_cond (ThreeDomain_body m' Leaf)
               (0, Tools_ReadCpuid m' Leaf 0, 0, 0))).
  { apply while_related.
    - intros s t (k & LP & Pkg & Hk & -> & ->). unfold ThreeDomain_cond.
      destruct (Hsame k Hk) as (_ & Hb & _). cbv zeta in Hb. rewrite Hb. reflexivity.
    - intros s t (k & LP & Pkg & Hk & -> & ->) Hcond. unfold ThreeDomain_cond in Hcond.
      destruct (replay_before_end k Hk Hcond) as [Hlt Hnext].
      destruct (Hsame k Hk) as (Ha & _ & Hc). cbv zeta in Ha, Hc.
      unfold ThreeDomain_body. rewrite Ha, Hc, Hnext. simpl.
      eexists (S k), _, _. split; [lia|]. split; reflexivity.
    - exists O, 0, 0. split; [lia|]. split; reflexivity. }
  unfold result_rel in Hrel.
  destruct (while fuel ThreeDomain_cond (ThreeDomain_body m Leaf) _) as [s| |],
           (while fuel ThreeDomain_cond (ThreeDomain_body m' Leaf) _) as [t| |];
    try contradiction; try reflexivity.
  destruct Hrel as (k & LP & Pkg & _ & -> & ->). reflexivity.
Qed.

Lemma ManyDomain_replay (fuel : nat) :
  ParseCpu_CpuidManyDomainExample fuel m' Leaf
  = ParseCpu_CpuidManyDomainExample fuel m Leaf.
Proof.
  unfold ParseCpu_CpuidManyDomainExample, ManyDomain_levels.
  assert (Hrel : result_rel (ManyDomain_replay_rel m m' Leaf n)
            (while fuel ManyDomain_cond (ManyDomain_body m Leaf)
               (0, Tools_ReadCpuid m Leaf 0, set_NumberOfApicIdBits zero_ctx 32))
            (while fuel ManyDomain_cond (ManyDomain_body m' Leaf)
               (0, Tools_ReadCpuid m' Leaf 0, set_NumberOfApicIdBits zero_ctx 32))).
  { apply while_related.
    - intros s t (k & ctx & Hk & -> & ->). unfold ManyDomain_cond.
      destruct (Hsame k Hk) as (_ & Hb & _). cbv zeta in Hb. rewrite Hb. reflexivity.
    - intros s t (k & ctx & Hk & -> & ->) Hcond. unfold ManyDomain_cond in Hcond.
      destruct (replay_before_end k Hk Hcond) as [Hlt Hnext].
      destruct (Hsame k Hk) as (Ha & _ & Hc). cbv zeta in Ha, Hc.
      unfold ManyDomain_body. rewrite Ha, Hc, Hnext.
      destruct (ManyDomain_switch ctx _ _) as [ctx'| |]; simpl; auto.
      exists (S k), ctx'. split; [lia|]. split; reflexivity.
    - exists O, (set_NumberOfApicIdBits zero_ctx 32). split; [lia|]. split; reflexivity. }
  unfold result_rel in Hrel.
  destruct (while fuel ManyDomain_cond (ManyDomain_body m Leaf) _) as [s| |],
           (while fuel ManyDomain_cond (ManyDomain_body m' Leaf) _) as [t| |];
    try contradiction; try reflexivity.
  destruct Hrel as (k & ctx & _ & -> & ->). reflexivity.
Qed.
End Replay.

(** The lines the writer produces for a leaf: the leaf line and the subleaf
    lines 0 to [n], where [n] is the first subleaf after which the test of
    the leaf asks for no other; so one subleaf for an ordinary leaf, the
    subleaves up to and including the first with [EBX = 0] for leaf 0BH and
    1FH. *)
Theorem File_Internal_WriteLeafToFile_lines (m : MACHINE) (LeafNumber : Z)
    (n fuel : nat) :
  Z.of_nat n + 1 < 2 ^ 32 ->
  last_written m LeafNumber n ->
  (n < fuel)%nat ->
  File_Internal_WriteLeafToFile fuel m LeafNumber
  = Done (mkLine "L" LeafNumber None :: subleaf_lines 0 (enumerated m LeafNumber (S n)))
  /\ (LeafNumber <> 4 -> LeafNumber <> 0x18 -> LeafNumber <> 0xB -> LeafNumber <> 0x1F ->
      n = O)
  /\ (LeafNumber = 0xB \/ LeafNumber = 0x1F -> terminated_at m LeafNumber n = true).
Proof.
  intros Hn Hlast Hfuel. split; [|split].
  - apply WriteLeaf_run; assumption.
  - intros H4 H18 HB HF. destruct Hlast as [Hbefore _].
    destruct n as [|n']; [reflexivity|]. specialize (Hbefore O ltac:(lia)).
    unfold WriteLeaf_NextSubleaf in Hbefore.
    destruct (Z.eqb_spec LeafNumber 4); [contradiction|].
    destruct (Z.eqb_spec LeafNumber 0x18); [contradiction|].
    destruct (Z.eqb_spec LeafNumber 0xB); [contradiction|].
    destruct (Z.eqb_spec LeafNumber 0x1F); [contradiction|]. discriminate.
  - intros HLeaf. destruct Hlast as [Hbefore Hend].
    assert (E : forall c o r, WriteLeaf_NextSubleaf LeafNumber c o r = negb (Ebx r =? 0)).
    { intros c o r. destruct HLeaf as [-> | ->]; reflexivity. }
    unfold terminated_at. apply andb_true_intro. split.
    + apply forallb_forall. intros r Hin. unfold enumerated in Hin.
      apply in_map_iff in Hin as (k & <- & Hk). apply in_seq in Hk.
      rewrite <- (E (Z.of_nat k + 1) (Tools_ReadCpuid m LeafNumber 0)).
      apply Hbefore. lia.
    + rewrite E in Hend. apply negb_false_iff in Hend. exact Hend.
Qed.

Lemma trace_last_written : last_written trace_machine 0x1F 3.
Proof. apply topology_last_written; [right; reflexivity|]. vm_compute. reflexivity. Qed.

Lemma File_Internal_WriteLeafToFile_lines_witness :
  File_Internal_WriteLeafToFile 4 trace_machine 0x1F
  = Done (mkLine "L" 0x1F None :: subleaf_lines 0 (enumerated trace_machine 0x1F 4))
  /\ (0x1F <> 4 -> 0x1F <> 0x18 -> 0x1F <> 0xB -> 0x1F <> 0x1F -> 3%nat = O)
  /\ (0x1F = 0xB \/ 0x1F = 0x1F -> terminated_at trace_machine 0x1F 3 = true).
Proof.
  apply (File_Internal_WriteLeafToFile_lines trace_machine 0x1F 3 4).
  - vm_compute. reflexivity.
  - exact trace_last_written.
  - lia.
Defined.

(** Saving a topology leaf of a platform and loading the file back gives a
    simulation on which both decoders return what they return on the
    platform itself, for every fuel: the file carries the subleaves up to
    the terminating one, and the decoders do not depend on [EDX].  The
    reader stores the subleaves and yet returns the status of a failure,
    because the file ends with a subleaf line. *)
Theorem saved_topology_leaf_replays (m : MACHINE) (g : GLOBAL_DATA) (Leaf : Z)
    (n fuel : nat) :
  GlobalData_wf g ->
  Leaf = 0xB \/ Leaf = 0x1F ->
  terminated_at m Leaf n = true ->
  Z.of_nat n < MAX_SIMULATED_SUBLEAFS ->
  (n < fuel)%nat ->
  exists lines g',
    File_Internal_WriteLeafToFile fuel m Leaf = Done lines
    /\ File_ReadCpuidFromFile_on_text g (Some lines) = Done (g', false)
    /\ UseNativeCpuid g' = false
    /\ forall os cpu fuel',
         ParseCpu_CpuidThreeDomainExample fuel' (mkMachine g' os cpu) Leaf
         = ParseCpu_CpuidThreeDomainExample fuel' m Leaf
         /\ ParseCpu_CpuidManyDomainExample fuel' (mkMachine g' os cpu) Leaf
            = ParseCpu_CpuidManyDomainExample fuel' m Leaf.
Proof.
  intros Hwf HLeaf Hterm Hn Hfuel.
  assert (Hsub : MAX_SIMULATED_SUBLEAFS = 10) by reflexivity.
  assert (HL : 0 <= Leaf < MAX_SIMULATED_LEAFS /\ Leaf <> 4 /\ Leaf <> 0x18).
  { unfold MAX_SIMULATED_LEAFS. destruct HLeaf as [-> | ->]; lia. }
  destruct HL as (HL & Hn4 & Hn18).
  exists (mkLine "L" Leaf None :: subleaf_lines 0 (enumerated m Leaf (S n))).
  assert (Hctx : CurrentLeaf (fst (File_Internal_DispatchReadLeaf (mkReadContext 0 0 0) Leaf))
                 = Leaf).
  { unfold File_Internal_DispatchReadLeaf.
    destruct (Leaf =? 4); [reflexivity|]. destruct (Leaf =? 0x18); reflexivity. }
  destruct (ReadCpuidFromFile_subleaf_lines Leaf (enumerated m Leaf (S n)) 0
              (set_UseNativeCpuid g false)
              (fst (File_Internal_DispatchReadLeaf (mkReadContext 0 0 0) Leaf)) true
              Hwf Hctx HL Hn4 Hn18 ltac:(lia)
              ltac:(rewrite enumerated_length; lia))
    as (g' & Hrun & Hwf' & Hnat & Hrows & _).
  rewrite enumerated_S in Hrun at 2.
  assert (Hst : match enumerated m Leaf n ++ [Tools_ReadCpuid m Leaf (Z.of_nat n)] with
                | [] => true | _ :: _ => false end = false)
    by (destruct (enumerated m Leaf n); reflexivity).
  rewrite Hst in Hrun. clear Hst.
  exists g'. split; [|split; [|split]].
  - apply WriteLeaf_run; [change (2 ^ 32) with 4294967296; lia| |exact Hfuel].
    apply topology_last_written; assumption.
  - unfold File_ReadCpuidFromFile_on_text, fscanf_turns. cbn [bind].
    unfold File_ReadCpuidFromFile.
    cbn [text_turns Registers ReadCpuidFromFile_loop].
    unfold ReadCpuidFromFile_line at 1. cbn [Character FirstData Ascii.eqb Bool.eqb andb].
    change (File_Internal_DispatchReadLeaf (mkReadContext 0 0 0) Leaf)
      with (fst (File_Internal_DispatchReadLeaf (mkReadContext 0 0 0) Leaf), true).
    cbn [bind]. rewrite Hrun. reflexivity.
  - exact Hnat.
  - intros os cpu fuel'.
    assert (Hsame : same_topology_leaf m (mkMachine g' os cpu) Leaf n).
    { intros k Hk. cbv zeta.
      destruct (Tools_ReadCpuid_simulated_topology g' os cpu Leaf (Z.of_nat k))
        as (Ha & Hb & Hc); [exact Hnat|exact HLeaf|lia|].
      assert (Hrow : read_table (SimulatedCpuid g') Leaf (Z.of_nat k)
                     = Tools_ReadCpuid m Leaf (Z.of_nat k)).
      { rewrite <- (Z.add_0_l (Z.of_nat k)) at 1. apply Hrows.
        unfold enumerated. rewrite list_lookup_fmap.
        rewrite lookup_seq_lt by lia. reflexivity. }
      rewrite Hrow in Ha, Hb, Hc. auto. }
    assert (Hn32 : Z.of_nat n < 2 ^ 32) by (change (2 ^ 32) with 4294967296; lia).
    split.
    + apply (ThreeDomain_replay m _ Leaf n Hn32 Hterm Hsame).
    + apply (ManyDomain_replay m _ Leaf n Hn32 Hterm Hsame).
Qed.

Lemma saved_topology_leaf_replays_witness :
  exists lines g',
    File_Internal_WriteLeafToFile 4 trace_machine 0x1F = Done lines
    /\ File_ReadCpuidFromFile_on_text initial_GlobalData (Some lines) = Done (g', false)
    /\ UseNativeCpuid g' = false
    /\ forall os cpu fuel',
         ParseCpu_CpuidThreeDomainExample fuel' (mkMachine g' os cpu) 0x1F
         = ParseCpu_CpuidThreeDomainExample fuel' trace_machine 0x1F
         /\ ParseCpu_CpuidManyDomainExample fuel' (mkMachine g' os cpu) 0x1F
            = ParseCpu_CpuidManyDomainExample fuel' trace_machine 0x1F.
Proof.
  apply (saved_topology_leaf_replays trace_machine initial_GlobalData 0x1F 3 4).
  - exact initial_GlobalData_wf.
  - right. reflexivity.
  - vm_compute. reflexivity.
  - vm_compute. reflexivity.
  - lia.
Defined.

(** ** The identifiers written by [File_WriteCpuidToFile] *)

Lemma same_platform_refl (m : MACHINE) : same_platform m m.
Proof. unfold same_platform. repeat split; reflexivity. Qed.

Lemma Tools_SetAffinity_same_platform (m m' : MACHINE) (ProcessorNumber : Z) :
  same_platform m m' -> same_platform m (Tools_SetAffinity m' ProcessorNumber).
Proof.
  intros (H0 & H1 & H2 & H3 & H4 & H5 & H6). unfold Tools_SetAffinity.
  destruct (UseNativeCpuid (g_GlobalData m')) eqn:E.
  - unfold Os_SetAffinity, same_platform. cbn. repeat split; congruence.
  - destruct (ProcessorNumber <? NumberOfSimulatedProcessors (g_GlobalData m')).
    + unfold same_platform. cbn. repeat split; congruence.
    + unfold same_platform. repeat split; congruence.
Qed.

Lemma affinity_after_same_platform (m : MACHINE) (k : nat) :
  same_platform m (affinity_after m k).
Proof.
  induction k as [|k IH]; [apply same_platform_refl|].
  rewrite affinity_after_S. apply Tools_SetAffinity_same_platform. exact IH.
Qed.

Lemma same_platform_trans (m1 m2 m3 : MACHINE) :
  same_platform m1 m2 -> same_platform m2 m3 -> same_platform m1 m3.
Proof.
  intros (A0 & A1 & A2 & A3 & A4 & A5 & A6) (B0 & B1 & B2 & B3 & B4 & B5 & B6).
  unfold same_platform. repeat split; congruence.
Qed.

Lemma ApicId_lines_app (l1 l2 : list FILE_LINE) :
  ApicId_lines (l1 ++ l2) = ApicId_lines l1 ++ ApicId_lines l2.
Proof. unfold ApicId_lines. rewrite List.filter_app, map_app. reflexivity. Qed.

(** The lines of a leaf hold no identifier. *)
Lemma File_Internal_WriteLeafToFile_no_ApicId (fuel : nat) (m : MACHINE)
    (LeafNumber : Z) (lines : list FILE_LINE) :
  File_Internal_WriteLeafToFile fuel m LeafNumber = Done lines -> ApicId_lines lines = [].
Proof.
  unfold File_Internal_WriteLeafToFile. intros Hrun.
  apply bind_Done in Hrun as ([[[[c o] f] nx] l] & Hloop & Hrun). injection Hrun as <-.
  refine (proj1 (while_Done_invariant
                   (fun s : Z * CPUID_REGISTERS * bool * bool * list FILE_LINE =>
                      ApicId_lines (snd s) = [])
                   _ _ _ _ _ _ _ Hloop)); [|reflexivity].
  intros [[[[c1 o1] f1] n1] l1] s' Hinv _ Hbody. unfold WriteLeaf_body in Hbody.
  injection Hbody as <-. cbn [snd] in *. rewrite ApicId_lines_app, Hinv. reflexivity.
Qed.

(** A loop over the processors keeps the platform and adds no identifier. *)
Lemma WriteCpuid_processor_loop (fuel : nat) (LeafNumber N : Z) (n : nat)
    (m0 m1 : MACHINE) (m : MACHINE) (i0 i1 : Z) (lines0 lines1 : list FILE_LINE) :
  same_platform m m0 ->
  while n (WriteCpuid_processor_cond N) (WriteCpuid_processor_body fuel LeafNumber)
    (m0, i0, lines0) = Done (m1, i1, lines1) ->
  same_platform m m1 /\ ApicId_lines lines1 = ApicId_lines lines0.
Proof.
  intros Hsame Hloop.
  refine (proj1 (while_Done_invariant
                   (fun s : MACHINE * Z * list FILE_LINE =>
                      same_platform m (fst (fst s))
                      /\ ApicId_lines (snd s) = ApicId_lines lines0)
                   _ _ _ _ _ _ _ Hloop)); [|split; [exact Hsame|reflexivity]].
  intros [[ma ia] la] s' [Hp Hl] _ Hbody. unfold WriteCpuid_processor_body in Hbody.
  apply bind_Done in Hbody as (written & Hw & Hbody). injection Hbody as <-.
  cbn [fst snd] in *. split.
  - apply Tools_SetAffinity_same_platform. exact Hp.
  - rewrite ApicId_lines_app, (File_Internal_WriteLeafToFile_no_ApicId _ _ _ _ Hw), Hl.
    apply app_nil_r.
Qed.

Lemma ApicId_lines_A (f : nat -> Z) (l : list nat) :
  ApicId_lines (map (fun i => mkLine "A" (f i) None) l) = map f l.
Proof. induction l as [|i l IH]; [reflexivity|]. cbn. f_equal. exact IH. Qed.

Section WriteCpuid_ApicId.
Variables (m_end : MACHINE) (lines0 : list FILE_LINE) (N : Z).
Hypothesis HN : 0 <= N < 2 ^ 32.
Hypothesis Hleaves :
  forall mx, same_platform m_end mx ->
    Eax (Tools_ReadCpuid mx 0xB 0) < 0xB /\ 0xB <= Eax (Tools_ReadCpuid mx 1 0).

Lemma WriteCpuid_ApicId_step (s : MACHINE * CPUID_REGISTERS * Z * list FILE_LINE) :
  WriteCpuid_ApicId_inv m_end lines0 N s -> WriteCpuid_ApicId_cond N s = true ->
  exists s', WriteCpuid_ApicId_body s = Done s' /\ WriteCpuid_ApicId_inv m_end lines0 N s'
             /\ (WriteCpuid_ApicId_measure N s' < WriteCpuid_ApicId_measure N s)%nat.
Proof.
  destruct s as [[[m regs] Index] lines].
  intros (k & Hk & -> & -> & Heven & ->) Hcond. simpl in Hcond. apply Z.ltb_lt in Hcond.
  change (2 ^ 32) with 4294967296 in HN.
  assert (Hnext : u32 (Z.of_nat k + 1) = Z.of_nat (S k)) by (rewrite u32_small; lia).
  destruct (Hleaves (affinity_after m_end (S k)) (affinity_after_same_platform _ _))
    as [HB H1].
  unfold WriteCpuid_ApicId_body. rewrite <- affinity_after_S, Heven, Hnext.
  destruct (Nat.even k) eqn:Ek; (eexists; split; [reflexivity|]; split;
    [|unfold WriteCpuid_ApicId_measure; lia]).
  - exists (S k). split; [lia|].
    split; [reflexivity|]. split; [reflexivity|]. split.
    + rewrite Nat.even_succ, <- Nat.negb_even, Ek. apply Z.leb_gt. exact HB.
    + rewrite seq_S, Nat.add_0_l, map_app, app_assoc. cbn [map]. unfold alternating_id.
      rewrite Ek. reflexivity.
  - exists (S k). split; [lia|].
    split; [reflexivity|]. split; [reflexivity|]. split.
    + rewrite Nat.even_succ, <- Nat.negb_even, Ek. apply Z.leb_le. exact H1.
    + rewrite seq_S, Nat.add_0_l, map_app, app_assoc. cbn [map]. unfold alternating_id.
      rewrite Ek. reflexivity.
Qed.

Lemma WriteCpuid_ApicId_run (regs0 : CPUID_REGISTERS) :
  0xB <= Eax regs0 ->
  exists regs,
    while (Z.to_nat N) (WriteCpuid_ApicId_cond N) WriteCpuid_ApicId_body
      (m_end, regs0, 0, lines0)
    = Done (affinity_after m_end (Z.to_nat N), regs, N,
            lines0 ++ map (fun i => mkLine "A" (alternating_id m_end i) None)
                        (seq 0 (Z.to_nat N))).
Proof.
  intros Hmax.
  destruct (while_invariant (WriteCpuid_ApicId_inv m_end lines0 N)
              (WriteCpuid_ApicId_measure N) (WriteCpuid_ApicId_cond N)
              WriteCpuid_ApicId_body WriteCpuid_ApicId_step (Z.to_nat N)
              (m_end, regs0, 0, lines0))
    as ([[[m regs] Index] lines] & Hrun & (k & Hk & -> & -> & _ & ->) & Hcond).
  - exists O. split; [lia|]. split; [reflexivity|]. split; [reflexivity|].
    split; [apply Z.leb_le; exact Hmax|]. cbn. rewrite app_nil_r. reflexivity.
  - unfold WriteCpuid_ApicId_measure. lia.
  - simpl in Hcond. apply Z.ltb_ge in Hcond.
    assert (Ek : k = Z.to_nat N) by lia.
    exists regs. rewrite Hrun, <- Ek. repeat f_equal. lia.
Qed.
End WriteCpuid_ApicId.

(** Whenever the writer completes on a platform whose leaf 0 reports leaf
    0BH, whose leaf 0BH has [EAX] below 0BH in subleaf 0 (a shift count) and
    whose leaf 1 has [EAX] at least 0BH (the processor signature), the [A]
    lines alternate: the loop tests the [EAX] of the registers read on the
    turn before, so the processors of even index are saved with the
    identifier of leaf 0BH and the processors of odd index with the 8-bit
    identifier of leaf 1. *)
Theorem File_WriteCpuidToFile_apic_ids_alternate (fuel : nat) (m m' : MACHINE)
    (lines : list FILE_LINE) :
  0 <= Tools_GetNumberOfProcessors m < 2 ^ 32 ->
  0xB <= Eax (Tools_ReadCpuid m 0 0) ->
  (forall mx, same_platform m mx ->
     Eax (Tools_ReadCpuid mx 0xB 0) < 0xB /\ 0xB <= Eax (Tools_ReadCpuid mx 1 0)) ->
  File_WriteCpuidToFile fuel m = Done (m', lines) ->
  exists m_end,
    same_platform m m_end
    /\ ApicId_lines lines
       = map (fun i => if Nat.even i then x2apic_id (affinity_after m_end (S i))
                       else legacy_id (affinity_after m_end (S i)))
           (seq 0 (Z.to_nat (Tools_GetNumberOfProcessors m))).
Proof.
  intros HN Hmax Hleaves Hrun. unfold File_WriteCpuidToFile in Hrun.
  set (N := Tools_GetNumberOfProcessors m) in *.
  apply bind_Done in Hrun as (l0 & H0 & Hrun).
  pose proof (File_Internal_WriteLeafToFile_no_ApicId _ _ _ _ H0) as A0.
  apply bind_Done in Hrun as (l1 & H1 & Hrun).
  assert (A1 : ApicId_lines l1 = []).
  { destruct (1 <=? Eax (Tools_ReadCpuid m 0 0)); [|injection H1 as <-; exact A0].
    apply bind_Done in H1 as (w & Hw & H1). injection H1 as <-.
    rewrite ApicId_lines_app, A0, (File_Internal_WriteLeafToFile_no_ApicId _ _ _ _ Hw).
    reflexivity. }
  apply bind_Done in Hrun as ([m2 l2] & H2 & Hrun).
  assert (A2 : same_platform m m2 /\ ApicId_lines l2 = []).
  { destruct (0x4 <=? Eax (Tools_ReadCpuid m 0 0)).
    - apply bind_Done in H2 as ([[mo io] lo] & Hloop & H2). injection H2 as <- <-.
      destruct (WriteCpuid_processor_loop _ _ _ _ _ _ m _ _ _ _
                  (same_platform_refl m) Hloop) as [Hp Hl].
      split; [exact Hp|]. rewrite Hl. exact A1.
    - injection H2 as <- <-. split; [apply same_platform_refl|exact A1]. }
  destruct A2 as [P2 A2].
  apply bind_Done in Hrun as (l3 & H3 & Hrun).
  assert (A3 : ApicId_lines l3 = []).
  { destruct (0xB <=? Eax (Tools_ReadCpuid m 0 0)); [|injection H3 as <-; exact A2].
    apply bind_Done in H3 as (w & Hw & H3). injection H3 as <-.
    rewrite ApicId_lines_app, A2, (File_Internal_WriteLeafToFile_no_ApicId _ _ _ _ Hw).
    reflexivity. }
  apply bind_Done in Hrun as ([m4 l4] & H4 & Hrun).
  assert (A4 : same_platform m m4 /\ ApicId_lines l4 = []).
  { destruct (0x18 <=? Eax (Tools_ReadCpuid m 0 0)).
    - apply bind_Done in H4 as ([[mo io] lo] & Hloop & H4). injection H4 as <- <-.
      destruct (WriteCpuid_processor_loop _ _ _ _ _ _ m _ _ _ _ P2 Hloop) as [Hp Hl].
      split; [exact Hp|]. rewrite Hl. exact A3.
    - injection H4 as <- <-. split; [exact P2|exact A3]. }
  destruct A4 as [P4 A4].
  apply bind_Done in Hrun as (l5 & H5 & Hrun).
  assert (A5 : ApicId_lines l5 = []).
  { destruct (0x1F <=? Eax (Tools_ReadCpuid m 0 0)); [|injection H5 as <-; exact A4].
    apply bind_Done in H5 as (w & Hw & H5). injection H5 as <-.
    rewrite ApicId_lines_app, A4, (File_Internal_WriteLeafToFile_no_ApicId _ _ _ _ Hw).
    reflexivity. }
  apply bind_Done in Hrun as ([[[m6 r6] i6] l6] & Hloop & Hrun). injection Hrun as <- <-.
  destruct (WriteCpuid_ApicId_run m4 l5 N HN) with (regs0 := Tools_ReadCpuid m 0 0)
    as (regs & Hfinal).
  { intros mx Hmx. apply Hleaves. eapply same_platform_trans; eauto. }
  { exact Hmax. }
  rewrite Hfinal in Hloop. injection Hloop as _ _ _ <-.
  exists m4. split; [exact P4|].
  rewrite ApicId_lines_app, A5. cbn [app].
  apply (ApicId_lines_A (alternating_id m4)).
Qed.

Lemma x2apic_pair_leaves (mx : MACHINE) :
  same_platform x2apic_pair_machine mx ->
  Eax (Tools_ReadCpuid mx 0xB 0) < 0xB /\ 0xB <= Eax (Tools_ReadCpuid mx 1 0).
Proof.
  intros (H0 & _ & _ & _ & _ & _ & H6). unfold Tools_ReadCpuid, Os_Platform_Read_Cpuid.
  rewrite H0, H6. cbn. lia.
Qed.

Lemma File_WriteCpuidToFile_apic_ids_alternate_witness :
  exists m_end,
    same_platform x2apic_pair_machine m_end
    /\ ApicId_lines (snd (match File_WriteCpuidToFile 3 x2apic_pair_machine with
                          | Done r => r
                          | _ => (x2apic_pair_machine, [])
                          end))
       = map (fun i => if Nat.even i then x2apic_id (affinity_after m_end (S i))
                       else legacy_id (affinity_after m_end (S i)))
           (seq 0 (Z.to_nat (Tools_GetNumberOfProcessors x2apic_pair_machine))).
Proof.
  apply (File_WriteCpuidToFile_apic_ids_alternate 3 x2apic_pair_machine
           (fst (match File_WriteCpuidToFile 3 x2apic_pair_machine with
                 | Done r => r
                 | _ => (x2apic_pair_machine, [])
                 end))).
  - vm_compute. split; (discriminate || reflexivity).
  - vm_compute. discriminate.
  - exact x2apic_pair_leaves.
  - vm_compute. reflexivity.
Defined.

(** On the platform of two processors with the x2APIC identifiers 256 and
    257 the file holds the identifiers 256 and 1. *)
Example x2apic_pair_saved_ids :
  match File_WriteCpuidToFile 3 x2apic_pair_machine with
  | Done (_, lines) => ApicId_lines lines
  | _ => []
  end = [256; 1].
Proof. vm_compute. reflexivity. Qed.

(** ** [Display_ManyDomainExample] *)

(** A loop that steps through the states [f k], [k < p], and whose
    condition fails at [f p], ends in [f p]. *)
Lemma while_sequence {S : Type} (cond : S -> bool) (body : S -> result S)
    (f : nat -> S) (p : nat) :
  (forall k, (k < p)%nat -> cond (f k) = true /\ body (f k) = Done (f (Datatypes.S k))) ->
  cond (f p) = false ->
  forall (fuel k : nat), (k <= p)%nat -> (p - k <= fuel)%nat ->
    while fuel cond body (f k) = Done (f p).
Proof.
  intros Hstep Hend fuel. induction fuel as [|fuel IH]; intros k Hk Hfuel.
  - assert (k = p) by lia. subst k. simpl. rewrite Hend. reflexivity.
  - simpl. destruct (Nat.eq_dec k p) as [->|Hne].
    + rewrite Hend. reflexivity.
    + destruct (Hstep k ltac:(lia)) as [Hc Hb]. rewrite Hc, Hb. simpl.
      apply IH; lia.
Qed.

(** The field selected by a mask of the bits [p .. q-1], moved down by
    [p]. *)
Lemma field_of_mask (v A p q : Z) :
  0 <= p -> 0 <= q ->
  (forall n, 0 <= n -> Z.testbit v n = (p <=? n) && (n <? q)) ->
  Z.shiftr (Z.land v A) p = apic_field A p q.
Proof.
  intros Hp Hq Hbits. unfold apic_field.
  rewrite <- Z.land_ones, <- Z.shiftr_div_pow2 by lia.
  apply Z.bits_inj'. intros n Hn.
  rewrite !Z.shiftr_spec, !Z.land_spec by lia.
  rewrite Hbits by lia. rewrite Z.testbit_ones_nonneg by lia.
  destruct (Z.leb_spec p (n + p)); [|lia].
  simpl. apply andb_comm.
Qed.

Lemma relative_lines_S (ctx : APICID_BIT_LAYOUT_CTX) (value : nat -> nat -> Z) (k : nat) :
  relative_lines ctx value (S k)
  = relative_lines ctx value k
    ++ (if read_array (ShiftValues ctx) (Z.of_nat k) =? 0 then []
        else
          map (fun j => (ManyDomainExample_level_name ctx k,
                         ManyDomainExample_level_name ctx j, value k j))
            (seq (S k) (Z.to_nat (PackageDomainIndex ctx) - S k))
          ++ [(ManyDomainExample_level_name ctx k, "Package"%string,
               value k (Z.to_nat (PackageDomainIndex ctx)))]).
Proof.
  unfold relative_lines. rewrite seq_S, flat_map_app. simpl.
  rewrite app_nil_r. reflexivity.
Qed.

Lemma mask_lines_S (ctx : APICID_BIT_LAYOUT_CTX) (value : nat -> Z) (k : nat) :
  mask_lines ctx value (S k)
  = mask_lines ctx value k
    ++ (if read_array (ShiftValues ctx) (Z.of_nat k) =? 0 then []
        else [(ManyDomainExample_level_name ctx k, value k)]).
Proof.
  unfold mask_lines. rewrite seq_S, flat_map_app. simpl.
  rewrite app_nil_r. reflexivity.
Qed.

Section ManyDomainExample_loops.
Variable ctx : APICID_BIT_LAYOUT_CTX.
Variable p : nat.
Hypothesis Hwf : ctx_wf ctx.
Hypothesis Hp : PackageDomainIndex ctx = Z.of_nat p.
Hypothesis Hidx : (p < 32)%nat.
Hypothesis Hnames : forall (i : nat) Domain, (i < p)%nat ->
  ShiftValueDomain ctx !! i = Some Domain -> Tools_IsDomainKnownEnumeration Domain = true.

Lemma ManyDomainExample_name_level (i : nat) :
  (i < p)%nat ->
  ManyDomainExample_name ctx (Z.of_nat i) = Done (ManyDomainExample_level_name ctx i).
Proof.
  intros Hi. destruct Hwf as (_ & HD & _).
  change (Z.to_nat MAXIMUM_DOMAINS) with 32%nat in HD.
  destruct (lookup_lt_is_Some_2 (ShiftValueDomain ctx) i) as [d Hd]; [lia|].
  pose proof (proj1 (Tools_IsDomainKnownEnumeration_range d) (Hnames i d Hi Hd)) as Hrange.
  unfold ManyDomainExample_name, ManyDomainExample_level_name.
  rewrite (proj2 (load_Done (ShiftValueDomain ctx) (Z.of_nat i) d))
    by (rewrite Nat2Z.id; split; [lia|exact Hd]).
  cbn [bind]. rewrite Hd.
  destruct (lookup_lt_is_Some_2 ManyDomainExample_names (Z.to_nat d)) as [s Hs].
  { simpl. lia. }
  rewrite Hs. apply load_Done. split; [lia|exact Hs].
Qed.

Lemma ManyDomainExample_shift_load (i : nat) :
  (i < 32)%nat ->
  load (ShiftValues ctx) (Z.of_nat i) = Done (read_array (ShiftValues ctx) (Z.of_nat i))
  /\ previous_shift ctx (Z.of_nat (S i)) = read_array (ShiftValues ctx) (Z.of_nat i).
Proof.
  intros Hi. destruct Hwf as (HS & _ & _).
  change (Z.to_nat MAXIMUM_DOMAINS) with 32%nat in HS.
  destruct (lookup_lt_is_Some_2 (ShiftValues ctx) i) as [v Hv]; [lia|].
  unfold read_array. rewrite Nat2Z.id, Hv. split.
  - apply load_Done. rewrite Nat2Z.id. split; [lia|exact Hv].
  - apply previous_shift_S. exact Hv.
Qed.

Variable mask_value : nat -> Z.
Hypothesis Hmask : forall i : nat, (i <= p)%nat ->
  entry (DomainRelativeMasks ctx) i i = mask_value i.

Lemma ManyDomainExample_mask_loop :
  while (Z.to_nat MAXIMUM_DOMAINS + 1) (ManyDomainExample_mask_cond ctx)
    (ManyDomainExample_mask_body ctx) (0, [])
  = Done (Z.of_nat p, mask_lines ctx mask_value p).
Proof.
  apply (while_sequence (ManyDomainExample_mask_cond ctx) (ManyDomainExample_mask_body ctx)
           (fun k => (Z.of_nat k, mask_lines ctx mask_value k)) p) with (k := O).
  - intros k Hk. split.
    + simpl. apply Z.ltb_lt. lia.
    + unfold ManyDomainExample_mask_body.
      destruct (ManyDomainExample_shift_load k ltac:(lia)) as [-> _]. cbn [bind].
      rewrite mask_lines_S, u32_small by lia.
      replace (Z.of_nat k + 1) with (Z.of_nat (S k)) by lia.
      destruct (read_array (ShiftValues ctx) (Z.of_nat k) =? 0).
      * simpl. rewrite app_nil_r. reflexivity.
      * simpl. rewrite ManyDomainExample_name_level by exact Hk. cbn [bind].
        rewrite load2_spec by (try apply Hwf; lia). rewrite Hmask by lia. reflexivity.
  - simpl. apply Z.ltb_ge. lia.
  - lia.
  - change (Z.to_nat MAXIMUM_DOMAINS) with 32%nat. lia.
Qed.

Variable print : Z -> Z -> result Z.
Variable value : nat -> nat -> Z.
Hypothesis Hprint : forall i j : nat, (i < j)%nat -> (j <= p)%nat ->
  print (entry (DomainRelativeMasks ctx) i j) (previous_shift ctx (Z.of_nat i))
  = Done (value i j).

Lemma ManyDomainExample_top_loop (i : nat) (lines : list (string * string * Z)) :
  (i < p)%nat ->
  while (Z.to_nat MAXIMUM_DOMAINS + 1) (ManyDomainExample_top_cond ctx)
    (ManyDomainExample_top_body ctx print (Z.of_nat i) (previous_shift ctx (Z.of_nat i)))
    (Z.of_nat (S i), lines)
  = Done (Z.of_nat p,
          lines ++ map (fun j => (ManyDomainExample_level_name ctx i,
                                  ManyDomainExample_level_name ctx j, value i j))
                     (seq (S i) (p - S i))).
Proof.
  intros Hi.
  pose (f := fun k : nat =>
    (Z.of_nat (S i + k),
     lines ++ map (fun j => (ManyDomainExample_level_name ctx i,
                             ManyDomainExample_level_name ctx j, value i j))
                (seq (S i) k))).
  replace (Z.of_nat (S i), lines) with (f O).
  2:{ unfold f. simpl seq. simpl map. rewrite app_nil_r.
      replace (S i + 0)%nat with (S i) by lia. reflexivity. }
  match goal with |- _ = Done ?s => replace s with (f (p - S i)%nat) end.
  2:{ unfold f. replace (S i + (p - S i))%nat with p by lia. reflexivity. }
  apply (while_sequence (ManyDomainExample_top_cond ctx)
    (ManyDomainExample_top_body ctx print (Z.of_nat i) (previous_shift ctx (Z.of_nat i)))
    f (p - S i)).
  - intros k Hk. unfold f. split.
    + simpl. apply Z.ltb_lt. lia.
    + unfold ManyDomainExample_top_body.
      rewrite ManyDomainExample_name_level by exact Hi. cbn [bind].
      rewrite ManyDomainExample_name_level by lia. cbn [bind].
      rewrite load2_spec by (try apply Hwf; lia).
      cbn [bind]. rewrite Hprint by lia. cbn [bind].
      rewrite u32_small by lia.
      rewrite seq_S, map_app, app_assoc. simpl.
      replace (Z.of_nat (S (i + k)) + 1) with (Z.of_nat (S (i + S k))) by lia.
      reflexivity.
  - simpl. apply Z.ltb_ge. lia.
  - lia.
  - change (Z.to_nat MAXIMUM_DOMAINS) with 32%nat. lia.
Qed.

Lemma ManyDomainExample_relative_run :
  ManyDomainExample_relative ctx print = Done (relative_lines ctx value p).
Proof.
  unfold ManyDomainExample_relative.
  rewrite (while_sequence (ManyDomainExample_relative_cond ctx)
             (ManyDomainExample_relative_body ctx print)
             (fun k => (Z.of_nat k, previous_shift ctx (Z.of_nat k),
                        relative_lines ctx value k)) p) with (k := O).
  - reflexivity.
  - intros k Hk. split.
    + simpl. apply Z.ltb_lt. lia.
    + unfold ManyDomainExample_relative_body.
      destruct (ManyDomainExample_shift_load k ltac:(lia)) as [-> ->]. cbn [bind].
      rewrite relative_lines_S, u32_small by lia. rewrite Hp, Nat2Z.id.
      replace (Z.of_nat k + 1) with (Z.of_nat (S k)) by lia.
      destruct (read_array (ShiftValues ctx) (Z.of_nat k) =? 0).
      * simpl. rewrite app_nil_r. reflexivity.
      * cbn [negb]. rewrite ManyDomainExample_top_loop by exact Hk. cbn [bind].
        rewrite ManyDomainExample_name_level by exact Hk. cbn [bind].
        rewrite load2_spec by (try apply Hwf; lia).
        cbn [bind]. rewrite Hprint by lia. cbn [bind].
        rewrite app_assoc. reflexivity.
  - simpl. apply Z.ltb_ge. lia.
  - lia.
  - change (Z.to_nat MAXIMUM_DOMAINS) with 32%nat. lia.
Qed.
End ManyDomainExample_loops.

Lemma shr32_field (v A p q : Z) :
  0 <= p < 32 -> 0 <= q ->
  (forall n, 0 <= n -> Z.testbit v n = (p <=? n) && (n <? q)) ->
  shr32 (Z.land v A) p = Done (apic_field A p q).
Proof.
  intros Hp Hq Hbits. unfold shr32.
  destruct (Z.ltb_spec p 32); [|lia].
  rewrite (field_of_mask v A p q) by (try exact Hbits; lia). reflexivity.
Qed.

Lemma ManyDomainExample_processor_loop (ctx : APICID_BIT_LAYOUT_CTX) (p : nat)
    (ApicIdArray : list Z) (N : nat) :
  ctx_wf ctx ->
  PackageDomainIndex ctx = Z.of_nat p -> (1 <= p < 32)%nat ->
  (forall i : nat, (i <= p)%nat -> 0 <= previous_shift ctx (Z.of_nat i) < 32) ->
  (forall (i : nat) Domain, (i < p)%nat ->
     ShiftValueDomain ctx !! i = Some Domain ->
     Tools_IsDomainKnownEnumeration Domain = true) ->
  entry (DomainRelativeMasks ctx) p p = global_mask ctx (Z.of_nat p) ->
  (forall i j : nat, (i < j)%nat -> (j <= p)%nat ->
     entry (DomainRelativeMasks ctx) i j = relative_mask ctx i j) ->
  (N <= length ApicIdArray)%nat -> (N <= 1024)%nat ->
  while (Z.to_nat MAX_PROCESSORS) (ManyDomainExample_processor_cond (Z.of_nat N))
    (ManyDomainExample_processor_body ctx ApicIdArray) (0, [])
  = Done (Z.of_nat N, imap (ManyDomainExample_block ctx) (take N ApicIdArray)).
Proof.
  intros Hwf Hp Hidx Hshifts Hnames Hdiag Hrel HN Hmax.
  apply (while_sequence (ManyDomainExample_processor_cond (Z.of_nat N))
           (ManyDomainExample_processor_body ctx ApicIdArray)
           (fun k => (Z.of_nat k, imap (ManyDomainExample_block ctx) (take k ApicIdArray)))
           N) with (k := O).
  - intros k Hk. split.
    + simpl. apply Z.ltb_lt. lia.
    + destruct (lookup_lt_is_Some_2 ApicIdArray k) as [A HA]; [lia|].
      unfold ManyDomainExample_processor_body.
      rewrite (proj2 (load_Done ApicIdArray (Z.of_nat k) A))
        by (rewrite Nat2Z.id; split; [lia|exact HA]).
      cbn [bind]. rewrite Hp.
      rewrite load2_spec by (try apply Hwf; lia). cbn [bind].
      rewrite u32_small by lia.
      replace (Z.of_nat p - 1) with (Z.of_nat (p - 1)) by lia.
      destruct (ManyDomainExample_shift_load ctx p Hwf ltac:(lia) (p - 1) ltac:(lia)) as [-> E].
      cbn [bind]. rewrite <- E. replace (S (p - 1)) with p by lia.
      rewrite Hdiag.
      rewrite (shr32_field _ A (previous_shift ctx (Z.of_nat p)) 32).
      2:{ apply Hshifts. lia. }
      2:{ lia. }
      2:{ intros n Hn. rewrite global_mask_value by (apply Hshifts; lia).
          apply range_mask_bits; [|exact Hn].
          pose proof (Hshifts p ltac:(lia)). lia. }
      cbn [bind].
      rewrite (@ManyDomainExample_relative_run ctx p Hwf Hp ltac:(lia) Hnames
                 (fun mask DomainShift => shr32 (Z.land mask A) DomainShift)
                 (fun i j => apic_field A (previous_shift ctx (Z.of_nat i))
                               (previous_shift ctx (Z.of_nat j)))).
      2:{ intros i j Hij Hj. cbn beta. rewrite Hrel by lia.
          apply shr32_field; [apply Hshifts; lia| |].
          - pose proof (Hshifts j ltac:(lia)). lia.
          - intros n Hn. apply relative_mask_bits; [apply Hshifts; lia|apply Hshifts; lia|exact Hn]. }
      cbn [bind]. rewrite u32_small by lia.
      rewrite (take_S_r _ _ _ HA), imap_app. simpl.
      rewrite length_take, Nat.min_l by lia. rewrite Nat.add_0_r.
      unfold ManyDomainExample_block at 3. rewrite Hp, Nat2Z.id.
      replace (Z.of_nat k + 1) with (Z.of_nat (S k)) by lia. reflexivity.
  - simpl. apply Z.ltb_ge. lia.
  - lia.
  - change (Z.to_nat MAX_PROCESSORS) with 1024%nat. lia.
Qed.

Lemma range_mask_testbit (lo hi n : Z) :
  0 <= lo -> 0 <= n -> Z.testbit (range_mask lo hi) n = (lo <=? n) && (n <? hi).
Proof.
  intros Hlo Hn. unfold range_mask. destruct (Z.ltb_spec lo hi).
  - apply range_mask_bits; lia.
  - rewrite Z.bits_0.
    destruct (Z.leb_spec lo n), (Z.ltb_spec n hi); (reflexivity || lia).
Qed.

Lemma global_mask_range (ctx : APICID_BIT_LAYOUT_CTX) (i : Z) :
  0 <= previous_shift ctx i < 32 ->
  global_mask ctx i = range_mask (previous_shift ctx i) 32.
Proof.
  intros H. rewrite global_mask_value by exact H. unfold range_mask.
  destruct (Z.ltb_spec (previous_shift ctx i) 32); [reflexivity|lia].
Qed.

Lemma relative_mask_range (ctx : APICID_BIT_LAYOUT_CTX) (i j : nat) :
  0 <= previous_shift ctx (Z.of_nat i) < 32 ->
  0 <= previous_shift ctx (Z.of_nat j) < 32 ->
  relative_mask ctx i j
  = range_mask (previous_shift ctx (Z.of_nat i)) (previous_shift ctx (Z.of_nat j)).
Proof.
  intros Hi Hj. apply Z.bits_inj'. intros n Hn.
  rewrite relative_mask_bits, range_mask_testbit by (assumption || lia). reflexivity.
Qed.

Lemma Display_ManyDomainExample_run (m : MACHINE) (Leaf : Z)
    (ctx : APICID_BIT_LAYOUT_CTX) :
  ctx_wf ctx ->
  1 <= PackageDomainIndex ctx < MAXIMUM_DOMAINS ->
  (forall i, 0 <= i <= PackageDomainIndex ctx -> 0 <= previous_shift ctx i < 32) ->
  (forall (i : nat) Domain, Z.of_nat i < PackageDomainIndex ctx ->
     ShiftValueDomain ctx !! i = Some Domain ->
     Tools_IsDomainKnownEnumeration Domain = true) ->
  0 <= Tools_GetNumberOfProcessors m ->
  exists M m' d,
    ParseCpu_Internal_CreateDomainMaskMatrix ctx = Done (set_DomainRelativeMasks ctx M)
    /\ Display_ManyDomainExample m Leaf (set_DomainRelativeMasks ctx M) = Done (m', d)
    /\ MaskLines d
       = mask_lines ctx (fun i => range_mask (previous_shift ctx (Z.of_nat i)) 32)
           (Z.to_nat (PackageDomainIndex ctx))
    /\ PackageMaskLine d = range_mask (previous_shift ctx (PackageDomainIndex ctx)) 32
    /\ RelativeMaskLines d
       = relative_lines ctx
           (fun i j => range_mask (previous_shift ctx (Z.of_nat i))
                         (previous_shift ctx (Z.of_nat j)))
           (Z.to_nat (PackageDomainIndex ctx))
    /\ Z.of_nat (length (ProcessorBlocks d))
       = Z.min (Tools_GetNumberOfProcessors m) MAX_PROCESSORS
    /\ forall (i : nat) block,
         ProcessorBlocks d !! i = Some block ->
         block = ManyDomainExample_block ctx i
                   (platform_id_by_strategy (Eax (Tools_ReadCpuid m 0 0))
                      (affinity_after m (S i))).
Proof.
  intros Hwf Hidx Hshifts Hnames Hprocs.
  destruct (CreateDomainMaskMatrix_run ctx Hwf ltac:(lia) Hshifts)
    as (M & Hrun & HM & Hdiag & Hrows & _).
  unfold MAXIMUM_DOMAINS in Hidx.
  set (p := Z.to_nat (PackageDomainIndex ctx)).
  assert (Hp : PackageDomainIndex ctx = Z.of_nat p) by lia.
  set (ctx' := set_DomainRelativeMasks ctx M).
  assert (Hwf' : ctx_wf ctx').
  { destruct Hwf as (H1 & H2 & _). exact (conj H1 (conj H2 HM)). }
  assert (Hshifts' : forall i : nat, (i <= p)%nat ->
            0 <= previous_shift ctx (Z.of_nat i) < 32).
  { intros i Hi. apply Hshifts. lia. }
  assert (Hnames' : forall (i : nat) Domain, (i < p)%nat ->
            ShiftValueDomain ctx' !! i = Some Domain ->
            Tools_IsDomainKnownEnumeration Domain = true).
  { intros i d Hi Hd. apply (Hnames i d); [lia|exact Hd]. }
  destruct (GatherPlatformApicIds_run m (replicate (Z.to_nat MAX_PROCESSORS) 0)
              MAX_PROCESSORS Hprocs)
    as (a & Hgather & Hlen & Hids & _).
  { rewrite length_replicate. unfold MAX_PROCESSORS. lia. }
  rewrite length_replicate in Hlen.
  assert (EN : gathered_count m MAX_PROCESSORS
               = Z.min (Tools_GetNumberOfProcessors m) MAX_PROCESSORS)
    by (unfold gathered_count; lia).
  rewrite EN in *.
  set (N := Z.min (Tools_GetNumberOfProcessors m) MAX_PROCESSORS) in *.
  assert (HN : 0 <= N <= 1024) by (unfold N, MAX_PROCESSORS; lia).
  exists M, (affinity_after m (Z.to_nat N)),
    (mkManyDomainDisplay
       (mask_lines ctx (fun i => range_mask (previous_shift ctx (Z.of_nat i)) 32) p)
       (range_mask (previous_shift ctx (PackageDomainIndex ctx)) 32)
       (relative_lines ctx
          (fun i j => range_mask (previous_shift ctx (Z.of_nat i))
                        (previous_shift ctx (Z.of_nat j))) p)
       (imap (ManyDomainExample_block ctx) (take (Z.to_nat N) a))).
  fold ctx'. split; [exact Hrun|]. split; [|split; [reflexivity|split; [reflexivity|split;
    [reflexivity|split]]]].
  - unfold Display_ManyDomainExample.
    rewrite (ManyDomainExample_mask_loop ctx' p Hwf' Hp ltac:(lia) Hnames'
               (fun i => range_mask (previous_shift ctx (Z.of_nat i)) 32)).
    2:{ intros i Hi. cbn [ctx' DomainRelativeMasks set_DomainRelativeMasks].
        rewrite Hdiag by lia. apply global_mask_range. apply Hshifts'. exact Hi. }
    cbn [bind]. rewrite load2_spec by (try exact HM; lia). cbn [bind].
    rewrite (ManyDomainExample_relative_run ctx' p Hwf' Hp ltac:(lia) Hnames'
               (fun mask _ => Done mask)
               (fun i j => range_mask (previous_shift ctx (Z.of_nat i))
                             (previous_shift ctx (Z.of_nat j)))).
    2:{ intros i j Hij Hj. cbn [ctx' DomainRelativeMasks set_DomainRelativeMasks].
        rewrite Hrows by lia.
        rewrite relative_mask_range by (apply Hshifts'; lia). reflexivity. }
    cbn [bind]. rewrite Hgather. cbn [bind].
    replace N with (Z.of_nat (Z.to_nat N)) at 1 by lia.
    rewrite (ManyDomainExample_processor_loop ctx' p a (Z.to_nat N) Hwf' Hp
               ltac:(lia) Hshifts' Hnames').
    + cbn [bind]. cbn [ctx' DomainRelativeMasks set_DomainRelativeMasks].
      rewrite Hdiag by lia. rewrite global_mask_range by (apply Hshifts'; lia).
      rewrite Hp. reflexivity.
    + cbn [ctx' DomainRelativeMasks set_DomainRelativeMasks]. apply Hdiag. lia.
    + intros i j Hij Hj. cbn [ctx' DomainRelativeMasks set_DomainRelativeMasks].
      apply Hrows; lia.
    + rewrite Hlen. unfold MAX_PROCESSORS. lia.
    + lia.
  - cbn [ProcessorBlocks]. rewrite length_imap, length_take, Hlen.
    unfold MAX_PROCESSORS. lia.
  - intros i block Hblock. cbn [ProcessorBlocks] in Hblock.
    rewrite list_lookup_imap in Hblock.
    destruct (take (Z.to_nat N) a !! i) as [A|] eqn:HA; [|discriminate].
    simpl in Hblock. injection Hblock as <-.
    assert (Hi : (i < Z.to_nat N)%nat).
    { apply lookup_lt_Some in HA. rewrite length_take in HA. lia. }
    rewrite lookup_take_lt in HA by exact Hi.
    rewrite Hids in HA by lia. injection HA as <-. reflexivity.
Qed.

(** On a layout that fits its arrays, with at least one level, shifts
    below 32 and known domain types, the matrix builder followed by the
    many-domain display completes.  It prints for every level of non-zero
    shift the mask of the bits from the shift of the level below up to bit
    31, for the package the mask from the last shift up, for every pair of
    levels [i < j] (and the package as the last [j]) the mask of the bits
    between the shift below [i] and the shift below [j]; and for every
    processor gathered a block with its APIC ID, the bits from the last
    shift upward as package ID, and for every pair the bits of the APIC ID
    under the mask of the pair, moved down to bit 0. *)
Theorem Display_ManyDomainExample_identifiers (m : MACHINE) (Leaf : Z)
    (ctx : APICID_BIT_LAYOUT_CTX) :
  ctx_wf ctx ->
  1 <= PackageDomainIndex ctx < MAXIMUM_DOMAINS ->
  (forall i, 0 <= i <= PackageDomainIndex ctx -> 0 <= previous_shift ctx i < 32) ->
  (forall (i : nat) Domain, Z.of_nat i < PackageDomainIndex ctx ->
     ShiftValueDomain ctx !! i = Some Domain ->
     Tools_IsDomainKnownEnumeration Domain = true) ->
  0 <= Tools_GetNumberOfProcessors m ->
  exists ctx' m' d,
    ParseCpu_Internal_CreateDomainMaskMatrix ctx = Done ctx'
    /\ Display_ManyDomainExample m Leaf ctx' = Done (m', d)
    /\ MaskLines d
       = mask_lines ctx (fun i => range_mask (previous_shift ctx (Z.of_nat i)) 32)
           (Z.to_nat (PackageDomainIndex ctx))
    /\ PackageMaskLine d = range_mask (previous_shift ctx (PackageDomainIndex ctx)) 32
    /\ RelativeMaskLines d
       = relative_lines ctx
           (fun i j => range_mask (previous_shift ctx (Z.of_nat i))
                         (previous_shift ctx (Z.of_nat j)))
           (Z.to_nat (PackageDomainIndex ctx))
    /\ Z.of_nat (length (ProcessorBlocks d))
       = Z.min (Tools_GetNumberOfProcessors m) MAX_PROCESSORS
    /\ forall (i : nat) block,
         ProcessorBlocks d !! i = Some block ->
         block = ManyDomainExample_block ctx i
                   (platform_id_by_strategy (Eax (Tools_ReadCpuid m 0 0))
                      (affinity_after m (S i))).
Proof.
  intros Hwf Hidx Hshifts Hnames Hprocs.
  destruct (Display_ManyDomainExample_run m Leaf ctx Hwf Hidx Hshifts Hnames Hprocs)
    as (M & m' & d & H).
  exists (set_DomainRelativeMasks ctx M), m', d. exact H.
Qed.

Lemma trace_layout_known (i : nat) (Domain : Z) :
  Z.of_nat i < PackageDomainIndex trace_layout ->
  ShiftValueDomain trace_layout !! i = Some Domain ->
  Tools_IsDomainKnownEnumeration Domain = true.
Proof.
  change (PackageDomainIndex trace_layout) with 2. intros Hi.
  destruct i as [|[|i]]; [| |lia]; intros [= <-]; reflexivity.
Qed.

Lemma Display_ManyDomainExample_identifiers_witness :
  exists ctx' m' d,
    ParseCpu_Internal_CreateDomainMaskMatrix trace_layout = Done ctx'
    /\ Display_ManyDomainExample trace_machine 0x1F ctx' = Done (m', d)
    /\ MaskLines d
       = mask_lines trace_layout
           (fun i => range_mask (previous_shift trace_layout (Z.of_nat i)) 32)
           (Z.to_nat (PackageDomainIndex trace_layout))
    /\ PackageMaskLine d
       = range_mask (previous_shift trace_layout (PackageDomainIndex trace_layout)) 32
    /\ RelativeMaskLines d
       = relative_lines trace_layout
           (fun i j => range_mask (previous_shift trace_layout (Z.of_nat i))
                         (previous_shift trace_layout (Z.of_nat j)))
           (Z.to_nat (PackageDomainIndex trace_layout))
    /\ Z.of_nat (length (ProcessorBlocks d))
       = Z.min (Tools_GetNumberOfProcessors trace_machine) MAX_PROCESSORS
    /\ forall (i : nat) block,
         ProcessorBlocks d !! i = Some block ->
         block = ManyDomainExample_block trace_layout i
                   (platform_id_by_strategy (Eax (Tools_ReadCpuid trace_machine 0 0))
                      (affinity_after trace_machine (S i))).
Proof.
  apply (Display_ManyDomainExample_identifiers trace_machine 0x1F trace_layout).
  - exact trace_layout_wf.
  - vm_compute. split; (discriminate || reflexivity).
  - exact trace_layout_shifts.
  - exact trace_layout_known.
  - vm_compute. discriminate.
Defined.

(** ** The many-domain example from the enumeration to the display *)

Lemma while_body_Undefined {S : Type} (cond : S -> bool) (body : S -> result S)
    (fuel : nat) (s : S) :
  cond s = true -> body s = Undefined ->
  while (Datatypes.S fuel) cond body s = Undefined.
Proof. intros Hc Hb. simpl. rewrite Hc, Hb. reflexivity. Qed.

(** When the enumeration of the leaf ends at subleaf [n >= 1], starts with
    a LogicalProcessor subleaf and its levels fit the layout, the
    many-domain example runs from the enumeration to the end of the
    display without leaving an array, and the display shows for every
    processor gathered the fields of its APIC ID between the shifts of
    the levels collected. *)
Theorem ParseCpu_CpuidManyDomainExample_displayed (m : MACHINE) (Leaf : Z)
    (n fuel : nat) :
  (1 <= n)%nat -> Z.of_nat n < 2 ^ 32 ->
  terminated_at m Leaf n = true ->
  starts_with_LogicalProcessor (enumerated m Leaf n) = true ->
  Z.of_nat (length (collapse_unknown (enumerated m Leaf n))) < MAXIMUM_DOMAINS ->
  (n <= fuel)%nat ->
  0 <= Tools_GetNumberOfProcessors m ->
  exists ctx m' d,
    ParseCpu_CpuidManyDomainExample fuel m Leaf = Done ctx
    /\ Display_ManyDomainExample m Leaf ctx = Done (m', d)
    /\ ctx_levels ctx = collapse_unknown (enumerated m Leaf n)
    /\ Z.of_nat (length (ProcessorBlocks d))
       = Z.min (Tools_GetNumberOfProcessors m) MAX_PROCESSORS
    /\ forall (i : nat) block,
         ProcessorBlocks d !! i = Some block ->
         block = ManyDomainExample_block ctx i
                   (platform_id_by_strategy (Eax (Tools_ReadCpuid m 0 0))
                      (affinity_after m (S i))).
Proof.
  intros Hn1 Hn Hterm Hfirst Hfit Hfuel Hprocs. unfold MAXIMUM_DOMAINS in Hfit.
  destruct (ManyDomain_levels_run m Leaf n Hn Hterm Hfirst ltac:(lia) fuel Hfuel)
    as (ctx & Hrun & Hrel).
  pose proof (levels_rel_ctx_levels ctx _ Hrel) as Hlevels.
  pose proof (collapse_nonempty m Leaf n n Hfirst Hn1 ltac:(lia)) as Hne.
  pose proof (collapse_unknown_levels (enumerated m Leaf n)) as Hok.
  destruct Hrel as (Hwf & Hpdi & Hlook).
  set (L := collapse_unknown (enumerated m Leaf n)) in *.
  destruct (Display_ManyDomainExample_run m Leaf ctx) as (M & m' & d & H).
  - exact Hwf.
  - unfold MAXIMUM_DOMAINS. lia.
  - intros i Hi. unfold previous_shift.
    destruct (Z.eqb_spec i 0) as [->|Hi0]; [lia|].
    destruct (lookup_lt_is_Some_2 L (Z.to_nat (i - 1))) as [[kind shift] Hl]; [lia|].
    destruct (Hlook _ _ _ Hl) as [_ Hs].
    unfold read_array. rewrite Hs.
    apply (Forall_lookup_1 _ _ _ _ Hok) in Hl. apply Hl.
  - intros i Domain Hi Hd.
    destruct (lookup_lt_is_Some_2 L i) as [[kind shift] Hl]; [lia|].
    destruct (Hlook _ _ _ Hl) as [Hk _].
    rewrite Hk in Hd. injection Hd as <-.
    apply (Forall_lookup_1 _ _ _ _ Hok) in Hl. apply Hl.
  - exact Hprocs.
  - destruct H as (Hmatrix & Hdisplay & _ & _ & _ & Hlen & Hblocks).
    exists (set_DomainRelativeMasks ctx M), m', d.
    split. { unfold ParseCpu_CpuidManyDomainExample. rewrite Hrun. exact Hmatrix. }
    split; [exact Hdisplay|].
    split; [exact Hlevels|]. split; [exact Hlen|exact Hblocks].
Qed.

Lemma ParseCpu_CpuidManyDomainExample_displayed_witness :
  exists ctx m' d,
    ParseCpu_CpuidManyDomainExample 3 trace_machine 0x1F = Done ctx
    /\ Display_ManyDomainExample trace_machine 0x1F ctx = Done (m', d)
    /\ ctx_levels ctx = collapse_unknown (enumerated trace_machine 0x1F 3)
    /\ Z.of_nat (length (ProcessorBlocks d))
       = Z.min (Tools_GetNumberOfProcessors trace_machine) MAX_PROCESSORS
    /\ forall (i : nat) block,
         ProcessorBlocks d !! i = Some block ->
         block = ManyDomainExample_block ctx i
                   (platform_id_by_strategy (Eax (Tools_ReadCpuid trace_machine 0 0))
                      (affinity_after trace_machine (S i))).
Proof.
  apply (ParseCpu_CpuidManyDomainExample_displayed trace_machine 0x1F 3 3).
  - lia.
  - reflexivity.
  - vm_compute. reflexivity.
  - vm_compute. reflexivity.
  - vm_compute. reflexivity.
  - lia.
  - vm_compute. discriminate.
Defined.

(** What the display prints for the trace: processor 1 with APIC ID 1 is
    logical processor 1 of core 0 of package 0. *)
Example trace_ManyDomainExample_blocks :
  match ParseCpu_CpuidManyDomainExample 3 trace_machine 0x1F with
  | Done ctx =>
      match Display_ManyDomainExample trace_machine 0x1F ctx with
      | Done (_, d) => Some (MaskLines d, PackageMaskLine d, ProcessorBlocks d)
      | _ => None
      end
  | _ => None
  end
  = Some
      ([("Logical Processor", 0xFFFFFFFF); ("Core", 0xFFFFFFFC)], 0xFFFFFFF8,
       [(0, 0, 0, [("Logical Processor", "Core", 0); ("Logical Processor", "Package", 0);
                   ("Core", "Package", 0)]);
        (1, 1, 0, [("Logical Processor", "Core", 1); ("Logical Processor", "Package", 1);
                   ("Core", "Package", 0)])])%string.
Proof. vm_compute. reflexivity. Qed.

Lemma while_cond_false {S : Type} (cond : S -> bool) (body : S -> result S)
    (fuel : nat) (s : S) :
  cond s = false -> while fuel cond body s = Done s.
Proof. intros Hc. destruct fuel; simpl; rewrite Hc; reflexivity. Qed.

Lemma Display_ManyDomainExample_no_level (m : MACHINE) (Leaf : Z)
    (ctx : APICID_BIT_LAYOUT_CTX) :
  ctx_wf ctx -> PackageDomainIndex ctx = 0 ->
  1 <= Tools_GetNumberOfProcessors m ->
  Display_ManyDomainExample m Leaf ctx = Undefined.
Proof.
  intros Hwf Hp Hprocs.
  assert (Hnames : forall (i : nat) Domain, (i < 0)%nat ->
            ShiftValueDomain ctx !! i = Some Domain ->
            Tools_IsDomainKnownEnumeration Domain = true) by (intros; lia).
  destruct (GatherPlatformApicIds_run m (replicate (Z.to_nat MAX_PROCESSORS) 0)
              MAX_PROCESSORS ltac:(lia))
    as (a & Hgather & Hlen & _).
  { rewrite length_replicate. unfold MAX_PROCESSORS. lia. }
  rewrite length_replicate in Hlen.
  assert (HN : 1 <= gathered_count m MAX_PROCESSORS).
  { unfold gathered_count, MAX_PROCESSORS. lia. }
  unfold Display_ManyDomainExample.
  rewrite (ManyDomainExample_mask_loop ctx 0 Hwf Hp ltac:(lia) Hnames
             (fun i => entry (DomainRelativeMasks ctx) i i)) by reflexivity.
  cbn [bind]. rewrite (load2_spec _ 0 0) by (try apply Hwf; lia). cbn [bind].
  rewrite (ManyDomainExample_relative_run ctx 0 Hwf Hp ltac:(lia) Hnames
             (fun mask _ => Done mask) (fun i j => entry (DomainRelativeMasks ctx) i j))
    by reflexivity.
  cbn [bind]. rewrite Hgather. cbn [bind].
  change (Z.to_nat MAX_PROCESSORS) with (S 1023).
  rewrite while_body_Undefined; [reflexivity| |].
  - simpl. apply Z.ltb_lt. lia.
  - unfold ManyDomainExample_processor_body.
    destruct (load_in_range a 0) as (A & -> & _).
    { rewrite Hlen. unfold MAX_PROCESSORS. lia. }
    cbn [bind]. rewrite Hp.
    rewrite (load2_spec _ 0 0) by (try apply Hwf; lia). cbn [bind].
    rewrite load_out_of_range; [reflexivity|].
    destruct Hwf as (HS & _). rewrite HS. vm_compute. discriminate.
Qed.

(** When subleaf 0 of the leaf has [EBX = 0] the many-domain example
    collects no level, and on a platform of at least one processor its
    display then reads [ShiftValues[PackageDomainIndex - 1]] at index
    [0 - 1], outside the array. *)
Theorem ParseCpu_CpuidManyDomainExample_no_level_out_of_bounds (m : MACHINE)
    (Leaf : Z) (fuel : nat) :
  Ebx (Tools_ReadCpuid m Leaf 0) = 0 ->
  1 <= Tools_GetNumberOfProcessors m ->
  exists ctx,
    ParseCpu_CpuidManyDomainExample fuel m Leaf = Done ctx
    /\ PackageDomainIndex ctx = 0
    /\ load (ShiftValues ctx) (u32 (PackageDomainIndex ctx - 1)) = Undefined
    /\ Display_ManyDomainExample m Leaf ctx = Undefined.
Proof.
  intros Hebx Hprocs.
  assert (Hlevels : ManyDomain_levels fuel m Leaf
                    = Done (set_NumberOfApicIdBits zero_ctx 32)).
  { unfold ManyDomain_levels.
    assert (Hc : ManyDomain_cond (0, Tools_ReadCpuid m Leaf 0,
                                  set_NumberOfApicIdBits zero_ctx 32) = false).
    { unfold ManyDomain_cond. rewrite Hebx. reflexivity. }
    rewrite (while_cond_false _ _ fuel _ Hc). reflexivity. }
  destruct zero_ctx_levels as (Hwf & _).
  destruct (CreateDomainMaskMatrix_run _ Hwf) as (M & Hrun & HM & _).
  { vm_compute. split; (discriminate || reflexivity). }
  { intros i Hi. assert (i = 0) as -> by (cbn in Hi; lia).
    vm_compute. split; (discriminate || reflexivity). }
  exists (set_DomainRelativeMasks (set_NumberOfApicIdBits zero_ctx 32) M).
  split. { unfold ParseCpu_CpuidManyDomainExample. rewrite Hlevels. exact Hrun. }
  split; [reflexivity|]. split; [reflexivity|].
  apply Display_ManyDomainExample_no_level.
  - destruct Hwf as (H1 & H2 & _). exact (conj H1 (conj H2 HM)).
  - reflexivity.
  - exact Hprocs.
Qed.

Lemma ParseCpu_CpuidManyDomainExample_no_level_out_of_bounds_witness :
  exists ctx,
    ParseCpu_CpuidManyDomainExample 0 trace_machine 0xB = Done ctx
    /\ PackageDomainIndex ctx = 0
    /\ load (ShiftValues ctx) (u32 (PackageDomainIndex ctx - 1)) = Undefined
    /\ Display_ManyDomainExample trace_machine 0xB ctx = Undefined.
Proof.
  apply (ParseCpu_CpuidManyDomainExample_no_level_out_of_bounds trace_machine 0xB 0).
  - reflexivity.
  - vm_compute. discriminate.
Defined.

(** ** [Display_Internal_DisplaySubLeafs] *)

Lemma displayed_lines_snoc (Leaf : Z) (lines : list FILE_LINE) (Subleaf : Z)
    (r : CPUID_REGISTERS) :
  displayed_lines Leaf (lines ++ [mkLine "S" Subleaf (Some r)])
  = displayed_lines Leaf lines ++ [(Leaf, Subleaf, r)].
Proof. unfold displayed_lines. rewrite flat_map_app. reflexivity. Qed.

(** The raw display of a leaf shows what the file writer saves for it: when
    leaf 0 reports the leaf, the subleaves printed are those of the lines
    [File_Internal_WriteLeafToFile] writes, with the same numbers and
    registers, and the two loops end or fail alike; when leaf 0 reports a
    highest leaf below it, nothing is printed. *)
Theorem Display_Internal_DisplaySubLeafs_as_written (fuel : nat) (m : MACHINE)
    (Leaf : Z) :
  Display_Internal_DisplaySubLeafs fuel m Leaf
  = if Leaf <=? Eax (Tools_ReadCpuid m 0 0)
    then result_map (displayed_lines Leaf) (File_Internal_WriteLeafToFile fuel m Leaf)
    else Done [].
Proof.
  unfold Display_Internal_DisplaySubLeafs.
  destruct (Leaf <=? Eax (Tools_ReadCpuid m 0 0)); [|reflexivity].
  unfold File_Internal_WriteLeafToFile, result_map.
  pose proof (while_related (DisplaySubLeafs_rel Leaf) DisplaySubLeafs_cond WriteLeaf_cond
                (DisplaySubLeafs_body m Leaf) (WriteLeaf_body m Leaf)) as Hrel.
  specialize (Hrel
    ltac:(intros [[[[c o] f] n] l] [[[[c' o'] f'] n'] l'] (_ & _ & Hn & _); exact Hn)).
  assert (Hbody : forall s t, DisplaySubLeafs_rel Leaf s t ->
            DisplaySubLeafs_cond s = true ->
            result_rel (DisplaySubLeafs_rel Leaf)
              (DisplaySubLeafs_body m Leaf s) (WriteLeaf_body m Leaf t)).
  { intros [[[[c o] f] n] l] [[[[c' o'] f'] n'] l'] (Hc & Hf & Hn & Ho & Hl) _.
    subst c' f' n'. unfold DisplaySubLeafs_body, WriteLeaf_body, result_rel,
      DisplaySubLeafs_rel.
    split; [reflexivity|]. split; [reflexivity|].
    assert (Eo : (if f then Tools_ReadCpuid m Leaf c else o)
                 = (if f then Tools_ReadCpuid m Leaf c else o')).
    { destruct f; [reflexivity|]. apply Ho. reflexivity. }
    split; [rewrite Eo; reflexivity|]. split; [intros _; exact Eo|].
    rewrite displayed_lines_snoc, Hl. reflexivity. }
  specialize (Hrel Hbody fuel
    (0, Tools_ReadCpuid m 0 0, true, true, [])
    (0, zero_registers, true, true, [mkLine "L" Leaf None])).
  unfold result_rel in Hrel.
  destruct (while fuel DisplaySubLeafs_cond (DisplaySubLeafs_body m Leaf) _)
    as [[[[[c o] f] n] l]| |],
    (while fuel WriteLeaf_cond (WriteLeaf_body m Leaf) _)
    as [[[[[c' o'] f'] n'] l']| |]; simpl.
  - destruct Hrel as (_ & _ & _ & _ & Hl).
    + repeat split; try reflexivity. intros H. discriminate.
    + rewrite Hl. reflexivity.
  - exfalso. apply Hrel. repeat split; try reflexivity. intros H. discriminate.
  - exfalso. apply Hrel. repeat split; try reflexivity. intros H. discriminate.
  - exfalso. apply Hrel. repeat split; try reflexivity. intros H. discriminate.
  - reflexivity.
  - exfalso. apply Hrel. repeat split; try reflexivity. intros H. discriminate.
  - exfalso. apply Hrel. repeat split; try reflexivity. intros H. discriminate.
  - exfalso. apply Hrel. repeat split; try reflexivity. intros H. discriminate.
  - reflexivity.
Qed.

(** ** The status of the file reader *)

Lemma File_Internal_DispatchReadSubleaf_status (g g' : GLOBAL_DATA)
    (ctx : FILE_READ_CONTEXT) (SubleafNumber : Z) (scanned : option CPUID_REGISTERS)
    (status : bool) :
  File_Internal_DispatchReadSubleaf g ctx SubleafNumber scanned = Done (g', status) ->
  status = match scanned with Some _ => true | None => false end.
Proof.
  unfold File_Internal_DispatchReadSubleaf. destruct scanned as [registers|].
  - destruct (CurrentLeaf ctx =? 4).
    { destruct (store_table _ _ _ _); simpl; intros [= _ <-] || discriminate. auto. }
    destruct (CurrentLeaf ctx =? 0x18).
    { destruct (store_table _ _ _ _); simpl; intros [= _ <-] || discriminate. auto. }
    destruct ((CurrentLeaf ctx <? MAX_SIMULATED_LEAFS)
              && (SubleafNumber <? MAX_SIMULATED_SUBLEAFS)).
    { destruct (store_table _ _ _ _); simpl; intros [= _ <-] || discriminate. auto. }
    intros [= _ <-]. reflexivity.
  - intros [= _ <-]. reflexivity.
Qed.

Lemma ReadCpuidFromFile_line_status (s s' : GLOBAL_DATA * FILE_READ_CONTEXT * bool)
    (line : FILE_LINE) :
  ReadCpuidFromFile_line s line = Done s' -> snd s' = line_status line.
Proof.
  destruct s as [[g ctx] st]. unfold ReadCpuidFromFile_line, line_status.
  destruct (Ascii.eqb (Character line) "L").
  { unfold File_Internal_DispatchReadLeaf. intros [= <-]. reflexivity. }
  destruct (Ascii.eqb (Character line) "S").
  { intros H. apply bind_Done in H as ([g1 st1] & Hsub & [= <-]).
    apply File_Internal_DispatchReadSubleaf_status in Hsub. exact Hsub. }
  destruct (Ascii.eqb (Character line) "A").
  { intros H. apply bind_Done in H as ([g1 st1] & Hid & [= <-]).
    unfold File_Internal_DispatchReadApicId in Hid.
    destruct (NumberOfSimulatedProcessors g <? MAX_PROCESSORS).
    - apply bind_Done in Hid as (a & _ & [= _ <-]). reflexivity.
    - injection Hid as _ <-. reflexivity. }
  intros [= <-]. reflexivity.
Qed.

Lemma ReadCpuidFromFile_loop_status (lines : list FILE_LINE) :
  forall (s s' : GLOBAL_DATA * FILE_READ_CONTEXT * bool),
    ReadCpuidFromFile_loop lines s = Done s' ->
    snd s' = match last lines with Some line => line_status line | None => snd s end.
Proof.
  induction lines as [|line lines IH]; intros s s' Hrun.
  - injection Hrun as <-. reflexivity.
  - cbn [ReadCpuidFromFile_loop] in Hrun.
    apply bind_Done in Hrun as (s1 & Hline & Hrest).
    rewrite (IH _ _ Hrest). apply ReadCpuidFromFile_line_status in Hline.
    destruct lines as [|line' lines']; [exact Hline|].
    rewrite last_cons_cons.
    destruct (last (line' :: lines')) eqn:E; [reflexivity|].
    apply last_None in E. discriminate.
Qed.

Lemma text_turns_nonempty (text : list FILE_LINE) : text <> [] -> text_turns text <> [].
Proof.
  destruct text as [|line text]; [contradiction|]. intros _. simpl.
  destruct (Registers line); discriminate.
Qed.

Lemma newline_turn_status (n : Z) : line_status (newline_turn n) = false.
Proof. reflexivity. Qed.

(** The last turn of a written file decides as its last line does. *)
Lemma last_text_turns (text : list FILE_LINE) :
  text <> [] -> forallb written_line text = true ->
  exists turn, last (text_turns text) = Some turn /\ line_status turn = text_status text.
Proof.
  induction text as [|line text IH]; [contradiction|]. intros _ Hwritten.
  cbn [forallb] in Hwritten. apply andb_prop in Hwritten as [Hline Hwritten].
  destruct text as [|line' text'].
  - unfold text_status. cbn [last text_turns]. unfold written_line in Hline.
    destruct (Registers line) as [r|] eqn:Hr.
    + exists (newline_turn (FirstData line)). split; [reflexivity|reflexivity].
    + exists line. split; [reflexivity|]. unfold line_status. rewrite Hr.
      destruct (Ascii.eqb (Character line) "L"); [reflexivity|].
      cbn [orb] in Hline. apply Ascii.eqb_eq in Hline. rewrite Hline. reflexivity.
  - destruct (IH ltac:(discriminate) Hwritten) as (turn & Hlast & Hst).
    exists turn. split.
    + pose proof (text_turns_nonempty (line' :: text') ltac:(discriminate)) as Hne.
      remember (line' :: text') as rest eqn:Erest.
      cbn [text_turns]. destruct (text_turns rest) as [|t ts]; [contradiction|].
      destruct (Registers line); rewrite ?last_cons_cons; exact Hlast.
    + rewrite Hst. unfold text_status. rewrite last_cons_cons. reflexivity.
Qed.

(** Reading a file in the format of the writer whose turns fit the tables
    completes in simulation mode, and the status returned tells only
    whether the last line is a leaf line or an APIC ID line: after every
    subleaf line the loop takes one more turn on the unread end of the
    line, which clears the status, so a file that ends with a subleaf line
    is reported as not read although its registers are in the tables.  On
    a file of no byte the reader tests [Character] before anything was
    stored in it.  When the file cannot be opened the status is a failure
    and the program is left in simulation mode all the same. *)
Theorem File_ReadCpuidFromFile_status (g : GLOBAL_DATA) (text : list FILE_LINE) :
  GlobalData_wf g ->
  text <> [] ->
  forallb written_line text = true ->
  lines_fit_tables (text_turns text) (mkReadContext 0 0 0) = true ->
  (exists g',
     File_ReadCpuidFromFile_on_text g (Some text) = Done (g', text_status text)
     /\ UseNativeCpuid g' = false)
  /\ File_ReadCpuidFromFile_on_text g (Some []) = Undefined
  /\ File_ReadCpuidFromFile_on_text g None = Done (set_UseNativeCpuid g false, false).
Proof.
  intros Hwf Hne Hwritten Hfit. split; [|split; reflexivity].
  assert (Hwf0 : GlobalData_wf (set_UseNativeCpuid g false)) by exact Hwf.
  destruct (ReadCpuidFromFile_loop_total (text_turns text) (set_UseNativeCpuid g false)
              (mkReadContext 0 0 0) false Hwf0 ltac:(simpl; lia) Hfit)
    as (g' & ctx' & st' & Hrun & _).
  pose proof (ReadCpuidFromFile_loop_status _ _ _ Hrun) as Hst. cbn [snd] in Hst.
  destruct (last_text_turns text Hne Hwritten) as (turn & Hlast & Hturn).
  rewrite Hlast, Hturn in Hst. subst st'.
  destruct Hwf as (_ & _ & _ & Hids & HN).
  destruct (ReadCpuidFromFile_loop_apic_ids (text_turns text) (set_UseNativeCpuid g false)
              _ _ _ _ _ Hids HN Hrun) as (_ & _ & _ & Hnative).
  exists g'. split; [|exact Hnative].
  unfold File_ReadCpuidFromFile_on_text, fscanf_turns.
  destruct text as [|line text]; [contradiction|]. cbn [bind].
  unfold File_ReadCpuidFromFile. rewrite Hrun. reflexivity.
Qed.

Lemma File_ReadCpuidFromFile_status_witness :
  (exists g',
     File_ReadCpuidFromFile_on_text initial_GlobalData (Some two_processor_file)
     = Done (g', text_status two_processor_file)
     /\ UseNativeCpuid g' = false)
  /\ File_ReadCpuidFromFile_on_text initial_GlobalData (Some []) = Undefined
  /\ File_ReadCpuidFromFile_on_text initial_GlobalData None
     = Done (set_UseNativeCpuid initial_GlobalData false, false).
Proof.
  apply (File_ReadCpuidFromFile_status initial_GlobalData two_processor_file).
  - exact initial_GlobalData_wf.
  - discriminate.
  - vm_compute. reflexivity.
  - vm_compute. reflexivity.
Defined.

(** The file of two processors ends with an APIC ID line and is reported as
    read; the file of the legend cut after its subleaf line is not. *)
Example written_file_status :
  text_status two_processor_file = true
  /\ match File_ReadCpuidFromFile_on_text initial_GlobalData (Some cut_legend_file) with
     | Done (g', status) =>
         Some (status, read_table (SimulatedCpuid g') 1 0)
     | _ => None
     end = Some (false, mkRegs 1 2 3 4).
Proof. split; vm_compute; reflexivity. Qed.
